(** * Statistics aggregation engine of github-stats

    A shallow embedding of [calculateTimeMetrics] and [calculateStats]
    (the stats module) together with [isBot] (the utils module), and the
    properties of the per-person statistics they compute.  After them
    come the comments client (comments-client), [fetchPullRequests]
    (github-client) and the part of [main] (index) that feeds
    [calculateStats], with their properties.

    Modelling conventions.
    - A JavaScript [number] that holds a count, a pull-request number or a
      millisecond time stamp is a [Z]; a [Date] is the [Z] that [getTime()]
      returns (invalid dates are not modelled).  Quotients ([average],
      [median], [reviewParticipationRate]) are exact rationals [Q]; the
      rounding of IEEE doubles is not modelled.
    - [T | null] is [option T].
    - A JavaScript [Map] is an association list in insertion order with
      pairwise distinct keys, a [Set] is a duplicate-free list in insertion
      order.
    - [Array.prototype.sort] is a stable sort driven by the comparator.
    - [Date.now()] is read from a clock: [Date_now n] is the value returned
      by the [n]-th call made during one run.
    - An endpoint of the GitHub API is an oracle: a function of the page,
      or of the number of the call, that gives the answer; a loop that the
      source ends on an answer of the API runs on fuel. *)

From Stdlib Require Import ZArith List String Ascii Bool Lia QArith.
From Stdlib Require Import Permutation Sorted DecimalString DecimalZ.
Import ListNotations.

Local Open Scope string_scope.
Local Open Scope list_scope.
Local Open Scope Z_scope.

Set Implicit Arguments.

(** ** Arrays *)

Module JsArray.
Section Sort.
Context {A : Type}.
Variable cmp : A -> A -> Z.

(** [insertBy x l] puts [x], which precedes every element of [l] in the
    original array, in front of the first element it does not have to
    follow. *)
Fixpoint insertBy (x : A) (l : list A) : list A :=
  match l with
  | [] => [x]
  | y :: l' => if cmp x y <=? 0 then x :: l else y :: insertBy x l'
  end.

(** [arr.sort(cmp)]: stable, ascending for [cmp]. *)
Fixpoint sort (l : list A) : list A :=
  match l with
  | [] => []
  | x :: l' => insertBy x (sort l')
  end.
End Sort.

(** [arr[arr.length - 1]] *)
Fixpoint lastOpt {A : Type} (l : list A) : option A :=
  match l with
  | [] => None
  | [x] => Some x
  | _ :: l' => lastOpt l'
  end.

(** [arr[0]] *)
Definition headOpt {A : Type} (l : list A) : option A :=
  match l with
  | [] => None
  | x :: _ => Some x
  end.
End JsArray.

(** ** Maps and sets in insertion order *)

Module JsMap.
Section WithKey.
Context {K V : Type}.
Variable eqb : K -> K -> bool.

Fixpoint get (k : K) (m : list (K * V)) : option V :=
  match m with
  | [] => None
  | (k', v) :: m' => if eqb k' k then Some v else get k m'
  end.

Definition has (k : K) (m : list (K * V)) : bool :=
  match get k m with Some _ => true | None => false end.

(** [m.set(k, v)]: an existing key keeps its position. *)
Fixpoint set (k : K) (v : V) (m : list (K * V)) : list (K * V) :=
  match m with
  | [] => [(k, v)]
  | (k', v') :: m' =>
      if eqb k' k then (k', v) :: m' else (k', v') :: set k v m'
  end.

Definition keys (m : list (K * V)) : list K := map fst m.
End WithKey.
End JsMap.

Module JsSet.
Section WithElt.
Context {K : Type}.
Variable eqb : K -> K -> bool.

Definition has (k : K) (s : list K) : bool := existsb (fun k' => eqb k' k) s.

Definition add (k : K) (s : list K) : list K :=
  if has k s then s else s ++ [k].

Definition size (s : list K) : Z := Z.of_nat (List.length s).

(** [new Set(arr)] *)
Definition ofArray (l : list K) : list K :=
  fold_left (fun s k => add k s) l [].
End WithElt.
End JsSet.

(** ** utils: the bot filter *)

Definition toLowerCaseAscii (c : ascii) : ascii :=
  let n := nat_of_ascii c in
  if ((65 <=? n)%nat && (n <=? 90)%nat)%bool then ascii_of_nat (n + 32) else c.

(** [s.toLowerCase()], on the ASCII letters. *)
Fixpoint toLowerCase (s : string) : string :=
  match s with
  | EmptyString => EmptyString
  | String c s' => String (toLowerCaseAscii c) (toLowerCase s')
  end.

(** [s.includes(pattern)] *)
Fixpoint includes (pattern s : string) : bool :=
  if String.prefix pattern s then true
  else match s with
       | EmptyString => false
       | String _ s' => includes pattern s'
       end.

Definition botPatterns : list string := ["renovate"; "copilot"; "dependabot"].

Definition isBot (username : string) : bool :=
  let lowercaseUsername := toLowerCase username in
  existsb (fun pattern => includes pattern lowercaseUsername) botPatterns.

(** ** types *)

Inductive PRState : Set := open | closed | merged.

Inductive ReviewState : Set := APPROVED | COMMENTED | CHANGES_REQUESTED.

(** ["APPROVED" | "COMMENTED" | "CHANGES_REQUESTED" | "COMMENTED_ONLY" |
    "NOT_REVIEWED" | "OWN_PR"]: the first three are the review states. *)
Inductive ReviewStatus : Set :=
| Reviewed (s : ReviewState)
| COMMENTED_ONLY
| NOT_REVIEWED
| OWN_PR.

Module PRData.
Record t : Set := mk {
  number : Z;
  title : string;
  author : string;
  createdAt : Z;
  readyForReviewAt : Z;
  closedAt : option Z;
  mergedAt : option Z;
  state : PRState;
  isDraft : bool
}.
End PRData.

Module ReviewData.
Record t : Set := mk {
  prNumber : Z;
  reviewer : string;
  state : ReviewState;
  submittedAt : Z
}.
End ReviewData.

Module ReviewRequestData.
Record t : Set := mk {
  prNumber : Z;
  reviewer : string;
  requestedAt : Z
}.
End ReviewRequestData.

Module CommentData.
Record t : Set := mk {
  prNumber : Z;
  commenter : string;
  createdAt : Z
}.
End CommentData.

Module TimeMetrics.
Record t : Set := mk {
  average : Q;
  min : Z;
  max : Z;
  median : Q
}.
End TimeMetrics.

Module ReviewMetrics.
Record t : Set := mk {
  approved : Z;
  commented : Z;
  changesRequested : Z
}.
End ReviewMetrics.

Module PersonPRDetail.
Record t : Set := mk {
  prNumber : Z;
  title : string;
  author : string;
  createdAt : Z;
  readyForReviewAt : Z;
  ageInDays : Z;
  state : PRState;
  isDraft : bool;
  reviewStatus : ReviewStatus;
  firstCommentTime : option Z;
  firstReviewTime : option Z;
  timeOpen : Z;
  reviewerCount : Z;
  url : string
}.
End PersonPRDetail.

Module PersonStats.
Record t : Set := mk {
  person : string;
  prsOpened : Z;
  reviewMetrics : ReviewMetrics.t;
  totalReviewsGiven : Z;
  uniquePRsReviewed : Z;
  reviewParticipationRate : Q;
  eligiblePRsForReview : Z;
  timeToFirstComment : option TimeMetrics.t;
  timeToFirstReview : option TimeMetrics.t;
  timeToApproval : option TimeMetrics.t;
  prDetails : list PersonPRDetail.t
}.
End PersonStats.

(** ** stats: calculateTimeMetrics *)

Definition numericAscending (a b : Z) : Z := a - b.

Definition calculateTimeMetrics (durations : list Z) : option TimeMetrics.t :=
  match durations with
  | [] => None
  | _ :: _ =>
      let sorted := JsArray.sort numericAscending durations in
      let sum := fold_left (fun acc val => acc + val) durations 0 in
      let len := List.length sorted in
      Some {|
        TimeMetrics.average := (inject_Z sum / inject_Z (Z.of_nat (List.length durations)))%Q;
        TimeMetrics.min := nth 0 sorted 0;
        TimeMetrics.max := nth (len - 1)%nat sorted 0;
        TimeMetrics.median :=
          if (Nat.modulo len 2 =? 0)%nat
          then (inject_Z (nth (len / 2 - 1)%nat sorted 0 + nth (len / 2)%nat sorted 0)%Z / 2)%Q
          else inject_Z (nth (len / 2)%nat sorted 0)
      |}
  end.

(** ** stats: calculateStats *)

(** The entry of [prDetailsMap]. *)
Module PRDetailStub.
Record t : Set := mk {
  reviewStatus : ReviewStatus;
  firstCommentTime : option Z;
  firstReviewTime : option Z
}.
End PRDetailStub.

(** The accumulator kept in [personMap] for one person. *)
Module PersonData.
Record t : Set := mk {
  prsOpened : Z;
  reviewsApproved : Z;
  reviewsCommented : Z;
  reviewsChangesRequested : Z;
  prsReviewedSet : list Z;
  ownPRNumbers : list Z;
  timeToFirstComment : list Z;
  timeToFirstReview : list Z;
  timeToApproval : list Z;
  prDetailsMap : list (Z * PRDetailStub.t)
}.

(** The record a person is initialised with. *)
Definition empty : t :=
  mk 0 0 0 0 [] [] [] [] [] [].
End PersonData.

Definition PersonMap : Set := list (string * PersonData.t).

(** [if (!personMap.has(k)) personMap.set(k, {...})] *)
Definition ensurePerson (k : string) (personMap : PersonMap) : PersonMap :=
  if JsMap.has String.eqb k personMap then personMap
  else JsMap.set String.eqb k PersonData.empty personMap.

(** [const data = personMap.get(k)!] followed by the mutations [f] of
    [data]: the object is shared with the map, which sees the new value. *)
Definition mutatePerson (k : string) (f : PersonData.t -> PersonData.t)
    (personMap : PersonMap) : PersonMap :=
  match JsMap.get String.eqb k personMap with
  | Some data => JsMap.set String.eqb k (f data) personMap
  | None => personMap
  end.

(** Group the records of one pull request by person: [byPerson.get(k)] is
    created empty on the first record of [k], every record is pushed. *)
Definition groupByPerson {A : Type} (key : A -> string) (records : list A)
    : list (string * list A) :=
  fold_left
    (fun byPerson r =>
       let byPerson :=
         if JsMap.has String.eqb (key r) byPerson then byPerson
         else JsMap.set String.eqb (key r) [] byPerson in
       match JsMap.get String.eqb (key r) byPerson with
       | Some rs => JsMap.set String.eqb (key r) (rs ++ [r]) byPerson
       | None => byPerson
       end)
    records [].

(** [coll.push(v)] under [if (v >= 0)], for a value that may not exist. *)
Definition pushTime (coll : list Z) (v : option Z) : list Z :=
  match v with
  | Some d => coll ++ [d]
  | None => coll
  end.

(** [v >= 0 ? v : null] *)
Definition nonNegative (v : Z) : option Z :=
  if v >=? 0 then Some v else None.

Inductive InteractionType : Set := review | comment.

Module Interaction.
Record t : Set := mk { type : InteractionType; timestamp : Z }.
End Interaction.

Definition bySubmittedAt (a b : ReviewData.t) : Z :=
  ReviewData.submittedAt a - ReviewData.submittedAt b.

Definition byCreatedAt (a b : CommentData.t) : Z :=
  CommentData.createdAt a - CommentData.createdAt b.

Definition byTimestamp (a b : Interaction.t) : Z :=
  Interaction.timestamp a - Interaction.timestamp b.

Definition isFormal (r : ReviewData.t) : bool :=
  match ReviewData.state r with
  | APPROVED => true
  | CHANGES_REQUESTED => true
  | COMMENTED => false
  end.

(** [prReviewRequests.find(req => req.reviewer === person)] *)
Definition findRequest (person : string)
    (prReviewRequests : list ReviewRequestData.t) : option ReviewRequestData.t :=
  find (fun req => String.eqb (ReviewRequestData.reviewer req) person)
       prReviewRequests.

(** [v >= 0 ? v : null], for an elapsed time that may not exist. *)
Definition keepNonNegative (elapsed : option Z) : option Z :=
  match elapsed with
  | Some v => nonNegative v
  | None => None
  end.

(** [timeToFirstComment] of a reviewer:
    [allInteractions[0].timestamp - requestTime], where the interactions
    are the reviews and the comments of the reviewer, by time. *)
Definition reviewerFirstCommentElapsed (reviewer : string)
    (sortedReviews : list ReviewData.t) (prComments : list CommentData.t)
    (requestTime : Z) : option Z :=
  let personComments :=
    filter (fun c => String.eqb (CommentData.commenter c) reviewer
                     && negb (isBot (CommentData.commenter c)))%bool
           prComments in
  let allInteractions :=
    map (fun r => Interaction.mk review (ReviewData.submittedAt r)) sortedReviews
    ++ map (fun c => Interaction.mk comment (CommentData.createdAt c)) personComments in
  let allInteractions := JsArray.sort byTimestamp allInteractions in
  match JsArray.headOpt allInteractions with
  | Some first => Some (Interaction.timestamp first - requestTime)
  | None => None
  end.

(** [timeToFirst], and [timeToApprovalValue]: the first review of the
    sorted list that is APPROVED or CHANGES_REQUESTED, from the request. *)
Definition reviewerFirstReviewElapsed (sortedReviews : list ReviewData.t)
    (requestTime : Z) : option Z :=
  match find isFormal sortedReviews with
  | Some firstFormalReview =>
      Some (ReviewData.submittedAt firstFormalReview - requestTime)
  | None => None
  end.

(** The body of the loop over [reviewsByPerson.entries()], on the person's
    record. *)
Definition recordReviews (prNumber : Z)
    (prReviewRequests : list ReviewRequestData.t)
    (prComments : list CommentData.t)
    (reviewer : string) (personReviews : list ReviewData.t)
    (personData : PersonData.t) : PersonData.t :=
  let prsReviewedSet := JsSet.add Z.eqb prNumber (PersonData.prsReviewedSet personData) in
  let sortedReviews := JsArray.sort bySubmittedAt personReviews in
  match JsArray.lastOpt sortedReviews with
  | None => personData (* not reached: a group holds a review *)
  | Some latestReview =>
      let st := ReviewData.state latestReview in
      let reviewRequest := findRequest reviewer prReviewRequests in
      let requestTime := option_map ReviewRequestData.requestedAt reviewRequest in
      let firstCommentTime :=
        keepNonNegative
          match requestTime with
          | Some t => reviewerFirstCommentElapsed reviewer sortedReviews prComments t
          | None => None
          end in
      let firstReviewTime :=
        keepNonNegative
          match requestTime with
          | Some t => reviewerFirstReviewElapsed sortedReviews t
          | None => None
          end in
      let timeToApprovalValue :=
        keepNonNegative
          match requestTime with
          | Some t => reviewerFirstReviewElapsed sortedReviews t
          | None => None
          end in
      {| PersonData.prsOpened := PersonData.prsOpened personData;
         PersonData.reviewsApproved :=
           PersonData.reviewsApproved personData
           + match st with APPROVED => 1 | _ => 0 end;
         PersonData.reviewsCommented :=
           PersonData.reviewsCommented personData
           + match st with COMMENTED => 1 | _ => 0 end;
         PersonData.reviewsChangesRequested :=
           PersonData.reviewsChangesRequested personData
           + match st with CHANGES_REQUESTED => 1 | _ => 0 end;
         PersonData.prsReviewedSet := prsReviewedSet;
         PersonData.ownPRNumbers := PersonData.ownPRNumbers personData;
         PersonData.timeToFirstComment :=
           pushTime (PersonData.timeToFirstComment personData) firstCommentTime;
         PersonData.timeToFirstReview :=
           pushTime (PersonData.timeToFirstReview personData) firstReviewTime;
         PersonData.timeToApproval :=
           pushTime (PersonData.timeToApproval personData) timeToApprovalValue;
         PersonData.prDetailsMap :=
           JsMap.set Z.eqb prNumber
             (PRDetailStub.mk (Reviewed st) firstCommentTime firstReviewTime)
             (PersonData.prDetailsMap personData) |}
  end.

(** [timeToFirstComment] of a commenter without review:
    [sortedComments[0].createdAt - reviewRequest.requestedAt]. *)
Definition commenterFirstCommentElapsed (commenter : string)
    (prReviewRequests : list ReviewRequestData.t)
    (personComments : list CommentData.t) : option Z :=
  match findRequest commenter prReviewRequests with
  | Some reviewRequest =>
      match JsArray.headOpt (JsArray.sort byCreatedAt personComments) with
      | Some first =>
          Some (CommentData.createdAt first
                - ReviewRequestData.requestedAt reviewRequest)
      | None => None
      end
  | None => None
  end.

(** The body of the loop over [commentsByPerson.entries()], on the
    person's record. *)
Definition recordComments (prNumber : Z)
    (prReviewRequests : list ReviewRequestData.t)
    (commenter : string) (personComments : list CommentData.t)
    (personData : PersonData.t) : PersonData.t :=
  if JsMap.has Z.eqb prNumber (PersonData.prDetailsMap personData)
  then personData
  else
    let firstCommentTime :=
      keepNonNegative
        (commenterFirstCommentElapsed commenter prReviewRequests personComments) in
    {| PersonData.prsOpened := PersonData.prsOpened personData;
       PersonData.reviewsApproved := PersonData.reviewsApproved personData;
       PersonData.reviewsCommented := PersonData.reviewsCommented personData;
       PersonData.reviewsChangesRequested :=
         PersonData.reviewsChangesRequested personData;
       PersonData.prsReviewedSet := PersonData.prsReviewedSet personData;
       PersonData.ownPRNumbers := PersonData.ownPRNumbers personData;
       PersonData.timeToFirstComment :=
         pushTime (PersonData.timeToFirstComment personData) firstCommentTime;
       PersonData.timeToFirstReview := PersonData.timeToFirstReview personData;
       PersonData.timeToApproval := PersonData.timeToApproval personData;
       PersonData.prDetailsMap :=
         JsMap.set Z.eqb prNumber
           (PRDetailStub.mk COMMENTED_ONLY firstCommentTime None)
           (PersonData.prDetailsMap personData) |}.

(** [authorData.prsOpened++; authorData.ownPRNumbers.add(pr.number)] *)
Definition recordOwnPR (number : Z) (authorData : PersonData.t) : PersonData.t :=
  {| PersonData.prsOpened := PersonData.prsOpened authorData + 1;
     PersonData.reviewsApproved := PersonData.reviewsApproved authorData;
     PersonData.reviewsCommented := PersonData.reviewsCommented authorData;
     PersonData.reviewsChangesRequested :=
       PersonData.reviewsChangesRequested authorData;
     PersonData.prsReviewedSet := PersonData.prsReviewedSet authorData;
     PersonData.ownPRNumbers :=
       JsSet.add Z.eqb number (PersonData.ownPRNumbers authorData);
     PersonData.timeToFirstComment := PersonData.timeToFirstComment authorData;
     PersonData.timeToFirstReview := PersonData.timeToFirstReview authorData;
     PersonData.timeToApproval := PersonData.timeToApproval authorData;
     PersonData.prDetailsMap := PersonData.prDetailsMap authorData |}.

(** [m.get(k) || []] *)
Definition getOrEmpty {A : Type} (k : Z) (m : list (Z * list A)) : list A :=
  match JsMap.get Z.eqb k m with
  | Some l => l
  | None => []
  end.

(** First loop: the pull requests opened by each person. *)
Definition countOpened (prs : list PRData.t) (personMap : PersonMap) : PersonMap :=
  fold_left
    (fun personMap pr =>
       if isBot (PRData.author pr) then personMap
       else mutatePerson (PRData.author pr) (recordOwnPR (PRData.number pr))
              (ensurePerson (PRData.author pr) personMap))
    prs personMap.

(** The reviews of one pull request. *)
Definition processPRReviews
    (reviewRequests : list (Z * list ReviewRequestData.t))
    (comments : list (Z * list CommentData.t))
    (personMap : PersonMap) (entry : Z * list ReviewData.t) : PersonMap :=
  let '(prNumber, prReviews) := entry in
  let prReviewRequests := getOrEmpty prNumber reviewRequests in
  let prComments := getOrEmpty prNumber comments in
  let filteredReviews :=
    filter (fun review => negb (isBot (ReviewData.reviewer review))) prReviews in
  let reviewsByPerson := groupByPerson ReviewData.reviewer filteredReviews in
  fold_left
    (fun personMap '(reviewer, personReviews) =>
       mutatePerson reviewer
         (recordReviews prNumber prReviewRequests prComments reviewer personReviews)
         (ensurePerson reviewer personMap))
    reviewsByPerson personMap.

(** Second loop: [for (const [prNumber, prReviews] of reviews.entries())]. *)
Definition processReviews
    (reviews : list (Z * list ReviewData.t))
    (reviewRequests : list (Z * list ReviewRequestData.t))
    (comments : list (Z * list CommentData.t))
    (personMap : PersonMap) : PersonMap :=
  fold_left (processPRReviews reviewRequests comments) reviews personMap.

(** The comments of one pull request. *)
Definition processPRComments
    (reviewRequests : list (Z * list ReviewRequestData.t))
    (personMap : PersonMap) (entry : Z * list CommentData.t) : PersonMap :=
  let '(prNumber, prComments) := entry in
  let prReviewRequests := getOrEmpty prNumber reviewRequests in
  let filteredComments :=
    filter (fun c => negb (isBot (CommentData.commenter c))) prComments in
  let commentsByPerson := groupByPerson CommentData.commenter filteredComments in
  fold_left
    (fun personMap '(commenter, personComments) =>
       mutatePerson commenter
         (recordComments prNumber prReviewRequests commenter personComments)
         (ensurePerson commenter personMap))
    commentsByPerson personMap.

(** Third loop: [for (const [prNumber, prComments] of comments.entries())]. *)
Definition processComments
    (reviewRequests : list (Z * list ReviewRequestData.t))
    (comments : list (Z * list CommentData.t))
    (personMap : PersonMap) : PersonMap :=
  fold_left (processPRComments reviewRequests) comments personMap.

(** The three loops that fill [personMap]. *)
Definition aggregate (prs : list PRData.t)
    (reviews : list (Z * list ReviewData.t))
    (reviewRequests : list (Z * list ReviewRequestData.t))
    (comments : list (Z * list CommentData.t)) : PersonMap :=
  processComments reviewRequests comments
    (processReviews reviews reviewRequests comments
       (countOpened prs [])).

(** [x || null] on a number: zero is falsy. *)
Definition orNull (x : option Z) : option Z :=
  match x with
  | Some v => if v =? 0 then None else Some v
  | None => None
  end.

(** A number in a template literal. *)
Definition numberToString (n : Z) : string :=
  NilZero.string_of_int (Z.to_int n).

Definition msPerDay : Z := 1000 * 60 * 60 * 24.

(** The distinct reviewers of a pull request that are not bots. *)
Definition uniqueReviewers (prReviews : list ReviewData.t) : list string :=
  fold_left
    (fun s review =>
       if isBot (ReviewData.reviewer review) then s
       else JsSet.add String.eqb (ReviewData.reviewer review) s)
    prReviews [].

Section Environment.
(** [a.localeCompare(b)], which depends on the host's locale. *)
Variable localeCompare : string -> string -> Z.
(** The clock: [Date_now n] is what the [n]-th call of [Date.now()]
    returns (counting from 0). *)
Variable Date_now : nat -> Z.
(** [config.repository.owner] and [config.repository.repo]. *)
Variable owner repo : string.

(** The body of the loop over [prs] that builds one detail row; [tick]
    counts the calls of [Date.now()] made so far. *)
Definition buildDetail (reviews : list (Z * list ReviewData.t))
    (data : PersonData.t) (tick : nat) (pr : PRData.t)
    : PersonPRDetail.t * nat :=
  let isOwnPR := JsSet.has Z.eqb (PRData.number pr) (PersonData.ownPRNumbers data) in
  let prDetail := JsMap.get Z.eqb (PRData.number pr) (PersonData.prDetailsMap data) in
  let '(timeOpen, tick) :=
    match PRData.mergedAt pr with
    | Some mergedAt => (mergedAt - PRData.readyForReviewAt pr, tick)
    | None =>
        match PRData.closedAt pr with
        | Some closedAt => (closedAt - PRData.readyForReviewAt pr, tick)
        | None => (Date_now tick - PRData.readyForReviewAt pr, S tick)
        end
    end in
  let prReviews := getOrEmpty (PRData.number pr) reviews in
  let reviewerCount := JsSet.size (uniqueReviewers prReviews) in
  ({| PersonPRDetail.prNumber := PRData.number pr;
      PersonPRDetail.title := PRData.title pr;
      PersonPRDetail.author := PRData.author pr;
      PersonPRDetail.createdAt := PRData.createdAt pr;
      PersonPRDetail.readyForReviewAt := PRData.readyForReviewAt pr;
      PersonPRDetail.ageInDays :=
        (Date_now tick - PRData.readyForReviewAt pr) / msPerDay;
      PersonPRDetail.state := PRData.state pr;
      PersonPRDetail.isDraft := PRData.isDraft pr;
      PersonPRDetail.reviewStatus :=
        if isOwnPR then OWN_PR
        else match prDetail with
             | Some stub => PRDetailStub.reviewStatus stub
             | None => NOT_REVIEWED
             end;
      PersonPRDetail.firstCommentTime :=
        orNull (match prDetail with
                | Some stub => PRDetailStub.firstCommentTime stub
                | None => None
                end);
      PersonPRDetail.firstReviewTime :=
        orNull (match prDetail with
                | Some stub => PRDetailStub.firstReviewTime stub
                | None => None
                end);
      PersonPRDetail.timeOpen := timeOpen;
      PersonPRDetail.reviewerCount := reviewerCount;
      PersonPRDetail.url :=
        "https://github.com/" ++ owner ++ "/" ++ repo ++ "/pull/"
        ++ numberToString (PRData.number pr) |},
   S tick).

(** [for (const pr of prs) { ...; prDetails.push(detail) }] *)
Fixpoint buildDetails (reviews : list (Z * list ReviewData.t))
    (data : PersonData.t) (tick : nat) (prs : list PRData.t)
    : list PersonPRDetail.t * nat :=
  match prs with
  | [] => ([], tick)
  | pr :: rest =>
      let '(detail, tick) := buildDetail reviews data tick pr in
      let '(prDetails, tick) := buildDetails reviews data tick rest in
      (detail :: prDetails, tick)
  end.

(** The body of the loop over [personMap.entries()]. *)
Definition buildPerson (prs : list PRData.t)
    (reviews : list (Z * list ReviewData.t))
    (tick : nat) (person : string) (data : PersonData.t)
    : PersonStats.t * nat :=
  let totalPRs := Z.of_nat (List.length prs) in
  let totalReviewsGiven :=
    PersonData.reviewsApproved data + PersonData.reviewsCommented data
    + PersonData.reviewsChangesRequested data in
  let prsReviewedExcludingOwn :=
    JsSet.ofArray Z.eqb
      (filter (fun prNumber =>
                 negb (JsSet.has Z.eqb prNumber (PersonData.ownPRNumbers data)))
              (PersonData.prsReviewedSet data)) in
  let prsReviewedCount := JsSet.size prsReviewedExcludingOwn in
  let totalPRsExcludingOwn := totalPRs - JsSet.size (PersonData.ownPRNumbers data) in
  let reviewParticipationRate :=
    if totalPRsExcludingOwn >? 0
    then (inject_Z prsReviewedCount / inject_Z totalPRsExcludingOwn * 100)%Q
    else 0%Q in
  let '(prDetails, tick) := buildDetails reviews data tick prs in
  ({| PersonStats.person := person;
      PersonStats.prsOpened := PersonData.prsOpened data;
      PersonStats.reviewMetrics :=
        {| ReviewMetrics.approved := PersonData.reviewsApproved data;
           ReviewMetrics.commented := PersonData.reviewsCommented data;
           ReviewMetrics.changesRequested :=
             PersonData.reviewsChangesRequested data |};
      PersonStats.totalReviewsGiven := totalReviewsGiven;
      PersonStats.uniquePRsReviewed := prsReviewedCount;
      PersonStats.reviewParticipationRate := reviewParticipationRate;
      PersonStats.eligiblePRsForReview := totalPRsExcludingOwn;
      PersonStats.timeToFirstComment :=
        calculateTimeMetrics (PersonData.timeToFirstComment data);
      PersonStats.timeToFirstReview :=
        calculateTimeMetrics (PersonData.timeToFirstReview data);
      PersonStats.timeToApproval :=
        calculateTimeMetrics (PersonData.timeToApproval data);
      PersonStats.prDetails := prDetails |},
   tick).

(** [for (const [person, data] of personMap.entries()) { ...;
    stats.push({...}) }] *)
Fixpoint buildStats (prs : list PRData.t)
    (reviews : list (Z * list ReviewData.t))
    (tick : nat) (personMap : PersonMap) : list PersonStats.t :=
  match personMap with
  | [] => []
  | (person, data) :: rest =>
      let '(s, tick) := buildPerson prs reviews tick person data in
      s :: buildStats prs reviews tick rest
  end.

(** By PRs opened (descending), then by person name. *)
Definition byPrsOpenedThenName (a b : PersonStats.t) : Z :=
  if negb (PersonStats.prsOpened b =? PersonStats.prsOpened a)
  then PersonStats.prsOpened b - PersonStats.prsOpened a
  else localeCompare (PersonStats.person a) (PersonStats.person b).

Definition calculateStats (prs : list PRData.t)
    (reviews : list (Z * list ReviewData.t))
    (reviewRequests : list (Z * list ReviewRequestData.t))
    (comments : list (Z * list CommentData.t)) : list PersonStats.t :=
  let personMap := aggregate prs reviews reviewRequests comments in
  let stats := buildStats prs reviews 0%nat personMap in
  JsArray.sort byPrsOpenedThenName stats.
End Environment.

(** ** A run on the scenario of the documentation *)

Module Scenario.
Definition hour : Z := 3600000.

Definition pr1 : PRData.t :=
  PRData.mk 1 "Add feature" "alice" 1000 1000 None (Some (1000 + 5 * hour)) merged false.
Definition pr2 : PRData.t :=
  PRData.mk 2 "Fix bug" "bob" 2000 2000 None None open false.

Definition prs : list PRData.t := [pr1; pr2].
Definition reviews : list (Z * list ReviewData.t) :=
  [(1, [ReviewData.mk 1 "bob" APPROVED (5000 + 2 * hour)]); (2, [])].
Definition reviewRequests : list (Z * list ReviewRequestData.t) :=
  [(1, [ReviewRequestData.mk 1 "bob" 5000]); (2, [])].
Definition comments : list (Z * list CommentData.t) :=
  [(1, []); (2, [CommentData.mk 2 "alice" 9000])].

(** A clock that advances one millisecond per reading. *)
Definition clock (n : nat) : Z := 10 * 24 * hour + Z.of_nat n.

(** A stand-in for [localeCompare]: code-unit order. *)
Definition codeUnitCompare (a b : string) : Z :=
  match String.compare a b with
  | Lt => -1
  | Eq => 0
  | Gt => 1
  end.

Definition run : list PersonStats.t :=
  calculateStats codeUnitCompare clock "pbstck" "app"
    prs reviews reviewRequests comments.
End Scenario.

(** * The comments client

    [CommentsClient] (comments-client).  The answers of the GitHub API are
    read from oracles, as [Date.now()] is read from a clock; a time stamp
    of the API ([created_at], [submitted_at]) is the [Z] of the [Date]
    made from it. *)

(** ** Pull-request numbers in the addresses of the API *)

(** What [\d] matches. *)
Definition isDigit (c : ascii) : bool :=
  let n := nat_of_ascii c in ((48 <=? n)%nat && (n <=? 57)%nat)%bool.

(** The longest run of digits at the start of [s], and what follows it:
    [\d+] is greedy. *)
Fixpoint spanDigits (s : string) : string * string :=
  match s with
  | EmptyString => (EmptyString, EmptyString)
  | String c rest =>
      if isDigit c then
        let '(digits, after) := spanDigits rest in (String c digits, after)
      else (EmptyString, s)
  end.

(** [s] without [literal] in front, when [s] starts with it. *)
Fixpoint dropLiteral (literal s : string) : option string :=
  match literal, s with
  | EmptyString, _ => Some s
  | String a literal', String b s' =>
      if Ascii.eqb a b then dropLiteral literal' s' else None
  | String _ _, EmptyString => None
  end.

(** [/<literal>(\d+)$/] tried at the start of [s]: the digits captured.
    After the literal the digits must be at least one and reach the end
    of [s]; giving back digits cannot help, a digit is not the end. *)
Definition matchDigitsHere (literal s : string) : option string :=
  match dropLiteral literal s with
  | Some after =>
      match spanDigits after with
      | (String c digits, EmptyString) => Some (String c digits)
      | _ => None
      end
  | None => None
  end.

(** [s.match(/<literal>(\d+)$/)]: group 1 of the leftmost match. *)
Fixpoint matchDigitsAtEnd (literal s : string) : option string :=
  match matchDigitsHere literal s with
  | Some digits => Some digits
  | None =>
      match s with
      | EmptyString => None
      | String _ s' => matchDigitsAtEnd literal s'
      end
  end.

(** [parseInt(digits, 10)] on a string of decimal digits, which is what
    group 1 holds. *)
Fixpoint parseDigits (acc : Z) (digits : string) : Z :=
  match digits with
  | EmptyString => acc
  | String c rest => parseDigits (acc * 10 + (Z.of_nat (nat_of_ascii c) - 48)) rest
  end.

Definition parseInt10 (digits : string) : Z := parseDigits 0 digits.

Definition extractPRNumber (pullRequestUrl : string) : Z :=
  match matchDigitsAtEnd "/pulls/" pullRequestUrl with
  | Some digits => parseInt10 digits
  | None => 0
  end.

Definition extractIssueNumber (issueUrl : string) : Z :=
  match matchDigitsAtEnd "/issues/" issueUrl with
  | Some digits => parseInt10 digits
  | None => 0
  end.

Definition isPRComment (htmlUrl : string) : bool := includes "/pull/" htmlUrl.

(** ** The cache of pull requests *)

Module PRInfo.
Record t := mk { title : string; author : string }.
End PRInfo.

(** What [getPRInfo] reads of the answer of [octokit.pulls.get]:
    [data.title] and [data.user?.login]. *)
Module PullResponse.
Record t := mk { title : string; user_login : option string }.
End PullResponse.

(** The state of a client: [prCache], and how many times
    [octokit.pulls.get] has been called. *)
Module Client.
Record t := mk { prCache : list (Z * PRInfo.t); pullsGetCalls : nat }.
Definition initial : t := mk [] 0.
End Client.

(** [login || "unknown"] *)
Definition orUnknown (login : option string) : string :=
  match login with
  | Some name => if String.eqb name EmptyString then "unknown" else name
  | None => "unknown"
  end.

Section CommentsClient.
(** [pulls_get n prNumber] is the answer of the [n]-th call of
    [octokit.pulls.get] (counting from 0) when it asks for [prNumber];
    [None] when the call throws. *)
Variable pulls_get : nat -> Z -> option PullResponse.t.

(** [prCache.has] and [prCache.get] are one lookup: the cache holds no
    [undefined]. *)
Definition getPRInfo (client : Client.t) (prNumber : Z) : PRInfo.t * Client.t :=
  match JsMap.get Z.eqb prNumber (Client.prCache client) with
  | Some info => (info, client)
  | None =>
      match pulls_get (Client.pullsGetCalls client) prNumber with
      | Some response =>
          let info :=
            PRInfo.mk (PullResponse.title response)
                      (orUnknown (PullResponse.user_login response)) in
          (info,
           Client.mk (JsMap.set Z.eqb prNumber info (Client.prCache client))
                     (S (Client.pullsGetCalls client)))
      | None =>
          let fallback := PRInfo.mk ("PR #" ++ numberToString prNumber) "unknown" in
          (fallback,
           Client.mk (JsMap.set Z.eqb prNumber fallback (Client.prCache client))
                     (S (Client.pullsGetCalls client)))
      end
  end.

(** [getPRInfo] for one number after the other: the answers, and the
    client at the end. *)
Fixpoint getPRInfos (client : Client.t) (prNumbers : list Z)
    : list PRInfo.t * Client.t :=
  match prNumbers with
  | [] => ([], client)
  | prNumber :: rest =>
      let '(info, client) := getPRInfo client prNumber in
      let '(infos, client) := getPRInfos client rest in
      (info :: infos, client)
  end.
End CommentsClient.

(** ** The comments of a user *)

(** What the client reads of a review comment of the API. *)
Module RawReviewComment.
Record t := mk {
  id : Z;
  user_login : option string;
  pull_request_url : string;
  body : string;
  created_at : Z;
  html_url : string;
  path : string;
  line : option Z;
  commit_id : string;
  in_reply_to_id : option Z
}.
End RawReviewComment.

Module ReviewComment.
Record t := mk {
  id : Z;
  prNumber : Z;
  prTitle : string;
  prAuthor : string;
  body : string;
  createdAt : Z;
  htmlUrl : string;
  path : string;
  line : option Z;
  commitId : string;
  inReplyToId : option Z
}.
End ReviewComment.

(** What the client reads of an issue comment of the API. *)
Module RawIssueComment.
Record t := mk {
  id : Z;
  user_login : option string;
  issue_url : string;
  body : option string;
  created_at : Z;
  html_url : string
}.
End RawIssueComment.

Module IssueComment.
Record t := mk {
  id : Z;
  prNumber : Z;
  prTitle : string;
  prAuthor : string;
  body : string;
  createdAt : Z;
  htmlUrl : string
}.
End IssueComment.

(** [user?.login === username] *)
Definition loginIs (username : string) (login : option string) : bool :=
  match login with
  | Some name => String.eqb name username
  | None => false
  end.

(** [body || ""] *)
Definition orEmpty (body : option string) : string :=
  match body with
  | Some text => text
  | None => EmptyString
  end.

Section CommentsOfUser.
Variable pulls_get : nat -> Z -> option PullResponse.t.
(** The answers of [octokit.pulls.listReviewCommentsForRepo] and of
    [octokit.issues.listCommentsForRepo] for a page. *)
Variable listReviewCommentsForRepo : nat -> list RawReviewComment.t.
Variable listCommentsForRepo : nat -> list RawIssueComment.t.

(** [for (const comment of response.data)] of [fetchReviewCommentsForRepo];
    the flag tells that the loop has left the function by
    [return comments]. *)
Fixpoint reviewCommentsOfPage (fromDate : Z) (username : string)
    (data : list RawReviewComment.t)
    (comments : list ReviewComment.t) (client : Client.t)
    : bool * (list ReviewComment.t * Client.t) :=
  match data with
  | [] => (false, (comments, client))
  | c :: rest =>
      let createdAt := RawReviewComment.created_at c in
      if createdAt <? fromDate then (true, (comments, client))
      else if negb (loginIs username (RawReviewComment.user_login c)) then
        reviewCommentsOfPage fromDate username rest comments client
      else
        let prNumber := extractPRNumber (RawReviewComment.pull_request_url c) in
        let '(prInfo, client) := getPRInfo pulls_get client prNumber in
        if String.eqb (PRInfo.author prInfo) username then
          reviewCommentsOfPage fromDate username rest comments client
        else
          reviewCommentsOfPage fromDate username rest
            (comments ++
             [ReviewComment.mk
                (RawReviewComment.id c)
                prNumber
                (PRInfo.title prInfo)
                (PRInfo.author prInfo)
                (RawReviewComment.body c)
                createdAt
                (RawReviewComment.html_url c)
                (RawReviewComment.path c)
                (RawReviewComment.line c)
                (RawReviewComment.commit_id c)
                (RawReviewComment.in_reply_to_id c)])
            client
  end.

(** [while (true)] of [fetchReviewCommentsForRepo], at most [fuel] pages;
    [None] when the pages are not through by then. *)
Fixpoint reviewCommentsFromPage (fuel : nat) (fromDate : Z) (username : string)
    (page : nat) (comments : list ReviewComment.t) (client : Client.t)
    : option (list ReviewComment.t * Client.t) :=
  match fuel with
  | O => None
  | S fuel =>
      let data := listReviewCommentsForRepo page in
      match JsArray.lastOpt data with
      | None => Some (comments, client)
      | Some oldest =>
          let '(returned, (comments, client)) :=
            reviewCommentsOfPage fromDate username data comments client in
          if returned then Some (comments, client)
          else if RawReviewComment.created_at oldest <? fromDate then
            Some (comments, client)
          else
            reviewCommentsFromPage fuel fromDate username (S page) comments client
      end
  end.

Definition fetchReviewCommentsForRepo (fuel : nat) (fromDate : Z)
    (username : string) (client : Client.t)
    : option (list ReviewComment.t * Client.t) :=
  reviewCommentsFromPage fuel fromDate username 1 [] client.

(** [for (const comment of response.data)] of [fetchIssueCommentsForRepo]. *)
Fixpoint issueCommentsOfPage (fromDate : Z) (username : string)
    (data : list RawIssueComment.t)
    (comments : list IssueComment.t) (client : Client.t)
    : bool * (list IssueComment.t * Client.t) :=
  match data with
  | [] => (false, (comments, client))
  | c :: rest =>
      let createdAt := RawIssueComment.created_at c in
      if createdAt <? fromDate then (true, (comments, client))
      else if negb (loginIs username (RawIssueComment.user_login c)) then
        issueCommentsOfPage fromDate username rest comments client
      else if negb (isPRComment (RawIssueComment.html_url c)) then
        issueCommentsOfPage fromDate username rest comments client
      else
        let prNumber := extractIssueNumber (RawIssueComment.issue_url c) in
        let '(prInfo, client) := getPRInfo pulls_get client prNumber in
        if String.eqb (PRInfo.author prInfo) username then
          issueCommentsOfPage fromDate username rest comments client
        else
          issueCommentsOfPage fromDate username rest
            (comments ++
             [IssueComment.mk
                (RawIssueComment.id c)
                prNumber
                (PRInfo.title prInfo)
                (PRInfo.author prInfo)
                (orEmpty (RawIssueComment.body c))
                createdAt
                (RawIssueComment.html_url c)])
            client
  end.

Fixpoint issueCommentsFromPage (fuel : nat) (fromDate : Z) (username : string)
    (page : nat) (comments : list IssueComment.t) (client : Client.t)
    : option (list IssueComment.t * Client.t) :=
  match fuel with
  | O => None
  | S fuel =>
      let data := listCommentsForRepo page in
      match JsArray.lastOpt data with
      | None => Some (comments, client)
      | Some oldest =>
          let '(returned, (comments, client)) :=
            issueCommentsOfPage fromDate username data comments client in
          if returned then Some (comments, client)
          else if RawIssueComment.created_at oldest <? fromDate then
            Some (comments, client)
          else
            issueCommentsFromPage fuel fromDate username (S page) comments client
      end
  end.

Definition fetchIssueCommentsForRepo (fuel : nat) (fromDate : Z)
    (username : string) (client : Client.t)
    : option (list IssueComment.t * Client.t) :=
  issueCommentsFromPage fuel fromDate username 1 [] client.
End CommentsOfUser.

(** ** The conversation of a pull request *)

Module CommentType.
Inductive t := review | issue.
End CommentType.

Module ConversationComment.
Record t := mk {
  id : Z;
  author : string;
  isTargetUser : bool;
  type : CommentType.t;
  body : string;
  createdAt : Z;
  htmlUrl : string;
  (** [None] for a field that is not set *)
  path : option string;
  line : option (option Z)
}.
End ConversationComment.

(** What the client reads of a review of the API. *)
Module RawReview.
Record t := mk {
  id : Z;
  user_login : option string;
  body : option string;
  submitted_at : option Z;
  html_url : string
}.
End RawReview.

Definition ofReviewComment (targetUsername : string) (c : RawReviewComment.t)
    : ConversationComment.t :=
  ConversationComment.mk
    (RawReviewComment.id c)
    (orUnknown (RawReviewComment.user_login c))
    (loginIs targetUsername (RawReviewComment.user_login c))
    CommentType.review
    (RawReviewComment.body c)
    (RawReviewComment.created_at c)
    (RawReviewComment.html_url c)
    (Some (RawReviewComment.path c))
    (Some (RawReviewComment.line c)).

Definition ofIssueComment (targetUsername : string) (c : RawIssueComment.t)
    : ConversationComment.t :=
  ConversationComment.mk
    (RawIssueComment.id c)
    (orUnknown (RawIssueComment.user_login c))
    (loginIs targetUsername (RawIssueComment.user_login c))
    CommentType.issue
    (orEmpty (RawIssueComment.body c))
    (RawIssueComment.created_at c)
    (RawIssueComment.html_url c)
    None
    None.

Definition byCreatedAtOfComment (a b : ConversationComment.t) : Z :=
  ConversationComment.createdAt a - ConversationComment.createdAt b.

Section Conversation.
(** [s.trim()] *)
Variable trim : string -> string.

(** The reviews that have actual content, as comments. *)
Fixpoint ofReviews (targetUsername : string) (reviews : list RawReview.t)
    : list ConversationComment.t :=
  match reviews with
  | [] => []
  | r :: rest =>
      match RawReview.body r, RawReview.submitted_at r with
      | Some body, Some submitted_at =>
          if negb (String.eqb body EmptyString)
             && negb (String.eqb (trim body) EmptyString)
          then
            ConversationComment.mk
              (RawReview.id r)
              (orUnknown (RawReview.user_login r))
              (loginIs targetUsername (RawReview.user_login r))
              CommentType.review
              body
              submitted_at
              (RawReview.html_url r)
              None
              None
            :: ofReviews targetUsername rest
          else ofReviews targetUsername rest
      | _, _ => ofReviews targetUsername rest
      end
  end.

(** [fetchAllCommentsForPR]; the arguments are the answers of
    [pulls.listReviewComments], [issues.listComments] and
    [pulls.listReviews] for the pull request, [None] for a call that
    throws. *)
Definition fetchAllCommentsForPR
    (reviewResponse : option (list RawReviewComment.t))
    (issueResponse : option (list RawIssueComment.t))
    (reviewsResponse : option (list RawReview.t))
    (targetUsername : string) : list ConversationComment.t :=
  let comments := [] in
  let comments :=
    match reviewResponse with
    | Some data => comments ++ map (ofReviewComment targetUsername) data
    | None => comments
    end in
  let comments :=
    match issueResponse with
    | Some data => comments ++ map (ofIssueComment targetUsername) data
    | None => comments
    end in
  let comments :=
    match reviewsResponse with
    | Some data => comments ++ ofReviews targetUsername data
    | None => comments
    end in
  JsArray.sort byCreatedAtOfComment comments.
End Conversation.

(** * The GitHub client and the main function

    [fetchPullRequests] (github-client) and the part of [main] (index)
    that goes from the pull requests fetched to the statistics. *)

(** What the client reads of a pull request of the API. *)
Module RawPull.
Record t := mk {
  number : Z;
  title : string;
  user_login : option string;
  created_at : Z;
  closed_at : option Z;
  merged_at : option Z;
  draft : option bool
}.
End RawPull.

(** [pr.draft || false] *)
Definition orFalse (draft : option bool) : bool :=
  match draft with
  | Some flag => flag
  | None => false
  end.

Section GitHubClient.
(** The answer of [octokit.pulls.list] for a page. *)
Variable pulls_list : nat -> list RawPull.t.

(** [for (const pr of response.data)] of [fetchPullRequests]; the flag
    tells that the loop has left the function by [return prs]. *)
Fixpoint pullRequestsOfPage (fromDate toDate : Z) (data : list RawPull.t)
    (prs : list PRData.t) : bool * list PRData.t :=
  match data with
  | [] => (false, prs)
  | pr :: rest =>
      let createdAt := RawPull.created_at pr in
      if createdAt <? fromDate then (true, prs)
      else if (fromDate <=? createdAt) && (createdAt <=? toDate) then
        let state :=
          match RawPull.merged_at pr with
          | Some _ => merged
          | None =>
              match RawPull.closed_at pr with
              | Some _ => closed
              | None => open
              end
          end in
        pullRequestsOfPage fromDate toDate rest
          (prs ++
           [PRData.mk
              (RawPull.number pr)
              (RawPull.title pr)
              (orUnknown (RawPull.user_login pr))
              createdAt
              createdAt
              (RawPull.closed_at pr)
              (RawPull.merged_at pr)
              state
              (orFalse (RawPull.draft pr))])
      else pullRequestsOfPage fromDate toDate rest prs
  end.

(** [while (true)] of [fetchPullRequests], at most [fuel] pages. *)
Fixpoint pullRequestsFromPage (fuel : nat) (fromDate toDate : Z) (page : nat)
    (prs : list PRData.t) : option (list PRData.t) :=
  match fuel with
  | O => None
  | S fuel =>
      let data := pulls_list page in
      match JsArray.lastOpt data with
      | None => Some prs
      | Some oldestPR =>
          let '(returned, prs) := pullRequestsOfPage fromDate toDate data prs in
          if returned then Some prs
          else if RawPull.created_at oldestPR <? fromDate then Some prs
          else pullRequestsFromPage fuel fromDate toDate (S page) prs
      end
  end.

Definition fetchPullRequests (fuel : nat) (fromDate toDate : Z)
    : option (list PRData.t) :=
  pullRequestsFromPage fuel fromDate toDate 1 [].
End GitHubClient.

(** The three maps that [main] fills. *)
Module Maps.
Record t := mk {
  reviewsMap : list (Z * list ReviewData.t);
  reviewRequestsMap : list (Z * list ReviewRequestData.t);
  commentsMap : list (Z * list CommentData.t)
}.
Definition empty : t := mk [] [] [].
End Maps.

Section Main.
Variable localeCompare : string -> string -> Z.
Variable Date_now : nat -> Z.
Variable owner repo : string.
(** What the four calls of the client return in the [i]-th round of the
    loop over the pull requests, for the number they are given. *)
Variable fetchReviews : nat -> Z -> list ReviewData.t.
Variable fetchReviewRequests : nat -> Z -> list ReviewRequestData.t.
Variable fetchPRComments : nat -> Z -> list CommentData.t.
Variable fetchReadyForReviewDate : nat -> Z -> option Z.

(** [pr.readyForReviewAt = readyForReviewDate] *)
Definition setReadyForReviewAt (pr : PRData.t) (readyForReviewDate : Z) : PRData.t :=
  PRData.mk (PRData.number pr) (PRData.title pr) (PRData.author pr)
    (PRData.createdAt pr) readyForReviewDate (PRData.closedAt pr)
    (PRData.mergedAt pr) (PRData.state pr) (PRData.isDraft pr).

(** [for (let i = 0; i < prs.length; i++)] from round [i] on: the pull
    requests as the loop leaves them, and the maps. *)
Fixpoint fetchDetails (i : nat) (prs : list PRData.t) (maps : Maps.t)
    : list PRData.t * Maps.t :=
  match prs with
  | [] => ([], maps)
  | pr :: rest =>
      let reviews := fetchReviews i (PRData.number pr) in
      let reviewRequests := fetchReviewRequests i (PRData.number pr) in
      let comments := fetchPRComments i (PRData.number pr) in
      let readyForReviewDate := fetchReadyForReviewDate i (PRData.number pr) in
      let pr :=
        match readyForReviewDate with
        | Some date => setReadyForReviewAt pr date
        | None => pr
        end in
      let maps :=
        Maps.mk
          (JsMap.set Z.eqb (PRData.number pr) reviews (Maps.reviewsMap maps))
          (JsMap.set Z.eqb (PRData.number pr) reviewRequests
             (Maps.reviewRequestsMap maps))
          (JsMap.set Z.eqb (PRData.number pr) comments (Maps.commentsMap maps)) in
      let '(rest, maps) := fetchDetails (S i) rest maps in
      (pr :: rest, maps)
  end.

(** What [main] passes to [calculateStats], from the pull requests that
    [fetchPullRequests] returned; [None] when [main] returns because no
    pull request is left. *)
Definition statsInput (allPrs : list PRData.t) : option (list PRData.t * Maps.t) :=
  let prsWithoutBots := filter (fun pr => negb (isBot (PRData.author pr))) allPrs in
  let prs := filter (fun pr => negb (PRData.isDraft pr)) prsWithoutBots in
  if (List.length prs =? 0)%nat then None
  else Some (fetchDetails 0 prs Maps.empty).

(** [personStats] of [main]. *)
Definition personStats (allPrs : list PRData.t) : option (list PersonStats.t) :=
  match statsInput allPrs with
  | Some (prs, maps) =>
      Some (calculateStats localeCompare Date_now owner repo prs
              (Maps.reviewsMap maps) (Maps.reviewRequestsMap maps)
              (Maps.commentsMap maps))
  | None => None
  end.
End Main.

(** * The reports

    The status column of [generatePersonReport] and
    [generatePersonReportCSV] (report-generator). *)

(** [prStatus] of a row. *)
Definition prStatus (prDetail : PersonPRDetail.t) : string :=
  match PersonPRDetail.state prDetail with
  | merged => "Merged"
  | closed => "Closed"
  | open => if PersonPRDetail.isDraft prDetail then "Open (Draft)" else "Open"
  end.

(** * Properties *)

Unset Implicit Arguments.

(** ** Sorting *)

Section SortFacts.
Context {A : Type}.
Variable cmp : A -> A -> Z.

Lemma insertBy_perm (x : A) (l : list A) :
  Permutation (JsArray.insertBy cmp x l) (x :: l).
Proof.
  induction l as [|y l IH]; simpl.
  - apply Permutation_refl.
  - destruct (cmp x y <=? 0).
    + apply Permutation_refl.
    + apply perm_trans with (y :: x :: l).
      * now apply perm_skip.
      * apply perm_swap.
Qed.

Lemma sort_perm (l : list A) : Permutation (JsArray.sort cmp l) l.
Proof.
  induction l as [|x l IH]; simpl.
  - constructor.
  - apply perm_trans with (x :: JsArray.sort cmp l).
    + apply insertBy_perm.
    + now apply perm_skip.
Qed.

Lemma sort_In (l : list A) (x : A) : In x (JsArray.sort cmp l) <-> In x l.
Proof.
  split; apply Permutation_in;
    [apply sort_perm | apply Permutation_sym, sort_perm].
Qed.

Lemma sort_length (l : list A) :
  List.length (JsArray.sort cmp l) = List.length l.
Proof. apply Permutation_length, sort_perm. Qed.

Lemma sort_nil_inv (l : list A) : JsArray.sort cmp l = [] -> l = [].
Proof.
  intros H. apply length_zero_iff_nil.
  rewrite <- sort_length, H. reflexivity.
Qed.

(** Comparators of the shape [key a - key b]. *)
Variable key : A -> Z.
Hypothesis cmp_key : forall a b, cmp a b = key a - key b.

Definition keyLe (a b : A) : Prop := key a <= key b.

Lemma insertBy_sorted (x : A) (l : list A) :
  StronglySorted keyLe l -> StronglySorted keyLe (JsArray.insertBy cmp x l).
Proof.
  induction 1 as [|y l Hs IH Hy]; simpl.
  - repeat constructor.
  - rewrite cmp_key. destruct (key x - key y <=? 0) eqn:E.
    + apply Z.leb_le in E. constructor.
      * now constructor.
      * constructor; [unfold keyLe; lia|].
        rewrite Forall_forall in *. intros z Hz.
        specialize (Hy z Hz). unfold keyLe in *. lia.
    + apply Z.leb_gt in E. constructor; [assumption|].
      rewrite Forall_forall in *. intros z Hz.
      apply (Permutation_in _ (insertBy_perm x l)) in Hz.
      destruct Hz as [<-|Hz]; [unfold keyLe; lia|now apply Hy].
Qed.

Lemma sort_sorted (l : list A) : StronglySorted keyLe (JsArray.sort cmp l).
Proof.
  induction l as [|x l IH]; simpl.
  - constructor.
  - now apply insertBy_sorted.
Qed.

Lemma headOpt_least (l : list A) (x : A) :
  StronglySorted keyLe l -> JsArray.headOpt l = Some x ->
  forall y, In y l -> key x <= key y.
Proof.
  intros Hs Hx y Hy. destruct l as [|z l]; [discriminate|].
  injection Hx as ->. inversion_clear Hs as [|? ? _ Hall].
  destruct Hy as [<-|Hy]; [lia|].
  rewrite Forall_forall in Hall. now apply Hall.
Qed.

Lemma lastOpt_greatest (l : list A) (x : A) :
  StronglySorted keyLe l -> JsArray.lastOpt l = Some x ->
  forall y, In y l -> key y <= key x.
Proof.
  induction 1 as [|z l Hs IH Hz]; intros Hx y Hy; [discriminate|].
  destruct l as [|z' l'].
  - injection Hx as <-. destruct Hy as [<-|[]]. lia.
  - change (JsArray.lastOpt (z' :: l') = Some x) in Hx.
    destruct Hy as [<-|Hy].
    + rewrite Forall_forall in Hz.
      assert (Hin : In x (z' :: l')).
      { clear - Hx. revert z' Hx. induction l' as [|w l' IH]; intros z' Hx.
        - injection Hx as <-. now left.
        - right. now apply (IH w). }
      now apply Hz.
    + now apply IH.
Qed.
End SortFacts.

Lemma lastOpt_In {A : Type} (l : list A) (x : A) :
  JsArray.lastOpt l = Some x -> In x l.
Proof.
  induction l as [|y l IH]; [discriminate|].
  destruct l as [|z l'].
  - intros [= <-]. now left.
  - intros H. right. now apply IH.
Qed.

Lemma lastOpt_None {A : Type} (l : list A) :
  JsArray.lastOpt l = None -> l = [].
Proof.
  induction l as [|y l IH]; [reflexivity|].
  destruct l as [|z l']; [discriminate|].
  intros H. specialize (IH H). discriminate.
Qed.

Lemma headOpt_In {A : Type} (l : list A) (x : A) :
  JsArray.headOpt l = Some x -> In x l.
Proof. destruct l; [discriminate|]. intros [= <-]. now left. Qed.

(** Two ascending arrangements of the same numbers are the same list. *)
Lemma sorted_perm_unique (l1 l2 : list Z) :
  StronglySorted Z.le l1 -> StronglySorted Z.le l2 ->
  Permutation l1 l2 -> l1 = l2.
Proof.
  intros H1. revert l2.
  induction H1 as [|x l1 Hs1 IH Hx]; intros l2 H2 Hp.
  - apply Permutation_nil in Hp. now subst.
  - destruct H2 as [|y l2 Hs2 Hy].
    + apply Permutation_sym, Permutation_nil in Hp. discriminate.
    + rewrite Forall_forall in Hx, Hy.
      assert (x = y).
      { assert (Hxin : In x (y :: l2))
          by (apply (Permutation_in _ Hp); now left).
        assert (Hyin : In y (x :: l1))
          by (apply (Permutation_in _ (Permutation_sym Hp)); now left).
        destruct Hxin as [->|Hxin]; [reflexivity|].
        destruct Hyin as [->|Hyin]; [reflexivity|].
        specialize (Hx _ Hyin). specialize (Hy _ Hxin). lia. }
      subst y. f_equal. apply IH; [assumption|].
      now apply Permutation_cons_inv with x.
Qed.

Lemma numericAscending_sorted (l : list Z) :
  StronglySorted Z.le (JsArray.sort numericAscending l).
Proof.
  exact (sort_sorted numericAscending (fun z => z) (fun a b => eq_refl) l).
Qed.

Lemma Sorted_le_strong (l : list Z) : Sorted Z.le l -> StronglySorted Z.le l.
Proof.
  apply Sorted_StronglySorted. intros a b c. apply Z.le_trans.
Qed.

(** ** calculateTimeMetrics *)

(** C8. [calculateTimeMetrics] of the empty collection is [null]; of a
    non-empty collection it is a record whose [median] is, for [sorted] the
    ascending arrangement of the durations, the middle element when the
    count is odd and the mean of the two middle elements when it is even.
    The median of 10, 20, 30, 40 is 25 and that of 10, 20, 30 is 20. *)
Theorem calculateTimeMetrics_median :
  calculateTimeMetrics [] = None
  /\ (forall durations : list Z,
        durations <> [] ->
        exists m,
          calculateTimeMetrics durations = Some m
          /\ forall sorted : list Z,
               Permutation sorted durations -> Sorted Z.le sorted ->
               let n := List.length sorted in
               (Nat.odd n = true ->
                  (TimeMetrics.median m == inject_Z (nth (n / 2)%nat sorted 0%Z))%Q)
               /\ (Nat.even n = true ->
                     (TimeMetrics.median m ==
                        (inject_Z (nth (n / 2 - 1)%nat sorted 0%Z)
                         + inject_Z (nth (n / 2)%nat sorted 0%Z)) / 2)%Q))
  /\ (exists m, calculateTimeMetrics [10; 20; 30; 40] = Some m
                /\ (TimeMetrics.median m == 25)%Q)
  /\ (exists m, calculateTimeMetrics [10; 20; 30] = Some m
                /\ (TimeMetrics.median m == 20)%Q).
Proof.
  split; [reflexivity|]. split.
  - intros durations Hne.
    destruct durations as [|d ds]; [congruence|].
    eexists. split; [reflexivity|].
    intros sorted Hp Hs n.
    assert (Heq : JsArray.sort numericAscending (d :: ds) = sorted).
    { apply sorted_perm_unique.
      - apply numericAscending_sorted.
      - now apply Sorted_le_strong.
      - apply perm_trans with (d :: ds).
        + apply sort_perm.
        + now apply Permutation_sym. }
    cbv zeta. unfold TimeMetrics.median. rewrite Heq. fold n.
    split; intros Hpar.
    + assert (Hmod : (Nat.modulo n 2 =? 0)%nat = false).
      { rewrite <- Nat.negb_even, Bool.negb_true_iff in Hpar.
        destruct (Nat.Even_or_Odd n) as [He|Ho].
        - apply Nat.even_spec in He. congruence.
        - apply Nat.eqb_neq. destruct Ho as [k ->].
          rewrite Nat.add_comm, Nat.mul_comm, Nat.Div0.mod_add. discriminate. }
      rewrite Hmod. reflexivity.
    + assert (Hmod : (Nat.modulo n 2 =? 0)%nat = true).
      { apply Nat.even_spec in Hpar. destruct Hpar as [k ->].
        apply Nat.eqb_eq. rewrite Nat.mul_comm. apply Nat.Div0.mod_mul. }
      rewrite Hmod. rewrite inject_Z_plus. reflexivity.
  - split; eexists; (split; [reflexivity|]); vm_compute; reflexivity.
Qed.

(** The three-element instance of the parity law, through the theorem. *)
Lemma calculateTimeMetrics_median_witness :
  exists m, calculateTimeMetrics [30; 10; 20] = Some m
            /\ (TimeMetrics.median m == inject_Z 20)%Q.
Proof.
  destruct (proj1 (proj2 calculateTimeMetrics_median) [30; 10; 20])
    as [m [Hm Hmed]].
  - discriminate.
  - exists m. split; [exact Hm|].
    destruct (Hmed [10; 20; 30]) as [Hodd _].
    + apply Permutation_sym.
      apply perm_trans with (10 :: 30 :: [20]);
        [apply perm_swap | apply perm_skip, perm_swap].
    + repeat constructor; lia.
    + apply Hodd. reflexivity.
Defined.

(** ** Maps in insertion order *)

Section MapFacts.
Context {K V : Type}.
Variable eqb : K -> K -> bool.
Hypothesis eqb_eq : forall a b, eqb a b = true <-> a = b.

Lemma eqb_refl' (a : K) : eqb a a = true.
Proof. now apply eqb_eq. Qed.

Lemma eqb_neq' (a b : K) : a <> b -> eqb a b = false.
Proof.
  intros H. destruct (eqb a b) eqn:E; [|reflexivity].
  apply eqb_eq in E. contradiction.
Qed.

Lemma get_set_same (k : K) (v : V) (m : list (K * V)) :
  JsMap.get eqb k (JsMap.set eqb k v m) = Some v.
Proof.
  induction m as [|[k' v'] m IH]; simpl.
  - now rewrite eqb_refl'.
  - destruct (eqb k' k) eqn:E; simpl; rewrite E; auto.
Qed.

Lemma get_set_other (k k' : K) (v : V) (m : list (K * V)) :
  k <> k' -> JsMap.get eqb k' (JsMap.set eqb k v m) = JsMap.get eqb k' m.
Proof.
  intros Hne. induction m as [|[k0 v0] m IH]; simpl.
  - now rewrite eqb_neq'.
  - destruct (eqb k0 k) eqn:E; simpl.
    + apply eqb_eq in E. subst k0. now rewrite eqb_neq'.
    + now rewrite IH.
Qed.

Lemma get_None_keys (k : K) (m : list (K * V)) :
  JsMap.get eqb k m = None <-> ~ In k (JsMap.keys m).
Proof.
  induction m as [|[k' v'] m IH]; simpl.
  - tauto.
  - destruct (eqb k' k) eqn:E.
    + apply eqb_eq in E. split; [discriminate|]. intros H. exfalso. auto.
    + rewrite IH. split.
      * intros H [H'|H']; [|tauto]. subst. rewrite eqb_refl' in E. discriminate.
      * tauto.
Qed.

Lemma get_Some_In (k : K) (v : V) (m : list (K * V)) :
  JsMap.get eqb k m = Some v -> In (k, v) m.
Proof.
  induction m as [|[k' v'] m IH]; simpl; [discriminate|].
  destruct (eqb k' k) eqn:E.
  - apply eqb_eq in E. intros [= ->]. left. now subst.
  - auto.
Qed.

Lemma In_get_Some (k : K) (v : V) (m : list (K * V)) :
  NoDup (JsMap.keys m) -> In (k, v) m -> JsMap.get eqb k m = Some v.
Proof.
  induction m as [|[k' v'] m IH]; simpl; [tauto|].
  intros Hnd [H|H].
  - injection H as -> ->. now rewrite eqb_refl'.
  - inversion_clear Hnd as [|? ? Hnotin Hnd'].
    destruct (eqb k' k) eqn:E.
    + apply eqb_eq in E. subst k'. exfalso. apply Hnotin.
      change k with (fst (k, v)). now apply in_map.
    + now apply IH.
Qed.

Lemma keys_set (k : K) (v : V) (m : list (K * V)) :
  JsMap.keys (JsMap.set eqb k v m)
  = if JsMap.has eqb k m then JsMap.keys m else JsMap.keys m ++ [k].
Proof.
  unfold JsMap.has.
  induction m as [|[k' v'] m IH]; simpl; [reflexivity|].
  destruct (eqb k' k) eqn:E; simpl; [reflexivity|].
  rewrite IH. now destruct (JsMap.get eqb k m).
Qed.

Lemma has_true_keys (k : K) (m : list (K * V)) :
  JsMap.has eqb k m = true <-> In k (JsMap.keys m).
Proof.
  unfold JsMap.has. destruct (JsMap.get eqb k m) eqn:E.
  - split; [intros _|reflexivity].
    apply get_Some_In in E. change k with (fst (k, v)). now apply in_map.
  - apply get_None_keys in E. split; [discriminate|contradiction].
Qed.

Lemma NoDup_keys_set (k : K) (v : V) (m : list (K * V)) :
  NoDup (JsMap.keys m) -> NoDup (JsMap.keys (JsMap.set eqb k v m)).
Proof.
  intros Hnd. rewrite keys_set.
  destruct (JsMap.has eqb k m) eqn:E; [assumption|].
  apply NoDup_rev in Hnd. rewrite <- (rev_involutive (_ ++ _)).
  apply NoDup_rev. rewrite rev_app_distr. simpl. constructor; [|assumption].
  rewrite <- in_rev. intros Hin. apply has_true_keys in Hin. congruence.
Qed.

Lemma In_keys_set (k k' : K) (v : V) (m : list (K * V)) :
  In k' (JsMap.keys (JsMap.set eqb k v m)) <-> k' = k \/ In k' (JsMap.keys m).
Proof.
  rewrite keys_set. destruct (JsMap.has eqb k m) eqn:E.
  - apply has_true_keys in E. split; [tauto|]. intros [->|H]; assumption.
  - rewrite in_app_iff. simpl. intuition.
Qed.
End MapFacts.

Section SetFacts.
Context {K : Type}.
Variable eqb : K -> K -> bool.
Hypothesis eqb_eq : forall a b, eqb a b = true <-> a = b.

Lemma set_has_In (k : K) (s : list K) :
  JsSet.has eqb k s = true <-> In k s.
Proof.
  unfold JsSet.has. rewrite existsb_exists. split.
  - intros [x [Hx E]]. apply eqb_eq in E. now subst.
  - intros H. exists k. split; [assumption|]. now apply eqb_eq.
Qed.

Lemma set_add_In (k k' : K) (s : list K) :
  In k' (JsSet.add eqb k s) <-> k' = k \/ In k' s.
Proof.
  unfold JsSet.add. destruct (JsSet.has eqb k s) eqn:E.
  - apply set_has_In in E. split; [tauto|]. intros [->|H]; assumption.
  - rewrite in_app_iff. simpl. intuition.
Qed.

Lemma set_add_NoDup (k : K) (s : list K) :
  NoDup s -> NoDup (JsSet.add eqb k s).
Proof.
  intros Hnd. unfold JsSet.add. destruct (JsSet.has eqb k s) eqn:E; [assumption|].
  apply NoDup_rev in Hnd. rewrite <- (rev_involutive (_ ++ _)).
  apply NoDup_rev. rewrite rev_app_distr. simpl. constructor; [|assumption].
  rewrite <- in_rev. intros Hin. apply set_has_In in Hin. congruence.
Qed.

Lemma ofArray_from (l s : list K) :
  NoDup (s ++ l) -> fold_left (fun s k => JsSet.add eqb k s) l s = s ++ l.
Proof.
  revert s. induction l as [|x l IH]; intros s Hnd; simpl.
  - now rewrite app_nil_r.
  - assert (Hx : JsSet.has eqb x s = false).
    { destruct (JsSet.has eqb x s) eqn:E; [|reflexivity].
      apply set_has_In in E. apply NoDup_remove_2 in Hnd.
      exfalso. apply Hnd. apply in_or_app. now left. }
    assert (Hadd : JsSet.add eqb x s = s ++ [x])
      by (unfold JsSet.add; now rewrite Hx).
    rewrite Hadd.
    rewrite IH; rewrite <- app_assoc; [reflexivity|exact Hnd].
Qed.

(** [new Set(arr)] of an array without repetition has [arr.length]
    elements. *)
Lemma ofArray_NoDup (l : list K) : NoDup l -> JsSet.ofArray eqb l = l.
Proof. intros H. unfold JsSet.ofArray. now rewrite ofArray_from. Qed.
End SetFacts.

Lemma Zeqb_eq (a b : Z) : Z.eqb a b = true <-> a = b.
Proof. apply Z.eqb_eq. Qed.

(** ** One person's record through the three loops *)

(** The record of [person] in the map, or the initial record. *)
Definition personView (person : string) (personMap : PersonMap) : PersonData.t :=
  match JsMap.get String.eqb person personMap with
  | Some data => data
  | None => PersonData.empty
  end.

Definition touch (k : string) (f : PersonData.t -> PersonData.t)
    (personMap : PersonMap) : PersonMap :=
  mutatePerson k f (ensurePerson k personMap).

Lemma get_touch (k q : string) f (pm : PersonMap) :
  JsMap.get String.eqb q (touch k f pm)
  = if String.eqb k q then Some (f (personView k pm))
    else JsMap.get String.eqb q pm.
Proof.
  unfold touch, mutatePerson, ensurePerson, personView, JsMap.has.
  destruct (JsMap.get String.eqb k pm) as [d|] eqn:E.
  - rewrite E. destruct (String.eqb k q) eqn:Ekq.
    + apply String.eqb_eq in Ekq. subst q.
      apply (get_set_same String.eqb String.eqb_eq).
    + apply String.eqb_neq in Ekq.
      now apply (get_set_other String.eqb String.eqb_eq).
  - rewrite (get_set_same String.eqb String.eqb_eq).
    destruct (String.eqb k q) eqn:Ekq.
    + apply String.eqb_eq in Ekq. subst q.
      apply (get_set_same String.eqb String.eqb_eq).
    + apply String.eqb_neq in Ekq.
      rewrite !(get_set_other String.eqb String.eqb_eq) by assumption.
      reflexivity.
Qed.

Lemma view_touch (k q : string) f (pm : PersonMap) :
  personView q (touch k f pm)
  = if String.eqb k q then f (personView q pm) else personView q pm.
Proof.
  unfold personView at 1. rewrite get_touch.
  destruct (String.eqb k q) eqn:E; [|reflexivity].
  apply String.eqb_eq in E. now subst.
Qed.

Lemma keys_touch (k q : string) f (pm : PersonMap) :
  In q (JsMap.keys (touch k f pm)) <-> q = k \/ In q (JsMap.keys pm).
Proof.
  rewrite <- !(has_true_keys String.eqb String.eqb_eq).
  unfold JsMap.has. rewrite get_touch.
  destruct (String.eqb k q) eqn:E.
  - apply String.eqb_eq in E. intuition.
  - apply String.eqb_neq in E.
    destruct (JsMap.get String.eqb q pm); intuition congruence.
Qed.

Lemma NoDup_touch (k : string) f (pm : PersonMap) :
  NoDup (JsMap.keys pm) -> NoDup (JsMap.keys (touch k f pm)).
Proof.
  intros H. unfold touch, mutatePerson, ensurePerson.
  assert (H' : NoDup (JsMap.keys
            (if JsMap.has String.eqb k pm then pm
             else JsMap.set String.eqb k PersonData.empty pm))).
  { destruct (JsMap.has String.eqb k pm); [assumption|].
    now apply (NoDup_keys_set String.eqb String.eqb_eq). }
  destruct (JsMap.get String.eqb k _); [|assumption].
  now apply (NoDup_keys_set String.eqb String.eqb_eq).
Qed.

(** A loop whose body skips some items and otherwise updates the record
    of the item's person, seen from one person. *)
Section FoldTouch.
Context {X : Type}.
Variable skip : X -> bool.
Variable who : X -> string.
Variable act : X -> PersonData.t -> PersonData.t.

Definition loopBody (pm : PersonMap) (x : X) : PersonMap :=
  if skip x then pm else touch (who x) (act x) pm.

Definition loopBodyFor (q : string) (d : PersonData.t) (x : X) : PersonData.t :=
  if skip x then d else if String.eqb (who x) q then act x d else d.

Lemma view_loop (q : string) (xs : list X) (pm : PersonMap) :
  personView q (fold_left loopBody xs pm)
  = fold_left (loopBodyFor q) xs (personView q pm).
Proof.
  revert pm. induction xs as [|x xs IH]; intros pm; simpl; [reflexivity|].
  rewrite IH. f_equal. unfold loopBody, loopBodyFor.
  destruct (skip x); [reflexivity|]. apply view_touch.
Qed.

Lemma keys_loop (q : string) (xs : list X) (pm : PersonMap) :
  In q (JsMap.keys (fold_left loopBody xs pm))
  <-> In q (JsMap.keys pm) \/ exists x, In x xs /\ skip x = false /\ who x = q.
Proof.
  revert pm. induction xs as [|x xs IH]; intros pm; simpl.
  - split; [tauto|]. intros [H|[x [[] _]]]. assumption.
  - rewrite IH. unfold loopBody. destruct (skip x) eqn:E.
    + split.
      * intros [H|[y [Hy Hy']]]; [tauto|]. right. exists y. tauto.
      * intros [H|[y [[->|Hy] [Hs Hw]]]]; [tauto|congruence|].
        right. exists y. tauto.
    + rewrite keys_touch. split.
      * intros [[->|H]|[y [Hy Hy']]]; [|tauto|].
        -- right. exists x. tauto.
        -- right. exists y. tauto.
      * intros [H|[y [[->|Hy] [Hs Hw]]]]; [tauto| |].
        -- left. left. now symmetry.
        -- right. exists y. tauto.
Qed.

Lemma NoDup_loop (xs : list X) (pm : PersonMap) :
  NoDup (JsMap.keys pm) -> NoDup (JsMap.keys (fold_left loopBody xs pm)).
Proof.
  revert pm. induction xs as [|x xs IH]; intros pm H; simpl; [assumption|].
  apply IH. unfold loopBody. destruct (skip x); [assumption|].
  now apply NoDup_touch.
Qed.
End FoldTouch.

(** ** Grouping by person *)

Section GroupFacts.
Context {A : Type}.
Variable key : A -> string.

Definition groupStep (byPerson : list (string * list A)) (r : A)
    : list (string * list A) :=
  let byPerson :=
    if JsMap.has String.eqb (key r) byPerson then byPerson
    else JsMap.set String.eqb (key r) [] byPerson in
  match JsMap.get String.eqb (key r) byPerson with
  | Some rs => JsMap.set String.eqb (key r) (rs ++ [r]) byPerson
  | None => byPerson
  end.

Definition listOf (o : option (list A)) : list A :=
  match o with Some l => l | None => [] end.

Lemma get_groupStep (q : string) (g : list (string * list A)) (r : A) :
  JsMap.get String.eqb q (groupStep g r)
  = if String.eqb (key r) q
    then Some (listOf (JsMap.get String.eqb q g) ++ [r])
    else JsMap.get String.eqb q g.
Proof.
  unfold groupStep, JsMap.has.
  destruct (JsMap.get String.eqb (key r) g) as [l|] eqn:E.
  - rewrite E. destruct (String.eqb (key r) q) eqn:Ekq.
    + apply String.eqb_eq in Ekq. subst q. rewrite E.
      apply (get_set_same String.eqb String.eqb_eq).
    + apply String.eqb_neq in Ekq.
      now apply (get_set_other String.eqb String.eqb_eq).
  - rewrite (get_set_same String.eqb String.eqb_eq).
    destruct (String.eqb (key r) q) eqn:Ekq.
    + apply String.eqb_eq in Ekq. subst q. rewrite E.
      apply (get_set_same String.eqb String.eqb_eq).
    + apply String.eqb_neq in Ekq.
      rewrite !(get_set_other String.eqb String.eqb_eq) by assumption.
      reflexivity.
Qed.

Lemma NoDup_groupStep (g : list (string * list A)) (r : A) :
  NoDup (JsMap.keys g) -> NoDup (JsMap.keys (groupStep g r)).
Proof.
  intros H. unfold groupStep.
  assert (H' : NoDup (JsMap.keys
            (if JsMap.has String.eqb (key r) g then g
             else JsMap.set String.eqb (key r) [] g))).
  { destruct (JsMap.has String.eqb (key r) g); [assumption|].
    now apply (NoDup_keys_set String.eqb String.eqb_eq). }
  destruct (JsMap.get String.eqb (key r) _); [|assumption].
  now apply (NoDup_keys_set String.eqb String.eqb_eq).
Qed.

Definition recordsOf (q : string) (records : list A) : list A :=
  filter (fun r => String.eqb (key r) q) records.

Lemma get_group_from (q : string) (records : list A)
    (g : list (string * list A)) :
  JsMap.get String.eqb q (fold_left groupStep records g)
  = match JsMap.get String.eqb q g, recordsOf q records with
    | Some l, mine => Some (l ++ mine)
    | None, [] => None
    | None, mine => Some mine
    end.
Proof.
  revert g. induction records as [|r records IH]; intros g; simpl.
  - destruct (JsMap.get String.eqb q g); [now rewrite app_nil_r|reflexivity].
  - rewrite IH, get_groupStep.
    destruct (String.eqb (key r) q) eqn:E.
    + destruct (JsMap.get String.eqb q g); simpl.
      * now rewrite <- app_assoc.
      * reflexivity.
    + reflexivity.
Qed.

Lemma groupByPerson_fold (records : list A) :
  groupByPerson key records = fold_left groupStep records [].
Proof. reflexivity. Qed.

(** The group of a person holds the person's records, in their order, and
    exists only when there is one. *)
Lemma get_groupByPerson (q : string) (records : list A) :
  JsMap.get String.eqb q (groupByPerson key records)
  = match recordsOf q records with
    | [] => None
    | mine => Some mine
    end.
Proof. rewrite groupByPerson_fold, get_group_from. reflexivity. Qed.

Lemma NoDup_groupByPerson (records : list A) :
  NoDup (JsMap.keys (groupByPerson key records)).
Proof.
  rewrite groupByPerson_fold.
  assert (H : NoDup (JsMap.keys (@nil (string * list A)))) by constructor.
  revert H. generalize (@nil (string * list A)).
  induction records as [|r records IH]; intros g H; simpl; [assumption|].
  apply IH. now apply NoDup_groupStep.
Qed.

Lemma groupByPerson_nonempty (q : string) (l : list A) (records : list A) :
  In (q, l) (groupByPerson key records) -> l <> [].
Proof.
  intros Hin.
  apply (In_get_Some String.eqb String.eqb_eq) in Hin;
    [|apply NoDup_groupByPerson].
  rewrite get_groupByPerson in Hin.
  destruct (recordsOf q records); [discriminate|].
  injection Hin as <-. discriminate.
Qed.

(** A loop over the groups, seen from one person. *)
Lemma fold_groups_for {D : Type} (G : string -> list A -> D -> D)
    (q : string) (g : list (string * list A)) (d : D) :
  NoDup (JsMap.keys g) ->
  fold_left (fun d x => if String.eqb (fst x) q then G (fst x) (snd x) d else d) g d
  = match JsMap.get String.eqb q g with
    | Some rs => G q rs d
    | None => d
    end.
Proof.
  revert d. induction g as [|[k rs] g IH]; intros d Hnd; simpl; [reflexivity|].
  inversion_clear Hnd as [|? ? Hnotin Hnd'].
  rewrite IH by assumption.
  destruct (String.eqb k q) eqn:E.
  - apply String.eqb_eq in E. subst k.
    apply (get_None_keys String.eqb String.eqb_eq) in Hnotin.
    now rewrite Hnotin.
  - reflexivity.
Qed.
End GroupFacts.

Lemma fold_left_ext {A B : Type} (f g : A -> B -> A) (l : list B) (a : A) :
  (forall a b, f a b = g a b) -> fold_left f l a = fold_left g l a.
Proof.
  intros H. revert a. induction l as [|b l IH]; intros a; simpl; [reflexivity|].
  now rewrite H, IH.
Qed.

(** ** The three loops, seen from one person *)

Definition notBot {A : Type} (who : A -> string) (r : A) : bool :=
  negb (isBot (who r)).

(** The reviews of [person] among those of a pull request: bots'
    reviews are dropped first. *)
Definition reviewsOf (person : string) (prReviews : list ReviewData.t)
    : list ReviewData.t :=
  recordsOf ReviewData.reviewer person (filter (notBot ReviewData.reviewer) prReviews).

Definition commentsOf (person : string) (prComments : list CommentData.t)
    : list CommentData.t :=
  recordsOf CommentData.commenter person
    (filter (notBot CommentData.commenter) prComments).

Definition openedFor (person : string) (d : PersonData.t) (pr : PRData.t)
    : PersonData.t :=
  if isBot (PRData.author pr) then d
  else if String.eqb (PRData.author pr) person
       then recordOwnPR (PRData.number pr) d else d.

Definition reviewsFor (person : string)
    (reviewRequests : list (Z * list ReviewRequestData.t))
    (comments : list (Z * list CommentData.t))
    (d : PersonData.t) (entry : Z * list ReviewData.t) : PersonData.t :=
  match reviewsOf person (snd entry) with
  | [] => d
  | mine =>
      recordReviews (fst entry) (getOrEmpty (fst entry) reviewRequests)
        (getOrEmpty (fst entry) comments) person mine d
  end.

Definition commentsFor (person : string)
    (reviewRequests : list (Z * list ReviewRequestData.t))
    (d : PersonData.t) (entry : Z * list CommentData.t) : PersonData.t :=
  match commentsOf person (snd entry) with
  | [] => d
  | mine =>
      recordComments (fst entry) (getOrEmpty (fst entry) reviewRequests)
        person mine d
  end.

Lemma countOpened_loop (prs : list PRData.t) (pm : PersonMap) :
  countOpened prs pm
  = fold_left (loopBody (fun pr => isBot (PRData.author pr)) PRData.author
                 (fun pr => recordOwnPR (PRData.number pr))) prs pm.
Proof. reflexivity. Qed.

Lemma view_countOpened (q : string) (prs : list PRData.t) (pm : PersonMap) :
  personView q (countOpened prs pm) = fold_left (openedFor q) prs (personView q pm).
Proof. rewrite countOpened_loop, view_loop. reflexivity. Qed.

Lemma processPRReviews_loop reqs comments (pm : PersonMap)
    (entry : Z * list ReviewData.t) :
  processPRReviews reqs comments pm entry
  = fold_left
      (loopBody (fun _ => false) fst
         (fun x => recordReviews (fst entry) (getOrEmpty (fst entry) reqs)
                     (getOrEmpty (fst entry) comments) (fst x) (snd x)))
      (groupByPerson ReviewData.reviewer
         (filter (notBot ReviewData.reviewer) (snd entry))) pm.
Proof.
  destruct entry as [k prReviews]. unfold processPRReviews.
  apply fold_left_ext. intros a [r rs]. reflexivity.
Qed.

Lemma view_processPRReviews (q : string) reqs comments (pm : PersonMap)
    (entry : Z * list ReviewData.t) :
  personView q (processPRReviews reqs comments pm entry)
  = reviewsFor q reqs comments (personView q pm) entry.
Proof.
  rewrite processPRReviews_loop, view_loop.
  unfold loopBodyFor. cbv beta iota.
  rewrite (fold_groups_for
             (fun p rs => recordReviews (fst entry) (getOrEmpty (fst entry) reqs)
                            (getOrEmpty (fst entry) comments) p rs))
    by apply NoDup_groupByPerson.
  rewrite get_groupByPerson. unfold reviewsFor, reviewsOf.
  now destruct (recordsOf _ _ _).
Qed.

Lemma view_processReviews (q : string) reviews reqs comments (pm : PersonMap) :
  personView q (processReviews reviews reqs comments pm)
  = fold_left (reviewsFor q reqs comments) reviews (personView q pm).
Proof.
  unfold processReviews. revert pm.
  induction reviews as [|e reviews IH]; intros pm; simpl; [reflexivity|].
  now rewrite IH, view_processPRReviews.
Qed.

Lemma processPRComments_loop reqs (pm : PersonMap)
    (entry : Z * list CommentData.t) :
  processPRComments reqs pm entry
  = fold_left
      (loopBody (fun _ => false) fst
         (fun x => recordComments (fst entry) (getOrEmpty (fst entry) reqs)
                     (fst x) (snd x)))
      (groupByPerson CommentData.commenter
         (filter (notBot CommentData.commenter) (snd entry))) pm.
Proof.
  destruct entry as [k prComments]. unfold processPRComments.
  apply fold_left_ext. intros a [r rs]. reflexivity.
Qed.

Lemma view_processPRComments (q : string) reqs (pm : PersonMap)
    (entry : Z * list CommentData.t) :
  personView q (processPRComments reqs pm entry)
  = commentsFor q reqs (personView q pm) entry.
Proof.
  rewrite processPRComments_loop, view_loop.
  unfold loopBodyFor. cbv beta iota.
  rewrite (fold_groups_for
             (fun p rs => recordComments (fst entry) (getOrEmpty (fst entry) reqs) p rs))
    by apply NoDup_groupByPerson.
  rewrite get_groupByPerson. unfold commentsFor, commentsOf.
  now destruct (recordsOf _ _ _).
Qed.

Lemma view_processComments (q : string) reqs comments (pm : PersonMap) :
  personView q (processComments reqs comments pm)
  = fold_left (commentsFor q reqs) comments (personView q pm).
Proof.
  unfold processComments. revert pm.
  induction comments as [|e comments IH]; intros pm; simpl; [reflexivity|].
  now rewrite IH, view_processPRComments.
Qed.

(** The record of a person once the three loops are over. *)
Definition personRecord (person : string) (prs : list PRData.t)
    (reviews : list (Z * list ReviewData.t))
    (reviewRequests : list (Z * list ReviewRequestData.t))
    (comments : list (Z * list CommentData.t)) : PersonData.t :=
  fold_left (commentsFor person reviewRequests) comments
    (fold_left (reviewsFor person reviewRequests comments) reviews
       (fold_left (openedFor person) prs PersonData.empty)).

Lemma view_aggregate (q : string) prs reviews reqs comments :
  personView q (aggregate prs reviews reqs comments)
  = personRecord q prs reviews reqs comments.
Proof.
  unfold aggregate, personRecord.
  now rewrite view_processComments, view_processReviews, view_countOpened.
Qed.

(** ** The persons of the map *)

Lemma recordsOf_In {A : Type} (key : A -> string) (q : string)
    (records : list A) (r : A) :
  In r (recordsOf key q records) <-> In r records /\ key r = q.
Proof.
  unfold recordsOf. rewrite filter_In. now rewrite String.eqb_eq.
Qed.

Lemma group_key_notBot {A : Type} (who : A -> string) (records : list A)
    (x : string * list A) :
  In x (groupByPerson who (filter (notBot who) records)) -> isBot (fst x) = false.
Proof.
  destruct x as [q l]. intros Hin. simpl.
  apply (In_get_Some String.eqb String.eqb_eq) in Hin;
    [|apply NoDup_groupByPerson].
  rewrite get_groupByPerson in Hin.
  destruct (recordsOf who q (filter (notBot who) records)) as [|r rs] eqn:E;
    [discriminate|].
  assert (Hr : In r (recordsOf who q (filter (notBot who) records)))
    by (rewrite E; now left).
  apply recordsOf_In in Hr. destruct Hr as [Hr <-].
  apply filter_In in Hr. destruct Hr as [_ Hr].
  unfold notBot in Hr. now apply Bool.negb_true_iff in Hr.
Qed.

Definition allPersons (pm : PersonMap) : Prop :=
  NoDup (JsMap.keys pm) /\ forall q, In q (JsMap.keys pm) -> isBot q = false.

Lemma allPersons_countOpened prs pm :
  allPersons pm -> allPersons (countOpened prs pm).
Proof.
  intros [Hnd Hbot]. rewrite countOpened_loop. split.
  - now apply NoDup_loop.
  - intros q Hq. apply keys_loop in Hq.
    destruct Hq as [Hq|[pr [_ [Hs <-]]]]; [now apply Hbot|exact Hs].
Qed.

Lemma allPersons_processPRReviews reqs comments pm entry :
  allPersons pm -> allPersons (processPRReviews reqs comments pm entry).
Proof.
  intros [Hnd Hbot]. rewrite processPRReviews_loop. split.
  - now apply NoDup_loop.
  - intros q Hq. apply keys_loop in Hq.
    destruct Hq as [Hq|[x [Hx [_ <-]]]]; [now apply Hbot|].
    now apply group_key_notBot in Hx.
Qed.

Lemma allPersons_processPRComments reqs pm entry :
  allPersons pm -> allPersons (processPRComments reqs pm entry).
Proof.
  intros [Hnd Hbot]. rewrite processPRComments_loop. split.
  - now apply NoDup_loop.
  - intros q Hq. apply keys_loop in Hq.
    destruct Hq as [Hq|[x [Hx [_ <-]]]]; [now apply Hbot|].
    now apply group_key_notBot in Hx.
Qed.

Lemma allPersons_aggregate prs reviews reqs comments :
  allPersons (aggregate prs reviews reqs comments).
Proof.
  unfold aggregate, processComments, processReviews.
  assert (H0 : allPersons (countOpened prs [])).
  { apply allPersons_countOpened. split; [constructor|intros q []]. }
  revert H0. generalize (countOpened prs []). intros pm0 H0.
  assert (H1 : allPersons (fold_left (processPRReviews reqs comments) reviews pm0)).
  { revert pm0 H0. induction reviews as [|e l IH]; intros pm0 H0; simpl;
      [assumption|]. apply IH. now apply allPersons_processPRReviews. }
  revert H1. generalize (fold_left (processPRReviews reqs comments) reviews pm0).
  intros pm1 H1. revert pm1 H1.
  induction comments as [|e l IH]; intros pm1 H1; simpl; [assumption|].
  apply IH. now apply allPersons_processPRComments.
Qed.

(** An entry of the final map is a person that is not a bot, with the
    record the three loops give that person. *)
Lemma aggregate_entry prs reviews reqs comments (q : string) (data : PersonData.t) :
  In (q, data) (aggregate prs reviews reqs comments) ->
  isBot q = false /\ data = personRecord q prs reviews reqs comments.
Proof.
  intros Hin. destruct (allPersons_aggregate prs reviews reqs comments) as [Hnd Hbot].
  split.
  - apply Hbot. change q with (fst (q, data)). now apply in_map.
  - rewrite <- view_aggregate. unfold personView.
    now rewrite (In_get_Some String.eqb String.eqb_eq _ _ _ Hnd Hin).
Qed.

(** ** From the map to the result *)

Section Output.
Variable localeCompare : string -> string -> Z.
Variable Date_now : nat -> Z.
Variable owner repo : string.

Local Abbreviation buildDetail := (buildDetail Date_now owner repo).
Local Abbreviation buildDetails := (buildDetails Date_now owner repo).
Local Abbreviation buildPerson := (buildPerson Date_now owner repo).
Local Abbreviation buildStats := (buildStats Date_now owner repo).
Local Abbreviation calculateStats :=
  (calculateStats localeCompare Date_now owner repo).

(** The fields of a row that do not depend on the clock. *)
Lemma buildDetail_fields reviews data tick pr :
  let d := fst (buildDetail reviews data tick pr) in
  PersonPRDetail.prNumber d = PRData.number pr
  /\ PersonPRDetail.reviewStatus d
     = (if JsSet.has Z.eqb (PRData.number pr) (PersonData.ownPRNumbers data)
        then OWN_PR
        else match JsMap.get Z.eqb (PRData.number pr) (PersonData.prDetailsMap data) with
             | Some stub => PRDetailStub.reviewStatus stub
             | None => NOT_REVIEWED
             end)
  /\ PersonPRDetail.firstCommentTime d
     = orNull (match JsMap.get Z.eqb (PRData.number pr) (PersonData.prDetailsMap data) with
               | Some stub => PRDetailStub.firstCommentTime stub
               | None => None
               end)
  /\ PersonPRDetail.firstReviewTime d
     = orNull (match JsMap.get Z.eqb (PRData.number pr) (PersonData.prDetailsMap data) with
               | Some stub => PRDetailStub.firstReviewTime stub
               | None => None
               end)
  /\ PersonPRDetail.reviewerCount d
     = JsSet.size (uniqueReviewers (getOrEmpty (PRData.number pr) reviews)).
Proof.
  unfold buildDetail.
  destruct (PRData.mergedAt pr); [|destruct (PRData.closedAt pr)];
    simpl; repeat split; reflexivity.
Qed.

(** The rows of a person follow the pull requests, one row each. *)
Lemma buildDetails_rows reviews data tick prs :
  Forall2 (fun d pr => exists t, d = fst (buildDetail reviews data t pr))
          (fst (buildDetails reviews data tick prs)) prs.
Proof.
  revert tick. induction prs as [|pr prs IH]; intros tick; simpl.
  - constructor.
  - destruct (buildDetail reviews data tick pr) as [d t1] eqn:E1.
    specialize (IH t1).
    destruct (buildDetails reviews data t1 prs) as [ds t2] eqn:E2.
    simpl in *. constructor; [|exact IH].
    exists tick. now rewrite E1.
Qed.

Lemma buildPerson_fields prs reviews tick person data :
  let s := fst (buildPerson prs reviews tick person data) in
  PersonStats.person s = person
  /\ PersonStats.prDetails s = fst (buildDetails reviews data tick prs).
Proof.
  unfold buildPerson.
  destruct (buildDetails reviews data tick prs) as [ds t]. simpl. auto.
Qed.

Lemma buildStats_In prs reviews tick (pm : PersonMap) (s : PersonStats.t) :
  In s (buildStats prs reviews tick pm) ->
  exists t q data,
    In (q, data) pm /\ s = fst (buildPerson prs reviews t q data).
Proof.
  revert tick. induction pm as [|[q data] pm IH]; intros tick; simpl; [tauto|].
  destruct (buildPerson prs reviews tick q data) as [s0 t0] eqn:E.
  intros [<-|Hin].
  - exists tick, q, data. rewrite E. auto.
  - destruct (IH _ Hin) as [t [q' [data' [H1 H2]]]].
    exists t, q', data'. auto.
Qed.

(** Every record of the result is built from a person of the map. *)
Lemma calculateStats_In prs reviews reqs comments (s : PersonStats.t) :
  In s (calculateStats prs reviews reqs comments) ->
  exists t q,
    isBot q = false
    /\ In q (JsMap.keys (aggregate prs reviews reqs comments))
    /\ s = fst (buildPerson prs reviews t q
                  (personRecord q prs reviews reqs comments)).
Proof.
  unfold calculateStats. intros Hin.
  apply sort_In in Hin. apply buildStats_In in Hin.
  destruct Hin as [t [q [data [Hin ->]]]].
  pose proof (aggregate_entry _ _ _ _ _ _ Hin) as [Hbot ->].
  exists t, q. repeat split; [assumption|].
  change q with (fst (q, personRecord q prs reviews reqs comments)).
  now apply in_map.
Qed.

(** C1. Every person of the result has one detail row per pull request of
    the input, in the order of the input: as many rows as pull requests,
    the [i]-th row carrying the number of the [i]-th pull request; when
    the pull-request numbers are pairwise distinct, exactly one row of
    the person carries the number of a given pull request. *)
Theorem prDetails_complete prs reviews reqs comments (s : PersonStats.t) :
  In s (calculateStats prs reviews reqs comments) ->
  List.length (PersonStats.prDetails s) = List.length prs
  /\ map PersonPRDetail.prNumber (PersonStats.prDetails s) = map PRData.number prs
  /\ (NoDup (map PRData.number prs) ->
      forall pr, In pr prs ->
        List.length
          (filter (fun d => PersonPRDetail.prNumber d =? PRData.number pr)
                  (PersonStats.prDetails s)) = 1%nat).
Proof.
  intros Hin. apply calculateStats_In in Hin.
  destruct Hin as [t [q [_ [_ ->]]]].
  destruct (buildPerson_fields prs reviews t q
              (personRecord q prs reviews reqs comments)) as [_ ->].
  pose proof (buildDetails_rows reviews
                (personRecord q prs reviews reqs comments) t prs) as Hrows.
  set (ds := fst (buildDetails reviews _ t prs)) in *. clearbody ds.
  assert (Hnum : map PersonPRDetail.prNumber ds = map PRData.number prs).
  { induction Hrows as [|d pr ds' prs' [t' ->] _ IH]; [reflexivity|].
    cbn [map]. rewrite IH.
    now rewrite (proj1 (buildDetail_fields reviews _ t' pr)). }
  split; [|split].
  - rewrite <- (length_map PersonPRDetail.prNumber), Hnum. apply length_map.
  - exact Hnum.
  - intros Hnd pr Hpr.
    assert (Hcount : forall (l : list PersonPRDetail.t) n,
               List.length (filter (fun d => PersonPRDetail.prNumber d =? n) l)
               = count_occ Z.eq_dec (map PersonPRDetail.prNumber l) n).
    { intros l n. induction l as [|d l IH]; simpl; [reflexivity|].
      destruct (Z.eq_dec (PersonPRDetail.prNumber d) n) as [->|Hne].
      - rewrite Z.eqb_refl. simpl. now rewrite IH.
      - apply Z.eqb_neq in Hne. now rewrite Hne. }
    rewrite Hcount, Hnum.
    apply NoDup_count_occ' with (decA := Z.eq_dec); [assumption|].
    now apply in_map.
Qed.
End Output.

(** ** What one step records *)

(** The review the tally of [person] for a pull request comes from:
    [sortedReviews[sortedReviews.length - 1]]. *)
Definition latestReviewOf (person : string) (prReviews : list ReviewData.t)
    : option ReviewData.t :=
  JsArray.lastOpt (JsArray.sort bySubmittedAt (reviewsOf person prReviews)).

(** The time of [reviewRequest], when there is one. *)
Definition requestTimeOf (person : string)
    (prReviewRequests : list ReviewRequestData.t) : option Z :=
  option_map ReviewRequestData.requestedAt (findRequest person prReviewRequests).

(** The three elapsed times computed for a reviewer of a pull request. *)
Definition reviewerElapsedComment (person : string)
    (prReviewRequests : list ReviewRequestData.t)
    (prComments : list CommentData.t) (mine : list ReviewData.t) : option Z :=
  match requestTimeOf person prReviewRequests with
  | Some t =>
      reviewerFirstCommentElapsed person (JsArray.sort bySubmittedAt mine) prComments t
  | None => None
  end.

Definition reviewerElapsedReview (person : string)
    (prReviewRequests : list ReviewRequestData.t)
    (mine : list ReviewData.t) : option Z :=
  match requestTimeOf person prReviewRequests with
  | Some t => reviewerFirstReviewElapsed (JsArray.sort bySubmittedAt mine) t
  | None => None
  end.

(** The record of a reviewer after the reviews of one pull request. *)
Definition recordedReviews (prNumber : Z)
    (prReviewRequests : list ReviewRequestData.t)
    (prComments : list CommentData.t)
    (person : string) (mine : list ReviewData.t) (latest : ReviewData.t)
    (d : PersonData.t) : PersonData.t :=
  let fc := keepNonNegative (reviewerElapsedComment person prReviewRequests prComments mine) in
  let fr := keepNonNegative (reviewerElapsedReview person prReviewRequests mine) in
  {| PersonData.prsOpened := PersonData.prsOpened d;
     PersonData.reviewsApproved :=
       PersonData.reviewsApproved d
       + match ReviewData.state latest with APPROVED => 1 | _ => 0 end;
     PersonData.reviewsCommented :=
       PersonData.reviewsCommented d
       + match ReviewData.state latest with COMMENTED => 1 | _ => 0 end;
     PersonData.reviewsChangesRequested :=
       PersonData.reviewsChangesRequested d
       + match ReviewData.state latest with CHANGES_REQUESTED => 1 | _ => 0 end;
     PersonData.prsReviewedSet := JsSet.add Z.eqb prNumber (PersonData.prsReviewedSet d);
     PersonData.ownPRNumbers := PersonData.ownPRNumbers d;
     PersonData.timeToFirstComment := pushTime (PersonData.timeToFirstComment d) fc;
     PersonData.timeToFirstReview := pushTime (PersonData.timeToFirstReview d) fr;
     PersonData.timeToApproval := pushTime (PersonData.timeToApproval d) fr;
     PersonData.prDetailsMap :=
       JsMap.set Z.eqb prNumber
         (PRDetailStub.mk (Reviewed (ReviewData.state latest)) fc fr)
         (PersonData.prDetailsMap d) |}.

Lemma recordReviews_eq prNumber prReqs prComments person mine latest d :
  JsArray.lastOpt (JsArray.sort bySubmittedAt mine) = Some latest ->
  recordReviews prNumber prReqs prComments person mine d
  = recordedReviews prNumber prReqs prComments person mine latest d.
Proof.
  intros H. unfold recordReviews, recordedReviews, reviewerElapsedComment,
    reviewerElapsedReview, requestTimeOf.
  rewrite H. reflexivity.
Qed.

Lemma latest_exists (mine : list ReviewData.t) :
  mine <> [] ->
  exists latest, JsArray.lastOpt (JsArray.sort bySubmittedAt mine) = Some latest.
Proof.
  intros Hne.
  destruct (JsArray.lastOpt (JsArray.sort bySubmittedAt mine)) as [r|] eqn:E.
  - now exists r.
  - apply lastOpt_None, sort_nil_inv in E. contradiction.
Qed.

Lemma latestReviewOf_None person prReviews :
  latestReviewOf person prReviews = None <-> reviewsOf person prReviews = [].
Proof.
  unfold latestReviewOf. split.
  - intros H. now apply lastOpt_None, sort_nil_inv in H.
  - intros ->. reflexivity.
Qed.

(** The reviews of one pull request either leave the record of a person
    alone (no review of the person) or record the latest review. *)
Lemma reviewsFor_cases person reqs comments d (e : Z * list ReviewData.t) :
  (latestReviewOf person (snd e) = None /\ reviewsFor person reqs comments d e = d)
  \/ (exists latest,
        latestReviewOf person (snd e) = Some latest
        /\ reviewsFor person reqs comments d e
           = recordedReviews (fst e) (getOrEmpty (fst e) reqs)
               (getOrEmpty (fst e) comments) person (reviewsOf person (snd e))
               latest d).
Proof.
  unfold reviewsFor.
  destruct (reviewsOf person (snd e)) as [|r rs] eqn:E.
  - left. split; [|reflexivity]. now apply latestReviewOf_None.
  - right. destruct (latest_exists (r :: rs)) as [latest Hl]; [discriminate|].
    exists latest. split.
    + unfold latestReviewOf. now rewrite E.
    + now apply recordReviews_eq.
Qed.

(** The elapsed time computed for a commenter of a pull request. *)
Definition recordedComments (prNumber : Z)
    (prReviewRequests : list ReviewRequestData.t)
    (person : string) (mine : list CommentData.t)
    (d : PersonData.t) : PersonData.t :=
  let fc := keepNonNegative (commenterFirstCommentElapsed person prReviewRequests mine) in
  {| PersonData.prsOpened := PersonData.prsOpened d;
     PersonData.reviewsApproved := PersonData.reviewsApproved d;
     PersonData.reviewsCommented := PersonData.reviewsCommented d;
     PersonData.reviewsChangesRequested := PersonData.reviewsChangesRequested d;
     PersonData.prsReviewedSet := PersonData.prsReviewedSet d;
     PersonData.ownPRNumbers := PersonData.ownPRNumbers d;
     PersonData.timeToFirstComment := pushTime (PersonData.timeToFirstComment d) fc;
     PersonData.timeToFirstReview := PersonData.timeToFirstReview d;
     PersonData.timeToApproval := PersonData.timeToApproval d;
     PersonData.prDetailsMap :=
       JsMap.set Z.eqb prNumber (PRDetailStub.mk COMMENTED_ONLY fc None)
         (PersonData.prDetailsMap d) |}.

Lemma commentsFor_cases person reqs d (e : Z * list CommentData.t) :
  ((commentsOf person (snd e) = []
    \/ JsMap.has Z.eqb (fst e) (PersonData.prDetailsMap d) = true)
   /\ commentsFor person reqs d e = d)
  \/ (commentsOf person (snd e) <> []
      /\ JsMap.has Z.eqb (fst e) (PersonData.prDetailsMap d) = false
      /\ commentsFor person reqs d e
         = recordedComments (fst e) (getOrEmpty (fst e) reqs) person
             (commentsOf person (snd e)) d).
Proof.
  unfold commentsFor.
  destruct (commentsOf person (snd e)) as [|c cs] eqn:E.
  - left. auto.
  - unfold recordComments.
    destruct (JsMap.has Z.eqb (fst e) (PersonData.prDetailsMap d)) eqn:Eh.
    + left. auto.
    + right. split; [discriminate|]. split; reflexivity.
Qed.

Lemma openedFor_cases person d (pr : PRData.t) :
  isBot person = false ->
  openedFor person d pr
  = if String.eqb (PRData.author pr) person
    then recordOwnPR (PRData.number pr) d else d.
Proof.
  intros Hbot. unfold openedFor.
  destruct (String.eqb (PRData.author pr) person) eqn:E.
  - apply String.eqb_eq in E. rewrite E, Hbot. reflexivity.
  - now destruct (isBot (PRData.author pr)).
Qed.

(** A property of the record that every step keeps holds at the end. *)
Lemma personRecord_ind (P : PersonData.t -> Prop) person prs reviews reqs comments :
  P PersonData.empty ->
  (forall d pr, P d -> P (openedFor person d pr)) ->
  (forall d e, P d -> P (reviewsFor person reqs comments d e)) ->
  (forall d e, P d -> P (commentsFor person reqs d e)) ->
  P (personRecord person prs reviews reqs comments).
Proof.
  intros H0 H1 H2 H3. unfold personRecord.
  assert (Hfold : forall (X : Type) (f : PersonData.t -> X -> PersonData.t)
                         (l : list X) d,
             (forall d x, P d -> P (f d x)) -> P d -> P (fold_left f l d)).
  { intros X f l. induction l as [|x l IH]; intros d Hf Hd; simpl; auto. }
  apply Hfold; [exact H3|]. apply Hfold; [exact H2|]. apply Hfold; auto.
Qed.

(** ** Own pull requests *)

(** The pull requests of the input opened by [person]. *)
Definition openedBy (person : string) (prs : list PRData.t) : list PRData.t :=
  filter (fun pr => String.eqb (PRData.author pr) person) prs.

Ltac review_step person reqs comments d e :=
  let latest := fresh "latest" in
  let Hl := fresh "Hlatest" in
  let Hs := fresh "Hstep" in
  destruct (reviewsFor_cases person reqs comments d e)
    as [[Hl Hs]|[latest [Hl Hs]]]; rewrite Hs.

Ltac comment_step person reqs d e :=
  let Hc := fresh "Hcase" in
  let Hh := fresh "Hhas" in
  let Hs := fresh "Hstep" in
  destruct (commentsFor_cases person reqs d e)
    as [[Hc Hs]|[Hc [Hh Hs]]]; rewrite Hs.

Lemma opened_fold person prs d :
  isBot person = false ->
  let d' := fold_left (openedFor person) prs d in
  PersonData.ownPRNumbers d'
  = fold_left (fun s k => JsSet.add Z.eqb k s)
      (map PRData.number (openedBy person prs)) (PersonData.ownPRNumbers d)
  /\ PersonData.prsOpened d'
     = PersonData.prsOpened d + Z.of_nat (List.length (openedBy person prs)).
Proof.
  intros Hbot. revert d. induction prs as [|pr prs IH]; intros d; simpl.
  - split; [reflexivity|lia].
  - destruct (IH (openedFor person d pr)) as [IH1 IH2].
    rewrite IH1, IH2, (openedFor_cases person d pr Hbot).
    destruct (String.eqb (PRData.author pr) person); simpl.
    + split; [reflexivity|lia].
    + split; reflexivity.
Qed.

Lemma personRecord_own person prs reviews reqs comments :
  isBot person = false ->
  PersonData.ownPRNumbers (personRecord person prs reviews reqs comments)
  = JsSet.ofArray Z.eqb (map PRData.number (openedBy person prs))
  /\ PersonData.prsOpened (personRecord person prs reviews reqs comments)
     = Z.of_nat (List.length (openedBy person prs)).
Proof.
  intros Hbot. unfold personRecord.
  destruct (opened_fold person prs PersonData.empty Hbot) as [H1 H2].
  simpl in H1, H2. unfold JsSet.ofArray. rewrite <- H1, <- H2.
  generalize (fold_left (openedFor person) prs PersonData.empty). intros d0.
  assert (Hrev : forall l d,
             PersonData.ownPRNumbers (fold_left (reviewsFor person reqs comments) l d)
             = PersonData.ownPRNumbers d
             /\ PersonData.prsOpened (fold_left (reviewsFor person reqs comments) l d)
                = PersonData.prsOpened d).
  { induction l as [|e l IH]; intros d; simpl; [auto|].
    destruct (IH (reviewsFor person reqs comments d e)) as [-> ->].
    review_step person reqs comments d e; auto. }
  assert (Hcom : forall l d,
             PersonData.ownPRNumbers (fold_left (commentsFor person reqs) l d)
             = PersonData.ownPRNumbers d
             /\ PersonData.prsOpened (fold_left (commentsFor person reqs) l d)
                = PersonData.prsOpened d).
  { induction l as [|e l IH]; intros d; simpl; [auto|].
    destruct (IH (commentsFor person reqs d e)) as [-> ->].
    comment_step person reqs d e; auto. }
  destruct (Hcom comments (fold_left (reviewsFor person reqs comments) reviews d0))
    as [-> ->].
  apply Hrev.
Qed.

(** The numbers of the pull requests a person opened are pairwise distinct
    when those of all the pull requests are. *)
Lemma openedBy_distinct person prs :
  NoDup (map PRData.number prs) ->
  NoDup (map PRData.number (openedBy person prs)).
Proof.
  unfold openedBy. induction prs as [|pr prs IH]; intros Hnd; [constructor|].
  cbn [map filter] in *. apply NoDup_cons_iff in Hnd. destruct Hnd as [Hfresh Hnd].
  destruct (String.eqb (PRData.author pr) person); [|now apply IH].
  cbn [map]. apply NoDup_cons_iff. split; [|now apply IH].
  intros Hin. apply Hfresh. apply in_map_iff in Hin.
  destruct Hin as [pr' [Hnum Hin]]. apply filter_In in Hin.
  rewrite <- Hnum. apply in_map. exact (proj1 Hin).
Qed.

Lemma NoDup_map_inj {A B : Type} (f : A -> B) (l : list A) (x y : A) :
  NoDup (map f l) -> In x l -> In y l -> f x = f y -> x = y.
Proof.
  induction l as [|z l IH]; simpl; [tauto|].
  intros H Hx Hy Hf. inversion_clear H as [|? ? Hnotin Hnd].
  destruct Hx as [->|Hx], Hy as [->|Hy]; auto.
  - exfalso. apply Hnotin. rewrite Hf. now apply in_map.
  - exfalso. apply Hnotin. rewrite <- Hf. now apply in_map.
Qed.

(** With pairwise distinct pull-request numbers, the own numbers of a
    person are those of the pull requests the person opened. *)
Lemma personRecord_own_distinct person prs reviews reqs comments :
  isBot person = false -> NoDup (map PRData.number prs) ->
  PersonData.ownPRNumbers (personRecord person prs reviews reqs comments)
  = map PRData.number (openedBy person prs).
Proof.
  intros Hbot Hnd.
  rewrite (proj1 (personRecord_own person prs reviews reqs comments Hbot)).
  apply (ofArray_NoDup Z.eqb Zeqb_eq). now apply openedBy_distinct.
Qed.

Lemma own_has_author person prs reviews reqs comments (pr : PRData.t) :
  isBot person = false -> NoDup (map PRData.number prs) -> In pr prs ->
  JsSet.has Z.eqb (PRData.number pr)
    (PersonData.ownPRNumbers (personRecord person prs reviews reqs comments)) = true
  <-> PRData.author pr = person.
Proof.
  intros Hbot Hnd Hpr.
  rewrite (set_has_In Z.eqb Zeqb_eq), personRecord_own_distinct by assumption.
  rewrite in_map_iff. unfold openedBy. split.
  - intros [pr' [Hnum Hin]]. apply filter_In in Hin. destruct Hin as [Hin Ha].
    apply String.eqb_eq in Ha.
    now rewrite <- (NoDup_map_inj PRData.number prs pr' pr Hnd Hin Hpr Hnum).
  - intros Ha. exists pr. split; [reflexivity|].
    apply filter_In. split; [assumption|]. now apply String.eqb_eq.
Qed.

(** ** The detail stub of a person for a pull request *)

Definition reviewStub (person : string)
    (prReviewRequests : list ReviewRequestData.t)
    (prComments : list CommentData.t) (mine : list ReviewData.t)
    (latest : ReviewData.t) : PRDetailStub.t :=
  PRDetailStub.mk (Reviewed (ReviewData.state latest))
    (keepNonNegative (reviewerElapsedComment person prReviewRequests prComments mine))
    (keepNonNegative (reviewerElapsedReview person prReviewRequests mine)).

Definition commentStub (person : string)
    (prReviewRequests : list ReviewRequestData.t)
    (mine : list CommentData.t) : PRDetailStub.t :=
  PRDetailStub.mk COMMENTED_ONLY
    (keepNonNegative (commenterFirstCommentElapsed person prReviewRequests mine))
    None.

(** The stub of [person] for pull request [k], from the input: that of the
    reviews of the person when there is one, else that of the comments of
    the person when there is one. *)
Definition pairStub (person : string) (k : Z)
    (reviews : list (Z * list ReviewData.t))
    (reviewRequests : list (Z * list ReviewRequestData.t))
    (comments : list (Z * list CommentData.t)) : option PRDetailStub.t :=
  match latestReviewOf person (getOrEmpty k reviews) with
  | Some latest =>
      Some (reviewStub person (getOrEmpty k reviewRequests) (getOrEmpty k comments)
              (reviewsOf person (getOrEmpty k reviews)) latest)
  | None =>
      match commentsOf person (getOrEmpty k comments) with
      | [] => None
      | mine => Some (commentStub person (getOrEmpty k reviewRequests) mine)
      end
  end.

Lemma getOrEmpty_cons {A : Type} (k k0 : Z) (l0 : list A) (m : list (Z * list A)) :
  getOrEmpty k ((k0, l0) :: m) = if Z.eqb k0 k then l0 else getOrEmpty k m.
Proof. unfold getOrEmpty. simpl. now destruct (Z.eqb k0 k). Qed.

Lemma getOrEmpty_absent {A : Type} (k : Z) (m : list (Z * list A)) :
  ~ In k (JsMap.keys m) -> getOrEmpty k m = [].
Proof.
  intros H. apply (get_None_keys Z.eqb Zeqb_eq) in H.
  unfold getOrEmpty. now rewrite H.
Qed.

Lemma stub_after_reviews person reqs comments (k : Z) reviews d :
  NoDup (JsMap.keys reviews) ->
  JsMap.get Z.eqb k
    (PersonData.prDetailsMap (fold_left (reviewsFor person reqs comments) reviews d))
  = match latestReviewOf person (getOrEmpty k reviews) with
    | Some latest =>
        Some (reviewStub person (getOrEmpty k reqs) (getOrEmpty k comments)
                (reviewsOf person (getOrEmpty k reviews)) latest)
    | None => JsMap.get Z.eqb k (PersonData.prDetailsMap d)
    end.
Proof.
  revert d. induction reviews as [|[k0 rs0] l IH]; intros d Hnd; [reflexivity|].
  inversion_clear Hnd as [|? ? Hnotin Hnd']. cbn [fold_left].
  rewrite IH by assumption. rewrite getOrEmpty_cons.
  destruct (Z.eqb k0 k) eqn:E.
  - apply Z.eqb_eq in E. subst k0.
    rewrite (getOrEmpty_absent k l Hnotin). cbn [latestReviewOf].
    change (latestReviewOf person []) with (@None ReviewData.t).
    review_step person reqs comments d (k, rs0); cbn [fst snd] in *.
    + now rewrite Hlatest.
    + rewrite Hlatest. unfold recordedReviews, reviewStub. cbn [PersonData.prDetailsMap].
      apply (get_set_same Z.eqb Zeqb_eq).
  - apply Z.eqb_neq in E.
    destruct (latestReviewOf person (getOrEmpty k l)); [reflexivity|].
    review_step person reqs comments d (k0, rs0); [reflexivity|].
    unfold recordedReviews. cbn [PersonData.prDetailsMap fst].
    now apply (get_set_other Z.eqb Zeqb_eq).
Qed.

Lemma stub_after_comments person reqs (k : Z) comments d :
  NoDup (JsMap.keys comments) ->
  JsMap.get Z.eqb k
    (PersonData.prDetailsMap (fold_left (commentsFor person reqs) comments d))
  = match JsMap.get Z.eqb k (PersonData.prDetailsMap d) with
    | Some stub => Some stub
    | None =>
        match commentsOf person (getOrEmpty k comments) with
        | [] => None
        | mine => Some (commentStub person (getOrEmpty k reqs) mine)
        end
    end.
Proof.
  revert d. induction comments as [|[k0 cs0] l IH]; intros d Hnd.
  - cbn [fold_left]. now destruct (JsMap.get Z.eqb k (PersonData.prDetailsMap d)).
  - inversion_clear Hnd as [|? ? Hnotin Hnd']. cbn [fold_left].
    rewrite IH by assumption. rewrite getOrEmpty_cons.
    destruct (Z.eqb k0 k) eqn:E.
    + apply Z.eqb_eq in E. subst k0.
      rewrite (getOrEmpty_absent k l Hnotin).
      change (commentsOf person []) with (@nil CommentData.t).
      comment_step person reqs d (k, cs0); cbn [fst snd] in *.
      * destruct Hcase as [Hcase|Hcase].
        -- now rewrite Hcase.
        -- unfold JsMap.has in Hcase.
           destruct (JsMap.get Z.eqb k (PersonData.prDetailsMap d));
             [reflexivity|discriminate].
      * unfold JsMap.has in Hhas.
        destruct (JsMap.get Z.eqb k (PersonData.prDetailsMap d)); [discriminate|].
        unfold recordedComments, commentStub. cbn [PersonData.prDetailsMap].
        rewrite (get_set_same Z.eqb Zeqb_eq).
        now destruct (commentsOf person cs0).
    + apply Z.eqb_neq in E.
      comment_step person reqs d (k0, cs0); [reflexivity|].
      unfold recordedComments. cbn [PersonData.prDetailsMap fst].
      now rewrite (get_set_other Z.eqb Zeqb_eq) by assumption.
Qed.

Lemma opened_details person prs d :
  PersonData.prDetailsMap (fold_left (openedFor person) prs d)
  = PersonData.prDetailsMap d.
Proof.
  revert d. induction prs as [|pr prs IH]; intros d; simpl; [reflexivity|].
  rewrite IH. unfold openedFor.
  destruct (isBot (PRData.author pr)); [reflexivity|].
  now destruct (String.eqb (PRData.author pr) person).
Qed.

(** In a run whose maps have pairwise distinct keys, the stub kept for a
    person and a pull request is the one the input determines. *)
Lemma personRecord_stub person prs reviews reqs comments (k : Z) :
  NoDup (JsMap.keys reviews) -> NoDup (JsMap.keys comments) ->
  JsMap.get Z.eqb k
    (PersonData.prDetailsMap (personRecord person prs reviews reqs comments))
  = pairStub person k reviews reqs comments.
Proof.
  intros Hr Hc. unfold personRecord, pairStub.
  rewrite stub_after_comments, stub_after_reviews by assumption.
  rewrite opened_details. cbn [PersonData.empty PersonData.prDetailsMap JsMap.get].
  now destruct (latestReviewOf person (getOrEmpty k reviews)).
Qed.

(** ** What the timing collections hold *)

Lemma nonNegative_Some (v w : Z) : nonNegative v = Some w <-> w = v /\ 0 <= v.
Proof.
  unfold nonNegative. destruct (v >=? 0) eqn:E.
  - apply Z.geb_le in E. split; [intros [= <-]; auto|intros [-> _]; reflexivity].
  - rewrite Z.geb_leb in E. apply Z.leb_gt in E.
    split; [discriminate|intros [_ H]; lia].
Qed.

Lemma nonNegative_None (v : Z) : nonNegative v = None <-> v < 0.
Proof.
  unfold nonNegative. destruct (v >=? 0) eqn:E.
  - apply Z.geb_le in E. split; [discriminate|lia].
  - rewrite Z.geb_leb in E. apply Z.leb_gt in E. tauto.
Qed.

Lemma keepNonNegative_Some (o : option Z) (w : Z) :
  keepNonNegative o = Some w <-> o = Some w /\ 0 <= w.
Proof.
  destruct o as [v|]; simpl.
  - rewrite nonNegative_Some. split.
    + intros [-> H]. auto.
    + intros [[= ->] H]. auto.
  - split; [discriminate|intros [H _]; discriminate].
Qed.

Lemma pushTime_In (coll : list Z) (o : option Z) (v : Z) :
  In v (pushTime coll o) <-> In v coll \/ o = Some v.
Proof.
  destruct o as [w|]; simpl.
  - rewrite in_app_iff. simpl. split.
    + intros [H|[->|[]]]; auto.
    + intros [H|[= ->]]; auto.
  - split; [auto|]. intros [H|H]; [assumption|discriminate].
Qed.

(** The three timing collections hold no negative value. *)
Definition timesNonNegative (d : PersonData.t) : Prop :=
  (forall v, In v (PersonData.timeToFirstComment d) -> 0 <= v)
  /\ (forall v, In v (PersonData.timeToFirstReview d) -> 0 <= v)
  /\ (forall v, In v (PersonData.timeToApproval d) -> 0 <= v).

Lemma personRecord_nonNegative person prs reviews reqs comments :
  timesNonNegative (personRecord person prs reviews reqs comments).
Proof.
  apply personRecord_ind.
  - repeat split; intros v [].
  - intros d pr H. unfold openedFor.
    destruct (isBot (PRData.author pr)); [assumption|].
    destruct (String.eqb (PRData.author pr) person); assumption.
  - intros d e [H1 [H2 H3]]. review_step person reqs comments d e;
      [repeat split; assumption|].
    unfold recordedReviews, timesNonNegative.
    cbn [PersonData.timeToFirstComment PersonData.timeToFirstReview
         PersonData.timeToApproval].
    repeat split; intros v Hv; apply pushTime_In in Hv;
      (destruct Hv as [Hv|Hv]; [auto|now apply keepNonNegative_Some in Hv]).
  - intros d e [H1 [H2 H3]]. comment_step person reqs d e;
      [repeat split; assumption|].
    unfold recordedComments, timesNonNegative.
    cbn [PersonData.timeToFirstComment PersonData.timeToFirstReview
         PersonData.timeToApproval].
    repeat split; try assumption. intros v Hv. apply pushTime_In in Hv.
    destruct Hv as [Hv|Hv]; [auto|now apply keepNonNegative_Some in Hv].
Qed.

(** A time kept in a stub was pushed to the collection it belongs to. *)
Definition stubsPushed (d : PersonData.t) : Prop :=
  forall k stub,
    JsMap.get Z.eqb k (PersonData.prDetailsMap d) = Some stub ->
    (forall v, PRDetailStub.firstCommentTime stub = Some v ->
               In v (PersonData.timeToFirstComment d))
    /\ (forall v, PRDetailStub.firstReviewTime stub = Some v ->
                  In v (PersonData.timeToFirstReview d)
                  /\ In v (PersonData.timeToApproval d)).

Lemma personRecord_stubsPushed person prs reviews reqs comments :
  stubsPushed (personRecord person prs reviews reqs comments).
Proof.
  apply personRecord_ind.
  - intros k stub H. discriminate.
  - intros d pr H. unfold openedFor.
    destruct (isBot (PRData.author pr)); [assumption|].
    destruct (String.eqb (PRData.author pr) person); assumption.
  - intros d e H. review_step person reqs comments d e; [assumption|].
    intros k stub. unfold recordedReviews.
    cbn [PersonData.timeToFirstComment PersonData.timeToFirstReview
         PersonData.timeToApproval PersonData.prDetailsMap].
    destruct (Z.eq_dec (fst e) k) as [<-|Hne].
    + rewrite (get_set_same Z.eqb Zeqb_eq). intros [= <-].
      cbn [PRDetailStub.firstCommentTime PRDetailStub.firstReviewTime].
      split; intros v Hv; rewrite !pushTime_In; auto.
    + rewrite (get_set_other Z.eqb Zeqb_eq) by assumption. intros Hget.
      destruct (H k stub Hget) as [Hc Hr].
      split; intros v Hv; rewrite !pushTime_In.
      * left. now apply Hc.
      * destruct (Hr v Hv). auto.
  - intros d e H. comment_step person reqs d e; [assumption|].
    intros k stub. unfold recordedComments.
    cbn [PersonData.timeToFirstComment PersonData.timeToFirstReview
         PersonData.timeToApproval PersonData.prDetailsMap].
    destruct (Z.eq_dec (fst e) k) as [<-|Hne].
    + rewrite (get_set_same Z.eqb Zeqb_eq). intros [= <-].
      cbn [PRDetailStub.firstCommentTime PRDetailStub.firstReviewTime].
      split; intros v Hv; [|discriminate]. rewrite pushTime_In. auto.
    + rewrite (get_set_other Z.eqb Zeqb_eq) by assumption. intros Hget.
      destruct (H k stub Hget) as [Hc Hr].
      split; intros v Hv; [|now apply Hr].
      rewrite pushTime_In. left. now apply Hc.
Qed.

(** The status kept in a stub is a review state or COMMENTED_ONLY. *)
Definition stubsClassified (d : PersonData.t) : Prop :=
  forall k stub,
    JsMap.get Z.eqb k (PersonData.prDetailsMap d) = Some stub ->
    PRDetailStub.reviewStatus stub <> OWN_PR
    /\ PRDetailStub.reviewStatus stub <> NOT_REVIEWED.

Lemma personRecord_stubsClassified person prs reviews reqs comments :
  stubsClassified (personRecord person prs reviews reqs comments).
Proof.
  apply personRecord_ind.
  - intros k stub H. discriminate.
  - intros d pr H. unfold openedFor.
    destruct (isBot (PRData.author pr)); [assumption|].
    destruct (String.eqb (PRData.author pr) person); assumption.
  - intros d e H. review_step person reqs comments d e; [assumption|].
    intros k stub. unfold recordedReviews. cbn [PersonData.prDetailsMap].
    destruct (Z.eq_dec (fst e) k) as [<-|Hne].
    + rewrite (get_set_same Z.eqb Zeqb_eq). intros [= <-].
      split; discriminate.
    + rewrite (get_set_other Z.eqb Zeqb_eq) by assumption. apply H.
  - intros d e H. comment_step person reqs d e; [assumption|].
    intros k stub. unfold recordedComments. cbn [PersonData.prDetailsMap].
    destruct (Z.eq_dec (fst e) k) as [<-|Hne].
    + rewrite (get_set_same Z.eqb Zeqb_eq). intros [= <-].
      split; discriminate.
    + rewrite (get_set_other Z.eqb Zeqb_eq) by assumption. apply H.
Qed.

(** The minimum reported for a collection without negative value that
    holds a zero is zero. *)
Lemma calculateTimeMetrics_zero (durations : list Z) :
  In 0 durations -> (forall v, In v durations -> 0 <= v) ->
  exists m, calculateTimeMetrics durations = Some m /\ TimeMetrics.min m = 0.
Proof.
  intros H0 Hpos. destruct durations as [|d ds]; [destruct H0|].
  eexists. split; [reflexivity|]. cbn [TimeMetrics.min].
  pose proof (numericAscending_sorted (d :: ds)) as Hs.
  assert (Hin0 : In 0 (JsArray.sort numericAscending (d :: ds)))
    by now apply sort_In.
  assert (Hall : forall v, In v (JsArray.sort numericAscending (d :: ds)) -> 0 <= v).
  { intros v Hv. apply Hpos. now apply sort_In in Hv. }
  destruct (JsArray.sort numericAscending (d :: ds)) as [|x l]; [destruct Hin0|].
  cbn [nth]. inversion_clear Hs as [|? ? _ Hx].
  rewrite Forall_forall in Hx.
  assert (0 <= x) by (apply Hall; now left).
  destruct Hin0 as [->|Hin0]; [reflexivity|].
  specialize (Hx 0 Hin0). lia.
Qed.

(** ** Lists in correspondence *)

Lemma Forall2_impl_In {A B : Type} (R R' : A -> B -> Prop) (l1 : list A) (l2 : list B) :
  Forall2 R l1 l2 ->
  (forall x y, In x l1 -> In y l2 -> R x y -> R' x y) ->
  Forall2 R' l1 l2.
Proof.
  induction 1 as [|x y l1 l2 Hxy _ IH]; intros Himp; constructor.
  - apply Himp; [now left|now left|assumption].
  - apply IH. intros x' y' Hx' Hy'. apply Himp; now right.
Qed.

Lemma Forall2_In_l {A B : Type} (R : A -> B -> Prop) (l1 : list A) (l2 : list B) (x : A) :
  Forall2 R l1 l2 -> In x l1 -> exists y, In y l2 /\ R x y.
Proof.
  induction 1 as [|x' y l1 l2 Hxy _ IH]; intros Hin; [destruct Hin|].
  destruct Hin as [->|Hin].
  - exists y. split; [now left|assumption].
  - destruct (IH Hin) as [y' [Hy' HR]]. exists y'. split; [now right|assumption].
Qed.

(** ** Sets built by insertion *)

Lemma fold_add_In {A : Type} (eqb : A -> A -> bool)
    (eqb_eq : forall a b, eqb a b = true <-> a = b)
    (skip : A -> bool) (l s : list A) (k : A) :
  In k (fold_left (fun s x => if skip x then s else JsSet.add eqb x s) l s)
  <-> In k s \/ (In k l /\ skip k = false).
Proof.
  revert s. induction l as [|x l IH]; intros s; simpl.
  - tauto.
  - rewrite IH. destruct (skip x) eqn:E.
    + split.
      * intros [H|[H1 H2]]; auto.
      * intros [H|[[->|H1] H2]]; auto. congruence.
    + rewrite (set_add_In eqb eqb_eq). split.
      * intros [[->|H]|[H1 H2]]; auto.
      * intros [H|[[->|H1] H2]]; auto.
Qed.

Lemma fold_add_NoDup {A : Type} (eqb : A -> A -> bool)
    (eqb_eq : forall a b, eqb a b = true <-> a = b)
    (skip : A -> bool) (l s : list A) :
  NoDup s ->
  NoDup (fold_left (fun s x => if skip x then s else JsSet.add eqb x s) l s).
Proof.
  revert s. induction l as [|x l IH]; intros s H; simpl; [assumption|].
  apply IH. destruct (skip x); [assumption|].
  now apply (set_add_NoDup eqb eqb_eq).
Qed.

Lemma ofArray_In (l : list Z) (k : Z) : In k (JsSet.ofArray Z.eqb l) <-> In k l.
Proof.
  unfold JsSet.ofArray.
  pose proof (fold_add_In Z.eqb Zeqb_eq (fun _ => false) l [] k) as H.
  cbv beta iota in H. rewrite H. simpl. tauto.
Qed.

Lemma uniqueReviewers_fold (prReviews : list ReviewData.t) :
  uniqueReviewers prReviews
  = fold_left (fun s x => if isBot x then s else JsSet.add String.eqb x s)
      (map ReviewData.reviewer prReviews) [].
Proof.
  unfold uniqueReviewers. generalize (@nil string).
  induction prReviews as [|r l IH]; intros s; simpl; [reflexivity|].
  now rewrite IH.
Qed.

(** The reviewers counted for a pull request: every identity that is not a
    bot and has a review of the pull request, whatever its outcome, once. *)
Lemma uniqueReviewers_spec (prReviews : list ReviewData.t) :
  NoDup (uniqueReviewers prReviews)
  /\ forall r, In r (uniqueReviewers prReviews)
               <-> isBot r = false
                   /\ exists rv, In rv prReviews /\ ReviewData.reviewer rv = r.
Proof.
  rewrite uniqueReviewers_fold. split.
  - apply (fold_add_NoDup String.eqb String.eqb_eq). constructor.
  - intros r. rewrite (fold_add_In String.eqb String.eqb_eq), in_map_iff.
    simpl. split.
    + intros [[]|[[rv [H1 H2]] H3]]. split; [assumption|]. now exists rv.
    + intros [H1 [rv [H2 H3]]]. right. split; [|assumption]. now exists rv.
Qed.

(** ** The rows of a person *)

(** The status of a pull request that is not the person's own, from the
    reviews and the comments of the person on it. *)
Definition historyStatus (person : string) (k : Z)
    (reviews : list (Z * list ReviewData.t))
    (comments : list (Z * list CommentData.t)) : ReviewStatus :=
  match latestReviewOf person (getOrEmpty k reviews) with
  | Some latest => Reviewed (ReviewData.state latest)
  | None =>
      match commentsOf person (getOrEmpty k comments) with
      | [] => NOT_REVIEWED
      | _ :: _ => COMMENTED_ONLY
      end
  end.

Lemma pairStub_status person k reviews reqs comments :
  match pairStub person k reviews reqs comments with
  | Some stub => PRDetailStub.reviewStatus stub
  | None => NOT_REVIEWED
  end = historyStatus person k reviews comments.
Proof.
  unfold pairStub, historyStatus.
  destruct (latestReviewOf person (getOrEmpty k reviews)); [reflexivity|].
  now destruct (commentsOf person (getOrEmpty k comments)).
Qed.

Section Rows.
Variable localeCompare : string -> string -> Z.
Variable Date_now : nat -> Z.
Variable owner repo : string.

Local Abbreviation buildDetail := (buildDetail Date_now owner repo).
Local Abbreviation buildDetails := (buildDetails Date_now owner repo).
Local Abbreviation buildPerson := (buildPerson Date_now owner repo).
Local Abbreviation calculateStats :=
  (calculateStats localeCompare Date_now owner repo).

(** The rows of a record of the result, against the pull requests. *)
Lemma calculateStats_rows prs reviews reqs comments (s : PersonStats.t) :
  In s (calculateStats prs reviews reqs comments) ->
  isBot (PersonStats.person s) = false
  /\ Forall2
       (fun d pr =>
          In pr prs
          /\ exists t,
               d = fst (buildDetail reviews
                          (personRecord (PersonStats.person s) prs reviews reqs comments)
                          t pr))
       (PersonStats.prDetails s) prs.
Proof.
  intros Hin. apply calculateStats_In in Hin.
  destruct Hin as [t [q [Hbot [_ ->]]]].
  destruct (buildPerson_fields Date_now owner repo prs reviews t q
              (personRecord q prs reviews reqs comments)) as [-> ->].
  split; [assumption|].
  apply Forall2_impl_In with (2 := fun d pr _ Hpr H => conj Hpr H).
  apply buildDetails_rows.
Qed.

(** C9. In the rows of a person of the result, the row of a pull request
    the person opened is OWN_PR; with pairwise distinct pull-request
    numbers no row of a pull request opened by somebody else is OWN_PR;
    and, the maps having pairwise distinct keys, such a row is classified
    from the person's own reviews and comments on the pull request: the
    state of the person's latest review, else COMMENTED_ONLY when the
    person commented, else NOT_REVIEWED. *)
Theorem own_pr_exclusive prs reviews reqs comments (s : PersonStats.t) :
  In s (calculateStats prs reviews reqs comments) ->
  Forall2
    (fun d pr =>
       PersonPRDetail.prNumber d = PRData.number pr
       /\ (PRData.author pr = PersonStats.person s ->
           PersonPRDetail.reviewStatus d = OWN_PR)
       /\ (NoDup (map PRData.number prs) ->
           PersonPRDetail.reviewStatus d = OWN_PR ->
           PRData.author pr = PersonStats.person s)
       /\ (NoDup (map PRData.number prs) ->
           NoDup (JsMap.keys reviews) -> NoDup (JsMap.keys comments) ->
           PRData.author pr <> PersonStats.person s ->
           PersonPRDetail.reviewStatus d
           = historyStatus (PersonStats.person s) (PRData.number pr)
               reviews comments))
    (PersonStats.prDetails s) prs.
Proof.
  intros Hin. destruct (calculateStats_rows _ _ _ _ _ Hin) as [Hbot Hrows].
  set (q := PersonStats.person s) in *.
  apply Forall2_impl_In with (1 := Hrows).
  intros d pr _ _ [Hpr [t ->]].
  destruct (buildDetail_fields Date_now owner repo reviews
              (personRecord q prs reviews reqs comments) t pr)
    as [Hnum [Hst _]].
  split; [exact Hnum|]. rewrite Hst. clear Hnum Hst.
  split; [|split].
  - intros Ha.
    assert (Hown : JsSet.has Z.eqb (PRData.number pr)
              (PersonData.ownPRNumbers (personRecord q prs reviews reqs comments))
            = true).
    { apply (set_has_In Z.eqb Zeqb_eq).
      rewrite (proj1 (personRecord_own q prs reviews reqs comments Hbot)).
      apply ofArray_In. apply in_map. unfold openedBy.
      apply filter_In. split; [assumption|]. now apply String.eqb_eq. }
    now rewrite Hown.
  - intros Hnd.
    destruct (JsSet.has Z.eqb (PRData.number pr) _) eqn:Hown.
    + intros _. now apply (own_has_author q prs reviews reqs comments pr).
    + destruct (JsMap.get Z.eqb (PRData.number pr) _) as [stub|] eqn:Hget;
        [|discriminate].
      intros Hs.
      now destruct (personRecord_stubsClassified q prs reviews reqs comments
                      _ _ Hget).
  - intros Hnd Hr Hc Hne.
    destruct (JsSet.has Z.eqb (PRData.number pr) _) eqn:Hown.
    + exfalso. apply Hne.
      now apply (own_has_author q prs reviews reqs comments pr).
    + rewrite personRecord_stub by assumption. apply pairStub_status.
Qed.

(** C4, as the code has it. [reviewerCount] of a row is the number of
    distinct identities that are not bots and submitted at least one
    review of the pull request, whatever the outcome (approved, commented
    or changes requested); two rows of the same pull request, of whatever
    persons, carry the same [reviewerCount]. *)
Theorem reviewer_count_any_outcome prs reviews reqs comments (s : PersonStats.t) :
  In s (calculateStats prs reviews reqs comments) ->
  Forall2
    (fun d pr =>
       exists reviewers : list string,
         NoDup reviewers
         /\ (forall r, In r reviewers
                       <-> isBot r = false
                           /\ exists rv, In rv (getOrEmpty (PRData.number pr) reviews)
                                         /\ ReviewData.reviewer rv = r)
         /\ PersonPRDetail.reviewerCount d = Z.of_nat (List.length reviewers))
    (PersonStats.prDetails s) prs
  /\ forall s' d d',
       In s' (calculateStats prs reviews reqs comments) ->
       In d (PersonStats.prDetails s) -> In d' (PersonStats.prDetails s') ->
       PersonPRDetail.prNumber d = PersonPRDetail.prNumber d' ->
       PersonPRDetail.reviewerCount d = PersonPRDetail.reviewerCount d'.
Proof.
  intros Hin.
  assert (Hcount : forall s0 d,
             In s0 (calculateStats prs reviews reqs comments) ->
             In d (PersonStats.prDetails s0) ->
             PersonPRDetail.reviewerCount d
             = JsSet.size (uniqueReviewers
                             (getOrEmpty (PersonPRDetail.prNumber d) reviews))).
  { intros s0 d Hs0 Hd.
    destruct (calculateStats_rows _ _ _ _ _ Hs0) as [_ Hrows].
    destruct (Forall2_In_l _ _ _ _ Hrows Hd) as [pr [_ [_ [t ->]]]].
    destruct (buildDetail_fields Date_now owner repo reviews
                (personRecord (PersonStats.person s0) prs reviews reqs comments) t pr)
      as [-> [_ [_ [_ ->]]]].
    reflexivity. }
  split.
  - destruct (calculateStats_rows _ _ _ _ _ Hin) as [_ Hrows].
    apply Forall2_impl_In with (1 := Hrows).
    intros d pr Hd _ [_ [t Heq]].
    exists (uniqueReviewers (getOrEmpty (PRData.number pr) reviews)).
    destruct (uniqueReviewers_spec (getOrEmpty (PRData.number pr) reviews))
      as [Hnd Hspec].
    split; [exact Hnd|]. split; [exact Hspec|].
    rewrite (Hcount s d Hin Hd). rewrite Heq.
    now rewrite (proj1 (buildDetail_fields Date_now owner repo reviews _ t pr)).
  - intros s' d d' Hs' Hd Hd' Hnum.
    rewrite (Hcount s d Hin Hd), (Hcount s' d' Hs' Hd'), Hnum. reflexivity.
Qed.
End Rows.

(** ** The elapsed times of a person on a pull request *)

(** [timeToFirstComment] as computed for [person] on pull request [k]:
    in the loop over the reviews when the person reviewed the pull
    request, else in the loop over the comments. *)
Definition pairElapsedComment (person : string) (k : Z)
    (reviews : list (Z * list ReviewData.t))
    (reviewRequests : list (Z * list ReviewRequestData.t))
    (comments : list (Z * list CommentData.t)) : option Z :=
  match reviewsOf person (getOrEmpty k reviews) with
  | [] =>
      commenterFirstCommentElapsed person (getOrEmpty k reviewRequests)
        (commentsOf person (getOrEmpty k comments))
  | mine =>
      reviewerElapsedComment person (getOrEmpty k reviewRequests)
        (getOrEmpty k comments) mine
  end.

(** [timeToFirst] as computed for [person] on pull request [k]. *)
Definition pairElapsedReview (person : string) (k : Z)
    (reviews : list (Z * list ReviewData.t))
    (reviewRequests : list (Z * list ReviewRequestData.t)) : option Z :=
  match reviewsOf person (getOrEmpty k reviews) with
  | [] => None
  | mine => reviewerElapsedReview person (getOrEmpty k reviewRequests) mine
  end.

Lemma commenterFirstCommentElapsed_nil person prReqs :
  commenterFirstCommentElapsed person prReqs [] = None.
Proof.
  unfold commenterFirstCommentElapsed. now destruct (findRequest person prReqs).
Qed.

Lemma pairStub_comment person k reviews reqs comments (v : Z) :
  pairElapsedComment person k reviews reqs comments = Some v ->
  exists stub,
    pairStub person k reviews reqs comments = Some stub
    /\ PRDetailStub.firstCommentTime stub = nonNegative v.
Proof.
  unfold pairElapsedComment, pairStub.
  destruct (reviewsOf person (getOrEmpty k reviews)) as [|r rs] eqn:E.
  - rewrite (proj2 (latestReviewOf_None person (getOrEmpty k reviews)) E).
    destruct (commentsOf person (getOrEmpty k comments)) as [|c cs].
    + now rewrite commenterFirstCommentElapsed_nil.
    + intros H. eexists. split; [reflexivity|].
      unfold commentStub. cbn [PRDetailStub.firstCommentTime]. now rewrite H.
  - intros H. destruct (latest_exists (r :: rs)) as [latest Hl]; [discriminate|].
    unfold latestReviewOf. rewrite E, Hl. eexists. split; [reflexivity|].
    unfold reviewStub. cbn [PRDetailStub.firstCommentTime]. now rewrite H.
Qed.

Lemma pairStub_review person k reviews reqs comments (v : Z) :
  pairElapsedReview person k reviews reqs = Some v ->
  exists stub,
    pairStub person k reviews reqs comments = Some stub
    /\ PRDetailStub.firstReviewTime stub = nonNegative v.
Proof.
  unfold pairElapsedReview, pairStub.
  destruct (reviewsOf person (getOrEmpty k reviews)) as [|r rs] eqn:E;
    [discriminate|].
  intros H. destruct (latest_exists (r :: rs)) as [latest Hl]; [discriminate|].
  unfold latestReviewOf. rewrite E, Hl. eexists. split; [reflexivity|].
  unfold reviewStub. cbn [PRDetailStub.firstReviewTime]. now rewrite H.
Qed.

(** The times kept in the stub are the elapsed times of the pair that are
    not negative. *)
Lemma pairStub_times person k reviews reqs comments :
  match pairStub person k reviews reqs comments with
  | Some st => PRDetailStub.firstCommentTime st
  | None => None
  end = keepNonNegative (pairElapsedComment person k reviews reqs comments)
  /\ match pairStub person k reviews reqs comments with
     | Some st => PRDetailStub.firstReviewTime st
     | None => None
     end = keepNonNegative (pairElapsedReview person k reviews reqs).
Proof.
  unfold pairStub, pairElapsedComment, pairElapsedReview, latestReviewOf.
  destruct (reviewsOf person (getOrEmpty k reviews)) as [|r rs] eqn:E.
  - cbn [JsArray.sort JsArray.lastOpt].
    destruct (commentsOf person (getOrEmpty k comments)) as [|c cs].
    + rewrite commenterFirstCommentElapsed_nil. split; reflexivity.
    + split; reflexivity.
  - destruct (latest_exists (r :: rs)) as [latest ->]; [discriminate|].
    split; reflexivity.
Qed.

(** The status of a row, from the input. *)
Definition classify (person : string) (pr : PRData.t)
    (reviews : list (Z * list ReviewData.t))
    (comments : list (Z * list CommentData.t)) : ReviewStatus :=
  if String.eqb (PRData.author pr) person then OWN_PR
  else historyStatus person (PRData.number pr) reviews comments.

Section Timing.
Variable localeCompare : string -> string -> Z.
Variable Date_now : nat -> Z.
Variable owner repo : string.

Local Abbreviation buildDetail := (buildDetail Date_now owner repo).
Local Abbreviation buildPerson := (buildPerson Date_now owner repo).
Local Abbreviation calculateStats :=
  (calculateStats localeCompare Date_now owner repo).

(** The summary fields of a record, from the accumulator. *)
Lemma buildPerson_summary prs reviews tick person data :
  let s := fst (buildPerson prs reviews tick person data) in
  PersonStats.prsOpened s = PersonData.prsOpened data
  /\ PersonStats.reviewMetrics s
     = ReviewMetrics.mk (PersonData.reviewsApproved data)
         (PersonData.reviewsCommented data)
         (PersonData.reviewsChangesRequested data)
  /\ PersonStats.totalReviewsGiven s
     = PersonData.reviewsApproved data + PersonData.reviewsCommented data
       + PersonData.reviewsChangesRequested data
  /\ PersonStats.timeToFirstComment s
     = calculateTimeMetrics (PersonData.timeToFirstComment data)
  /\ PersonStats.timeToFirstReview s
     = calculateTimeMetrics (PersonData.timeToFirstReview data)
  /\ PersonStats.timeToApproval s
     = calculateTimeMetrics (PersonData.timeToApproval data).
Proof.
  unfold buildPerson.
  destruct (buildDetails Date_now owner repo reviews data tick prs)
    as [ds t].
  simpl. repeat split; reflexivity.
Qed.

(** A record of the result, with its accumulator. *)
Lemma calculateStats_record prs reviews reqs comments (s : PersonStats.t) :
  In s (calculateStats prs reviews reqs comments) ->
  exists t,
    In (PersonStats.person s,
        personRecord (PersonStats.person s) prs reviews reqs comments)
       (aggregate prs reviews reqs comments)
    /\ s = fst (buildPerson prs reviews t (PersonStats.person s)
                  (personRecord (PersonStats.person s) prs reviews reqs comments)).
Proof.
  unfold calculateStats. intros Hin.
  apply (proj1 (sort_In _ _ _)) in Hin.
  apply (buildStats_In localeCompare Date_now owner repo) in Hin.
  destruct Hin as [t [q [data [Hin ->]]]].
  pose proof (aggregate_entry _ _ _ _ _ _ Hin) as [Hbot Heq].
  destruct (buildPerson_fields Date_now owner repo prs reviews t q data)
    as [-> _].
  exists t. subst data. split; [assumption|reflexivity].
Qed.

(** The timing fields of the rows of a pull request, from the stub. *)
Lemma row_times prs reviews reqs comments (s : PersonStats.t)
    (d : PersonPRDetail.t) :
  NoDup (JsMap.keys reviews) -> NoDup (JsMap.keys comments) ->
  In s (calculateStats prs reviews reqs comments) ->
  In d (PersonStats.prDetails s) ->
  let stub := pairStub (PersonStats.person s) (PersonPRDetail.prNumber d)
                reviews reqs comments in
  PersonPRDetail.firstCommentTime d
  = orNull (match stub with
            | Some st => PRDetailStub.firstCommentTime st
            | None => None
            end)
  /\ PersonPRDetail.firstReviewTime d
     = orNull (match stub with
               | Some st => PRDetailStub.firstReviewTime st
               | None => None
               end).
Proof.
  intros Hr Hc Hin Hd.
  destruct (calculateStats_rows _ _ _ _ _ _ _ _ _ Hin) as [_ Hrows].
  destruct (Forall2_In_l _ _ _ _ Hrows Hd) as [pr [_ [_ [t ->]]]].
  destruct (buildDetail_fields Date_now owner repo reviews
              (personRecord (PersonStats.person s) prs reviews reqs comments) t pr)
    as [-> [_ [-> [-> _]]]].
  rewrite personRecord_stub by assumption. split; reflexivity.
Qed.

(** C10. When the time to first comment (to first review) computed for a
    person on a pull request is exactly 0, the person's
    [timeToFirstComment] ([timeToFirstReview]) metrics exist and report a
    minimum of 0, the 0 having been pushed to the collection, while the
    [firstCommentTime] ([firstReviewTime]) of every row of the person for
    that pull request is null. *)
Theorem zero_elapsed_counted_not_shown prs reviews reqs comments
    (s : PersonStats.t) (k : Z) :
  NoDup (JsMap.keys reviews) -> NoDup (JsMap.keys comments) ->
  In s (calculateStats prs reviews reqs comments) ->
  (pairElapsedComment (PersonStats.person s) k reviews reqs comments = Some 0 ->
     (forall data,
         In (PersonStats.person s, data) (aggregate prs reviews reqs comments) ->
         In 0 (PersonData.timeToFirstComment data))
     /\ (exists m, PersonStats.timeToFirstComment s = Some m
                   /\ TimeMetrics.min m = 0)
     /\ forall d, In d (PersonStats.prDetails s) ->
                  PersonPRDetail.prNumber d = k ->
                  PersonPRDetail.firstCommentTime d = None)
  /\ (pairElapsedReview (PersonStats.person s) k reviews reqs = Some 0 ->
        (forall data,
            In (PersonStats.person s, data) (aggregate prs reviews reqs comments) ->
            In 0 (PersonData.timeToFirstReview data))
        /\ (exists m, PersonStats.timeToFirstReview s = Some m
                      /\ TimeMetrics.min m = 0)
        /\ forall d, In d (PersonStats.prDetails s) ->
                     PersonPRDetail.prNumber d = k ->
                     PersonPRDetail.firstReviewTime d = None).
Proof.
  intros Hr Hc Hin.
  destruct (calculateStats_record _ _ _ _ _ Hin) as [t [Hagg Hs]].
  set (q := PersonStats.person s) in *.
  set (rec := personRecord q prs reviews reqs comments) in *.
  destruct (buildPerson_summary prs reviews t q rec)
    as [_ [_ [_ [Hfc [Hfr _]]]]].
  rewrite <- Hs in Hfc, Hfr.
  pose proof (personRecord_nonNegative q prs reviews reqs comments)
    as [Hpc [Hpr _]].
  pose proof (personRecord_stubsPushed q prs reviews reqs comments) as Hpushed.
  pose proof (personRecord_stub q prs reviews reqs comments k Hr Hc) as Hstub.
  fold rec in Hpc, Hpr, Hpushed, Hstub.
  split; intros Hzero.
  - destruct (pairStub_comment _ _ _ _ _ _ Hzero) as [stub [Hps Hfield]].
    change (nonNegative 0) with (Some 0) in Hfield.
    rewrite Hps in Hstub.
    assert (H0 : In 0 (PersonData.timeToFirstComment rec))
      by now apply (proj1 (Hpushed k stub Hstub)).
    split; [|split].
    + intros data Hdata.
      now rewrite (proj2 (aggregate_entry _ _ _ _ _ _ Hdata)).
    + rewrite Hfc. now apply calculateTimeMetrics_zero.
    + intros d Hd Hk.
      rewrite (proj1 (row_times _ _ _ _ _ _ Hr Hc Hin Hd)).
      fold q. rewrite Hk, Hps, Hfield. reflexivity.
  - destruct (pairStub_review _ _ _ _ comments _ Hzero) as [stub [Hps Hfield]].
    change (nonNegative 0) with (Some 0) in Hfield.
    rewrite Hps in Hstub.
    assert (H0 : In 0 (PersonData.timeToFirstReview rec))
      by now apply (proj2 (Hpushed k stub Hstub)).
    split; [|split].
    + intros data Hdata.
      now rewrite (proj2 (aggregate_entry _ _ _ _ _ _ Hdata)).
    + rewrite Hfr. now apply calculateTimeMetrics_zero.
    + intros d Hd Hk.
      rewrite (proj2 (row_times _ _ _ _ _ _ Hr Hc Hin Hd)).
      fold q. rewrite Hk, Hps, Hfield. reflexivity.
Qed.
End Timing.

(** ** What the timing collections are made of *)

(** What a computed elapsed time adds to a timing collection: itself
    when it is not negative, nothing otherwise. *)
Definition keptTimes (elapsed : option Z) : list Z :=
  match keepNonNegative elapsed with
  | Some v => [v]
  | None => []
  end.

(** [person] has a review on pull request [k]. *)
Definition reviewedBy (person : string)
    (reviews : list (Z * list ReviewData.t)) (k : Z) : bool :=
  match reviewsOf person (getOrEmpty k reviews) with
  | [] => false
  | _ :: _ => true
  end.

(** The pull requests for which the loops compute a time to first comment
    of [person], in the order they do: those of the reviews map that the
    person reviewed, then those of the comments map that the person did
    not review. *)
Definition timedPullRequests (person : string)
    (reviews : list (Z * list ReviewData.t))
    (comments : list (Z * list CommentData.t)) : list Z :=
  filter (reviewedBy person reviews) (JsMap.keys reviews)
  ++ filter (fun k => negb (reviewedBy person reviews k)) (JsMap.keys comments).

Lemma pushTime_kept (coll : list Z) (elapsed : option Z) :
  pushTime coll (keepNonNegative elapsed) = coll ++ keptTimes elapsed.
Proof.
  unfold keptTimes. destruct (keepNonNegative elapsed); simpl;
    [reflexivity|now rewrite app_nil_r].
Qed.

Lemma keptTimes_negative (v : Z) : v < 0 -> keptTimes (Some v) = [].
Proof.
  intros H. unfold keptTimes. cbn [keepNonNegative].
  now rewrite (proj2 (nonNegative_None v) H).
Qed.

Lemma flat_map_ext_In {A B : Type} (f g : A -> list B) (l : list A) :
  (forall x, In x l -> f x = g x) -> flat_map f l = flat_map g l.
Proof.
  induction l as [|x l IH]; intros H; simpl; [reflexivity|].
  rewrite (H x) by now left. rewrite IH; [reflexivity|].
  intros y Hy. apply H. now right.
Qed.

Lemma flat_map_keys {A B : Type} (f : Z -> list B) (l : list (Z * A)) :
  flat_map f (JsMap.keys l) = flat_map (fun e => f (fst e)) l.
Proof.
  unfold JsMap.keys. induction l as [|e l IH]; simpl; [reflexivity|].
  now rewrite IH.
Qed.

Lemma flat_map_filter {A B : Type} (p : A -> bool) (f : A -> list B) (l : list A) :
  flat_map f (filter p l) = flat_map (fun x => if p x then f x else []) l.
Proof.
  induction l as [|x l IH]; simpl; [reflexivity|].
  destruct (p x); simpl; now rewrite IH.
Qed.

(** An element that adds nothing can be left out. *)
Lemma flat_map_without {B : Type} (f : Z -> list B) (k : Z) (l : list Z) :
  f k = [] ->
  flat_map f l = flat_map f (filter (fun k' => negb (k' =? k)) l).
Proof.
  intros Hk. induction l as [|x l IH]; simpl; [reflexivity|].
  destruct (x =? k) eqn:E; simpl.
  - apply Z.eqb_eq in E. subst x. now rewrite Hk.
  - now rewrite IH.
Qed.

Lemma entry_of_key {A : Type} (m : list (Z * list A)) (e : Z * list A) :
  NoDup (JsMap.keys m) -> In e m -> getOrEmpty (fst e) m = snd e.
Proof.
  intros Hnd Hin. unfold getOrEmpty. destruct e as [k l]. cbn [fst snd].
  now rewrite (In_get_Some Z.eqb Zeqb_eq k l m Hnd Hin).
Qed.

(** The loop over the reviews adds, for each pull request the person
    reviewed, the elapsed times computed there that are not negative. *)
Lemma times_after_reviews person reqs comments reviews d :
  let d' := fold_left (reviewsFor person reqs comments) reviews d in
  PersonData.timeToFirstComment d'
  = PersonData.timeToFirstComment d
    ++ flat_map
         (fun e =>
            match reviewsOf person (snd e) with
            | [] => []
            | mine =>
                keptTimes (reviewerElapsedComment person (getOrEmpty (fst e) reqs)
                             (getOrEmpty (fst e) comments) mine)
            end) reviews
  /\ PersonData.timeToFirstReview d'
     = PersonData.timeToFirstReview d
       ++ flat_map
            (fun e =>
               match reviewsOf person (snd e) with
               | [] => []
               | mine =>
                   keptTimes (reviewerElapsedReview person (getOrEmpty (fst e) reqs)
                                mine)
               end) reviews
  /\ PersonData.timeToApproval d'
     = PersonData.timeToApproval d
       ++ flat_map
            (fun e =>
               match reviewsOf person (snd e) with
               | [] => []
               | mine =>
                   keptTimes (reviewerElapsedReview person (getOrEmpty (fst e) reqs)
                                mine)
               end) reviews.
Proof.
  cbv zeta. revert d. induction reviews as [|e l IH]; intros d; cbn [fold_left flat_map].
  - now rewrite !app_nil_r.
  - destruct (IH (reviewsFor person reqs comments d e)) as [-> [-> ->]].
    review_step person reqs comments d e.
    + apply latestReviewOf_None in Hlatest. rewrite Hlatest. cbn [app]. auto.
    + assert (Hne : reviewsOf person (snd e) <> []).
      { intros Hnil. apply latestReviewOf_None in Hnil. congruence. }
      unfold recordedReviews.
      cbn [PersonData.timeToFirstComment PersonData.timeToFirstReview
           PersonData.timeToApproval].
      rewrite !pushTime_kept, <- !app_assoc.
      destruct (reviewsOf person (snd e)) as [|r rs]; [contradiction|]. auto.
Qed.

(** The loop over the comments adds, for each pull request that has no
    stub yet, the elapsed time computed from the comments of the person
    when it is not negative. *)
Lemma times_after_comments person reqs comments d :
  NoDup (JsMap.keys comments) ->
  let d' := fold_left (commentsFor person reqs) comments d in
  PersonData.timeToFirstComment d'
  = PersonData.timeToFirstComment d
    ++ flat_map
         (fun e =>
            if JsMap.has Z.eqb (fst e) (PersonData.prDetailsMap d) then []
            else keptTimes (commenterFirstCommentElapsed person
                              (getOrEmpty (fst e) reqs)
                              (commentsOf person (snd e)))) comments
  /\ PersonData.timeToFirstReview d' = PersonData.timeToFirstReview d
  /\ PersonData.timeToApproval d' = PersonData.timeToApproval d.
Proof.
  cbv zeta. revert d. induction comments as [|e l IH]; intros d Hnd;
    cbn [fold_left flat_map].
  - now rewrite app_nil_r.
  - cbn [JsMap.keys map] in Hnd. apply NoDup_cons_iff in Hnd.
    destruct Hnd as [Hfresh Hnd].
    destruct (IH (commentsFor person reqs d e) Hnd) as [-> [-> ->]].
    assert (Hrest : forall d1,
               (d1 = d
                \/ PersonData.prDetailsMap d1
                   = JsMap.set Z.eqb (fst e)
                       (PRDetailStub.mk COMMENTED_ONLY
                          (keepNonNegative
                             (commenterFirstCommentElapsed person
                                (getOrEmpty (fst e) reqs) (commentsOf person (snd e))))
                          None)
                       (PersonData.prDetailsMap d)) ->
               flat_map
                 (fun e' =>
                    if JsMap.has Z.eqb (fst e') (PersonData.prDetailsMap d1) then []
                    else keptTimes (commenterFirstCommentElapsed person
                                      (getOrEmpty (fst e') reqs)
                                      (commentsOf person (snd e')))) l
               = flat_map
                   (fun e' =>
                      if JsMap.has Z.eqb (fst e') (PersonData.prDetailsMap d) then []
                      else keptTimes (commenterFirstCommentElapsed person
                                        (getOrEmpty (fst e') reqs)
                                        (commentsOf person (snd e')))) l).
    { intros d1 [->|Hmap]; [reflexivity|].
      apply flat_map_ext_In. intros e' He'.
      assert (Hne : fst e <> fst e').
      { intros Heq. apply Hfresh. rewrite Heq. now apply in_map. }
      unfold JsMap.has. rewrite Hmap.
      now rewrite (get_set_other Z.eqb Zeqb_eq) by assumption. }
    comment_step person reqs d e.
    + destruct Hcase as [Hcase|Hcase].
      * rewrite Hcase, commenterFirstCommentElapsed_nil.
        change (keptTimes None) with (@nil Z).
        destruct (JsMap.has Z.eqb (fst e) (PersonData.prDetailsMap d)); auto.
      * rewrite Hcase. auto.
    + rewrite Hhas, Hrest by (right; reflexivity).
      unfold recordedComments.
      cbn [PersonData.timeToFirstComment PersonData.timeToFirstReview
           PersonData.timeToApproval].
      now rewrite pushTime_kept, <- app_assoc.
Qed.

Lemma opened_times person prs d :
  let d' := fold_left (openedFor person) prs d in
  PersonData.timeToFirstComment d' = PersonData.timeToFirstComment d
  /\ PersonData.timeToFirstReview d' = PersonData.timeToFirstReview d
  /\ PersonData.timeToApproval d' = PersonData.timeToApproval d.
Proof.
  cbv zeta. revert d. induction prs as [|pr prs IH]; intros d; simpl; [auto|].
  destruct (IH (openedFor person d pr)) as [-> [-> ->]]. unfold openedFor.
  destruct (isBot (PRData.author pr)); [auto|].
  destruct (String.eqb (PRData.author pr) person); auto.
Qed.

(** In a run whose maps have pairwise distinct keys, each timing
    collection of a person holds, pull request after pull request, the
    elapsed time computed for the person on it when there is one and it
    is not negative, and nothing else. *)
Lemma personRecord_times person prs reviews reqs comments :
  NoDup (JsMap.keys reviews) -> NoDup (JsMap.keys comments) ->
  let rec := personRecord person prs reviews reqs comments in
  PersonData.timeToFirstComment rec
  = flat_map (fun k => keptTimes (pairElapsedComment person k reviews reqs comments))
      (timedPullRequests person reviews comments)
  /\ PersonData.timeToFirstReview rec
     = flat_map (fun k => keptTimes (pairElapsedReview person k reviews reqs))
         (JsMap.keys reviews)
  /\ PersonData.timeToApproval rec
     = flat_map (fun k => keptTimes (pairElapsedReview person k reviews reqs))
         (JsMap.keys reviews).
Proof.
  intros Hr Hc. cbv zeta. unfold personRecord.
  set (d0 := fold_left (openedFor person) prs PersonData.empty).
  set (d1 := fold_left (reviewsFor person reqs comments) reviews d0).
  destruct (times_after_comments person reqs comments d1 Hc) as [-> [-> ->]].
  destruct (times_after_reviews person reqs comments reviews d0) as [H1 [H2 H3]].
  fold d1 in H1, H2, H3. rewrite H1, H2, H3.
  destruct (opened_times person prs PersonData.empty) as [O1 [O2 O3]].
  fold d0 in O1, O2, O3. rewrite O1, O2, O3.
  cbn [PersonData.empty PersonData.timeToFirstComment PersonData.timeToFirstReview
       PersonData.timeToApproval app].
  assert (Hreview :
            flat_map
              (fun e =>
                 match reviewsOf person (snd e) with
                 | [] => []
                 | mine =>
                     keptTimes (reviewerElapsedReview person
                                  (getOrEmpty (fst e) reqs) mine)
                 end) reviews
            = flat_map (fun k => keptTimes (pairElapsedReview person k reviews reqs))
                (JsMap.keys reviews)).
  { rewrite flat_map_keys. apply flat_map_ext_In. intros e He.
    unfold pairElapsedReview. rewrite (entry_of_key reviews e Hr He).
    now destruct (reviewsOf person (snd e)). }
  split; [|split; exact Hreview].
  unfold timedPullRequests. rewrite flat_map_app. f_equal.
  - rewrite flat_map_filter, flat_map_keys. apply flat_map_ext_In. intros e He.
    unfold reviewedBy, pairElapsedComment. rewrite (entry_of_key reviews e Hr He).
    now destruct (reviewsOf person (snd e)).
  - rewrite flat_map_filter, flat_map_keys. apply flat_map_ext_In. intros e He.
    assert (Hhas : JsMap.has Z.eqb (fst e) (PersonData.prDetailsMap d1)
                   = reviewedBy person reviews (fst e)).
    { unfold JsMap.has, d1. rewrite stub_after_reviews by assumption.
      unfold d0. rewrite opened_details.
      cbn [PersonData.empty PersonData.prDetailsMap JsMap.get].
      unfold reviewedBy.
      destruct (latestReviewOf person (getOrEmpty (fst e) reviews)) as [latest|] eqn:El.
      - destruct (reviewsOf person (getOrEmpty (fst e) reviews)) eqn:Er;
          [|reflexivity].
        apply latestReviewOf_None in Er. congruence.
      - apply latestReviewOf_None in El. now rewrite El. }
    rewrite Hhas. unfold reviewedBy, pairElapsedComment.
    destruct (reviewsOf person (getOrEmpty (fst e) reviews)); [|reflexivity].
    cbn [negb]. now rewrite (entry_of_key comments e Hc He).
Qed.

Section NegativeElapsed.
Variable localeCompare : string -> string -> Z.
Variable Date_now : nat -> Z.
Variable owner repo : string.

Local Abbreviation calculateStats :=
  (calculateStats localeCompare Date_now owner repo).

(** The status of every row, from the pull requests, the reviews and the
    comments alone. *)
Lemma rows_classified prs reviews reqs comments (s : PersonStats.t) :
  NoDup (map PRData.number prs) ->
  NoDup (JsMap.keys reviews) -> NoDup (JsMap.keys comments) ->
  In s (calculateStats prs reviews reqs comments) ->
  Forall2
    (fun d pr =>
       PersonPRDetail.prNumber d = PRData.number pr
       /\ PersonPRDetail.reviewStatus d
          = classify (PersonStats.person s) pr reviews comments)
    (PersonStats.prDetails s) prs.
Proof.
  intros Hnd Hr Hc Hin.
  destruct (calculateStats_rows _ _ _ _ _ _ _ _ _ Hin) as [Hbot Hrows].
  set (q := PersonStats.person s) in *.
  apply Forall2_impl_In with (1 := Hrows).
  intros d pr _ _ [Hpr [t ->]].
  destruct (buildDetail_fields Date_now owner repo reviews
              (personRecord q prs reviews reqs comments) t pr)
    as [Hnum [Hst _]].
  split; [exact Hnum|]. rewrite Hst. unfold classify.
  pose proof (own_has_author q prs reviews reqs comments pr Hbot Hnd Hpr) as Hown.
  destruct (JsSet.has Z.eqb (PRData.number pr) _).
  - rewrite (proj2 (String.eqb_eq _ _) (proj1 Hown eq_refl)). reflexivity.
  - destruct (String.eqb (PRData.author pr) q) eqn:E.
    + apply String.eqb_eq in E. apply Hown in E. discriminate.
    + rewrite personRecord_stub by assumption. apply pairStub_status.
Qed.

(** C5. When the elapsed time computed for a person on a pull request
    (to the first comment, or to the first review) is negative, the pair
    adds nothing to the timing collections of the person: the collection
    the value would go to is made of the elapsed times, not negative,
    computed for the person on the other pull requests, one after the
    other, and of nothing else, and the value is in none of the three
    collections.  The timing field it would fill is null in the stub and
    in every row of the person for that pull request, and the stub is
    recorded all the same, with the status the reviews and comments give;
    the status of every row is the one the pull requests, reviews and
    comments determine, whatever the requests are. *)
Theorem negative_elapsed_dropped prs reviews reqs comments
    (s : PersonStats.t) (k v : Z) :
  NoDup (map PRData.number prs) ->
  NoDup (JsMap.keys reviews) -> NoDup (JsMap.keys comments) ->
  In s (calculateStats prs reviews reqs comments) ->
  v < 0 ->
  pairElapsedComment (PersonStats.person s) k reviews reqs comments = Some v
  \/ pairElapsedReview (PersonStats.person s) k reviews reqs = Some v ->
  (forall data,
      In (PersonStats.person s, data) (aggregate prs reviews reqs comments) ->
      ~ In v (PersonData.timeToFirstComment data)
      /\ ~ In v (PersonData.timeToFirstReview data)
      /\ ~ In v (PersonData.timeToApproval data)
      /\ (pairElapsedComment (PersonStats.person s) k reviews reqs comments
          = Some v ->
          PersonData.timeToFirstComment data
          = flat_map
              (fun k' =>
                 keptTimes (pairElapsedComment (PersonStats.person s) k'
                              reviews reqs comments))
              (filter (fun k' => negb (k' =? k))
                 (timedPullRequests (PersonStats.person s) reviews comments)))
      /\ (pairElapsedReview (PersonStats.person s) k reviews reqs = Some v ->
          PersonData.timeToFirstReview data
          = flat_map
              (fun k' =>
                 keptTimes (pairElapsedReview (PersonStats.person s) k'
                              reviews reqs))
              (filter (fun k' => negb (k' =? k)) (JsMap.keys reviews))
          /\ PersonData.timeToApproval data
             = flat_map
                 (fun k' =>
                    keptTimes (pairElapsedReview (PersonStats.person s) k'
                                 reviews reqs))
                 (filter (fun k' => negb (k' =? k)) (JsMap.keys reviews)))
      /\ exists stub,
           JsMap.get Z.eqb k (PersonData.prDetailsMap data) = Some stub
           /\ PRDetailStub.reviewStatus stub
              = historyStatus (PersonStats.person s) k reviews comments
           /\ (pairElapsedComment (PersonStats.person s) k reviews reqs comments
               = Some v -> PRDetailStub.firstCommentTime stub = None)
           /\ (pairElapsedReview (PersonStats.person s) k reviews reqs = Some v ->
               PRDetailStub.firstReviewTime stub = None))
  /\ (forall d,
         In d (PersonStats.prDetails s) -> PersonPRDetail.prNumber d = k ->
         (pairElapsedComment (PersonStats.person s) k reviews reqs comments
          = Some v -> PersonPRDetail.firstCommentTime d = None)
         /\ (pairElapsedReview (PersonStats.person s) k reviews reqs = Some v ->
             PersonPRDetail.firstReviewTime d = None))
  /\ Forall2
       (fun d pr =>
          PersonPRDetail.prNumber d = PRData.number pr
          /\ PersonPRDetail.reviewStatus d
             = classify (PersonStats.person s) pr reviews comments)
       (PersonStats.prDetails s) prs.
Proof.
  intros Hnd Hr Hc Hin Hneg Helapsed.
  set (q := PersonStats.person s) in *.
  assert (Hnone : nonNegative v = None) by now apply nonNegative_None.
  assert (Hstub : exists stub,
             pairStub q k reviews reqs comments = Some stub
             /\ (pairElapsedComment q k reviews reqs comments = Some v ->
                 PRDetailStub.firstCommentTime stub = None)
             /\ (pairElapsedReview q k reviews reqs = Some v ->
                 PRDetailStub.firstReviewTime stub = None)).
  { destruct Helapsed as [He|He].
    - destruct (pairStub_comment _ _ _ _ _ _ He) as [stub [Hps _]].
      exists stub. split; [assumption|]. split; intros He'.
      + destruct (pairStub_comment _ _ _ _ _ _ He') as [stub' [Hps' Hf]].
        rewrite Hps in Hps'. injection Hps' as <-. now rewrite Hf.
      + destruct (pairStub_review _ _ _ _ comments _ He') as [stub' [Hps' Hf]].
        rewrite Hps in Hps'. injection Hps' as <-. now rewrite Hf.
    - destruct (pairStub_review _ _ _ _ comments _ He) as [stub [Hps _]].
      exists stub. split; [assumption|]. split; intros He'.
      + destruct (pairStub_comment _ _ _ _ _ _ He') as [stub' [Hps' Hf]].
        rewrite Hps in Hps'. injection Hps' as <-. now rewrite Hf.
      + destruct (pairStub_review _ _ _ _ comments _ He') as [stub' [Hps' Hf]].
        rewrite Hps in Hps'. injection Hps' as <-. now rewrite Hf. }
  destruct Hstub as [stub [Hps [Hfc Hfr]]].
  split; [|split].
  - intros data Hdata.
    rewrite (proj2 (aggregate_entry _ _ _ _ _ _ Hdata)).
    destruct (personRecord_nonNegative q prs reviews reqs comments)
      as [H1 [H2 H3]].
    split; [intros Hv; apply H1 in Hv; lia|].
    split; [intros Hv; apply H2 in Hv; lia|].
    split; [intros Hv; apply H3 in Hv; lia|].
    destruct (personRecord_times q prs reviews reqs comments Hr Hc)
      as [T1 [T2 T3]].
    split; [|split].
    { intros He. rewrite T1. apply flat_map_without.
      rewrite He. now apply keptTimes_negative. }
    { intros He. rewrite T2, T3.
      split; apply flat_map_without; rewrite He; now apply keptTimes_negative. }
    exists stub. rewrite personRecord_stub by assumption.
    split; [assumption|]. split; [|split; assumption].
    pose proof (pairStub_status q k reviews reqs comments) as Hst.
    now rewrite Hps in Hst.
  - intros d Hd Hk.
    destruct (row_times localeCompare Date_now owner repo _ _ _ _ _ _
                Hr Hc Hin Hd) as [H1 H2].
    fold q in H1, H2. rewrite Hk, Hps in H1, H2.
    split; intros He.
    + rewrite H1, (Hfc He). reflexivity.
    + rewrite H2, (Hfr He). reflexivity.
  - now apply rows_classified with (reqs := reqs).
Qed.
End NegativeElapsed.

(** ** The tally of a person *)

Definition ReviewState_eqb (a b : ReviewState) : bool :=
  match a, b with
  | APPROVED, APPROVED => true
  | COMMENTED, COMMENTED => true
  | CHANGES_REQUESTED, CHANGES_REQUESTED => true
  | _, _ => false
  end.

(** The latest review of [person] on the pull request of entry [e] of the
    reviews has state [st]. *)
Definition latestIs (person : string) (st : ReviewState)
    (e : Z * list ReviewData.t) : bool :=
  match latestReviewOf person (snd e) with
  | Some latest => ReviewState_eqb (ReviewData.state latest) st
  | None => false
  end.

(** [person] has a review on the pull request of entry [e]. *)
Definition hasReviewed (person : string) (e : Z * list ReviewData.t) : bool :=
  match latestReviewOf person (snd e) with
  | Some _ => true
  | None => false
  end.

Definition countIf {A : Type} (p : A -> bool) (l : list A) : Z :=
  Z.of_nat (List.length (filter p l)).

Lemma countIf_cons {A : Type} (p : A -> bool) (x : A) (l : list A) :
  countIf p (x :: l) = (if p x then 1 else 0) + countIf p l.
Proof.
  unfold countIf. simpl. destruct (p x); simpl List.length; lia.
Qed.

Lemma tallies_after_reviews person reqs comments reviews d :
  let d' := fold_left (reviewsFor person reqs comments) reviews d in
  PersonData.reviewsApproved d'
  = PersonData.reviewsApproved d + countIf (latestIs person APPROVED) reviews
  /\ PersonData.reviewsCommented d'
     = PersonData.reviewsCommented d + countIf (latestIs person COMMENTED) reviews
  /\ PersonData.reviewsChangesRequested d'
     = PersonData.reviewsChangesRequested d
       + countIf (latestIs person CHANGES_REQUESTED) reviews.
Proof.
  revert d. induction reviews as [|e l IH]; intros d.
  - unfold countIf. simpl. repeat split; lia.
  - cbn [fold_left]. cbv zeta.
    destruct (IH (reviewsFor person reqs comments d e)) as [-> [-> ->]].
    rewrite !countIf_cons. unfold latestIs.
    review_step person reqs comments d e; rewrite Hlatest.
    + repeat split; lia.
    + unfold recordedReviews.
      cbn [PersonData.reviewsApproved PersonData.reviewsCommented
           PersonData.reviewsChangesRequested].
      destruct (ReviewData.state latest); cbn [ReviewState_eqb];
        repeat split; lia.
Qed.

Lemma reviewed_after_reviews person reqs comments reviews d :
  let d' := fold_left (reviewsFor person reqs comments) reviews d in
  (NoDup (PersonData.prsReviewedSet d) -> NoDup (PersonData.prsReviewedSet d'))
  /\ forall k, In k (PersonData.prsReviewedSet d')
               <-> In k (PersonData.prsReviewedSet d)
                   \/ exists e, In e reviews /\ fst e = k
                                /\ hasReviewed person e = true.
Proof.
  revert d. induction reviews as [|e l IH]; intros d.
  - cbn [fold_left]. cbv zeta. split; [auto|]. intros k. split; [auto|].
    intros [H|[e [[] _]]]. assumption.
  - cbn [fold_left]. cbv zeta.
    destruct (IH (reviewsFor person reqs comments d e)) as [IHnd IHin].
    assert (Hstep :
              (NoDup (PersonData.prsReviewedSet d) ->
               NoDup (PersonData.prsReviewedSet (reviewsFor person reqs comments d e)))
              /\ forall k,
                   In k (PersonData.prsReviewedSet (reviewsFor person reqs comments d e))
                   <-> In k (PersonData.prsReviewedSet d)
                       \/ (fst e = k /\ hasReviewed person e = true)).
    { unfold hasReviewed.
      review_step person reqs comments d e; rewrite Hlatest.
      - split; [auto|]. intros k. split; [auto|].
        intros [H|[_ H]]; [assumption|discriminate].
      - unfold recordedReviews. cbn [PersonData.prsReviewedSet]. split.
        + apply (set_add_NoDup Z.eqb Zeqb_eq).
        + intros k. rewrite (set_add_In Z.eqb Zeqb_eq). split.
          * intros [->|H]; auto.
          * intros [H|[<- _]]; auto. }
    destruct Hstep as [Hnd Hin]. split; [auto|].
    intros k. rewrite IHin, Hin. split.
    + intros [[H|[H1 H2]]|[e' [H1 [H2 H3]]]]; auto.
      * right. exists e. split; [now left|auto].
      * right. exists e'. split; [now right|auto].
    + intros [H|[e' [[->|H1] [H2 H3]]]]; auto.
      right. exists e'. auto.
Qed.

(** The loops over the pull requests and over the comments leave the
    tally and the reviewed pull requests alone. *)
Definition sameTally (d d' : PersonData.t) : Prop :=
  PersonData.reviewsApproved d' = PersonData.reviewsApproved d
  /\ PersonData.reviewsCommented d' = PersonData.reviewsCommented d
  /\ PersonData.reviewsChangesRequested d' = PersonData.reviewsChangesRequested d
  /\ PersonData.prsReviewedSet d' = PersonData.prsReviewedSet d.

Lemma sameTally_fold {X : Type} (f : PersonData.t -> X -> PersonData.t) :
  (forall d x, sameTally d (f d x)) ->
  forall l d, sameTally d (fold_left f l d).
Proof.
  intros Hf l. induction l as [|x l IH]; intros d; simpl.
  - repeat split.
  - destruct (IH (f d x)) as [E1 [E2 [E3 E4]]].
    destruct (Hf d x) as [F1 [F2 [F3 F4]]].
    unfold sameTally. rewrite E1, E2, E3, E4. auto.
Qed.

Lemma sameTally_opened person d pr : sameTally d (openedFor person d pr).
Proof.
  unfold openedFor. destruct (isBot (PRData.author pr)); [repeat split|].
  destruct (String.eqb (PRData.author pr) person); repeat split.
Qed.

Lemma sameTally_comments person reqs d e : sameTally d (commentsFor person reqs d e).
Proof. comment_step person reqs d e; repeat split. Qed.

Lemma personRecord_tally person prs reviews reqs comments :
  let rec := personRecord person prs reviews reqs comments in
  PersonData.reviewsApproved rec = countIf (latestIs person APPROVED) reviews
  /\ PersonData.reviewsCommented rec = countIf (latestIs person COMMENTED) reviews
  /\ PersonData.reviewsChangesRequested rec
     = countIf (latestIs person CHANGES_REQUESTED) reviews
  /\ NoDup (PersonData.prsReviewedSet rec)
  /\ forall k, In k (PersonData.prsReviewedSet rec)
               <-> exists e, In e reviews /\ fst e = k
                             /\ hasReviewed person e = true.
Proof.
  unfold personRecord. cbv zeta.
  destruct (sameTally_fold _ (sameTally_comments person reqs) comments
              (fold_left (reviewsFor person reqs comments) reviews
                 (fold_left (openedFor person) prs PersonData.empty)))
    as [-> [-> [-> ->]]].
  destruct (sameTally_fold _ (sameTally_opened person) prs PersonData.empty)
    as [H1 [H2 [H3 H4]]].
  destruct (tallies_after_reviews person reqs comments reviews
              (fold_left (openedFor person) prs PersonData.empty))
    as [-> [-> ->]].
  destruct (reviewed_after_reviews person reqs comments reviews
              (fold_left (openedFor person) prs PersonData.empty))
    as [Hnd Hin].
  rewrite H1, H2, H3. cbn [PersonData.empty PersonData.reviewsApproved
    PersonData.reviewsCommented PersonData.reviewsChangesRequested].
  repeat split; try lia.
  - apply Hnd. rewrite H4. constructor.
  - intros H. apply Hin in H. rewrite H4 in H. destruct H as [[]|H]. exact H.
  - intros H. apply Hin. now right.
Qed.

(** The review the tally comes from is one of the reviews of the person on
    the pull request, and none of them was submitted later. *)
Lemma latestReviewOf_latest person (prReviews : list ReviewData.t) latest :
  latestReviewOf person prReviews = Some latest ->
  In latest prReviews /\ ReviewData.reviewer latest = person
  /\ forall r, In r prReviews -> ReviewData.reviewer r = person ->
               isBot person = false ->
               ReviewData.submittedAt r <= ReviewData.submittedAt latest.
Proof.
  unfold latestReviewOf. intros H.
  pose proof (lastOpt_In _ _ H) as Hin. apply sort_In in Hin.
  unfold reviewsOf in Hin. apply recordsOf_In in Hin.
  destruct Hin as [Hin Hrev]. apply filter_In in Hin. destruct Hin as [Hin _].
  split; [assumption|]. split; [assumption|].
  intros r Hr Hq Hbot.
  apply (lastOpt_greatest ReviewData.submittedAt _ _
           (sort_sorted bySubmittedAt ReviewData.submittedAt
              (fun a b => eq_refl) _) H).
  apply sort_In. unfold reviewsOf. apply recordsOf_In. split; [|assumption].
  apply filter_In. split; [assumption|].
  unfold notBot. rewrite Hq, Hbot. reflexivity.
Qed.

Lemma hasReviewed_spec person (e : Z * list ReviewData.t) :
  isBot person = false ->
  hasReviewed person e = true
  <-> exists r, In r (snd e) /\ ReviewData.reviewer r = person.
Proof.
  intros Hbot. unfold hasReviewed.
  destruct (latestReviewOf person (snd e)) as [latest|] eqn:E.
  - split; [intros _|reflexivity].
    destruct (latestReviewOf_latest _ _ _ E) as [H1 [H2 _]]. now exists latest.
  - split; [discriminate|]. intros [r [Hr Hq]].
    apply latestReviewOf_None in E.
    assert (Hin : In r (reviewsOf person (snd e))).
    { unfold reviewsOf. apply recordsOf_In. split; [|assumption].
      apply filter_In. split; [assumption|].
      unfold notBot. rewrite Hq, Hbot. reflexivity. }
    rewrite E in Hin. destruct Hin.
Qed.

(** ** Every reviewer is a person of the result *)

Lemma keys_processPRReviews_reviewer reqs comments pm (e : Z * list ReviewData.t)
    (r : ReviewData.t) :
  In r (snd e) -> isBot (ReviewData.reviewer r) = false ->
  In (ReviewData.reviewer r) (JsMap.keys (processPRReviews reqs comments pm e)).
Proof.
  intros Hr Hbot. rewrite processPRReviews_loop. apply keys_loop. right.
  set (q := ReviewData.reviewer r).
  set (filtered := filter (notBot ReviewData.reviewer) (snd e)).
  assert (Hmine : In r (recordsOf ReviewData.reviewer q filtered)).
  { apply recordsOf_In. split; [|reflexivity]. apply filter_In.
    split; [assumption|]. unfold notBot. now rewrite Hbot. }
  pose proof (get_groupByPerson ReviewData.reviewer q filtered) as Hget.
  destruct (recordsOf ReviewData.reviewer q filtered) as [|r0 rs];
    [destruct Hmine|].
  apply (get_Some_In String.eqb String.eqb_eq) in Hget.
  exists (q, r0 :: rs). auto.
Qed.

Lemma keys_processPRReviews_mono reqs comments pm e q :
  In q (JsMap.keys pm) -> In q (JsMap.keys (processPRReviews reqs comments pm e)).
Proof. intros H. rewrite processPRReviews_loop. apply keys_loop. now left. Qed.

Lemma keys_processPRComments_mono reqs pm e q :
  In q (JsMap.keys pm) -> In q (JsMap.keys (processPRComments reqs pm e)).
Proof. intros H. rewrite processPRComments_loop. apply keys_loop. now left. Qed.

Lemma keys_fold_mono {X : Type} (f : PersonMap -> X -> PersonMap) (q : string) :
  (forall pm x, In q (JsMap.keys pm) -> In q (JsMap.keys (f pm x))) ->
  forall l pm, In q (JsMap.keys pm) -> In q (JsMap.keys (fold_left f l pm)).
Proof.
  intros Hf l. induction l as [|x l IH]; intros pm H; simpl; auto.
Qed.

Lemma aggregate_reviewer prs reviews reqs comments (e : Z * list ReviewData.t)
    (r : ReviewData.t) :
  In e reviews -> In r (snd e) -> isBot (ReviewData.reviewer r) = false ->
  In (ReviewData.reviewer r) (JsMap.keys (aggregate prs reviews reqs comments)).
Proof.
  intros He Hr Hbot. unfold aggregate, processComments, processReviews.
  apply keys_fold_mono;
    [intros pm x; apply keys_processPRComments_mono|].
  generalize (countOpened prs []). intros pm.
  apply in_split in He. destruct He as [l1 [l2 ->]].
  rewrite fold_left_app. cbn [fold_left].
  apply keys_fold_mono;
    [intros pm' x; apply keys_processPRReviews_mono|].
  now apply keys_processPRReviews_reviewer.
Qed.

Lemma buildStats_person (Date_now : nat -> Z) (owner repo : string)
    prs reviews (pm : PersonMap) (q : string) :
  In q (JsMap.keys pm) ->
  forall tick,
    exists s, In s (buildStats Date_now owner repo prs reviews tick pm)
              /\ PersonStats.person s = q.
Proof.
  induction pm as [|[q0 data] pm IH]; intros Hq tick; [destruct Hq|].
  cbn [buildStats].
  pose proof (buildPerson_fields Date_now owner repo prs reviews tick q0 data)
    as [Hperson _].
  destruct (buildPerson Date_now owner repo prs reviews tick q0 data) as [s0 t0].
  destruct Hq as [Hq|Hq].
  - exists s0. split; [now left|]. simpl in Hq, Hperson. congruence.
  - destruct (IH Hq t0) as [s [Hs1 Hs2]]. exists s. split; [now right|assumption].
Qed.

Section Summary.
Variable localeCompare : string -> string -> Z.
Variable Date_now : nat -> Z.
Variable owner repo : string.

Local Abbreviation buildPerson := (buildPerson Date_now owner repo).
Local Abbreviation calculateStats :=
  (calculateStats localeCompare Date_now owner repo).

(** C2. Every reviewer that is not a bot and has a review in the reviews
    map is a person of the result. For a person of the result and a pull
    request of the reviews on which the person has a review,
    [latestReviewOf] is a review of the person on that pull request that
    none of the person's reviews on it was submitted after; each bucket of
    the person's tally counts the pull requests whose latest review of the
    person has the bucket's state, so that a pull request adds one to
    exactly one bucket, and [totalReviewsGiven] is the number of pull
    requests the person reviewed. *)
Theorem last_review_wins prs reviews reqs comments :
  (forall e r,
      In e reviews -> In r (snd e) -> isBot (ReviewData.reviewer r) = false ->
      exists s, In s (calculateStats prs reviews reqs comments)
                /\ PersonStats.person s = ReviewData.reviewer r)
  /\ forall s,
       In s (calculateStats prs reviews reqs comments) ->
       let q := PersonStats.person s in
       (forall e r,
           In e reviews -> In r (snd e) -> ReviewData.reviewer r = q ->
           exists latest,
             latestReviewOf q (snd e) = Some latest
             /\ In latest (snd e)
             /\ ReviewData.reviewer latest = q
             /\ (forall r', In r' (snd e) -> ReviewData.reviewer r' = q ->
                   ReviewData.submittedAt r' <= ReviewData.submittedAt latest)
             /\ forall st, latestIs q st e = true <-> ReviewData.state latest = st)
       /\ ReviewMetrics.approved (PersonStats.reviewMetrics s)
          = countIf (latestIs q APPROVED) reviews
       /\ ReviewMetrics.commented (PersonStats.reviewMetrics s)
          = countIf (latestIs q COMMENTED) reviews
       /\ ReviewMetrics.changesRequested (PersonStats.reviewMetrics s)
          = countIf (latestIs q CHANGES_REQUESTED) reviews
       /\ PersonStats.totalReviewsGiven s = countIf (hasReviewed q) reviews.
Proof.
  split.
  { intros e r He Hr Hbot.
    pose proof (aggregate_reviewer prs reviews reqs comments e r He Hr Hbot) as Hkey.
    destruct (buildStats_person Date_now owner repo prs reviews _ _ Hkey 0%nat)
      as [s [Hs Hq]].
    exists s. split; [|assumption]. unfold calculateStats. now apply sort_In. }
  intros s Hin q.
  destruct (calculateStats_rows _ _ _ _ _ _ _ _ _ Hin) as [Hbot _].
  destruct (calculateStats_record _ _ _ _ _ _ _ _ _ Hin) as [t [_ Hs]].
  fold q in Hbot, Hs.
  destruct (buildPerson_summary Date_now owner repo prs reviews t q
              (personRecord q prs reviews reqs comments))
    as [_ [Hm [Htot _]]].
  rewrite <- Hs in Hm, Htot.
  destruct (personRecord_tally q prs reviews reqs comments)
    as [Ha [Hc [Hr _]]].
  rewrite Hm, Htot, Ha, Hc, Hr. cbn [ReviewMetrics.approved
    ReviewMetrics.commented ReviewMetrics.changesRequested].
  split; [|repeat split].
  - intros e r He Hr' Hq.
    destruct (latestReviewOf q (snd e)) as [latest|] eqn:El.
    + exists latest. destruct (latestReviewOf_latest _ _ _ El) as [H1 [H2 H3]].
      repeat split; auto.
      * unfold latestIs. rewrite El.
        destruct (ReviewData.state latest), st; simpl; congruence.
      * unfold latestIs. rewrite El. intros <-.
        now destruct (ReviewData.state latest).
    + exfalso.
      assert (Hh : hasReviewed q e = true)
        by (apply hasReviewed_spec; [assumption|now exists r]).
      unfold hasReviewed in Hh. rewrite El in Hh. discriminate.
  - clear. induction reviews as [|e l IH].
    + reflexivity.
    + rewrite !countIf_cons, <- IH. unfold latestIs, hasReviewed.
      destruct (latestReviewOf q (snd e)) as [latest|]; cbv beta iota; [|lia].
      destruct (ReviewData.state latest); cbn [ReviewState_eqb]; lia.
Qed.

(** The participation fields of a record, from the accumulator. *)
Lemma buildPerson_participation prs reviews tick person data :
  let s := fst (buildPerson prs reviews tick person data) in
  PersonStats.uniquePRsReviewed s
  = JsSet.size
      (JsSet.ofArray Z.eqb
         (filter (fun prNumber =>
                    negb (JsSet.has Z.eqb prNumber (PersonData.ownPRNumbers data)))
                 (PersonData.prsReviewedSet data)))
  /\ PersonStats.eligiblePRsForReview s
     = Z.of_nat (List.length prs) - JsSet.size (PersonData.ownPRNumbers data)
  /\ PersonStats.reviewParticipationRate s
     = if PersonStats.eligiblePRsForReview s >? 0
       then (inject_Z (PersonStats.uniquePRsReviewed s)
             / inject_Z (PersonStats.eligiblePRsForReview s) * 100)%Q
       else 0%Q.
Proof.
  unfold buildPerson.
  destruct (buildDetails Date_now owner repo reviews data tick prs)
    as [ds t].
  simpl. repeat split; reflexivity.
Qed.

(** C6. For a person of the result, with pairwise distinct pull-request
    numbers: [eligiblePRsForReview] is the number of pull requests of the
    input minus the number of those the person opened, and is not
    negative; [uniquePRsReviewed] is the number of distinct pull requests
    on which the person submitted at least one review, whatever its
    state (a plain comment is not a review), and that the person did not
    open; [reviewParticipationRate] is 0 when
    [eligiblePRsForReview] is 0 and
    [uniquePRsReviewed / eligiblePRsForReview * 100] otherwise. *)
Theorem summary_derivation prs reviews reqs comments (s : PersonStats.t) :
  NoDup (map PRData.number prs) ->
  In s (calculateStats prs reviews reqs comments) ->
  let q := PersonStats.person s in
  PersonStats.eligiblePRsForReview s
  = Z.of_nat (List.length prs) - Z.of_nat (List.length (openedBy q prs))
  /\ 0 <= PersonStats.eligiblePRsForReview s
  /\ (exists reviewed : list Z,
        NoDup reviewed
        /\ (forall k, In k reviewed
                      <-> (exists e r, In e reviews /\ fst e = k
                                       /\ In r (snd e)
                                       /\ ReviewData.reviewer r = q)
                          /\ ~ exists pr, In pr prs /\ PRData.author pr = q
                                          /\ PRData.number pr = k)
        /\ PersonStats.uniquePRsReviewed s = Z.of_nat (List.length reviewed))
  /\ (PersonStats.eligiblePRsForReview s = 0 ->
      PersonStats.reviewParticipationRate s = 0%Q)
  /\ (PersonStats.eligiblePRsForReview s <> 0 ->
      PersonStats.reviewParticipationRate s
      = (inject_Z (PersonStats.uniquePRsReviewed s)
         / inject_Z (PersonStats.eligiblePRsForReview s) * 100)%Q).
Proof.
  intros Hnd Hin q.
  destruct (calculateStats_rows _ _ _ _ _ _ _ _ _ Hin) as [Hbot _].
  destruct (calculateStats_record _ _ _ _ _ _ _ _ _ Hin) as [t [_ Hs]].
  fold q in Hbot, Hs.
  set (rec := personRecord q prs reviews reqs comments) in *.
  destruct (buildPerson_participation prs reviews t q rec) as [Hu [He Hrate]].
  rewrite <- Hs in Hu, He, Hrate.
  pose proof (personRecord_own_distinct q prs reviews reqs comments Hbot Hnd)
    as Hown. fold rec in Hown.
  assert (Helig : PersonStats.eligiblePRsForReview s
                  = Z.of_nat (List.length prs)
                    - Z.of_nat (List.length (openedBy q prs))).
  { rewrite He, Hown. unfold JsSet.size. now rewrite length_map. }
  assert (Hle : (List.length (openedBy q prs) <= List.length prs)%nat)
    by apply filter_length_le.
  destruct (personRecord_tally q prs reviews reqs comments)
    as [_ [_ [_ [Hndr Hinr]]]]. fold rec in Hndr, Hinr.
  split; [exact Helig|]. split; [lia|]. split; [|split].
  - set (kept := filter (fun prNumber =>
                           negb (JsSet.has Z.eqb prNumber (PersonData.ownPRNumbers rec)))
                        (PersonData.prsReviewedSet rec)) in *.
    assert (Hndk : NoDup kept) by now apply NoDup_filter.
    exists kept. split; [exact Hndk|]. split.
    + intros k. unfold kept. rewrite filter_In, Hinr, Bool.negb_true_iff.
      assert (Hownk : JsSet.has Z.eqb k (PersonData.ownPRNumbers rec) = false
                      <-> ~ exists pr, In pr prs /\ PRData.author pr = q
                                       /\ PRData.number pr = k).
      { rewrite <- Bool.not_true_iff_false, (set_has_In Z.eqb Zeqb_eq), Hown.
        rewrite in_map_iff. unfold openedBy. split; intros H C; apply H.
        - destruct C as [pr [H1 [H2 H3]]]. exists pr. split; [assumption|].
          apply filter_In. split; [assumption|]. now apply String.eqb_eq.
        - destruct C as [pr [H1 H2]]. apply filter_In in H2.
          destruct H2 as [H2 H3]. apply String.eqb_eq in H3. now exists pr. }
      rewrite Hownk. split.
      * intros [[e [H1 [H2 H3]]] H4]. split; [|assumption].
        apply hasReviewed_spec in H3; [|assumption].
        destruct H3 as [r [H5 H6]]. now exists e, r.
      * intros [[e [r [H1 [H2 [H3 H4]]]]] H5]. split; [|assumption].
        exists e. split; [assumption|]. split; [assumption|].
        apply hasReviewed_spec; [assumption|]. now exists r.
    + rewrite Hu. fold kept.
      now rewrite (ofArray_NoDup Z.eqb Zeqb_eq kept Hndk).
  - intros H0. rewrite Hrate, H0. reflexivity.
  - intros Hne. rewrite Hrate.
    destruct (PersonStats.eligiblePRsForReview s >? 0) eqn:E; [reflexivity|].
    rewrite Z.gtb_ltb in E. apply Z.ltb_ge in E. lia.
Qed.
End Summary.

(** ** The review requests that matter *)

(** Of every reviewer, the first request of the list. *)
Fixpoint firstRequests (l : list ReviewRequestData.t) : list ReviewRequestData.t :=
  match l with
  | [] => []
  | rq :: l' =>
      rq :: filter (fun r => negb (String.eqb (ReviewRequestData.reviewer r)
                                     (ReviewRequestData.reviewer rq)))
              (firstRequests l')
  end.

(** The earliest time at which [person] was requested, in whatever order
    the requests are listed. *)
Fixpoint earliestTime (person : string) (l : list ReviewRequestData.t) : option Z :=
  match l with
  | [] => None
  | rq :: l' =>
      if String.eqb (ReviewRequestData.reviewer rq) person
      then Some (match earliestTime person l' with
                 | Some t => Z.min (ReviewRequestData.requestedAt rq) t
                 | None => ReviewRequestData.requestedAt rq
                 end)
      else earliestTime person l'
  end.

(** Of every reviewer, one request, at the earliest time the reviewer was
    requested. *)
Definition earliestRequests (l : list ReviewRequestData.t) : list ReviewRequestData.t :=
  map (fun rq =>
         ReviewRequestData.mk (ReviewRequestData.prNumber rq)
           (ReviewRequestData.reviewer rq)
           (match earliestTime (ReviewRequestData.reviewer rq) l with
            | Some t => t
            | None => ReviewRequestData.requestedAt rq
            end))
      (firstRequests l).

(** The requests of every pull request, transformed. *)
Definition mapRequests (f : list ReviewRequestData.t -> list ReviewRequestData.t)
    (reviewRequests : list (Z * list ReviewRequestData.t))
    : list (Z * list ReviewRequestData.t) :=
  map (fun e => (fst e, f (snd e))) reviewRequests.

(** The requests of a pull request are listed in the order of their
    times. *)
Definition chronological (l : list ReviewRequestData.t) : Prop :=
  StronglySorted
    (fun a b => ReviewRequestData.requestedAt a <= ReviewRequestData.requestedAt b) l.

Lemma earliestTime_None person l :
  earliestTime person l = None ->
  forall rq, In rq l -> ReviewRequestData.reviewer rq <> person.
Proof.
  induction l as [|rq0 l IH]; simpl; [tauto|].
  destruct (String.eqb (ReviewRequestData.reviewer rq0) person) eqn:E;
    [discriminate|].
  apply String.eqb_neq in E. intros H rq [<-|Hin]; auto.
Qed.

(** [earliestTime] is the time of a request of the person, and no request
    of the person is earlier. *)
Lemma earliestTime_least person l t :
  earliestTime person l = Some t ->
  (exists rq, In rq l /\ ReviewRequestData.reviewer rq = person
              /\ ReviewRequestData.requestedAt rq = t)
  /\ forall rq, In rq l -> ReviewRequestData.reviewer rq = person ->
                t <= ReviewRequestData.requestedAt rq.
Proof.
  revert t. induction l as [|rq0 l IH]; intros t; simpl; [discriminate|].
  destruct (String.eqb (ReviewRequestData.reviewer rq0) person) eqn:E.
  - apply String.eqb_eq in E.
    destruct (earliestTime person l) as [t'|] eqn:Et.
    + destruct (IH t' eq_refl) as [[rq [H1 [H2 H3]]] Hmin].
      intros [= <-]. split.
      * destruct (Z.min_spec (ReviewRequestData.requestedAt rq0) t')
          as [[_ ->]|[_ ->]].
        -- exists rq0. auto.
        -- exists rq. auto.
      * intros rq' [<-|Hin] Hq; [lia|]. specialize (Hmin rq' Hin Hq). lia.
    + intros [= <-]. split; [exists rq0; auto|].
      intros rq' [<-|Hin] Hq; [lia|].
      exfalso. now apply (earliestTime_None person l Et rq' Hin).
  - apply String.eqb_neq in E. intros Ht.
    destruct (IH t Ht) as [[rq [H1 [H2 H3]]] Hmin]. split.
    + exists rq. auto.
    + intros rq' [<-|Hin] Hq; [contradiction|]. now apply Hmin.
Qed.

(** The loops read the requests of a pull request only through the time
    of the first request of the person at hand. *)
Lemma commenterFirstCommentElapsed_time person l mine :
  commenterFirstCommentElapsed person l mine
  = match requestTimeOf person l with
    | Some t =>
        match JsArray.headOpt (JsArray.sort byCreatedAt mine) with
        | Some first => Some (CommentData.createdAt first - t)
        | None => None
        end
    | None => None
    end.
Proof.
  unfold commenterFirstCommentElapsed, requestTimeOf.
  now destruct (findRequest person l).
Qed.

Lemma recordReviews_ext k l l' cs person mine d :
  requestTimeOf person l = requestTimeOf person l' ->
  recordReviews k l cs person mine d = recordReviews k l' cs person mine d.
Proof.
  intros H. unfold recordReviews. cbv zeta.
  change (option_map ReviewRequestData.requestedAt (findRequest person l))
    with (requestTimeOf person l).
  change (option_map ReviewRequestData.requestedAt (findRequest person l'))
    with (requestTimeOf person l').
  now rewrite H.
Qed.

Lemma recordComments_ext k l l' person mine d :
  requestTimeOf person l = requestTimeOf person l' ->
  recordComments k l person mine d = recordComments k l' person mine d.
Proof.
  intros H. unfold recordComments. cbv zeta.
  now rewrite !commenterFirstCommentElapsed_time, H.
Qed.

Lemma mutatePerson_ext k f g pm :
  (forall d, f d = g d) -> mutatePerson k f pm = mutatePerson k g pm.
Proof.
  intros H. unfold mutatePerson.
  destruct (JsMap.get String.eqb k pm); [|reflexivity]. now rewrite H.
Qed.

Definition sameRequestTimes (reqs reqs' : list (Z * list ReviewRequestData.t)) : Prop :=
  forall k person,
    requestTimeOf person (getOrEmpty k reqs)
    = requestTimeOf person (getOrEmpty k reqs').

Lemma aggregate_ext prs reviews reqs reqs' comments :
  sameRequestTimes reqs reqs' ->
  aggregate prs reviews reqs comments = aggregate prs reviews reqs' comments.
Proof.
  intros H. unfold aggregate, processComments, processReviews.
  rewrite (fold_left_ext (processPRReviews reqs comments)
             (processPRReviews reqs' comments)).
  - apply fold_left_ext. intros pm [k cs]. unfold processPRComments.
    apply fold_left_ext. intros pm' [q mine].
    apply mutatePerson_ext. intros d. apply recordComments_ext, H.
  - intros pm [k rs]. unfold processPRReviews.
    apply fold_left_ext. intros pm' [q mine].
    apply mutatePerson_ext. intros d. apply recordReviews_ext, H.
Qed.

Lemma getOrEmpty_mapRequests f k reqs :
  f [] = [] -> getOrEmpty k (mapRequests f reqs) = f (getOrEmpty k reqs).
Proof.
  intros Hf. induction reqs as [|[k0 l] reqs IH].
  - unfold mapRequests, getOrEmpty. simpl. now rewrite Hf.
  - unfold mapRequests. cbn [map fst snd]. rewrite !getOrEmpty_cons.
    destruct (Z.eqb k0 k); [reflexivity|exact IH].
Qed.

Lemma find_filter_keep {A : Type} (p f : A -> bool) (l : list A) :
  (forall x, p x = true -> f x = true) -> find p (filter f l) = find p l.
Proof.
  intros H. induction l as [|x l IH]; simpl; [reflexivity|].
  destruct (f x) eqn:Ef; simpl.
  - now rewrite IH.
  - destruct (p x) eqn:Ep; [|assumption].
    apply H in Ep. congruence.
Qed.

(** The first request of a person is the same in the list of first
    requests. *)
Lemma findRequest_firstRequests person l :
  findRequest person (firstRequests l) = findRequest person l.
Proof.
  unfold findRequest. induction l as [|rq l IH]; simpl; [reflexivity|].
  destruct (String.eqb (ReviewRequestData.reviewer rq) person) eqn:E;
    [reflexivity|].
  rewrite find_filter_keep; [exact IH|].
  intros x Hx. apply String.eqb_eq in Hx. apply Bool.negb_true_iff.
  apply String.eqb_neq. apply String.eqb_neq in E. congruence.
Qed.

(** [findRequest] returns the first request of the person in the order of
    the list. *)
Lemma findRequest_first person l rq :
  findRequest person l = Some rq
  <-> exists l1 l2,
        l = l1 ++ rq :: l2 /\ ReviewRequestData.reviewer rq = person
        /\ forall r, In r l1 -> ReviewRequestData.reviewer r <> person.
Proof.
  unfold findRequest. induction l as [|x l IH]; simpl.
  - split; [discriminate|]. intros [l1 [l2 [H _]]]. now destruct l1.
  - destruct (String.eqb (ReviewRequestData.reviewer x) person) eqn:E.
    + apply String.eqb_eq in E. split.
      * intros [= <-]. exists [], l. simpl. tauto.
      * intros [l1 [l2 [H1 [H2 H3]]]]. destruct l1 as [|y l1].
        -- simpl in H1. now injection H1 as <- _.
        -- simpl in H1. injection H1 as <- _. exfalso.
           apply (H3 x); [now left|assumption].
    + apply String.eqb_neq in E. rewrite IH. split.
      * intros [l1 [l2 [H1 [H2 H3]]]]. exists (x :: l1), l2.
        split; [simpl; now rewrite H1|]. split; [assumption|].
        intros r [<-|Hr]; auto.
      * intros [l1 [l2 [H1 [H2 H3]]]]. destruct l1 as [|y l1].
        -- simpl in H1. injection H1 as -> _. contradiction.
        -- simpl in H1. injection H1 as <- ->. exists l1, l2.
           split; [reflexivity|]. split; [assumption|].
           intros r Hr. apply H3. now right.
Qed.

(** In a list in the order of the times, the first request of a person is
    the earliest. *)
Lemma requestTimeOf_earliest person l :
  chronological l -> requestTimeOf person l = earliestTime person l.
Proof.
  unfold requestTimeOf, findRequest.
  induction 1 as [|rq l Hs IH Hall]; simpl; [reflexivity|].
  destruct (String.eqb (ReviewRequestData.reviewer rq) person) eqn:E;
    [|exact IH].
  simpl. f_equal.
  destruct (earliestTime person l) as [t|] eqn:Et; [|reflexivity].
  destruct (earliestTime_least person l t Et) as [[rq' [H1 [_ H3]]] _].
  rewrite Forall_forall in Hall. specialize (Hall rq' H1). lia.
Qed.

Lemma requestTimeOf_earliestRequests person l :
  requestTimeOf person (earliestRequests l) = earliestTime person l.
Proof.
  unfold requestTimeOf, earliestRequests.
  pose proof (findRequest_firstRequests person l) as Hfirst.
  unfold findRequest in *.
  assert (Hmap : forall l0,
             find (fun req => String.eqb (ReviewRequestData.reviewer req) person)
               (map (fun rq =>
                       ReviewRequestData.mk (ReviewRequestData.prNumber rq)
                         (ReviewRequestData.reviewer rq)
                         (match earliestTime (ReviewRequestData.reviewer rq) l with
                          | Some t => t
                          | None => ReviewRequestData.requestedAt rq
                          end)) l0)
             = option_map
                 (fun rq =>
                    ReviewRequestData.mk (ReviewRequestData.prNumber rq)
                      (ReviewRequestData.reviewer rq)
                      (match earliestTime (ReviewRequestData.reviewer rq) l with
                       | Some t => t
                       | None => ReviewRequestData.requestedAt rq
                       end))
                 (find (fun req => String.eqb (ReviewRequestData.reviewer req) person) l0)).
  { induction l0 as [|x l0 IHl]; simpl; [reflexivity|].
    destruct (String.eqb (ReviewRequestData.reviewer x) person); [reflexivity|].
    exact IHl. }
  rewrite Hmap, Hfirst.
  destruct (find (fun req => String.eqb (ReviewRequestData.reviewer req) person) l)
    as [rq|] eqn:Ef; simpl.
  - apply find_some in Ef. destruct Ef as [Hin Hq]. apply String.eqb_eq in Hq.
    rewrite Hq. destruct (earliestTime person l) as [t|] eqn:Et; [reflexivity|].
    exfalso. now apply (earliestTime_None person l Et rq Hin).
  - destruct (earliestTime person l) as [t|] eqn:Et; [|reflexivity].
    destruct (earliestTime_least person l t Et) as [[rq [H1 [H2 _]]] _].
    apply (find_none _ _ Ef) in H1. apply String.eqb_neq in H1. contradiction.
Qed.

(** ** The origin of the response times *)

(** The time of the first interaction of a reviewer,
    [allInteractions[0].timestamp]: the earliest of the times of the
    reviews and of the comments of the reviewer. *)
Definition reviewerFirstInteraction (reviewer : string)
    (sortedReviews : list ReviewData.t) (prComments : list CommentData.t)
    : option Z :=
  let personComments :=
    filter (fun c => String.eqb (CommentData.commenter c) reviewer
                     && negb (isBot (CommentData.commenter c)))%bool
           prComments in
  let allInteractions :=
    map (fun r => Interaction.mk review (ReviewData.submittedAt r)) sortedReviews
    ++ map (fun c => Interaction.mk comment (CommentData.createdAt c)) personComments in
  option_map Interaction.timestamp
    (JsArray.headOpt (JsArray.sort byTimestamp allInteractions)).

(** The time of the first response of [person] on pull request [k]: the
    first interaction of the person when the person reviewed the pull
    request, else the first comment of the person,
    [sortedComments[0].createdAt]. *)
Definition firstResponseAt (person : string) (k : Z)
    (reviews : list (Z * list ReviewData.t))
    (comments : list (Z * list CommentData.t)) : option Z :=
  match reviewsOf person (getOrEmpty k reviews) with
  | [] =>
      option_map CommentData.createdAt
        (JsArray.headOpt
           (JsArray.sort byCreatedAt (commentsOf person (getOrEmpty k comments))))
  | mine =>
      reviewerFirstInteraction person (JsArray.sort bySubmittedAt mine)
        (getOrEmpty k comments)
  end.

(** The time of the first review of [person] on pull request [k] that is
    APPROVED or CHANGES_REQUESTED, [firstFormalReview.submittedAt]. *)
Definition firstFormalReviewAt (person : string) (k : Z)
    (reviews : list (Z * list ReviewData.t)) : option Z :=
  option_map ReviewData.submittedAt
    (find isFormal
       (JsArray.sort bySubmittedAt (reviewsOf person (getOrEmpty k reviews)))).

(** The elapsed times of a pair are the times of the responses minus the
    time of the request that [find] returns. *)
Lemma pairElapsed_origin person k reviews reqs comments :
  pairElapsedComment person k reviews reqs comments
  = match requestTimeOf person (getOrEmpty k reqs) with
    | Some origin =>
        option_map (fun t => t - origin) (firstResponseAt person k reviews comments)
    | None => None
    end
  /\ pairElapsedReview person k reviews reqs
     = match requestTimeOf person (getOrEmpty k reqs) with
       | Some origin =>
           option_map (fun t => t - origin) (firstFormalReviewAt person k reviews)
       | None => None
       end.
Proof.
  unfold pairElapsedComment, pairElapsedReview, firstResponseAt, firstFormalReviewAt.
  destruct (reviewsOf person (getOrEmpty k reviews)) as [|r rs].
  - split.
    + unfold commenterFirstCommentElapsed, requestTimeOf.
      destruct (findRequest person (getOrEmpty k reqs)) as [rq|]; [|reflexivity].
      cbn [option_map].
      now destruct (JsArray.headOpt
                      (JsArray.sort byCreatedAt
                         (commentsOf person (getOrEmpty k comments)))).
    + now destruct (requestTimeOf person (getOrEmpty k reqs)).
  - unfold reviewerElapsedComment, reviewerElapsedReview.
    destruct (requestTimeOf person (getOrEmpty k reqs)) as [origin|];
      [|split; reflexivity].
    split.
    + unfold reviewerFirstCommentElapsed, reviewerFirstInteraction. cbv zeta.
      now destruct (JsArray.headOpt _).
    + unfold reviewerFirstReviewElapsed.
      now destruct (find isFormal (JsArray.sort bySubmittedAt (r :: rs))).
Qed.

Section Requests.
Variable localeCompare : string -> string -> Z.
Variable Date_now : nat -> Z.
Variable owner repo : string.

Local Abbreviation calculateStats :=
  (calculateStats localeCompare Date_now owner repo).

Lemma calculateStats_ext prs reviews reqs reqs' comments :
  sameRequestTimes reqs reqs' ->
  calculateStats prs reviews reqs comments
  = calculateStats prs reviews reqs' comments.
Proof.
  intros H. unfold calculateStats.
  now rewrite (aggregate_ext prs reviews reqs reqs' comments H).
Qed.

(** C3, as the code has it.  For a person of the result and a pull
    request whose list of requests holds a request [rq] of the person
    with no request of the person before it, and any requests, of the
    person or not, after it: the time to first comment is the time of
    the first response of the person minus the time of [rq], and the
    time to first review, which is also the time to approval, is the time
    of the first APPROVED or CHANGES_REQUESTED review of the person minus
    the time of [rq]; these are the times the rows of the person for the
    pull request show and, when they are not negative, the times that go
    to the three collections of the person.  The requests listed after
    [rq] are matched to nothing: the result is the one obtained when
    every request but the first of each person is removed.  When the
    list of the pull request is in the order of the times, no request of
    the person is earlier than [rq]; and when all the lists are, the
    result is the one obtained with, for each person, a single request at
    the earliest time the person was requested. *)
Theorem first_listed_request_is_origin prs reviews reqs comments
    (s : PersonStats.t) (k : Z)
    (l1 l2 : list ReviewRequestData.t) (rq : ReviewRequestData.t) :
  NoDup (JsMap.keys reviews) -> NoDup (JsMap.keys comments) ->
  In s (calculateStats prs reviews reqs comments) ->
  getOrEmpty k reqs = l1 ++ rq :: l2 ->
  ReviewRequestData.reviewer rq = PersonStats.person s ->
  (forall r, In r l1 -> ReviewRequestData.reviewer r <> PersonStats.person s) ->
  let q := PersonStats.person s in
  let origin := ReviewRequestData.requestedAt rq in
  let toFirstComment :=
    option_map (fun t => t - origin) (firstResponseAt q k reviews comments) in
  let toFirstReview :=
    option_map (fun t => t - origin) (firstFormalReviewAt q k reviews) in
  pairElapsedComment q k reviews reqs comments = toFirstComment
  /\ pairElapsedReview q k reviews reqs = toFirstReview
  /\ (forall d,
         In d (PersonStats.prDetails s) -> PersonPRDetail.prNumber d = k ->
         PersonPRDetail.firstCommentTime d = orNull (keepNonNegative toFirstComment)
         /\ PersonPRDetail.firstReviewTime d
            = orNull (keepNonNegative toFirstReview))
  /\ (forall data,
         In (q, data) (aggregate prs reviews reqs comments) ->
         (forall v, toFirstComment = Some v -> 0 <= v ->
                    In v (PersonData.timeToFirstComment data))
         /\ (forall v, toFirstReview = Some v -> 0 <= v ->
                       In v (PersonData.timeToFirstReview data)
                       /\ In v (PersonData.timeToApproval data)))
  /\ calculateStats prs reviews reqs comments
     = calculateStats prs reviews (mapRequests firstRequests reqs) comments
  /\ (chronological (getOrEmpty k reqs) ->
      forall r, In r (getOrEmpty k reqs) -> ReviewRequestData.reviewer r = q ->
                origin <= ReviewRequestData.requestedAt r)
  /\ ((forall e, In e reqs -> chronological (snd e)) ->
      calculateStats prs reviews reqs comments
      = calculateStats prs reviews (mapRequests earliestRequests reqs) comments).
Proof.
  intros Hr Hc Hin Hlist Hrq Hbefore q origin toFirstComment toFirstReview.
  assert (Hfind : findRequest q (getOrEmpty k reqs) = Some rq).
  { apply findRequest_first. exists l1, l2. auto. }
  assert (Htime : requestTimeOf q (getOrEmpty k reqs) = Some origin)
    by (unfold requestTimeOf; now rewrite Hfind).
  destruct (pairElapsed_origin q k reviews reqs comments) as [Ec Er].
  rewrite Htime in Ec, Er. fold toFirstComment in Ec. fold toFirstReview in Er.
  split; [exact Ec|]. split; [exact Er|]. split; [|split; [|split; [|split]]].
  - intros d Hd Hk.
    destruct (row_times localeCompare Date_now owner repo _ _ _ _ _ _
                Hr Hc Hin Hd) as [H1 H2].
    fold q in H1, H2. rewrite Hk in H1, H2.
    destruct (pairStub_times q k reviews reqs comments) as [S1 S2].
    rewrite S1, Ec in H1. rewrite S2, Er in H2. auto.
  - intros data Hdata.
    rewrite (proj2 (aggregate_entry _ _ _ _ _ _ Hdata)).
    pose proof (personRecord_stubsPushed q prs reviews reqs comments) as Hpushed.
    pose proof (personRecord_stub q prs reviews reqs comments k Hr Hc) as Hstub.
    split; intros v Hv Hpos.
    + rewrite <- Ec in Hv.
      destruct (pairStub_comment _ _ _ _ _ _ Hv) as [stub [Hps Hfield]].
      rewrite Hps in Hstub. apply (proj1 (Hpushed k stub Hstub)).
      rewrite Hfield. now apply nonNegative_Some.
    + rewrite <- Er in Hv.
      destruct (pairStub_review _ _ _ _ comments _ Hv) as [stub [Hps Hfield]].
      rewrite Hps in Hstub. apply (proj2 (Hpushed k stub Hstub)).
      rewrite Hfield. now apply nonNegative_Some.
  - apply calculateStats_ext. intros k0 person.
    rewrite getOrEmpty_mapRequests by reflexivity.
    unfold requestTimeOf. now rewrite findRequest_firstRequests.
  - intros Hchron r Hin_r Hq.
    rewrite (requestTimeOf_earliest q _ Hchron) in Htime.
    exact (proj2 (earliestTime_least q _ origin Htime) r Hin_r Hq).
  - intros Hchron. apply calculateStats_ext. intros k0 person.
    rewrite getOrEmpty_mapRequests by reflexivity.
    rewrite requestTimeOf_earliestRequests.
    apply requestTimeOf_earliest.
    unfold getOrEmpty. destruct (JsMap.get Z.eqb k0 reqs) as [l|] eqn:E.
    + apply (get_Some_In Z.eqb Zeqb_eq) in E. exact (Hchron (k0, l) E).
    + constructor.
Qed.
End Requests.

(** ** The clock *)

(** A row without the values read from the clock: [ageInDays], and
    [timeOpen] when the pull request is neither merged nor closed. *)
Definition rowWithoutClock (pr : PRData.t) (d : PersonPRDetail.t) : PersonPRDetail.t :=
  {| PersonPRDetail.prNumber := PersonPRDetail.prNumber d;
     PersonPRDetail.title := PersonPRDetail.title d;
     PersonPRDetail.author := PersonPRDetail.author d;
     PersonPRDetail.createdAt := PersonPRDetail.createdAt d;
     PersonPRDetail.readyForReviewAt := PersonPRDetail.readyForReviewAt d;
     PersonPRDetail.ageInDays := 0;
     PersonPRDetail.state := PersonPRDetail.state d;
     PersonPRDetail.isDraft := PersonPRDetail.isDraft d;
     PersonPRDetail.reviewStatus := PersonPRDetail.reviewStatus d;
     PersonPRDetail.firstCommentTime := PersonPRDetail.firstCommentTime d;
     PersonPRDetail.firstReviewTime := PersonPRDetail.firstReviewTime d;
     PersonPRDetail.timeOpen :=
       match PRData.mergedAt pr, PRData.closedAt pr with
       | None, None => 0
       | _, _ => PersonPRDetail.timeOpen d
       end;
     PersonPRDetail.reviewerCount := PersonPRDetail.reviewerCount d;
     PersonPRDetail.url := PersonPRDetail.url d |}.

Fixpoint rowsWithoutClock (prs : list PRData.t) (ds : list PersonPRDetail.t)
    : list PersonPRDetail.t :=
  match prs, ds with
  | pr :: prs', d :: ds' => rowWithoutClock pr d :: rowsWithoutClock prs' ds'
  | _, _ => []
  end.

(** A record of the result without the values read from the clock. *)
Definition statsWithoutClock (prs : list PRData.t) (s : PersonStats.t) : PersonStats.t :=
  {| PersonStats.person := PersonStats.person s;
     PersonStats.prsOpened := PersonStats.prsOpened s;
     PersonStats.reviewMetrics := PersonStats.reviewMetrics s;
     PersonStats.totalReviewsGiven := PersonStats.totalReviewsGiven s;
     PersonStats.uniquePRsReviewed := PersonStats.uniquePRsReviewed s;
     PersonStats.reviewParticipationRate := PersonStats.reviewParticipationRate s;
     PersonStats.eligiblePRsForReview := PersonStats.eligiblePRsForReview s;
     PersonStats.timeToFirstComment := PersonStats.timeToFirstComment s;
     PersonStats.timeToFirstReview := PersonStats.timeToFirstReview s;
     PersonStats.timeToApproval := PersonStats.timeToApproval s;
     PersonStats.prDetails := rowsWithoutClock prs (PersonStats.prDetails s) |}.

(** Sorting commutes with a map that the comparator does not see. *)
Lemma sort_map {A : Type} (cmp : A -> A -> Z) (f : A -> A) (l : list A) :
  (forall a b, cmp (f a) (f b) = cmp a b) ->
  map f (JsArray.sort cmp l) = JsArray.sort cmp (map f l).
Proof.
  intros H.
  assert (Hins : forall x l0,
             map f (JsArray.insertBy cmp x l0) = JsArray.insertBy cmp (f x) (map f l0)).
  { intros x l0. induction l0 as [|y l0 IH]; simpl; [reflexivity|].
    rewrite H. destruct (cmp x y <=? 0); simpl; [reflexivity|]. now rewrite IH. }
  induction l as [|x l IH]; simpl; [reflexivity|].
  now rewrite Hins, IH.
Qed.

Section Clock.
Variable localeCompare : string -> string -> Z.
Variable owner repo : string.

Lemma buildDetail_clock_ext (c1 c2 : nat -> Z) reviews data tick pr :
  (forall n, c1 n = c2 n) ->
  buildDetail c1 owner repo reviews data tick pr
  = buildDetail c2 owner repo reviews data tick pr.
Proof.
  intros H. unfold buildDetail.
  destruct (PRData.mergedAt pr); [|destruct (PRData.closedAt pr)];
    now rewrite ?H.
Qed.

Lemma buildDetails_clock_ext (c1 c2 : nat -> Z) reviews data tick prs :
  (forall n, c1 n = c2 n) ->
  buildDetails c1 owner repo reviews data tick prs
  = buildDetails c2 owner repo reviews data tick prs.
Proof.
  intros H. revert tick. induction prs as [|pr prs IH]; intros tick; simpl;
    [reflexivity|].
  rewrite (buildDetail_clock_ext c1 c2 reviews data tick pr H).
  destruct (buildDetail c2 owner repo reviews data tick pr) as [d t].
  now rewrite IH.
Qed.

Lemma buildStats_clock_ext (c1 c2 : nat -> Z) prs reviews tick pm :
  (forall n, c1 n = c2 n) ->
  buildStats c1 owner repo prs reviews tick pm
  = buildStats c2 owner repo prs reviews tick pm.
Proof.
  intros H. revert tick. induction pm as [|[q data] pm IH]; intros tick; simpl;
    [reflexivity|].
  unfold buildPerson.
  rewrite (buildDetails_clock_ext c1 c2 reviews data tick prs H).
  destruct (buildDetails c2 owner repo reviews data tick prs) as [ds t].
  now rewrite IH.
Qed.

Lemma rowWithoutClock_buildDetail (c1 c2 : nat -> Z) reviews data t1 t2 pr :
  rowWithoutClock pr (fst (buildDetail c1 owner repo reviews data t1 pr))
  = rowWithoutClock pr (fst (buildDetail c2 owner repo reviews data t2 pr)).
Proof.
  unfold buildDetail, rowWithoutClock.
  destruct (PRData.mergedAt pr); [|destruct (PRData.closedAt pr)];
    reflexivity.
Qed.

Lemma rowsWithoutClock_buildDetails (c1 c2 : nat -> Z) reviews data prs0 t1 t2 :
  rowsWithoutClock prs0 (fst (buildDetails c1 owner repo reviews data t1 prs0))
  = rowsWithoutClock prs0 (fst (buildDetails c2 owner repo reviews data t2 prs0)).
Proof.
  revert t1 t2. induction prs0 as [|pr prs0 IH]; intros t1 t2; simpl;
    [reflexivity|].
  pose proof (rowWithoutClock_buildDetail c1 c2 reviews data t1 t2 pr) as Hrow.
  destruct (buildDetail c1 owner repo reviews data t1 pr) as [d1 u1].
  destruct (buildDetail c2 owner repo reviews data t2 pr) as [d2 u2].
  specialize (IH u1 u2).
  destruct (buildDetails c1 owner repo reviews data u1 prs0) as [ds1 v1].
  destruct (buildDetails c2 owner repo reviews data u2 prs0) as [ds2 v2].
  simpl in *. now rewrite Hrow, IH.
Qed.

Lemma statsWithoutClock_buildStats (c1 c2 : nat -> Z) prs reviews pm t1 t2 :
  map (statsWithoutClock prs) (buildStats c1 owner repo prs reviews t1 pm)
  = map (statsWithoutClock prs) (buildStats c2 owner repo prs reviews t2 pm).
Proof.
  revert t1 t2. induction pm as [|[q data] pm IH]; intros t1 t2; simpl;
    [reflexivity|].
  unfold buildPerson.
  pose proof (rowsWithoutClock_buildDetails c1 c2 reviews data prs t1 t2) as Hrows.
  destruct (buildDetails c1 owner repo reviews data t1 prs) as [ds1 u1].
  destruct (buildDetails c2 owner repo reviews data t2 prs) as [ds2 u2].
  simpl in *. rewrite (IH u1 u2). f_equal.
  unfold statsWithoutClock. simpl. now rewrite Hrows.
Qed.

(** C7, as the code has it. The result is a function of the input and of
    the values [Date.now()] returns during the call: two calls on the
    same input that read the same values return the same result; two
    calls that read different values return the same persons in the same
    order, with the same fields except [ageInDays] and, for the pull
    requests that are neither merged nor closed, [timeOpen]. *)
Theorem deterministic_up_to_clock (c1 c2 : nat -> Z) prs reviews reqs comments :
  ((forall n, c1 n = c2 n) ->
   calculateStats localeCompare c1 owner repo prs reviews reqs comments
   = calculateStats localeCompare c2 owner repo prs reviews reqs comments)
  /\ map (statsWithoutClock prs)
       (calculateStats localeCompare c1 owner repo prs reviews reqs comments)
     = map (statsWithoutClock prs)
         (calculateStats localeCompare c2 owner repo prs reviews reqs comments).
Proof.
  unfold calculateStats. split.
  - intros H. now rewrite (buildStats_clock_ext c1 c2 prs reviews 0 _ H).
  - rewrite !sort_map by reflexivity.
    now rewrite (statsWithoutClock_buildStats c1 c2 prs reviews _ 0%nat 0%nat).
Qed.
End Clock.

(** * Runs on concrete inputs *)

Module Examples.
Import Scenario.

(** The record of [name] in a result. *)
Definition pick (name : string) (stats : list PersonStats.t) : PersonStats.t :=
  match find (fun s => String.eqb (PersonStats.person s) name) stats with
  | Some s => s
  | None =>
      PersonStats.mk name 0 (ReviewMetrics.mk 0 0 0) 0 0 0%Q 0 None None None []
  end.

(** One pull request of alice, reviewed once by bob at time 120, with the
    given state, bob having been requested at the given times. *)
Definition onePR : list PRData.t :=
  [PRData.mk 1 "Add feature" "alice" 10 10 None (Some 500) merged false].

Definition reviewOfBob (st : ReviewState) : list (Z * list ReviewData.t) :=
  [(1, [ReviewData.mk 1 "bob" st 120])].

Definition requestsOfBob (times : list Z) : list (Z * list ReviewRequestData.t) :=
  [(1, map (fun t => ReviewRequestData.mk 1 "bob" t) times)].

Definition runOnePR (st : ReviewState) (times : list Z) : list PersonStats.t :=
  calculateStats codeUnitCompare clock "pbstck" "app"
    onePR (reviewOfBob st) (requestsOfBob times) [(1, [])].

(** bob is requested after the review. *)
Definition lateRequestRun : list PersonStats.t := runOnePR APPROVED [400].

(** bob is requested at the time of the review. *)
Definition sameTimeRun : list PersonStats.t := runOnePR APPROVED [120].

(** The clock of a second call, a day later. *)
Definition laterClock (n : nat) : Z := clock n + 24 * hour.

Example isBot_dependabot : isBot "dependabot[bot]" = true.
Proof. reflexivity. Qed.

Example isBot_uppercase : isBot "Renovate-Bot" = true.
Proof. reflexivity. Qed.

Example isBot_alice : isBot "alice" = false.
Proof. reflexivity. Qed.

Example scenario_order :
  map PersonStats.person run = ["alice"; "bob"].
Proof. reflexivity. Qed.

Example scenario_statuses :
  map (fun s => map PersonPRDetail.reviewStatus (PersonStats.prDetails s)) run
  = [[OWN_PR; COMMENTED_ONLY]; [Reviewed APPROVED; OWN_PR]].
Proof. reflexivity. Qed.

(** bob comments in a review at 110 and approves at 120, requested at 100:
    one approval in the tally, first review after 20, first comment after
    10. *)
Example commented_then_approved :
  let run :=
    calculateStats codeUnitCompare clock "pbstck" "app" onePR
      [(1, [ReviewData.mk 1 "bob" APPROVED 120; ReviewData.mk 1 "bob" COMMENTED 110])]
      (requestsOfBob [100]) [(1, [])] in
  PersonStats.reviewMetrics (pick "bob" run) = ReviewMetrics.mk 1 0 0
  /\ map (fun d => (PersonPRDetail.reviewStatus d,
                    PersonPRDetail.firstCommentTime d,
                    PersonPRDetail.firstReviewTime d))
         (PersonStats.prDetails (pick "bob" run))
     = [(Reviewed APPROVED, Some 10, Some 20)].
Proof. split; reflexivity. Qed.

(** A review that only comments is a review: the pull request counts as
    reviewed by bob, and bob as one of its reviewers. *)
Example commented_review_counts :
  PersonStats.uniquePRsReviewed (pick "bob" (runOnePR COMMENTED [])) = 1
  /\ PersonStats.reviewParticipationRate (pick "bob" (runOnePR COMMENTED []))
     = 100%Q
  /\ map PersonPRDetail.reviewStatus
       (PersonStats.prDetails (pick "bob" (runOnePR COMMENTED [])))
     = [Reviewed COMMENTED].
Proof. repeat split; reflexivity. Qed.

(** alice, who opened every pull request, can review none: the rate is 0. *)
Example nothing_to_review :
  PersonStats.eligiblePRsForReview (pick "alice" (runOnePR APPROVED [])) = 0
  /\ PersonStats.reviewParticipationRate (pick "alice" (runOnePR APPROVED []))
     = 0%Q.
Proof. split; reflexivity. Qed.

Example scenario_bob_first_review :
  option_map TimeMetrics.min (PersonStats.timeToFirstReview (pick "bob" run))
  = Some (2 * hour).
Proof. reflexivity. Qed.
End Examples.

Ltac in_run := vm_compute; repeat (first [left; reflexivity | right]).

Ltac distinct_keys :=
  repeat (constructor; [simpl; intuition discriminate|]); constructor.

(** C1 on the scenario: alice has one row per pull request. *)
Lemma prDetails_complete_witness :
  In (Examples.pick "alice" Scenario.run) Scenario.run
  /\ List.length (PersonStats.prDetails (Examples.pick "alice" Scenario.run)) = 2%nat.
Proof.
  assert (Hin : In (Examples.pick "alice" Scenario.run) Scenario.run) by in_run.
  split; [exact Hin|].
  exact (proj1 (prDetails_complete Scenario.codeUnitCompare Scenario.clock
                  "pbstck" "app" Scenario.prs Scenario.reviews
                  Scenario.reviewRequests Scenario.comments _ Hin)).
Defined.

(** C2 on the scenario: the approval of bob is counted once. *)
Lemma last_review_wins_witness :
  In (Examples.pick "bob" Scenario.run) Scenario.run
  /\ ReviewMetrics.approved
       (PersonStats.reviewMetrics (Examples.pick "bob" Scenario.run)) = 1.
Proof.
  assert (Hin : In (Examples.pick "bob" Scenario.run) Scenario.run) by in_run.
  split; [exact Hin|].
  exact (proj1 (proj2 (proj2 (last_review_wins Scenario.codeUnitCompare
                                Scenario.clock "pbstck" "app" Scenario.prs
                                Scenario.reviews Scenario.reviewRequests
                                Scenario.comments) _ Hin))).
Defined.

(** C9 on the scenario: the rows of bob. *)
Lemma own_pr_exclusive_witness :
  In (Examples.pick "bob" Scenario.run) Scenario.run
  /\ Forall2
       (fun d pr =>
          PersonPRDetail.prNumber d = PRData.number pr
          /\ (PRData.author pr = "bob" -> PersonPRDetail.reviewStatus d = OWN_PR)
          /\ (NoDup (map PRData.number Scenario.prs) ->
              PersonPRDetail.reviewStatus d = OWN_PR -> PRData.author pr = "bob")
          /\ (NoDup (map PRData.number Scenario.prs) ->
              NoDup (JsMap.keys Scenario.reviews) ->
              NoDup (JsMap.keys Scenario.comments) ->
              PRData.author pr <> "bob" ->
              PersonPRDetail.reviewStatus d
              = historyStatus "bob" (PRData.number pr)
                  Scenario.reviews Scenario.comments))
       (PersonStats.prDetails (Examples.pick "bob" Scenario.run)) Scenario.prs
  /\ NoDup (map PRData.number Scenario.prs)
  /\ NoDup (JsMap.keys Scenario.reviews)
  /\ NoDup (JsMap.keys Scenario.comments).
Proof.
  assert (Hin : In (Examples.pick "bob" Scenario.run) Scenario.run) by in_run.
  split; [exact Hin|]. split.
  - exact (own_pr_exclusive Scenario.codeUnitCompare Scenario.clock
             "pbstck" "app" Scenario.prs Scenario.reviews
             Scenario.reviewRequests Scenario.comments _ Hin).
  - repeat split; distinct_keys.
Defined.

(** C6 on a run where bob submits one review, which only comments, on
    the pull request of alice. *)
Lemma summary_derivation_witness :
  NoDup (map PRData.number Examples.onePR)
  /\ In (Examples.pick "bob" (Examples.runOnePR COMMENTED []))
        (Examples.runOnePR COMMENTED [])
  /\ PersonStats.eligiblePRsForReview
       (Examples.pick "bob" (Examples.runOnePR COMMENTED [])) = 1 - 0
  /\ 0 <= PersonStats.eligiblePRsForReview
            (Examples.pick "bob" (Examples.runOnePR COMMENTED []))
  /\ (exists reviewed : list Z,
        NoDup reviewed
        /\ (forall k,
              In k reviewed
              <-> (exists e r,
                      In e (Examples.reviewOfBob COMMENTED) /\ fst e = k
                      /\ In r (snd e) /\ ReviewData.reviewer r = "bob")
                  /\ ~ exists pr,
                         In pr Examples.onePR /\ PRData.author pr = "bob"
                         /\ PRData.number pr = k)
        /\ PersonStats.uniquePRsReviewed
             (Examples.pick "bob" (Examples.runOnePR COMMENTED []))
           = Z.of_nat (List.length reviewed))
  /\ PersonStats.reviewParticipationRate
       (Examples.pick "bob" (Examples.runOnePR COMMENTED []))
     = (inject_Z (PersonStats.uniquePRsReviewed
                    (Examples.pick "bob" (Examples.runOnePR COMMENTED [])))
        / inject_Z (PersonStats.eligiblePRsForReview
                      (Examples.pick "bob" (Examples.runOnePR COMMENTED [])))
        * 100)%Q.
Proof.
  set (run := Examples.runOnePR COMMENTED []).
  set (bob := Examples.pick "bob" run).
  assert (Hnd : NoDup (map PRData.number Examples.onePR)) by distinct_keys.
  assert (Hin : In bob run) by in_run.
  assert (Hq : PersonStats.person bob = "bob") by (vm_compute; reflexivity).
  pose proof (summary_derivation Scenario.codeUnitCompare Scenario.clock
                "pbstck" "app" Examples.onePR (Examples.reviewOfBob COMMENTED)
                [(1, [])] [(1, [])] bob Hnd Hin) as H.
  cbv zeta in H. rewrite Hq in H.
  destruct H as [He [Hpos [Hreviewed [_ Hrate]]]].
  split; [exact Hnd|]. split; [exact Hin|].
  split; [exact (eq_trans He eq_refl)|]. split; [exact Hpos|].
  split; [exact Hreviewed|].
  apply Hrate. rewrite He. discriminate.
Defined.

(** The number of pull requests a person formally reviewed as C6 words
    it, a formal review being one that is approved or changes requested:
    the pull requests, not the person's own, on which the person
    submitted such a review. *)
Definition spec_formallyReviewedCount (person : string) (prs : list PRData.t)
    (reviews : list (Z * list ReviewData.t)) : Z :=
  countIf
    (fun e =>
       existsb (fun r => String.eqb (ReviewData.reviewer r) person && isFormal r)
               (snd e)
       && negb (existsb (fun pr => (PRData.number pr =? fst e)
                                   && String.eqb (PRData.author pr) person) prs))%bool
    reviews.

(** C6 as stated fails: bob only commented in a review of the pull
    request of alice, so formally reviewed none; [uniquePRsReviewed] is
    1 and the participation rate is 100. *)
Lemma summary_derivation_counterexample :
  PersonStats.uniquePRsReviewed
    (Examples.pick "bob" (Examples.runOnePR COMMENTED [])) = 1
  /\ PersonStats.reviewParticipationRate
       (Examples.pick "bob" (Examples.runOnePR COMMENTED [])) = 100%Q
  /\ spec_formallyReviewedCount "bob" Examples.onePR
       (Examples.reviewOfBob COMMENTED) = 0.
Proof. repeat split; reflexivity. Qed.

(** C4 on the scenario: the rows of alice against everybody's rows. *)
Lemma reviewer_count_any_outcome_witness :
  In (Examples.pick "alice" Scenario.run) Scenario.run
  /\ forall s' d d',
       In s' Scenario.run ->
       In d (PersonStats.prDetails (Examples.pick "alice" Scenario.run)) ->
       In d' (PersonStats.prDetails s') ->
       PersonPRDetail.prNumber d = PersonPRDetail.prNumber d' ->
       PersonPRDetail.reviewerCount d = PersonPRDetail.reviewerCount d'.
Proof.
  assert (Hin : In (Examples.pick "alice" Scenario.run) Scenario.run) by in_run.
  split; [exact Hin|].
  exact (proj2 (reviewer_count_any_outcome Scenario.codeUnitCompare Scenario.clock
                  "pbstck" "app" Scenario.prs Scenario.reviews
                  Scenario.reviewRequests Scenario.comments _ Hin)).
Defined.

(** The number of reviewers of a pull request as C4 words it: the distinct
    identities that are not bots and submitted a review that is approved
    or changes requested. *)
Definition spec_formalReviewerCount (prReviews : list ReviewData.t) : Z :=
  JsSet.size (uniqueReviewers (filter isFormal prReviews)).

(** C4 as stated fails: bob only commented in a review of pull request 1,
    nobody approved it or requested changes, and its rows count one
    reviewer. *)
Lemma reviewer_count_counterexample :
  map (fun s => map PersonPRDetail.reviewerCount (PersonStats.prDetails s))
      (Examples.runOnePR COMMENTED [])
  = [[1]; [1]]
  /\ spec_formalReviewerCount (getOrEmpty 1 (Examples.reviewOfBob COMMENTED)) = 0.
Proof. split; reflexivity. Qed.

(** C3 on a run where bob, requested at 50 and again at 100, approves at
    120: the times are counted from 50, the request listed first, which is
    here the earliest. *)
Lemma first_listed_request_is_origin_witness :
  NoDup (JsMap.keys (Examples.reviewOfBob APPROVED))
  /\ NoDup (JsMap.keys [(1, @nil CommentData.t)])
  /\ In (Examples.pick "bob" (Examples.runOnePR APPROVED [50; 100]))
        (Examples.runOnePR APPROVED [50; 100])
  /\ getOrEmpty 1 (Examples.requestsOfBob [50; 100])
     = [] ++ ReviewRequestData.mk 1 "bob" 50 :: [ReviewRequestData.mk 1 "bob" 100]
  /\ chronological (getOrEmpty 1 (Examples.requestsOfBob [50; 100]))
  /\ pairElapsedComment "bob" 1 (Examples.reviewOfBob APPROVED)
       (Examples.requestsOfBob [50; 100]) [(1, [])] = Some (120 - 50)
  /\ pairElapsedReview "bob" 1 (Examples.reviewOfBob APPROVED)
       (Examples.requestsOfBob [50; 100]) = Some (120 - 50)
  /\ (forall d,
         In d (PersonStats.prDetails
                 (Examples.pick "bob" (Examples.runOnePR APPROVED [50; 100]))) ->
         PersonPRDetail.prNumber d = 1 ->
         PersonPRDetail.firstCommentTime d = Some 70
         /\ PersonPRDetail.firstReviewTime d = Some 70)
  /\ (forall data,
         In ("bob", data)
            (aggregate Examples.onePR (Examples.reviewOfBob APPROVED)
               (Examples.requestsOfBob [50; 100]) [(1, [])]) ->
         In 70 (PersonData.timeToFirstComment data)
         /\ In 70 (PersonData.timeToFirstReview data)
         /\ In 70 (PersonData.timeToApproval data))
  /\ (forall r,
         In r (getOrEmpty 1 (Examples.requestsOfBob [50; 100])) ->
         ReviewRequestData.reviewer r = "bob" ->
         50 <= ReviewRequestData.requestedAt r).
Proof.
  set (run := Examples.runOnePR APPROVED [50; 100]).
  set (bob := Examples.pick "bob" run).
  assert (Hr : NoDup (JsMap.keys (Examples.reviewOfBob APPROVED))) by distinct_keys.
  assert (Hc : NoDup (JsMap.keys [(1, @nil CommentData.t)])) by distinct_keys.
  assert (Hin : In bob run) by in_run.
  assert (Hlist : getOrEmpty 1 (Examples.requestsOfBob [50; 100])
                  = [] ++ ReviewRequestData.mk 1 "bob" 50
                       :: [ReviewRequestData.mk 1 "bob" 100]) by reflexivity.
  assert (Hq : PersonStats.person bob = "bob") by (vm_compute; reflexivity).
  assert (Hrq : ReviewRequestData.reviewer (ReviewRequestData.mk 1 "bob" 50)
                = PersonStats.person bob) by (rewrite Hq; reflexivity).
  assert (Hbefore : forall r, In r [] ->
                      ReviewRequestData.reviewer r <> PersonStats.person bob)
    by (intros r []).
  assert (Hchron : chronological (getOrEmpty 1 (Examples.requestsOfBob [50; 100]))).
  { repeat constructor. cbn. lia. }
  pose proof (first_listed_request_is_origin Scenario.codeUnitCompare
                Scenario.clock "pbstck" "app" Examples.onePR
                (Examples.reviewOfBob APPROVED) (Examples.requestsOfBob [50; 100])
                [(1, [])] bob 1 [] [ReviewRequestData.mk 1 "bob" 100]
                (ReviewRequestData.mk 1 "bob" 50)
                Hr Hc Hin Hlist Hrq Hbefore) as H.
  cbv zeta in H. rewrite Hq in H.
  destruct H as [Ec [Er [Hrows [Hcoll [_ [Hearliest _]]]]]].
  split; [exact Hr|]. split; [exact Hc|]. split; [exact Hin|].
  split; [exact Hlist|]. split; [exact Hchron|].
  split; [exact (eq_trans Ec eq_refl)|]. split; [exact (eq_trans Er eq_refl)|].
  split; [|split].
  - intros d Hd Hk. destruct (Hrows d Hd Hk) as [R1 R2].
    split; [exact (eq_trans R1 eq_refl)|exact (eq_trans R2 eq_refl)].
  - intros data Hdata. destruct (Hcoll data Hdata) as [C1 C2].
    split; [apply (C1 70); [reflexivity|lia]|apply (C2 70); [reflexivity|lia]].
  - exact (Hearliest Hchron).
Defined.

(** C3 as stated fails: bob, requested at 100 and, listed after, at 50,
    reviews at 120. The earliest request is at 50, 70 before the review;
    the time to first comment is 20, from the request listed first, and
    the result differs from the one with the single request at 50. *)
Lemma first_request_counterexample :
  map PersonPRDetail.firstCommentTime
      (PersonStats.prDetails
         (Examples.pick "bob" (Examples.runOnePR APPROVED [100; 50])))
  = [Some 20]
  /\ option_map (fun t => 120 - t)
       (earliestTime "bob" (getOrEmpty 1 (Examples.requestsOfBob [100; 50])))
     = Some 70
  /\ Examples.runOnePR APPROVED [100; 50]
     <> calculateStats Scenario.codeUnitCompare Scenario.clock "pbstck" "app"
          Examples.onePR (Examples.reviewOfBob APPROVED)
          (mapRequests earliestRequests (Examples.requestsOfBob [100; 50]))
          [(1, [])]
  /\ Examples.runOnePR APPROVED [100; 50] <> Examples.runOnePR APPROVED [50; 100].
Proof.
  split; [reflexivity|]. split; [reflexivity|].
  split; intros H;
    apply (f_equal (map (fun s => map PersonPRDetail.firstCommentTime
                                   (PersonStats.prDetails s)))) in H;
    vm_compute in H; discriminate.
Qed.

(** C7 with a clock that reads the same values. *)
Lemma deterministic_up_to_clock_witness :
  (forall n, Scenario.clock n = Scenario.clock n + 0)
  /\ Scenario.run
     = calculateStats Scenario.codeUnitCompare (fun n => Scenario.clock n + 0)
         "pbstck" "app" Scenario.prs Scenario.reviews Scenario.reviewRequests
         Scenario.comments.
Proof.
  assert (Hclock : forall n, Scenario.clock n = Scenario.clock n + 0)
    by (intros n; lia).
  split; [exact Hclock|].
  exact (proj1 (deterministic_up_to_clock Scenario.codeUnitCompare "pbstck" "app"
                  Scenario.clock (fun n => Scenario.clock n + 0)
                  Scenario.prs Scenario.reviews Scenario.reviewRequests
                  Scenario.comments) Hclock).
Defined.

(** C7 as stated fails: a second call on the scenario a day later returns
    other ages, and another [timeOpen] for the open pull request. *)
Lemma determinism_counterexample :
  map (fun s => map PersonPRDetail.ageInDays (PersonStats.prDetails s)) Scenario.run
  = [[9; 9]; [9; 9]]
  /\ map (fun s => map PersonPRDetail.ageInDays (PersonStats.prDetails s))
       (calculateStats Scenario.codeUnitCompare Examples.laterClock "pbstck" "app"
          Scenario.prs Scenario.reviews Scenario.reviewRequests Scenario.comments)
     = [[10; 10]; [10; 10]]
  /\ Scenario.run
     <> calculateStats Scenario.codeUnitCompare Examples.laterClock "pbstck" "app"
          Scenario.prs Scenario.reviews Scenario.reviewRequests Scenario.comments.
Proof.
  split; [reflexivity|]. split; [reflexivity|].
  intros H.
  apply (f_equal (map (fun s => map PersonPRDetail.ageInDays
                                 (PersonStats.prDetails s)))) in H.
  vm_compute in H. discriminate.
Qed.

(** Two pull requests of alice that bob approves, the first at 120 and
    the second at 150; bob is requested on the first at 400, after the
    review, and on the second at 100. *)
Module LateRequest.
Definition prs : list PRData.t :=
  [PRData.mk 1 "Add feature" "alice" 10 10 None (Some 500) merged false;
   PRData.mk 2 "Fix typo" "alice" 20 20 None (Some 600) merged false].

Definition reviews : list (Z * list ReviewData.t) :=
  [(1, [ReviewData.mk 1 "bob" APPROVED 120]);
   (2, [ReviewData.mk 2 "bob" APPROVED 150])].

Definition reviewRequests : list (Z * list ReviewRequestData.t) :=
  [(1, [ReviewRequestData.mk 1 "bob" 400]);
   (2, [ReviewRequestData.mk 2 "bob" 100])].

Definition comments : list (Z * list CommentData.t) := [(1, []); (2, [])].

Definition run : list PersonStats.t :=
  calculateStats Scenario.codeUnitCompare Scenario.clock "pbstck" "app"
    prs reviews reviewRequests comments.
End LateRequest.

(** C5 on that run: the elapsed times of bob on the first pull request
    are -280; the collections of bob hold the 50 of the second pull
    request and nothing else. *)
Lemma negative_elapsed_dropped_witness :
  NoDup (map PRData.number LateRequest.prs)
  /\ NoDup (JsMap.keys LateRequest.reviews)
  /\ NoDup (JsMap.keys LateRequest.comments)
  /\ In (Examples.pick "bob" LateRequest.run) LateRequest.run
  /\ -280 < 0
  /\ pairElapsedComment "bob" 1 LateRequest.reviews LateRequest.reviewRequests
       LateRequest.comments = Some (-280)
  /\ pairElapsedReview "bob" 1 LateRequest.reviews LateRequest.reviewRequests
     = Some (-280)
  /\ (forall data,
         In ("bob", data)
            (aggregate LateRequest.prs LateRequest.reviews
               LateRequest.reviewRequests LateRequest.comments) ->
         PersonData.timeToFirstComment data = [50]
         /\ PersonData.timeToFirstReview data = [50]
         /\ PersonData.timeToApproval data = [50]
         /\ exists stub,
              JsMap.get Z.eqb 1 (PersonData.prDetailsMap data) = Some stub
              /\ PRDetailStub.reviewStatus stub = Reviewed APPROVED
              /\ PRDetailStub.firstCommentTime stub = None
              /\ PRDetailStub.firstReviewTime stub = None)
  /\ (forall d,
         In d (PersonStats.prDetails (Examples.pick "bob" LateRequest.run)) ->
         PersonPRDetail.prNumber d = 1 ->
         PersonPRDetail.firstCommentTime d = None
         /\ PersonPRDetail.firstReviewTime d = None)
  /\ Forall2
       (fun d pr =>
          PersonPRDetail.prNumber d = PRData.number pr
          /\ PersonPRDetail.reviewStatus d
             = classify "bob" pr LateRequest.reviews LateRequest.comments)
       (PersonStats.prDetails (Examples.pick "bob" LateRequest.run))
       LateRequest.prs.
Proof.
  set (bob := Examples.pick "bob" LateRequest.run).
  assert (Hnd : NoDup (map PRData.number LateRequest.prs)) by distinct_keys.
  assert (Hr : NoDup (JsMap.keys LateRequest.reviews)) by distinct_keys.
  assert (Hc : NoDup (JsMap.keys LateRequest.comments)) by distinct_keys.
  assert (Hin : In bob LateRequest.run) by in_run.
  assert (Hneg : -280 < 0) by lia.
  assert (Hec : pairElapsedComment "bob" 1 LateRequest.reviews
                  LateRequest.reviewRequests LateRequest.comments = Some (-280))
    by reflexivity.
  assert (Her : pairElapsedReview "bob" 1 LateRequest.reviews
                  LateRequest.reviewRequests = Some (-280))
    by reflexivity.
  destruct (negative_elapsed_dropped Scenario.codeUnitCompare Scenario.clock
              "pbstck" "app" LateRequest.prs LateRequest.reviews
              LateRequest.reviewRequests LateRequest.comments bob 1 (-280)
              Hnd Hr Hc Hin Hneg (or_introl Hec)) as [Hcoll [Hrows Hclass]].
  split; [exact Hnd|]. split; [exact Hr|]. split; [exact Hc|].
  split; [exact Hin|]. split; [exact Hneg|]. split; [exact Hec|].
  split; [exact Her|]. split; [|split; [|exact Hclass]].
  - intros data Hdata.
    destruct (Hcoll data Hdata)
      as [_ [_ [_ [Tc [Tr [stub [Hstub [Hstatus [Sc Sr]]]]]]]]].
    destruct (Tr Her) as [Tr1 Tr2].
    split; [exact (eq_trans (Tc Hec) eq_refl)|].
    split; [exact (eq_trans Tr1 eq_refl)|].
    split; [exact (eq_trans Tr2 eq_refl)|].
    exists stub. split; [exact Hstub|].
    split; [exact (eq_trans Hstatus eq_refl)|].
    split; [exact (Sc Hec)|exact (Sr Her)].
  - intros d Hd Hk. destruct (Hrows d Hd Hk) as [Rc Rr].
    split; [exact (Rc Hec)|exact (Rr Her)].
Defined.

(** C10 on a run where bob reviews at 120 and is requested at 120. *)
Lemma zero_elapsed_counted_not_shown_witness :
  In (Examples.pick "bob" Examples.sameTimeRun) Examples.sameTimeRun
  /\ pairElapsedComment "bob" 1 (Examples.reviewOfBob APPROVED)
       (Examples.requestsOfBob [120]) [(1, [])] = Some 0
  /\ (exists m,
        PersonStats.timeToFirstComment (Examples.pick "bob" Examples.sameTimeRun)
        = Some m
        /\ TimeMetrics.min m = 0)
  /\ forall d,
       In d (PersonStats.prDetails (Examples.pick "bob" Examples.sameTimeRun)) ->
       PersonPRDetail.prNumber d = 1 ->
       PersonPRDetail.firstCommentTime d = None.
Proof.
  set (run := Examples.sameTimeRun).
  set (bob := Examples.pick "bob" run).
  assert (Hin : In bob run) by in_run.
  assert (He : pairElapsedComment "bob" 1 (Examples.reviewOfBob APPROVED)
                 (Examples.requestsOfBob [120]) [(1, [])] = Some 0)
    by reflexivity.
  assert (Hr : NoDup (JsMap.keys (Examples.reviewOfBob APPROVED))) by distinct_keys.
  assert (Hc : NoDup (JsMap.keys [(1, @nil CommentData.t)])) by distinct_keys.
  pose proof (proj1 (zero_elapsed_counted_not_shown Scenario.codeUnitCompare
                       Scenario.clock "pbstck" "app" Examples.onePR
                       (Examples.reviewOfBob APPROVED)
                       (Examples.requestsOfBob [120]) [(1, [])] bob 1
                       Hr Hc Hin) He) as [_ [Hm Hrows]].
  split; [exact Hin|]. split; [exact He|]. split; [exact Hm|exact Hrows].
Defined.

(** * Further properties *)

(** ** calculateTimeMetrics: bounds and order of the input *)

Lemma sorted_nth_le (l : list Z) (i j : nat) :
  StronglySorted Z.le l -> (i <= j)%nat -> (j < List.length l)%nat ->
  nth i l 0 <= nth j l 0.
Proof.
  intros Hs. revert i j. induction Hs as [|x l Hs IH Hx]; intros i j Hij Hj.
  - simpl in Hj. lia.
  - destruct i as [|i], j as [|j]; simpl in *; try lia.
    + rewrite Forall_forall in Hx. apply Hx. apply nth_In. lia.
    + apply IH; lia.
Qed.

Lemma sum_from (l : list Z) (a : Z) :
  fold_left (fun acc val => acc + val) l a
  = a + fold_left (fun acc val => acc + val) l 0.
Proof.
  revert a. induction l as [|x l IH]; intros a; simpl; [lia|].
  rewrite (IH (a + x)), (IH x). lia.
Qed.

Lemma sum_perm (l1 l2 : list Z) :
  Permutation l1 l2 ->
  fold_left (fun acc val => acc + val) l1 0
  = fold_left (fun acc val => acc + val) l2 0.
Proof.
  induction 1 as [|x l1 l2 _ IH|x y l|l1 l2 l3 _ IH1 _ IH2]; simpl.
  - reflexivity.
  - rewrite (sum_from l1 x), (sum_from l2 x). lia.
  - rewrite (sum_from l (y + x)), (sum_from l (x + y)). lia.
  - congruence.
Qed.

Lemma sum_bounds (l : list Z) (lo hi : Z) :
  (forall d, In d l -> lo <= d <= hi) ->
  lo * Z.of_nat (List.length l) <= fold_left (fun acc val => acc + val) l 0
  <= hi * Z.of_nat (List.length l).
Proof.
  induction l as [|x l IH]; intros H.
  - simpl. lia.
  - cbn [fold_left List.length]. rewrite (sum_from l (0 + x)).
    assert (Hx : lo <= x <= hi) by (apply H; now left).
    assert (Hl : forall d, In d l -> lo <= d <= hi) by (intros d Hd; apply H; now right).
    specialize (IH Hl). lia.
Qed.

Lemma calculateTimeMetrics_range (durations : list Z) (m : TimeMetrics.t) :
  calculateTimeMetrics durations = Some m ->
  In (TimeMetrics.min m) durations
  /\ In (TimeMetrics.max m) durations
  /\ (forall d, In d durations -> TimeMetrics.min m <= d <= TimeMetrics.max m)
  /\ (inject_Z (TimeMetrics.min m) <= TimeMetrics.median m
      /\ TimeMetrics.median m <= inject_Z (TimeMetrics.max m))%Q
  /\ (inject_Z (TimeMetrics.min m) <= TimeMetrics.average m
      /\ TimeMetrics.average m <= inject_Z (TimeMetrics.max m))%Q.
Proof.
  unfold calculateTimeMetrics. destruct durations as [|d0 ds]; [discriminate|].
  set (durations := d0 :: ds). set (sorted := JsArray.sort numericAscending durations).
  intros [= <-]. cbn [TimeMetrics.min TimeMetrics.max TimeMetrics.median
                      TimeMetrics.average].
  pose proof (numericAscending_sorted durations) as Hs. fold sorted in Hs.
  assert (Hlen : List.length sorted = List.length durations) by apply sort_length.
  assert (Hpos : (0 < List.length sorted)%nat) by (rewrite Hlen; simpl; lia).
  set (n := List.length sorted) in *.
  assert (Hin : forall i, (i < n)%nat -> In (nth i sorted 0) durations).
  { intros i Hi. apply (sort_In numericAscending). now apply nth_In. }
  assert (Hbound : forall d, In d durations ->
             nth 0 sorted 0 <= d <= nth (n - 1) sorted 0).
  { intros d Hd. apply (sort_In numericAscending) in Hd. fold sorted in Hd.
    destruct (In_nth _ _ 0 Hd) as [i [Hi <-]]. fold n in Hi.
    split; apply sorted_nth_le; trivial; lia. }
  assert (Hmid : forall i, (i < n)%nat ->
             nth 0 sorted 0 <= nth i sorted 0 <= nth (n - 1) sorted 0).
  { intros i Hi. apply Hbound. now apply Hin. }
  assert (Hhalf : (n / 2 < n)%nat) by (apply Nat.div_lt; lia).
  split; [apply Hin; lia|]. split; [apply Hin; lia|]. split; [exact Hbound|].
  change (fst (Nat.divmod n 1 0 1)) with (n / 2)%nat.
  split.
  - match goal with |- context [if ?c then _ else _] => destruct c end.
    + pose proof (Hmid (n / 2 - 1)%nat ltac:(lia)) as [H1 H2].
      pose proof (Hmid (n / 2)%nat Hhalf) as [H3 H4].
      split.
      * apply Qle_shift_div_l; [reflexivity|].
        change 2%Q with (inject_Z 2). rewrite <- inject_Z_mult, <- Zle_Qle. lia.
      * apply Qle_shift_div_r; [reflexivity|].
        change 2%Q with (inject_Z 2). rewrite <- inject_Z_mult, <- Zle_Qle. lia.
    + pose proof (Hmid (n / 2)%nat Hhalf) as [H3 H4].
      rewrite <- !Zle_Qle. lia.
  - pose proof (sum_bounds durations _ _ Hbound) as [H1 H2].
    assert (Hq : (0 < inject_Z (Z.of_nat (List.length durations)))%Q).
    { rewrite <- Hlen. fold n. change 0%Q with (inject_Z 0).
      rewrite <- Zlt_Qlt. lia. }
    split.
    + apply Qle_shift_div_l; [exact Hq|].
      rewrite <- inject_Z_mult, <- Zle_Qle. exact H1.
    + apply Qle_shift_div_r; [exact Hq|].
      rewrite <- inject_Z_mult, <- Zle_Qle. exact H2.
Qed.

(** X1.  The reported minimum and maximum are durations of the collection and
    bound all of them; the median and the average lie between the two. *)
Theorem timeMetrics_bounds (durations : list Z) (m : TimeMetrics.t) :
  calculateTimeMetrics durations = Some m ->
  In (TimeMetrics.min m) durations
  /\ In (TimeMetrics.max m) durations
  /\ (forall d, In d durations -> TimeMetrics.min m <= d <= TimeMetrics.max m)
  /\ (inject_Z (TimeMetrics.min m) <= TimeMetrics.median m
      /\ TimeMetrics.median m <= inject_Z (TimeMetrics.max m))%Q
  /\ (inject_Z (TimeMetrics.min m) <= TimeMetrics.average m
      /\ TimeMetrics.average m <= inject_Z (TimeMetrics.max m))%Q.
Proof. exact (calculateTimeMetrics_range durations m). Qed.

Lemma timeMetrics_bounds_witness :
  calculateTimeMetrics [30; 10; 20]
  = Some (TimeMetrics.mk (60 # 3) 10 30 (inject_Z 20))
  /\ In 10 [30; 10; 20] /\ In 30 [30; 10; 20].
Proof.
  assert (H : calculateTimeMetrics [30; 10; 20]
              = Some (TimeMetrics.mk (60 # 3) 10 30 (inject_Z 20)))
    by reflexivity.
  split; [exact H|].
  destruct (timeMetrics_bounds _ _ H) as [H1 [H2 _]]. split; assumption.
Defined.

(** X2.  The metrics do not depend on the order of the durations. *)
Theorem timeMetrics_permutation (d1 d2 : list Z) :
  Permutation d1 d2 -> calculateTimeMetrics d1 = calculateTimeMetrics d2.
Proof.
  intros Hp.
  assert (Hsort : JsArray.sort numericAscending d1 = JsArray.sort numericAscending d2).
  { apply sorted_perm_unique; try apply numericAscending_sorted.
    apply perm_trans with d1; [apply sort_perm|].
    apply perm_trans with d2; [assumption|].
    apply Permutation_sym, sort_perm. }
  unfold calculateTimeMetrics.
  destruct d1 as [|x1 l1], d2 as [|x2 l2].
  - reflexivity.
  - apply Permutation_nil in Hp. discriminate.
  - apply Permutation_sym, Permutation_nil in Hp. discriminate.
  - rewrite Hsort, (sum_perm _ _ Hp), (Permutation_length Hp). reflexivity.
Qed.

Lemma timeMetrics_permutation_witness :
  Permutation [30; 10; 20] [10; 20; 30]
  /\ calculateTimeMetrics [30; 10; 20] = calculateTimeMetrics [10; 20; 30].
Proof.
  assert (Hp : Permutation [30; 10; 20] [10; 20; 30]).
  { apply perm_trans with (10 :: 30 :: [20]);
      [apply perm_swap | apply perm_skip, perm_swap]. }
  split; [exact Hp|]. exact (timeMetrics_permutation _ _ Hp).
Defined.

(** ** calculateStats: who is in the result *)

Lemma group_member {A : Type} (who : A -> string) (records : list A) (q : string) :
  (exists x, In x (groupByPerson who (filter (notBot who) records)) /\ fst x = q)
  <-> isBot q = false /\ exists r, In r records /\ who r = q.
Proof.
  split.
  - intros [[q' l] [Hin Hq]]. simpl in Hq. subst q'.
    pose proof (group_key_notBot who records _ Hin) as Hbot. simpl in Hbot.
    split; [assumption|].
    apply (In_get_Some String.eqb String.eqb_eq) in Hin;
      [|apply NoDup_groupByPerson].
    rewrite get_groupByPerson in Hin.
    destruct (recordsOf who q (filter (notBot who) records)) as [|r rs] eqn:E;
      [discriminate|].
    assert (Hr : In r (recordsOf who q (filter (notBot who) records)))
      by (rewrite E; now left).
    apply recordsOf_In in Hr. destruct Hr as [Hr Hw].
    apply filter_In in Hr. exists r. tauto.
  - intros [Hbot [r [Hr Hw]]].
    assert (Hmine : In r (recordsOf who q (filter (notBot who) records))).
    { apply recordsOf_In. split; [|assumption]. apply filter_In.
      split; [assumption|]. unfold notBot. now rewrite Hw, Hbot. }
    pose proof (get_groupByPerson who q (filter (notBot who) records)) as Hget.
    destruct (recordsOf who q (filter (notBot who) records)) as [|r0 rs];
      [destruct Hmine|].
    apply (get_Some_In String.eqb String.eqb_eq) in Hget.
    exists (q, r0 :: rs). auto.
Qed.

Lemma keys_fold_iff {X : Type} (f : PersonMap -> X -> PersonMap)
    (P : X -> Prop) (q : string) :
  (forall pm x, In q (JsMap.keys (f pm x)) <-> In q (JsMap.keys pm) \/ P x) ->
  forall l pm,
    In q (JsMap.keys (fold_left f l pm))
    <-> In q (JsMap.keys pm) \/ exists x, In x l /\ P x.
Proof.
  intros Hf l. induction l as [|x l IH]; intros pm; simpl.
  - split; [tauto|]. intros [H|[x [[] _]]]. assumption.
  - rewrite IH, Hf. split.
    + intros [[H|H]|[y [H1 H2]]]; [tauto| |].
      * right. exists x. tauto.
      * right. exists y. tauto.
    + intros [H|[y [[->|H1] H2]]]; [tauto|tauto|].
      right. exists y. tauto.
Qed.

(** The keys of the map after the three loops: the authors, the reviewers
    and the commenters of the input that are not bots. *)
Lemma aggregate_keys prs reviews reqs comments (q : string) :
  In q (JsMap.keys (aggregate prs reviews reqs comments))
  <-> isBot q = false
      /\ ((exists pr, In pr prs /\ PRData.author pr = q)
          \/ (exists e r, In e reviews /\ In r (snd e) /\ ReviewData.reviewer r = q)
          \/ (exists e c, In e comments /\ In c (snd e)
                          /\ CommentData.commenter c = q)).
Proof.
  unfold aggregate, processComments, processReviews.
  rewrite (keys_fold_iff (processPRComments reqs)
             (fun e => isBot q = false
                       /\ exists c, In c (snd e) /\ CommentData.commenter c = q)).
  2:{ intros pm e. rewrite processPRComments_loop, keys_loop.
      rewrite <- (group_member CommentData.commenter (snd e) q).
      split; (intros [H|[x [H1 H2]]]; [now left|right; exists x; tauto]). }
  rewrite (keys_fold_iff (processPRReviews reqs comments)
             (fun e => isBot q = false
                       /\ exists r, In r (snd e) /\ ReviewData.reviewer r = q)).
  2:{ intros pm e. rewrite processPRReviews_loop, keys_loop.
      rewrite <- (group_member ReviewData.reviewer (snd e) q).
      split; (intros [H|[x [H1 H2]]]; [now left|right; exists x; tauto]). }
  rewrite countOpened_loop, keys_loop. simpl. split.
  - intros [[[[]|[pr [H1 [H2 H3]]]]|[e [H1 [H2 [r [H3 H4]]]]]]|[e [H1 [H2 [c [H3 H4]]]]]].
    + split; [congruence|]. left. now exists pr.
    + split; [assumption|]. right. left. now exists e, r.
    + split; [assumption|]. right. right. now exists e, c.
  - intros [Hbot [[pr [H1 H2]]|[[e [r [H1 [H2 H3]]]]|[e [c [H1 [H2 H3]]]]]]].
    + left. left. right. exists pr. split; [assumption|]. split; congruence.
    + left. right. exists e. split; [assumption|]. split; [assumption|]. now exists r.
    + right. exists e. split; [assumption|]. split; [assumption|]. now exists c.
Qed.

Section Persons.
Variable localeCompare : string -> string -> Z.
Variable Date_now : nat -> Z.
Variable owner repo : string.

Local Abbreviation calculateStats :=
  (calculateStats localeCompare Date_now owner repo).

Lemma buildStats_persons prs reviews tick (pm : PersonMap) :
  map PersonStats.person (buildStats Date_now owner repo prs reviews tick pm)
  = JsMap.keys pm.
Proof.
  revert tick. induction pm as [|[q data] pm IH]; intros tick; [reflexivity|].
  cbn [buildStats].
  pose proof (buildPerson_fields Date_now owner repo prs reviews tick q data)
    as [Hperson _].
  destruct (buildPerson Date_now owner repo prs reviews tick q data) as [s0 t0].
  cbn [map JsMap.keys fst] in *. now rewrite Hperson, IH.
Qed.

Lemma calculateStats_persons prs reviews reqs comments :
  Permutation (map PersonStats.person (calculateStats prs reviews reqs comments))
              (JsMap.keys (aggregate prs reviews reqs comments)).
Proof.
  unfold calculateStats.
  rewrite <- (buildStats_persons prs reviews 0%nat).
  apply Permutation_map, sort_perm.
Qed.

(** X3.  The persons of the result are the authors of the pull requests, the
    reviewers and the commenters of the input that are not bots, and
    nobody else; no person has two records. *)
Theorem persons_of_the_result prs reviews reqs comments :
  (forall q,
      In q (map PersonStats.person (calculateStats prs reviews reqs comments))
      <-> isBot q = false
          /\ ((exists pr, In pr prs /\ PRData.author pr = q)
              \/ (exists e r, In e reviews /\ In r (snd e)
                              /\ ReviewData.reviewer r = q)
              \/ (exists e c, In e comments /\ In c (snd e)
                              /\ CommentData.commenter c = q)))
  /\ NoDup (map PersonStats.person (calculateStats prs reviews reqs comments)).
Proof.
  pose proof (calculateStats_persons prs reviews reqs comments) as Hp. split.
  - intros q. rewrite <- aggregate_keys. split; apply Permutation_in;
      [exact Hp|exact (Permutation_sym Hp)].
  - apply (Permutation_NoDup (Permutation_sym Hp)).
    apply (allPersons_aggregate prs reviews reqs comments).
Qed.

(** X4.  [prsOpened] is the number of pull requests of the input the person is
    the author of. *)
Theorem prsOpened_counts_authored prs reviews reqs comments (s : PersonStats.t) :
  In s (calculateStats prs reviews reqs comments) ->
  PersonStats.prsOpened s
  = Z.of_nat (List.length (openedBy (PersonStats.person s) prs)).
Proof.
  intros Hin.
  destruct (calculateStats_rows _ _ _ _ _ _ _ _ _ Hin) as [Hbot _].
  destruct (calculateStats_record _ _ _ _ _ _ _ _ _ Hin) as [t [_ Hs]].
  destruct (buildPerson_summary Date_now owner repo prs reviews t
              (PersonStats.person s)
              (personRecord (PersonStats.person s) prs reviews reqs comments))
    as [Hopened _].
  rewrite <- Hs in Hopened. rewrite Hopened.
  exact (proj2 (personRecord_own _ prs reviews reqs comments Hbot)).
Qed.
End Persons.

Lemma prsOpened_counts_authored_witness :
  In (Examples.pick "bob" Scenario.run) Scenario.run
  /\ PersonStats.prsOpened (Examples.pick "bob" Scenario.run) = 1.
Proof.
  assert (Hin : In (Examples.pick "bob" Scenario.run) Scenario.run) by in_run.
  split; [exact Hin|].
  exact (prsOpened_counts_authored Scenario.codeUnitCompare Scenario.clock
           "pbstck" "app" Scenario.prs Scenario.reviews
           Scenario.reviewRequests Scenario.comments _ Hin).
Defined.

(** ** calculateStats: the order of the result *)

Lemma sort_sorted_for {A : Type} (cmp : A -> A -> Z) (R : A -> A -> Prop) :
  (forall x y, cmp x y <= 0 -> R x y) ->
  (forall x y, 0 < cmp x y -> R y x) ->
  (forall x y z, R x y -> R y z -> R x z) ->
  forall l, StronglySorted R (JsArray.sort cmp l).
Proof.
  intros Hle Hgt Htrans.
  assert (Hins : forall x l, StronglySorted R l ->
                             StronglySorted R (JsArray.insertBy cmp x l)).
  { intros x l Hs. induction Hs as [|y l Hs IH Hy]; simpl.
    - repeat constructor.
    - destruct (cmp x y <=? 0) eqn:E.
      + apply Z.leb_le in E. constructor; [now constructor|].
        constructor; [now apply Hle|].
        rewrite Forall_forall in *. intros z Hz.
        apply Htrans with y; [now apply Hle|now apply Hy].
      + apply Z.leb_gt in E. constructor; [assumption|].
        rewrite Forall_forall in *. intros z Hz.
        apply (Permutation_in _ (insertBy_perm cmp x l)) in Hz.
        destruct Hz as [<-|Hz]; [now apply Hgt|now apply Hy]. }
  induction l as [|x l IH]; simpl; [constructor|now apply Hins].
Qed.

(** X5.  The result is in the order of [prsOpened], largest first, whatever
    [localeCompare] answers; when [localeCompare] is a total preorder,
    records with the same [prsOpened] are in the order of
    [localeCompare] on the names. *)
Theorem result_is_ranked (localeCompare : string -> string -> Z)
    (Date_now : nat -> Z) (owner repo : string) prs reviews reqs comments :
  StronglySorted
    (fun a b => PersonStats.prsOpened b <= PersonStats.prsOpened a)
    (calculateStats localeCompare Date_now owner repo prs reviews reqs comments)
  /\ ((forall a b, 0 < localeCompare a b -> localeCompare b a <= 0) ->
      (forall a b c, localeCompare a b <= 0 -> localeCompare b c <= 0 ->
                     localeCompare a c <= 0) ->
      StronglySorted
        (fun a b =>
           PersonStats.prsOpened b < PersonStats.prsOpened a
           \/ (PersonStats.prsOpened a = PersonStats.prsOpened b
               /\ localeCompare (PersonStats.person a) (PersonStats.person b) <= 0))
        (calculateStats localeCompare Date_now owner repo prs reviews reqs comments)).
Proof.
  unfold calculateStats. split; [|intros Htotal Htrans];
    apply sort_sorted_for; unfold byPrsOpenedThenName.
  - intros x y. destruct (PersonStats.prsOpened y =? PersonStats.prsOpened x) eqn:E;
      simpl; [apply Z.eqb_eq in E|]; lia.
  - intros x y. destruct (PersonStats.prsOpened y =? PersonStats.prsOpened x) eqn:E;
      simpl; [apply Z.eqb_eq in E|]; lia.
  - intros x y z. lia.
  - intros x y. destruct (PersonStats.prsOpened y =? PersonStats.prsOpened x) eqn:E;
      simpl; [apply Z.eqb_eq in E|apply Z.eqb_neq in E]; intros H.
    + right. split; [lia|assumption].
    + left. lia.
  - intros x y. destruct (PersonStats.prsOpened y =? PersonStats.prsOpened x) eqn:E;
      simpl; [apply Z.eqb_eq in E|apply Z.eqb_neq in E]; intros H.
    + right. split; [lia|]. now apply Htotal.
    + left. lia.
  - intros x y z [H1|[H1 H1']] [H2|[H2 H2']]; try (left; lia).
    right. split; [lia|]. now apply Htrans with (PersonStats.person y).
Qed.

(** A comparator that is a total preorder: by length of the name. *)
Definition byLength (a b : string) : Z :=
  Z.of_nat (String.length a) - Z.of_nat (String.length b).

Lemma result_is_ranked_witness :
  (forall a b, 0 < byLength a b -> byLength b a <= 0)
  /\ (forall a b c, byLength a b <= 0 -> byLength b c <= 0 -> byLength a c <= 0)
  /\ StronglySorted
       (fun a b =>
          PersonStats.prsOpened b < PersonStats.prsOpened a
          \/ (PersonStats.prsOpened a = PersonStats.prsOpened b
              /\ byLength (PersonStats.person a) (PersonStats.person b) <= 0))
       (calculateStats byLength Scenario.clock "pbstck" "app" Scenario.prs
          Scenario.reviews Scenario.reviewRequests Scenario.comments).
Proof.
  assert (H1 : forall a b, 0 < byLength a b -> byLength b a <= 0)
    by (unfold byLength; intros; lia).
  assert (H2 : forall a b c, byLength a b <= 0 -> byLength b c <= 0 ->
                             byLength a c <= 0)
    by (unfold byLength; intros; lia).
  split; [exact H1|]. split; [exact H2|].
  exact (proj2 (result_is_ranked byLength Scenario.clock "pbstck" "app"
                  Scenario.prs Scenario.reviews Scenario.reviewRequests
                  Scenario.comments) H1 H2).
Defined.

(** ** calculateStats: the timing of a person *)

(** The collections of the first review and of the approval are filled
    together. *)
Lemma personRecord_approval person prs reviews reqs comments :
  PersonData.timeToApproval (personRecord person prs reviews reqs comments)
  = PersonData.timeToFirstReview (personRecord person prs reviews reqs comments).
Proof.
  apply (personRecord_ind
           (fun d => PersonData.timeToApproval d = PersonData.timeToFirstReview d)).
  - reflexivity.
  - intros d pr H. unfold openedFor.
    destruct (isBot (PRData.author pr)); [assumption|].
    destruct (String.eqb (PRData.author pr) person); assumption.
  - intros d e H. review_step person reqs comments d e; [assumption|].
    unfold recordedReviews.
    cbn [PersonData.timeToApproval PersonData.timeToFirstReview]. now rewrite H.
  - intros d e H. comment_step person reqs d e; assumption.
Qed.

(** A person that no request names has empty collections, and stubs
    without times. *)
Definition neverRequested (person : string)
    (reqs : list (Z * list ReviewRequestData.t)) : Prop :=
  forall e rq, In e reqs -> In rq (snd e) -> ReviewRequestData.reviewer rq <> person.

Lemma neverRequested_time person reqs (k : Z) :
  neverRequested person reqs -> requestTimeOf person (getOrEmpty k reqs) = None.
Proof.
  intros H. unfold requestTimeOf, findRequest.
  destruct (find _ (getOrEmpty k reqs)) as [rq|] eqn:E; [|reflexivity].
  exfalso. apply find_some in E. destruct E as [Hin Hq].
  apply String.eqb_eq in Hq. unfold getOrEmpty in Hin.
  destruct (JsMap.get Z.eqb k reqs) as [l|] eqn:Eg; [|destruct Hin].
  apply (get_Some_In Z.eqb Zeqb_eq) in Eg. exact (H (k, l) rq Eg Hin Hq).
Qed.

Definition noTiming (d : PersonData.t) : Prop :=
  PersonData.timeToFirstComment d = []
  /\ PersonData.timeToFirstReview d = []
  /\ PersonData.timeToApproval d = []
  /\ forall k stub,
       JsMap.get Z.eqb k (PersonData.prDetailsMap d) = Some stub ->
       PRDetailStub.firstCommentTime stub = None
       /\ PRDetailStub.firstReviewTime stub = None.

Lemma personRecord_noTiming person prs reviews reqs comments :
  neverRequested person reqs ->
  noTiming (personRecord person prs reviews reqs comments).
Proof.
  intros Hnever. apply personRecord_ind.
  - repeat split; discriminate.
  - intros d pr H. unfold openedFor.
    destruct (isBot (PRData.author pr)); [assumption|].
    destruct (String.eqb (PRData.author pr) person); assumption.
  - intros d e [H1 [H2 [H3 H4]]]. review_step person reqs comments d e;
      [exact (conj H1 (conj H2 (conj H3 H4)))|].
    unfold recordedReviews, noTiming, reviewerElapsedComment, reviewerElapsedReview.
    rewrite (neverRequested_time person reqs (fst e) Hnever).
    cbn [PersonData.timeToFirstComment PersonData.timeToFirstReview
         PersonData.timeToApproval PersonData.prDetailsMap keepNonNegative pushTime].
    repeat split; try assumption;
      destruct (Z.eq_dec (fst e) k) as [<-|Hne];
      try (rewrite (get_set_same Z.eqb Zeqb_eq) in H; now injection H as <-);
      rewrite (get_set_other Z.eqb Zeqb_eq) in H by assumption;
      now apply (H4 k stub).
  - intros d e [H1 [H2 [H3 H4]]]. comment_step person reqs d e;
      [exact (conj H1 (conj H2 (conj H3 H4)))|].
    unfold recordedComments, noTiming.
    rewrite commenterFirstCommentElapsed_time,
      (neverRequested_time person reqs (fst e) Hnever).
    cbn [PersonData.timeToFirstComment PersonData.timeToFirstReview
         PersonData.timeToApproval PersonData.prDetailsMap keepNonNegative pushTime].
    repeat split; try assumption;
      destruct (Z.eq_dec (fst e) k) as [<-|Hne];
      try (rewrite (get_set_same Z.eqb Zeqb_eq) in H; now injection H as <-);
      rewrite (get_set_other Z.eqb Zeqb_eq) in H by assumption;
      now apply (H4 k stub).
Qed.

Lemma calculateTimeMetrics_nil_iff (durations : list Z) :
  calculateTimeMetrics durations = None <-> durations = [].
Proof.
  split; [|intros ->; reflexivity].
  destruct durations; [reflexivity|discriminate].
Qed.

Lemma orNull_Some (o : option Z) (v : Z) :
  orNull (keepNonNegative o) = Some v <-> o = Some v /\ 0 < v.
Proof.
  destruct o as [w|]; simpl; [|split; [discriminate|intros [H _]; discriminate]].
  unfold nonNegative. destruct (w >=? 0) eqn:E; simpl.
  - apply Z.geb_le in E. destruct (w =? 0) eqn:E0.
    + apply Z.eqb_eq in E0. split; [discriminate|]. intros [[= ->] H]. lia.
    + apply Z.eqb_neq in E0. split.
      * intros [= <-]. split; [reflexivity|lia].
      * intros [[= ->] _]. reflexivity.
  - rewrite Z.geb_leb in E. apply Z.leb_gt in E.
    split; [discriminate|]. intros [[= ->] H]. lia.
Qed.

Section MoreTiming.
Variable localeCompare : string -> string -> Z.
Variable Date_now : nat -> Z.
Variable owner repo : string.

Local Abbreviation calculateStats :=
  (calculateStats localeCompare Date_now owner repo).

Lemma calculateStats_metrics prs reviews reqs comments (s : PersonStats.t) :
  In s (calculateStats prs reviews reqs comments) ->
  let rec := personRecord (PersonStats.person s) prs reviews reqs comments in
  PersonStats.timeToFirstComment s
  = calculateTimeMetrics (PersonData.timeToFirstComment rec)
  /\ PersonStats.timeToFirstReview s
     = calculateTimeMetrics (PersonData.timeToFirstReview rec)
  /\ PersonStats.timeToApproval s
     = calculateTimeMetrics (PersonData.timeToApproval rec).
Proof.
  intros Hin rec.
  destruct (calculateStats_record _ _ _ _ _ _ _ _ _ Hin) as [t [_ Hs]].
  destruct (buildPerson_summary Date_now owner repo prs reviews t
              (PersonStats.person s) rec) as [_ [_ [_ H]]].
  fold rec in Hs. now rewrite <- Hs in H.
Qed.

(** X6.  The metrics of the time to approval are those of the time to first
    review, for every person. *)
Theorem approval_is_first_review prs reviews reqs comments (s : PersonStats.t) :
  In s (calculateStats prs reviews reqs comments) ->
  PersonStats.timeToApproval s = PersonStats.timeToFirstReview s.
Proof.
  intros Hin.
  destruct (calculateStats_metrics _ _ _ _ _ Hin) as [_ [-> ->]].
  now rewrite personRecord_approval.
Qed.

(** X7.  No reported metric is negative: the minimum, hence the maximum, the
    median and the average, of each of the three metrics of a person is
    at least 0. *)
Theorem metrics_not_negative prs reviews reqs comments (s : PersonStats.t)
    (m : TimeMetrics.t) :
  In s (calculateStats prs reviews reqs comments) ->
  PersonStats.timeToFirstComment s = Some m
  \/ PersonStats.timeToFirstReview s = Some m
  \/ PersonStats.timeToApproval s = Some m ->
  0 <= TimeMetrics.min m /\ 0 <= TimeMetrics.max m
  /\ (0 <= TimeMetrics.median m)%Q /\ (0 <= TimeMetrics.average m)%Q.
Proof.
  intros Hin Hm.
  destruct (calculateStats_metrics _ _ _ _ _ Hin) as [Hc [Hr Ha]].
  destruct (personRecord_nonNegative (PersonStats.person s) prs reviews reqs comments)
    as [Pc [Pr Pa]].
  assert (Hcoll : exists l, calculateTimeMetrics l = Some m
                            /\ forall v, In v l -> 0 <= v).
  { destruct Hm as [Hm|[Hm|Hm]].
    - rewrite Hc in Hm. eauto.
    - rewrite Hr in Hm. eauto.
    - rewrite Ha in Hm. eauto. }
  destruct Hcoll as [l [Hl Hpos]].
  destruct (calculateTimeMetrics_range l m Hl)
    as [Hmin [Hmax [_ [[Hmed _] [Havg _]]]]].
  assert (H0 : 0 <= TimeMetrics.min m) by now apply Hpos.
  split; [exact H0|]. split; [now apply Hpos|].
  assert (Hq : (0 <= inject_Z (TimeMetrics.min m))%Q).
  { change 0%Q with (inject_Z 0). now rewrite <- Zle_Qle. }
  split; eapply Qle_trans; eassumption.
Qed.

(** X8.  A person that no review request names has no timing at all: the
    three metrics are null, and so are the two times of every row. *)
Theorem no_request_no_timing prs reviews reqs comments (s : PersonStats.t) :
  In s (calculateStats prs reviews reqs comments) ->
  neverRequested (PersonStats.person s) reqs ->
  PersonStats.timeToFirstComment s = None
  /\ PersonStats.timeToFirstReview s = None
  /\ PersonStats.timeToApproval s = None
  /\ forall d, In d (PersonStats.prDetails s) ->
               PersonPRDetail.firstCommentTime d = None
               /\ PersonPRDetail.firstReviewTime d = None.
Proof.
  intros Hin Hnever.
  destruct (calculateStats_metrics _ _ _ _ _ Hin) as [-> [-> ->]].
  destruct (personRecord_noTiming (PersonStats.person s) prs reviews reqs comments
              Hnever) as [-> [-> [-> Hstubs]]].
  repeat split; try reflexivity.
  - destruct (calculateStats_rows _ _ _ _ _ _ _ _ _ Hin) as [_ Hrows].
    destruct (Forall2_In_l _ _ _ _ Hrows H) as [pr [_ [_ [t ->]]]].
    destruct (buildDetail_fields Date_now owner repo reviews
                (personRecord (PersonStats.person s) prs reviews reqs comments) t pr)
      as [_ [_ [-> _]]].
    destruct (JsMap.get Z.eqb (PRData.number pr) _) as [stub|] eqn:E;
      [|reflexivity].
    now rewrite (proj1 (Hstubs _ _ E)).
  - destruct (calculateStats_rows _ _ _ _ _ _ _ _ _ Hin) as [_ Hrows].
    destruct (Forall2_In_l _ _ _ _ Hrows H) as [pr [_ [_ [t ->]]]].
    destruct (buildDetail_fields Date_now owner repo reviews
                (personRecord (PersonStats.person s) prs reviews reqs comments) t pr)
      as [_ [_ [_ [-> _]]]].
    destruct (JsMap.get Z.eqb (PRData.number pr) _) as [stub|] eqn:E;
      [|reflexivity].
    now rewrite (proj2 (Hstubs _ _ E)).
Qed.

(** X9.  The maps having pairwise distinct keys, a row of a person shows a time
    to first comment (to first review) exactly when the elapsed time
    computed for the person on the pull request of the row is strictly
    positive, and shows that time. *)
Theorem row_times_shown prs reviews reqs comments (s : PersonStats.t)
    (d : PersonPRDetail.t) (v : Z) :
  NoDup (JsMap.keys reviews) -> NoDup (JsMap.keys comments) ->
  In s (calculateStats prs reviews reqs comments) ->
  In d (PersonStats.prDetails s) ->
  (PersonPRDetail.firstCommentTime d = Some v
   <-> pairElapsedComment (PersonStats.person s) (PersonPRDetail.prNumber d)
         reviews reqs comments = Some v /\ 0 < v)
  /\ (PersonPRDetail.firstReviewTime d = Some v
      <-> pairElapsedReview (PersonStats.person s) (PersonPRDetail.prNumber d)
            reviews reqs = Some v /\ 0 < v).
Proof.
  intros Hr Hc Hin Hd.
  destruct (row_times localeCompare Date_now owner repo _ _ _ _ _ _ Hr Hc Hin Hd)
    as [-> ->].
  destruct (pairStub_times (PersonStats.person s) (PersonPRDetail.prNumber d)
              reviews reqs comments) as [-> ->].
  split; apply orNull_Some.
Qed.
End MoreTiming.

(** ** calculateStats: the participation rate as a percentage *)

Lemma rate_range (u e : Z) :
  0 <= u <= e -> 0 < e ->
  (0 <= inject_Z u / inject_Z e * 100 /\ inject_Z u / inject_Z e * 100 <= 100)%Q.
Proof.
  intros Hu He. destruct e as [|p|p]; try lia.
  unfold Qle, Qdiv, Qmult, Qinv, inject_Z. simpl. split; nia.
Qed.

Section Percentage.
Variable localeCompare : string -> string -> Z.
Variable Date_now : nat -> Z.
Variable owner repo : string.

Local Abbreviation calculateStats :=
  (calculateStats localeCompare Date_now owner repo).

(** X10.  When the pull-request numbers are pairwise distinct and every key of
    the reviews map is the number of a pull request of the input (as the
    caller builds the map), a person reviewed at most as many pull
    requests as there are to review, and the participation rate is between
    0 and 100. *)
Theorem participation_is_a_percentage prs reviews reqs comments (s : PersonStats.t) :
  NoDup (map PRData.number prs) ->
  (forall e, In e reviews -> In (fst e) (map PRData.number prs)) ->
  In s (calculateStats prs reviews reqs comments) ->
  0 <= PersonStats.uniquePRsReviewed s <= PersonStats.eligiblePRsForReview s
  /\ (0 <= PersonStats.reviewParticipationRate s
      /\ PersonStats.reviewParticipationRate s <= 100)%Q.
Proof.
  intros Hnd Hkeys Hin.
  destruct (calculateStats_rows _ _ _ _ _ _ _ _ _ Hin) as [Hbot _].
  destruct (calculateStats_record _ _ _ _ _ _ _ _ _ Hin) as [t [_ Hs]].
  set (q := PersonStats.person s) in *.
  set (rec := personRecord q prs reviews reqs comments) in *.
  destruct (buildPerson_participation Date_now owner repo prs reviews t q rec)
    as [Hu [He Hrate]].
  rewrite <- Hs in Hu, He, Hrate.
  pose proof (personRecord_own_distinct q prs reviews reqs comments Hbot Hnd)
    as Hown. fold rec in Hown.
  destruct (personRecord_tally q prs reviews reqs comments)
    as [_ [_ [_ [Hndr Hinr]]]]. fold rec in Hndr, Hinr.
  set (kept := filter (fun prNumber =>
                         negb (JsSet.has Z.eqb prNumber (PersonData.ownPRNumbers rec)))
                      (PersonData.prsReviewedSet rec)) in *.
  assert (Hndk : NoDup kept) by now apply NoDup_filter.
  rewrite (ofArray_NoDup Z.eqb Zeqb_eq kept Hndk) in Hu.
  set (others := map PRData.number
                   (filter (fun pr => negb (String.eqb (PRData.author pr) q)) prs)).
  assert (Hincl : incl kept others).
  { intros k Hk. unfold kept in Hk. apply filter_In in Hk. destruct Hk as [Hk Hnot].
    apply Hinr in Hk. destruct Hk as [e [He1 [He2 _]]].
    pose proof (Hkeys e He1) as Hnum. rewrite He2 in Hnum.
    apply in_map_iff in Hnum. destruct Hnum as [pr [Hpr1 Hpr2]].
    unfold others. apply in_map_iff. exists pr. split; [assumption|].
    apply filter_In. split; [assumption|].
    apply Bool.negb_true_iff in Hnot. apply Bool.negb_true_iff.
    destruct (String.eqb (PRData.author pr) q) eqn:E; [|reflexivity].
    apply String.eqb_eq in E. exfalso.
    apply Bool.not_true_iff_false in Hnot. apply Hnot.
    apply (set_has_In Z.eqb Zeqb_eq). rewrite Hown, <- Hpr1. apply in_map.
    unfold openedBy. apply filter_In. split; [assumption|]. now apply String.eqb_eq. }
  pose proof (NoDup_incl_length Hndk Hincl) as Hlen.
  assert (Hsplit : (List.length (openedBy q prs)
                    + List.length (filter (fun pr => negb (String.eqb (PRData.author pr) q)) prs)
                    = List.length prs)%nat).
  { unfold openedBy. clear. induction prs as [|pr l IH]; simpl; [reflexivity|].
    destruct (String.eqb (PRData.author pr) q); simpl; lia. }
  unfold others in Hlen. rewrite length_map in Hlen.
  assert (Hrange : 0 <= PersonStats.uniquePRsReviewed s
                   <= PersonStats.eligiblePRsForReview s).
  { rewrite Hu, He, Hown. unfold JsSet.size. rewrite length_map. lia. }
  split; [exact Hrange|]. rewrite Hrate.
  destruct (PersonStats.eligiblePRsForReview s >? 0) eqn:E.
  - apply rate_range; [exact Hrange|]. now apply Z.gtb_lt.
  - split; [apply Qle_refl|discriminate].
Qed.
End Percentage.

Lemma participation_is_a_percentage_witness :
  NoDup (map PRData.number Scenario.prs)
  /\ (forall e, In e Scenario.reviews -> In (fst e) (map PRData.number Scenario.prs))
  /\ In (Examples.pick "bob" Scenario.run) Scenario.run
  /\ (PersonStats.reviewParticipationRate (Examples.pick "bob" Scenario.run)
      <= 100)%Q.
Proof.
  assert (Hnd : NoDup (map PRData.number Scenario.prs)) by distinct_keys.
  assert (Hkeys : forall e, In e Scenario.reviews ->
                            In (fst e) (map PRData.number Scenario.prs)).
  { intros e [<-|[<-|[]]]; simpl; auto. }
  assert (Hin : In (Examples.pick "bob" Scenario.run) Scenario.run) by in_run.
  split; [exact Hnd|]. split; [exact Hkeys|]. split; [exact Hin|].
  exact (proj2 (proj2 (participation_is_a_percentage Scenario.codeUnitCompare
                         Scenario.clock "pbstck" "app" Scenario.prs
                         Scenario.reviews Scenario.reviewRequests
                         Scenario.comments _ Hnd Hkeys Hin))).
Defined.

Lemma approval_is_first_review_witness :
  In (Examples.pick "bob" Scenario.run) Scenario.run
  /\ PersonStats.timeToApproval (Examples.pick "bob" Scenario.run)
     = PersonStats.timeToFirstReview (Examples.pick "bob" Scenario.run).
Proof.
  assert (Hin : In (Examples.pick "bob" Scenario.run) Scenario.run) by in_run.
  split; [exact Hin|].
  exact (approval_is_first_review Scenario.codeUnitCompare Scenario.clock
           "pbstck" "app" Scenario.prs Scenario.reviews
           Scenario.reviewRequests Scenario.comments _ Hin).
Defined.

Lemma metrics_not_negative_witness :
  In (Examples.pick "bob" Scenario.run) Scenario.run
  /\ PersonStats.timeToFirstComment (Examples.pick "bob" Scenario.run)
     = Some (TimeMetrics.mk (7200000 # 1) 7200000 7200000 (7200000 # 1))
  /\ 0 <= 7200000.
Proof.
  assert (Hin : In (Examples.pick "bob" Scenario.run) Scenario.run) by in_run.
  assert (Hm : PersonStats.timeToFirstComment (Examples.pick "bob" Scenario.run)
               = Some (TimeMetrics.mk (7200000 # 1) 7200000 7200000 (7200000 # 1)))
    by reflexivity.
  split; [exact Hin|]. split; [exact Hm|].
  exact (proj1 (metrics_not_negative Scenario.codeUnitCompare Scenario.clock
                  "pbstck" "app" Scenario.prs Scenario.reviews
                  Scenario.reviewRequests Scenario.comments _ _ Hin
                  (or_introl Hm))).
Defined.

Lemma no_request_no_timing_witness :
  In (Examples.pick "alice" Scenario.run) Scenario.run
  /\ neverRequested "alice" Scenario.reviewRequests
  /\ PersonStats.timeToFirstComment (Examples.pick "alice" Scenario.run) = None.
Proof.
  assert (Hin : In (Examples.pick "alice" Scenario.run) Scenario.run) by in_run.
  assert (Hnever : neverRequested "alice" Scenario.reviewRequests).
  { intros e rq [<-|[<-|[]]]; simpl; [|tauto].
    intros [<-|[]]. discriminate. }
  split; [exact Hin|]. split; [exact Hnever|].
  exact (proj1 (no_request_no_timing Scenario.codeUnitCompare Scenario.clock
                  "pbstck" "app" Scenario.prs Scenario.reviews
                  Scenario.reviewRequests Scenario.comments _ Hin Hnever)).
Defined.

Lemma row_times_shown_witness :
  NoDup (JsMap.keys Scenario.reviews) /\ NoDup (JsMap.keys Scenario.comments)
  /\ In (Examples.pick "bob" Scenario.run) Scenario.run
  /\ forall d v,
       In d (PersonStats.prDetails (Examples.pick "bob" Scenario.run)) ->
       PersonPRDetail.firstCommentTime d = Some v -> 0 < v.
Proof.
  assert (Hr : NoDup (JsMap.keys Scenario.reviews)) by distinct_keys.
  assert (Hc : NoDup (JsMap.keys Scenario.comments)) by distinct_keys.
  assert (Hin : In (Examples.pick "bob" Scenario.run) Scenario.run) by in_run.
  split; [exact Hr|]. split; [exact Hc|]. split; [exact Hin|].
  intros d v Hd Hv.
  exact (proj2 (proj1 (proj1 (row_times_shown Scenario.codeUnitCompare
                                Scenario.clock "pbstck" "app" Scenario.prs
                                Scenario.reviews Scenario.reviewRequests
                                Scenario.comments _ d v Hr Hc Hin Hd)) Hv)).
Defined.

(** ** calculateStats: bots *)

(** The reviews, and the comments, of every pull request without those of
    bots. *)
Definition withoutBotReviews (reviews : list (Z * list ReviewData.t))
    : list (Z * list ReviewData.t) :=
  map (fun e => (fst e, filter (notBot ReviewData.reviewer) (snd e))) reviews.

Definition withoutBotComments (comments : list (Z * list CommentData.t))
    : list (Z * list CommentData.t) :=
  map (fun e => (fst e, filter (notBot CommentData.commenter) (snd e))) comments.

Lemma filter_absorb {A : Type} (p q : A -> bool) (l : list A) :
  (forall x, p x = true -> q x = true) -> filter p (filter q l) = filter p l.
Proof.
  intros H. induction l as [|x l IH]; simpl; [reflexivity|].
  destruct (q x) eqn:Eq; simpl.
  - now rewrite IH.
  - destruct (p x) eqn:Ep; [|assumption]. apply H in Ep. congruence.
Qed.

Lemma getOrEmpty_values {A : Type} (f : list A -> list A) (k : Z)
    (m : list (Z * list A)) :
  f [] = [] -> getOrEmpty k (map (fun e => (fst e, f (snd e))) m) = f (getOrEmpty k m).
Proof.
  intros Hf. induction m as [|[k0 l] m IH].
  - unfold getOrEmpty. simpl. now rewrite Hf.
  - cbn [map fst snd]. rewrite !getOrEmpty_cons.
    destruct (Z.eqb k0 k); [reflexivity|exact IH].
Qed.

Lemma fold_left_values {A B C : Type} (f : A -> C -> A) (g : B -> C)
    (l : list B) (a : A) :
  fold_left f (map g l) a = fold_left (fun a x => f a (g x)) l a.
Proof.
  revert a. induction l as [|x l IH]; intros a; simpl; [reflexivity|apply IH].
Qed.

Lemma reviewerFirstCommentElapsed_bots reviewer sortedReviews prComments t :
  reviewerFirstCommentElapsed reviewer sortedReviews
    (filter (notBot CommentData.commenter) prComments) t
  = reviewerFirstCommentElapsed reviewer sortedReviews prComments t.
Proof.
  unfold reviewerFirstCommentElapsed. cbv zeta.
  rewrite filter_absorb; [reflexivity|].
  intros c H. apply Bool.andb_true_iff in H. exact (proj2 H).
Qed.

Lemma recordReviews_bots k l cs person mine d :
  recordReviews k l (filter (notBot CommentData.commenter) cs) person mine d
  = recordReviews k l cs person mine d.
Proof.
  unfold recordReviews. cbv zeta.
  destruct (JsArray.lastOpt (JsArray.sort bySubmittedAt mine)); [|reflexivity].
  destruct (option_map ReviewRequestData.requestedAt (findRequest person l));
    [|reflexivity].
  now rewrite reviewerFirstCommentElapsed_bots.
Qed.

Lemma uniqueReviewers_bots (prReviews : list ReviewData.t) :
  uniqueReviewers (filter (notBot ReviewData.reviewer) prReviews)
  = uniqueReviewers prReviews.
Proof.
  unfold uniqueReviewers. generalize (@nil string).
  induction prReviews as [|r l IH]; intros s; simpl; [reflexivity|].
  unfold notBot at 1. destruct (isBot (ReviewData.reviewer r)) eqn:E; simpl.
  - apply IH.
  - rewrite E. apply IH.
Qed.

Lemma aggregate_bots prs reviews reqs comments :
  aggregate prs (withoutBotReviews reviews) reqs (withoutBotComments comments)
  = aggregate prs reviews reqs comments.
Proof.
  unfold aggregate, processComments, processReviews,
    withoutBotReviews, withoutBotComments.
  rewrite !fold_left_values.
  rewrite (fold_left_ext
             (fun a x =>
                processPRReviews reqs
                  (map (fun e => (fst e, filter (notBot CommentData.commenter) (snd e)))
                     comments)
                  a (fst x, filter (notBot ReviewData.reviewer) (snd x)))
             (processPRReviews reqs comments)).
  - apply fold_left_ext. intros pm [k cs]. unfold processPRComments.
    cbn [fst snd]. rewrite filter_absorb by auto. reflexivity.
  - intros pm [k rs]. unfold processPRReviews. cbn [fst snd].
    rewrite filter_absorb by auto.
    rewrite (getOrEmpty_values (filter (notBot CommentData.commenter)))
      by reflexivity.
    apply fold_left_ext. intros pm' [q mine].
    apply mutatePerson_ext. intros d. apply recordReviews_bots.
Qed.

Section Bots.
Variable localeCompare : string -> string -> Z.
Variable Date_now : nat -> Z.
Variable owner repo : string.

Lemma buildDetail_bots reviews data tick pr :
  buildDetail Date_now owner repo (withoutBotReviews reviews) data tick pr
  = buildDetail Date_now owner repo reviews data tick pr.
Proof.
  unfold buildDetail, withoutBotReviews.
  rewrite (getOrEmpty_values (filter (notBot ReviewData.reviewer))) by reflexivity.
  now rewrite uniqueReviewers_bots.
Qed.

Lemma buildStats_bots prs reviews tick pm :
  buildStats Date_now owner repo prs (withoutBotReviews reviews) tick pm
  = buildStats Date_now owner repo prs reviews tick pm.
Proof.
  assert (Hdetails : forall data t l,
             buildDetails Date_now owner repo (withoutBotReviews reviews) data t l
             = buildDetails Date_now owner repo reviews data t l).
  { intros data t l. revert t. induction l as [|pr l IH]; intros t; simpl;
      [reflexivity|].
    rewrite buildDetail_bots.
    destruct (buildDetail Date_now owner repo reviews data t pr) as [d t'].
    now rewrite IH. }
  revert tick. induction pm as [|[q data] pm IH]; intros tick; simpl;
    [reflexivity|].
  unfold buildPerson. rewrite Hdetails.
  destruct (buildDetails Date_now owner repo reviews data tick prs) as [ds t'].
  now rewrite IH.
Qed.

(** X11.  The reviews and the comments of bots have no effect: the result is
    the one of the input without them. *)
Theorem bots_do_not_count prs reviews reqs comments :
  calculateStats localeCompare Date_now owner repo prs
    (withoutBotReviews reviews) reqs (withoutBotComments comments)
  = calculateStats localeCompare Date_now owner repo prs reviews reqs comments.
Proof.
  unfold calculateStats. now rewrite aggregate_bots, buildStats_bots.
Qed.
End Bots.

(** ** calculateStats: the time a pull request is open *)

Section TimeOpen.
Variable localeCompare : string -> string -> Z.
Variable Date_now : nat -> Z.
Variable owner repo : string.

(** What a row takes from its pull request, and from the clock. *)
Definition rowOfPullRequest (d : PersonPRDetail.t) (pr : PRData.t) : Prop :=
  PersonPRDetail.prNumber d = PRData.number pr
  /\ PersonPRDetail.title d = PRData.title pr
  /\ PersonPRDetail.author d = PRData.author pr
  /\ PersonPRDetail.createdAt d = PRData.createdAt pr
  /\ PersonPRDetail.readyForReviewAt d = PRData.readyForReviewAt pr
  /\ PersonPRDetail.state d = PRData.state pr
  /\ PersonPRDetail.isDraft d = PRData.isDraft pr
  /\ PersonPRDetail.url d
     = ("https://github.com/" ++ owner ++ "/" ++ repo ++ "/pull/"
        ++ numberToString (PRData.number pr))%string
  /\ (forall mergedAt, PRData.mergedAt pr = Some mergedAt ->
        PersonPRDetail.timeOpen d = mergedAt - PRData.readyForReviewAt pr)
  /\ (forall closedAt,
        PRData.mergedAt pr = None -> PRData.closedAt pr = Some closedAt ->
        PersonPRDetail.timeOpen d = closedAt - PRData.readyForReviewAt pr)
  /\ (PRData.mergedAt pr = None -> PRData.closedAt pr = None ->
      PersonPRDetail.timeOpen d / msPerDay <= PersonPRDetail.ageInDays d).

Lemma buildDetail_rowOfPullRequest reviews data tick pr :
  (forall i j, (i <= j)%nat -> Date_now i <= Date_now j) ->
  rowOfPullRequest (fst (buildDetail Date_now owner repo reviews data tick pr)) pr.
Proof.
  intros Hclock. unfold rowOfPullRequest, buildDetail.
  destruct (PRData.mergedAt pr) as [m|] eqn:Em;
    [|destruct (PRData.closedAt pr) as [c|] eqn:Ec]; cbn [fst];
    cbn [PersonPRDetail.prNumber PersonPRDetail.title PersonPRDetail.author
         PersonPRDetail.createdAt PersonPRDetail.readyForReviewAt
         PersonPRDetail.state PersonPRDetail.isDraft PersonPRDetail.url
         PersonPRDetail.timeOpen PersonPRDetail.ageInDays];
    repeat (split; [reflexivity|]).
  - split; [intros ? [= <-]; reflexivity|]. split; intros; discriminate.
  - split; [intros; discriminate|]. split; [intros ? _ [= <-]; reflexivity|].
    intros; discriminate.
  - split; [intros; discriminate|]. split; [intros; discriminate|].
    intros _ _. apply Z.div_le_mono; [reflexivity|].
    pose proof (Hclock tick (S tick) (Nat.le_succ_diag_r tick)). lia.
Qed.

(** X12.  Every row carries the number, title, author, dates, state and draft
    flag of its pull request and the address of the pull request in the
    repository.  The time open runs from the ready-for-review date to the
    merge date when there is one (whatever the closing date), else to the
    closing date; for a pull request still open it is read from the clock,
    and, the clock never going back, its whole days do not exceed the age
    in days of the row. *)
Theorem rows_follow_pull_requests prs reviews reqs comments (s : PersonStats.t) :
  (forall i j, (i <= j)%nat -> Date_now i <= Date_now j) ->
  In s (calculateStats localeCompare Date_now owner repo prs reviews reqs comments) ->
  Forall2 rowOfPullRequest (PersonStats.prDetails s) prs.
Proof.
  intros Hclock Hin.
  destruct (calculateStats_rows localeCompare Date_now owner repo
              prs reviews reqs comments s Hin) as [_ Hrows].
  apply Forall2_impl_In with (1 := Hrows).
  intros d pr _ _ [_ [t ->]].
  now apply buildDetail_rowOfPullRequest.
Qed.
End TimeOpen.

Lemma rows_follow_pull_requests_witness :
  (forall i j, (i <= j)%nat -> Scenario.clock i <= Scenario.clock j)
  /\ In (Examples.pick "alice" Scenario.run) Scenario.run
  /\ Forall2 (rowOfPullRequest "pbstck" "app")
       (PersonStats.prDetails (Examples.pick "alice" Scenario.run)) Scenario.prs.
Proof.
  assert (Hclock : forall i j, (i <= j)%nat -> Scenario.clock i <= Scenario.clock j).
  { intros i j Hij. unfold Scenario.clock. lia. }
  assert (Hin : In (Examples.pick "alice" Scenario.run) Scenario.run)
    by (vm_compute; repeat (first [left; reflexivity | right])).
  split; [exact Hclock|]. split; [exact Hin|].
  exact (rows_follow_pull_requests Scenario.codeUnitCompare Scenario.clock
           "pbstck" "app" Scenario.prs Scenario.reviews Scenario.reviewRequests
           Scenario.comments _ Hclock Hin).
Defined.

(** * The comments client: properties *)

(** ** Pull-request numbers in the addresses of the API *)

Fixpoint onlyDigits (s : string) : bool :=
  match s with
  | EmptyString => true
  | String c rest => isDigit c && onlyDigits rest
  end.

Lemma spanDigits_onlyDigits (s : string) :
  onlyDigits s = true -> spanDigits s = (s, EmptyString).
Proof.
  induction s as [|c s IH]; simpl; [reflexivity|].
  intros H. apply Bool.andb_true_iff in H. destruct H as [Hc Hs].
  rewrite Hc, (IH Hs). reflexivity.
Qed.

Lemma spanDigits_all (s : string) :
  snd (spanDigits s) = EmptyString -> onlyDigits s = true.
Proof.
  induction s as [|c s IH]; simpl; [reflexivity|].
  destruct (isDigit c); [|discriminate].
  destruct (spanDigits s) as [digits after]. simpl in *. exact IH.
Qed.

Lemma spanDigits_split (s : string) :
  s = (fst (spanDigits s) ++ snd (spanDigits s))%string
  /\ onlyDigits (fst (spanDigits s)) = true.
Proof.
  induction s as [|c s IH]; simpl; [auto|].
  destruct (isDigit c) eqn:Hc; [|auto].
  destruct (spanDigits s) as [digits after]. simpl in *.
  destruct IH as [IH1 IH2]. rewrite Hc, IH2. split; [now rewrite <- IH1|reflexivity].
Qed.

Lemma onlyDigits_app (s t : string) :
  onlyDigits (s ++ t) = onlyDigits s && onlyDigits t.
Proof.
  induction s as [|c s IH]; simpl; [reflexivity|].
  now rewrite IH, Bool.andb_assoc.
Qed.

Lemma dropLiteral_app (literal s : string) :
  dropLiteral literal (literal ++ s) = Some s.
Proof.
  induction literal as [|a l IH]; simpl; [now destruct s|].
  now rewrite Ascii.eqb_refl.
Qed.

Lemma dropLiteral_Some (literal s after : string) :
  dropLiteral literal s = Some after -> s = (literal ++ after)%string.
Proof.
  revert s. induction literal as [|a l IH]; intros s; simpl.
  - destruct s; intros [= <-]; reflexivity.
  - destruct s as [|b s]; [discriminate|].
    destruct (Ascii.eqb a b) eqn:E; [|discriminate].
    apply Ascii.eqb_eq in E. subst b. intros H. now rewrite (IH _ H).
Qed.

(** A literal found before the end of [u] leaves the character after [u]
    behind it. *)
Lemma dropLiteral_inside (literal u v after : string) (c : ascii) :
  dropLiteral literal (u ++ String c v) = Some after ->
  (String.length literal <= String.length u)%nat ->
  isDigit c = false ->
  onlyDigits after = false.
Proof.
  revert u. induction literal as [|a l IH]; intros u Hdrop Hlen Hc.
  - simpl in Hdrop.
    assert (after = (u ++ String c v)%string)
      by (destruct (u ++ String c v)%string; congruence).
    subst after. rewrite onlyDigits_app. simpl. rewrite Hc.
    now rewrite Bool.andb_false_r.
  - destruct u as [|b u]; [simpl in Hlen; lia|].
    simpl in Hdrop. destruct (Ascii.eqb a b); [|discriminate].
    apply (IH u Hdrop); [simpl in Hlen; lia|assumption].
Qed.

Lemma length_append (s t : string) :
  String.length (s ++ t) = (String.length s + String.length t)%nat.
Proof. induction s as [|c s IH]; simpl; [reflexivity|now rewrite IH]. Qed.

Lemma append_empty (s : string) : (s ++ EmptyString)%string = s.
Proof. induction s as [|c s IH]; simpl; [reflexivity|now rewrite IH]. Qed.

Lemma append_assoc (s t u : string) : ((s ++ t) ++ u = s ++ (t ++ u))%string.
Proof. induction s as [|c s IH]; simpl; [reflexivity|now rewrite IH]. Qed.

(** The leftmost match of [/<literal>(\d+)$/] in an address that ends with
    the literal and digits is at that literal, when the literal ends with
    a character that is no digit. *)
Lemma matchDigitsAtEnd_found (front : string) (c : ascii) (base digits : string) :
  isDigit c = false ->
  digits <> EmptyString ->
  onlyDigits digits = true ->
  matchDigitsAtEnd (front ++ String c EmptyString)
    (base ++ (front ++ String c EmptyString) ++ digits)
  = Some digits.
Proof.
  intros Hc Hne Hd. induction base as [|b base IH].
  - cbn [append]. destruct ((front ++ String c EmptyString) ++ digits)%string eqn:E.
    + destruct front; discriminate.
    + rewrite <- E. clear E.
      assert (Hhere : matchDigitsHere (front ++ String c EmptyString)
                        ((front ++ String c EmptyString) ++ digits)
                      = Some digits).
      { unfold matchDigitsHere. rewrite dropLiteral_app, (spanDigits_onlyDigits _ Hd).
        destruct digits; [contradiction|reflexivity]. }
      destruct ((front ++ String c EmptyString) ++ digits)%string;
        simpl; rewrite Hhere; reflexivity.
  - cbn [append matchDigitsAtEnd].
    assert (Hhere : matchDigitsHere (front ++ String c EmptyString)
                      (String b (base ++ (front ++ String c EmptyString) ++ digits))
                    = None).
    { unfold matchDigitsHere.
      destruct (dropLiteral (front ++ String c EmptyString)
                  (String b (base ++ (front ++ String c EmptyString) ++ digits)))
        as [after|] eqn:Hdrop; [|reflexivity].
      assert (Hafter : onlyDigits after = false).
      { apply (dropLiteral_inside (front ++ String c EmptyString)
                 (String b (base ++ front)) digits after c); [|simpl|assumption].
        - rewrite <- Hdrop. f_equal. cbn [append]. f_equal.
          now rewrite !append_assoc.
        - rewrite !length_append. simpl. lia. }
      pose proof (spanDigits_all after) as Hall.
      destruct (spanDigits after) as [[|d ds] [|r rs]]; try reflexivity.
      simpl in Hall. rewrite Hall in Hafter by reflexivity. discriminate. }
    rewrite Hhere. exact IH.
Qed.

(** A match is a literal followed by digits up to the end. *)
Lemma matchDigitsAtEnd_Some (literal s digits : string) :
  matchDigitsAtEnd literal s = Some digits ->
  exists base,
    s = (base ++ literal ++ digits)%string
    /\ digits <> EmptyString /\ onlyDigits digits = true.
Proof.
  induction s as [|b s IH]; cbn [matchDigitsAtEnd].
  - destruct (matchDigitsHere literal EmptyString) as [ds|] eqn:Hhere; [|discriminate].
    intros [= ->]. unfold matchDigitsHere in Hhere.
    destruct (dropLiteral literal EmptyString) as [after|] eqn:Hdrop; [|discriminate].
    apply dropLiteral_Some in Hdrop.
    destruct literal; [|discriminate]. destruct after; [|discriminate].
    simpl in Hhere. discriminate.
  - destruct (matchDigitsHere literal (String b s)) as [ds|] eqn:Hhere.
    + intros [= ->]. unfold matchDigitsHere in Hhere.
      destruct (dropLiteral literal (String b s)) as [after|] eqn:Hdrop; [|discriminate].
      apply dropLiteral_Some in Hdrop.
      pose proof (spanDigits_split after) as [Hsplit Hdig].
      destruct (spanDigits after) as [[|d ds] [|r rs]]; try discriminate.
      injection Hhere as <-. simpl in Hsplit, Hdig.
      exists EmptyString. cbn [append]. rewrite Hdrop. split; [|split].
      * f_equal. rewrite Hsplit. f_equal. apply append_empty.
      * discriminate.
      * exact Hdig.
    + intros H. destruct (IH H) as [base [-> Hrest]].
      exists (String b base). split; [reflexivity|exact Hrest].
Qed.

(** The value of a decimal numeral, read from the left. *)
Fixpoint uintValue (acc : Z) (d : Decimal.uint) : Z :=
  match d with
  | Decimal.Nil => acc
  | Decimal.D0 d => uintValue (acc * 10) d
  | Decimal.D1 d => uintValue (acc * 10 + 1) d
  | Decimal.D2 d => uintValue (acc * 10 + 2) d
  | Decimal.D3 d => uintValue (acc * 10 + 3) d
  | Decimal.D4 d => uintValue (acc * 10 + 4) d
  | Decimal.D5 d => uintValue (acc * 10 + 5) d
  | Decimal.D6 d => uintValue (acc * 10 + 6) d
  | Decimal.D7 d => uintValue (acc * 10 + 7) d
  | Decimal.D8 d => uintValue (acc * 10 + 8) d
  | Decimal.D9 d => uintValue (acc * 10 + 9) d
  end.

Lemma parseDigits_uint (d : Decimal.uint) (acc : Z) :
  parseDigits acc (NilEmpty.string_of_uint d) = uintValue acc d.
Proof.
  revert acc. induction d; intros acc; cbn [NilEmpty.string_of_uint parseDigits uintValue];
    [reflexivity| rewrite IHd; f_equal; cbn; lia ..].
Qed.

Lemma uintValue_acc (d : Decimal.uint) (p : positive) :
  uintValue (Z.pos p) d = Z.pos (Pos.of_uint_acc d p).
Proof.
  revert p. induction d; intros p; cbn [uintValue Pos.of_uint_acc];
    [reflexivity| rewrite <- IHd; f_equal; lia ..].
Qed.

Lemma uintValue_of_uint (d : Decimal.uint) : uintValue 0 d = Z.of_uint d.
Proof.
  unfold Z.of_uint.
  induction d; cbn [uintValue Pos.of_uint Z.of_N Z.mul Z.add];
    [reflexivity | exact IHd | apply uintValue_acc ..].
Qed.

Lemma onlyDigits_uint (d : Decimal.uint) :
  onlyDigits (NilEmpty.string_of_uint d) = true.
Proof. induction d; simpl; auto. Qed.

(** The decimal numeral of a number that is not negative: digits, at least
    one, and [parseInt] reads the number back. *)
Lemma numberToString_digits (n : Z) :
  0 <= n ->
  numberToString n <> EmptyString
  /\ onlyDigits (numberToString n) = true
  /\ parseInt10 (numberToString n) = n.
Proof.
  intros Hn. unfold numberToString, parseInt10.
  pose proof (DecimalZ.of_to n) as Hround.
  destruct (Z.to_int n) as [d|d] eqn:E.
  - cbn [Z.of_int] in Hround. unfold NilZero.string_of_int, NilZero.string_of_uint.
    destruct d; try (split; [discriminate|split;
      [apply (onlyDigits_uint (_ d)) || reflexivity
      |rewrite <- Hround, <- uintValue_of_uint; apply (parseDigits_uint (_ d))]]).
    split; [discriminate|]. split; [reflexivity|]. now rewrite <- Hround.
  - destruct n as [|p|p]; try discriminate. lia.
Qed.

(** X14.  The number of a pull request is read back from the address of the
    pull request, and of its issue, whatever precedes [/pulls/] and
    [/issues/]: for every number from 0 to the largest safe integer,
    [extractPRNumber] and [extractIssueNumber] return it. *)
Theorem number_read_from_address (base : string) (n : Z) :
  0 <= n <= 9007199254740991 ->
  extractPRNumber (base ++ "/pulls/" ++ numberToString n) = n
  /\ extractIssueNumber (base ++ "/issues/" ++ numberToString n) = n.
Proof.
  intros [Hn _]. destruct (numberToString_digits n Hn) as [Hne [Hd Hp]].
  unfold extractPRNumber, extractIssueNumber.
  pose proof (matchDigitsAtEnd_found "/pulls" "/" base _ eq_refl Hne Hd) as Hpull.
  pose proof (matchDigitsAtEnd_found "/issues" "/" base _ eq_refl Hne Hd) as Hissue.
  change ("/pulls" ++ String "/" EmptyString)%string with "/pulls/" in Hpull.
  change ("/issues" ++ String "/" EmptyString)%string with "/issues/" in Hissue.
  rewrite Hpull, Hissue. split; exact Hp.
Qed.

Lemma number_read_from_address_witness :
  0 <= 123 <= 9007199254740991
  /\ extractPRNumber ("https://api.github.com/repos/pbstck/app" ++ "/pulls/"
                      ++ numberToString 123) = 123
  /\ extractIssueNumber ("https://api.github.com/repos/pbstck/app" ++ "/issues/"
                         ++ numberToString 123) = 123.
Proof.
  assert (H : 0 <= 123 <= 9007199254740991) by lia.
  split; [exact H|].
  exact (number_read_from_address "https://api.github.com/repos/pbstck/app" 123 H).
Defined.

(** X15.  An address that does not end with [/pulls/] and at least one digit up
    to its end gives the number 0, and so does an address of pull request
    0: a number other than 0 is the value of the digits that end the
    address. *)
Theorem number_zero_unless_address (pullRequestUrl : string) :
  extractPRNumber pullRequestUrl <> 0 ->
  exists base digits,
    pullRequestUrl = (base ++ "/pulls/" ++ digits)%string
    /\ digits <> EmptyString /\ onlyDigits digits = true
    /\ parseInt10 digits = extractPRNumber pullRequestUrl.
Proof.
  unfold extractPRNumber.
  destruct (matchDigitsAtEnd "/pulls/" pullRequestUrl) as [digits|] eqn:E;
    [|contradiction].
  intros _. destruct (matchDigitsAtEnd_Some _ _ _ E) as [base [H1 [H2 H3]]].
  exists base, digits. auto.
Qed.

Lemma number_zero_unless_address_witness :
  extractPRNumber "https://api.github.com/repos/pbstck/app/pulls/42" <> 0
  /\ (exists base digits,
        "https://api.github.com/repos/pbstck/app/pulls/42"
        = (base ++ "/pulls/" ++ digits)%string
        /\ digits <> EmptyString /\ onlyDigits digits = true
        /\ parseInt10 digits
           = extractPRNumber "https://api.github.com/repos/pbstck/app/pulls/42")
  /\ extractPRNumber "https://api.github.com/repos/pbstck/app/pulls/42/" = 0
  /\ extractPRNumber "https://api.github.com/repos/pbstck/app/pull/42" = 0.
Proof.
  assert (H : extractPRNumber "https://api.github.com/repos/pbstck/app/pulls/42" <> 0)
    by (vm_compute; discriminate).
  split; [exact H|]. split; [|split; reflexivity].
  exact (number_zero_unless_address _ H).
Defined.

(** ** The cache of pull requests *)

Lemma set_has_keys (n : Z) (m : list (Z * PRInfo.t)) :
  JsSet.has Z.eqb n (JsMap.keys m) = JsMap.has Z.eqb n m.
Proof.
  destruct (JsMap.has Z.eqb n m) eqn:E.
  - apply (set_has_In Z.eqb Zeqb_eq). now apply (has_true_keys Z.eqb Zeqb_eq).
  - destruct (JsSet.has Z.eqb n (JsMap.keys m)) eqn:E'; [|reflexivity].
    apply (set_has_In Z.eqb Zeqb_eq) in E'.
    apply (has_true_keys Z.eqb Zeqb_eq) in E'. congruence.
Qed.

Lemma keys_set_add {V : Type} (n : Z) (v : V) (m : list (Z * V)) :
  JsMap.keys (JsMap.set Z.eqb n v m) = JsSet.add Z.eqb n (JsMap.keys m).
Proof.
  rewrite (keys_set Z.eqb n v). unfold JsSet.add.
  assert (H : JsSet.has Z.eqb n (JsMap.keys m) = JsMap.has Z.eqb n m).
  { destruct (JsMap.has Z.eqb n m) eqn:E.
    - apply (set_has_In Z.eqb Zeqb_eq). now apply (has_true_keys Z.eqb Zeqb_eq).
    - destruct (JsSet.has Z.eqb n (JsMap.keys m)) eqn:E'; [|reflexivity].
      apply (set_has_In Z.eqb Zeqb_eq) in E'.
      apply (has_true_keys Z.eqb Zeqb_eq) in E'. congruence. }
  now rewrite H.
Qed.

Lemma orUnknown_named (login : option string) : orUnknown login <> EmptyString.
Proof.
  unfold orUnknown. destruct login as [name|]; [|discriminate].
  destruct (String.eqb name EmptyString) eqn:E; [discriminate|].
  now apply String.eqb_neq in E.
Qed.

Section Cache.
Variable pulls_get : nat -> Z -> option PullResponse.t.

Local Abbreviation getPRInfo := (getPRInfo pulls_get).
Local Abbreviation getPRInfos := (getPRInfos pulls_get).

(** What a client has cached, and the requests it has made for it. *)
Definition cacheCounted (client : Client.t) : Prop :=
  Client.pullsGetCalls client = List.length (Client.prCache client)
  /\ forall n info,
       JsMap.get Z.eqb n (Client.prCache client) = Some info ->
       PRInfo.author info <> EmptyString.

Lemma cache_miss (client : Client.t) (n : Z) (info : PRInfo.t) :
  JsMap.get Z.eqb n (Client.prCache client) = None ->
  PRInfo.author info <> EmptyString ->
  let client' :=
    Client.mk (JsMap.set Z.eqb n info (Client.prCache client))
              (S (Client.pullsGetCalls client)) in
  JsMap.get Z.eqb n (Client.prCache client') = Some info
  /\ JsMap.keys (Client.prCache client')
     = JsSet.add Z.eqb n (JsMap.keys (Client.prCache client))
  /\ (forall m i, JsMap.get Z.eqb m (Client.prCache client) = Some i ->
                  JsMap.get Z.eqb m (Client.prCache client') = Some i)
  /\ (cacheCounted client -> cacheCounted client').
Proof.
  intros Hmiss Hauthor. cbn [Client.prCache Client.pullsGetCalls].
  assert (Hhas : JsMap.has Z.eqb n (Client.prCache client) = false)
    by (unfold JsMap.has; now rewrite Hmiss).
  assert (Hkeys : JsMap.keys (JsMap.set Z.eqb n info (Client.prCache client))
                  = JsMap.keys (Client.prCache client) ++ [n])
    by (rewrite (keys_set Z.eqb n info), Hhas; reflexivity).
  split; [apply (get_set_same Z.eqb Zeqb_eq)|]. split; [|split].
  - rewrite Hkeys. unfold JsSet.add. now rewrite set_has_keys, Hhas.
  - intros m i Hm. rewrite (get_set_other Z.eqb Zeqb_eq); [assumption|].
    intros <-. congruence.
  - intros [Hcalls Hnamed]. split; cbn [Client.prCache Client.pullsGetCalls].
    + rewrite Hcalls.
      rewrite <- (length_map fst (JsMap.set Z.eqb n info (Client.prCache client))).
      change (map fst (JsMap.set Z.eqb n info (Client.prCache client)))
        with (JsMap.keys (JsMap.set Z.eqb n info (Client.prCache client))).
      rewrite Hkeys, length_app. unfold JsMap.keys. rewrite length_map. simpl. lia.
    + intros m i Hm. destruct (Z.eq_dec m n) as [->|Hne].
      * rewrite (get_set_same Z.eqb Zeqb_eq) in Hm. now injection Hm as <-.
      * rewrite (get_set_other Z.eqb Zeqb_eq) in Hm by congruence.
        exact (Hnamed m i Hm).
Qed.

Lemma getPRInfo_step (client : Client.t) (n : Z) :
  let info := fst (getPRInfo client n) in
  let client' := snd (getPRInfo client n) in
  JsMap.get Z.eqb n (Client.prCache client') = Some info
  /\ JsMap.keys (Client.prCache client')
     = JsSet.add Z.eqb n (JsMap.keys (Client.prCache client))
  /\ (forall m i, JsMap.get Z.eqb m (Client.prCache client) = Some i ->
                  JsMap.get Z.eqb m (Client.prCache client') = Some i)
  /\ (cacheCounted client -> cacheCounted client').
Proof.
  unfold getPRInfo.
  destruct (JsMap.get Z.eqb n (Client.prCache client)) as [cached|] eqn:E.
  - cbn [fst snd]. split; [exact E|]. split; [|split; auto].
    unfold JsSet.add. rewrite set_has_keys. unfold JsMap.has. now rewrite E.
  - destruct (pulls_get (Client.pullsGetCalls client) n) as [response|];
      cbn [fst snd]; apply cache_miss;
      [assumption|apply orUnknown_named|assumption|discriminate].
Qed.

Lemma getPRInfos_steps (prNumbers : list Z) (client : Client.t) :
  let infos := fst (getPRInfos client prNumbers) in
  let client' := snd (getPRInfos client prNumbers) in
  Forall2 (fun n info => JsMap.get Z.eqb n (Client.prCache client') = Some info)
          prNumbers infos
  /\ JsMap.keys (Client.prCache client')
     = fold_left (fun s k => JsSet.add Z.eqb k s) prNumbers
                 (JsMap.keys (Client.prCache client))
  /\ (forall m i, JsMap.get Z.eqb m (Client.prCache client) = Some i ->
                  JsMap.get Z.eqb m (Client.prCache client') = Some i)
  /\ (cacheCounted client -> cacheCounted client').
Proof.
  revert client. induction prNumbers as [|n ns IH]; intros client.
  - cbn. split; [constructor|]. split; [reflexivity|]. split; auto.
  - pose proof (getPRInfo_step client n) as Hstep. cbv zeta in Hstep.
    simpl.
    destruct (getPRInfo client n) as [info c1] eqn:E1.
    specialize (IH c1). cbv zeta in IH.
    destruct (getPRInfos c1 ns) as [infos c2] eqn:E2.
    cbn [fst snd] in *.
    destruct Hstep as [S1 [S2 [S3 S4]]]. destruct IH as [I1 [I2 [I3 I4]]].
    split; [|split; [|split]].
    + constructor; [now apply I3|exact I1].
    + now rewrite I2, S2.
    + intros m i Hm. now apply I3, S3.
    + intros Hc. now apply I4, S4.
Qed.

(** X16.  A client asks for a pull request once.  After any sequence of calls
    of [getPRInfo] by a new client, the cache holds the distinct numbers
    asked for, in the order they were first asked; there has been one
    request to the API for each of them; every answer given is the entry
    of the cache for its number, so that the same number always got the
    same answer; and no answer has an empty author. *)
Theorem pull_request_asked_once (prNumbers : list Z) :
  let infos := fst (getPRInfos Client.initial prNumbers) in
  let client := snd (getPRInfos Client.initial prNumbers) in
  JsMap.keys (Client.prCache client) = JsSet.ofArray Z.eqb prNumbers
  /\ Z.of_nat (Client.pullsGetCalls client)
     = JsSet.size (JsSet.ofArray Z.eqb prNumbers)
  /\ Forall2 (fun n info => JsMap.get Z.eqb n (Client.prCache client) = Some info)
             prNumbers infos
  /\ Forall (fun info => PRInfo.author info <> EmptyString) infos.
Proof.
  pose proof (getPRInfos_steps prNumbers Client.initial) as H. cbv zeta in *.
  destruct H as [H1 [H2 [_ H4]]].
  assert (Hinit : cacheCounted Client.initial)
    by (split; [reflexivity|intros n info; discriminate]).
  destruct (H4 Hinit) as [Hcalls Hnamed].
  split; [exact H2|]. split; [|split; [exact H1|]].
  - rewrite Hcalls. unfold JsSet.size. f_equal.
    change (JsSet.ofArray Z.eqb prNumbers)
      with (fold_left (fun s k => JsSet.add Z.eqb k s) prNumbers
              (JsMap.keys (Client.prCache Client.initial))).
    rewrite <- H2. unfold JsMap.keys. now rewrite length_map.
  - clear - H1 Hnamed. induction H1 as [|n info ns infos Hn _ IH]; constructor.
    + exact (Hnamed n info Hn).
    + exact IH.
Qed.
End Cache.

(** ** Reading the pages of the API *)

(** The loop of [fetchReviewCommentsForRepo], [fetchIssueCommentsForRepo]
    and [fetchPullRequests]: the items of a page go, one after the other,
    into an accumulator until one is [old]. *)
Section PagedLoop.
Context {Item Acc : Type}.
Variable old : Item -> bool.
Variable body : Item -> Acc -> Acc.
Variable pages : nat -> list Item.

Fixpoint forPage (data : list Item) (acc : Acc) : bool * Acc :=
  match data with
  | [] => (false, acc)
  | x :: rest => if old x then (true, acc) else forPage rest (body x acc)
  end.

Fixpoint pagedLoop (fuel page : nat) (acc : Acc) : option Acc :=
  match fuel with
  | O => None
  | S fuel =>
      match JsArray.lastOpt (pages page) with
      | None => Some acc
      | Some oldest =>
          let '(returned, acc) := forPage (pages page) acc in
          if returned then Some acc
          else if old oldest then Some acc
          else pagedLoop fuel (S page) acc
      end
  end.

(** The items of [count] pages from [page] on, as one array. *)
Definition pagesFrom (page count : nat) : list Item :=
  List.concat (map pages (seq page count)).

Lemma forPage_app (l1 l2 : list Item) (acc : Acc) :
  forPage (l1 ++ l2) acc
  = if fst (forPage l1 acc) then (true, snd (forPage l1 acc))
    else forPage l2 (snd (forPage l1 acc)).
Proof.
  revert acc. induction l1 as [|x l1 IH]; intros acc; simpl; [reflexivity|].
  destruct (old x); [reflexivity|apply IH].
Qed.

Lemma forPage_returned (l : list Item) (acc : Acc) :
  fst (forPage l acc) = existsb old l.
Proof.
  revert acc. induction l as [|x l IH]; intros acc; simpl; [reflexivity|].
  destruct (old x); [reflexivity|apply IH].
Qed.

Lemma existsb_false_In (l : list Item) (x : Item) :
  existsb old l = false -> In x l -> old x = false.
Proof.
  intros H Hin. destruct (old x) eqn:E; [|reflexivity].
  assert (existsb old l = true) by (apply existsb_exists; eauto). congruence.
Qed.

(** The loop ends at the first page that is empty or has an old item, and
    then it has gone once through the items of the pages up to there. *)
Lemma pagedLoop_closed (count : nat) :
  forall (page fuel : nat) (acc : Acc),
    (forall q, (page <= q < page + count)%nat ->
               pages q <> [] /\ existsb old (pages q) = false) ->
    pages (page + count)%nat = [] \/ existsb old (pages (page + count)%nat) = true ->
    (count < fuel)%nat ->
    pagedLoop fuel page acc = Some (snd (forPage (pagesFrom page (S count)) acc)).
Proof.
  induction count as [|count IH]; intros page fuel acc Hpages Hlast Hfuel;
    (destruct fuel as [|fuel]; [lia|]); cbn [pagedLoop].
  - rewrite Nat.add_0_r in Hlast. unfold pagesFrom. cbn [seq map List.concat].
    rewrite app_nil_r.
    destruct (JsArray.lastOpt (pages page)) as [oldest|] eqn:El.
    + destruct Hlast as [Hnil|Hold]; [rewrite Hnil in El; discriminate|].
      pose proof (forPage_returned (pages page) acc) as Hr.
      destruct (forPage (pages page) acc) as [r a]. cbn [fst snd] in *.
      now rewrite Hr, Hold.
    + apply lastOpt_None in El. now rewrite El.
  - destruct (Hpages page ltac:(lia)) as [Hne Hnone].
    destruct (JsArray.lastOpt (pages page)) as [oldest|] eqn:El;
      [|apply lastOpt_None in El; contradiction].
    unfold pagesFrom. cbn [seq map List.concat]. rewrite forPage_app.
    pose proof (forPage_returned (pages page) acc) as Hr. rewrite Hnone in Hr.
    rewrite Hr.
    destruct (forPage (pages page) acc) as [r a]. cbn [fst snd] in *. subst r.
    rewrite (existsb_false_In _ _ Hnone (lastOpt_In _ _ El)).
    apply IH.
    + intros q Hq. apply Hpages. lia.
    + replace (S page + count)%nat with (page + S count)%nat by lia. exact Hlast.
    + lia.
Qed.

(** What every step keeps holds at the end. *)
Lemma pagedLoop_invariant (Inv : Acc -> Prop) :
  (forall x acc, (exists page, In x (pages page)) -> old x = false ->
                 Inv acc -> Inv (body x acc)) ->
  forall (fuel page : nat) (acc acc' : Acc),
    Inv acc -> pagedLoop fuel page acc = Some acc' -> Inv acc'.
Proof.
  intros Hbody.
  assert (Hfor : forall page l acc,
             incl l (pages page) -> Inv acc -> Inv (snd (forPage l acc))).
  { intros page l. induction l as [|x l IHl]; intros acc Hincl Hinv; simpl;
      [assumption|].
    destruct (old x) eqn:E; [assumption|].
    apply IHl; [intros y Hy; apply Hincl; now right|].
    apply Hbody; [exists page; apply Hincl; now left|assumption|assumption]. }
  induction fuel as [|fuel IH]; intros page acc acc' Hinv; cbn [pagedLoop];
    [discriminate|].
  destruct (JsArray.lastOpt (pages page)) as [oldest|]; [|intros [= <-]; assumption].
  pose proof (Hfor page (pages page) acc (incl_refl _) Hinv) as Hinv'.
  destruct (forPage (pages page) acc) as [r a]. cbn [snd] in Hinv'.
  destruct r; [intros [= <-]; assumption|].
  destruct (old oldest); [intros [= <-]; assumption|].
  apply IH. exact Hinv'.
Qed.
End PagedLoop.

(** ** The comments of a user *)

Lemma loginIs_true (username : string) (login : option string) :
  loginIs username login = true <-> login = Some username.
Proof.
  unfold loginIs. destruct login as [name|]; [|split; discriminate].
  rewrite String.eqb_eq. split; [now intros ->|now intros [= ->]].
Qed.

Lemma existsb_old {A : Type} (created : A -> Z) (fromDate : Z) (l : list A) :
  (existsb (fun c => created c <? fromDate) l = true
   <-> Exists (fun c => created c < fromDate) l)
  /\ (existsb (fun c => created c <? fromDate) l = false
      <-> Forall (fun c => fromDate <= created c) l).
Proof.
  induction l as [|x l [IH1 IH2]]; simpl.
  - split; split; try discriminate; auto. intros H. inversion H.
  - destruct (created x <? fromDate) eqn:E; simpl.
    + apply Z.ltb_lt in E. split; split; try discriminate; auto.
      intros H. inversion H. lia.
    + apply Z.ltb_ge in E. split; split.
      * intros H. apply Exists_cons_tl. now apply IH1.
      * intros H. inversion H; [lia|now apply IH1].
      * intros H. constructor; [assumption|now apply IH2].
      * intros H. inversion H. now apply IH2.
Qed.

Section CommentsOfUserFacts.
Variable pulls_get : nat -> Z -> option PullResponse.t.
Variable listReviewCommentsForRepo : nat -> list RawReviewComment.t.
Variable fromDate : Z.
Variable username : string.

Local Abbreviation getPRInfo := (getPRInfo pulls_get).

(** The body of the loop over a page of review comments, for a comment
    that is in the period. *)
Definition reviewCommentStep (c : RawReviewComment.t)
    (acc : list ReviewComment.t * Client.t) : list ReviewComment.t * Client.t :=
  if negb (loginIs username (RawReviewComment.user_login c)) then acc
  else
    let prNumber := extractPRNumber (RawReviewComment.pull_request_url c) in
    let prInfo := fst (getPRInfo (snd acc) prNumber) in
    let client := snd (getPRInfo (snd acc) prNumber) in
    if String.eqb (PRInfo.author prInfo) username then (fst acc, client)
    else
      (fst acc ++
       [ReviewComment.mk
          (RawReviewComment.id c)
          prNumber
          (PRInfo.title prInfo)
          (PRInfo.author prInfo)
          (RawReviewComment.body c)
          (RawReviewComment.created_at c)
          (RawReviewComment.html_url c)
          (RawReviewComment.path c)
          (RawReviewComment.line c)
          (RawReviewComment.commit_id c)
          (RawReviewComment.in_reply_to_id c)],
       client).

Lemma reviewCommentsOfPage_forPage data comments client :
  reviewCommentsOfPage pulls_get fromDate username data comments client
  = forPage (fun c => RawReviewComment.created_at c <? fromDate)
      reviewCommentStep data (comments, client).
Proof.
  revert comments client. induction data as [|c data IH]; intros comments client;
    simpl; [reflexivity|].
  destruct (RawReviewComment.created_at c <? fromDate); [reflexivity|].
  unfold reviewCommentStep.
  destruct (negb (loginIs username (RawReviewComment.user_login c))); [apply IH|].
  cbn [fst snd].
  destruct (getPRInfo client (extractPRNumber (RawReviewComment.pull_request_url c)))
    as [prInfo client']. cbn [fst snd].
  destruct (String.eqb (PRInfo.author prInfo) username); apply IH.
Qed.

Lemma reviewCommentsFromPage_pagedLoop fuel page comments client :
  reviewCommentsFromPage pulls_get listReviewCommentsForRepo
    fuel fromDate username page comments client
  = pagedLoop (fun c => RawReviewComment.created_at c <? fromDate)
      reviewCommentStep listReviewCommentsForRepo fuel page (comments, client).
Proof.
  revert page comments client.
  induction fuel as [|fuel IH]; intros page comments client; simpl; [reflexivity|].
  destruct (JsArray.lastOpt (listReviewCommentsForRepo page)) as [oldest|];
    [|reflexivity].
  rewrite reviewCommentsOfPage_forPage.
  destruct (forPage _ reviewCommentStep (listReviewCommentsForRepo page)
              (comments, client)) as [[|] [comments' client']]; [reflexivity|].
  destruct (RawReviewComment.created_at oldest <? fromDate); [reflexivity|apply IH].
Qed.

(** A review comment of the result, against the comment of the API it is
    made from. *)
Definition reviewCommentOf (raw : RawReviewComment.t) (c : ReviewComment.t) : Prop :=
  ReviewComment.id c = RawReviewComment.id raw
  /\ ReviewComment.prNumber c = extractPRNumber (RawReviewComment.pull_request_url raw)
  /\ ReviewComment.body c = RawReviewComment.body raw
  /\ ReviewComment.createdAt c = RawReviewComment.created_at raw
  /\ ReviewComment.htmlUrl c = RawReviewComment.html_url raw
  /\ ReviewComment.path c = RawReviewComment.path raw
  /\ ReviewComment.line c = RawReviewComment.line raw
  /\ ReviewComment.commitId c = RawReviewComment.commit_id raw
  /\ ReviewComment.inReplyToId c = RawReviewComment.in_reply_to_id raw.

Definition userReviewComment (client : Client.t) (c : ReviewComment.t) : Prop :=
  fromDate <= ReviewComment.createdAt c
  /\ ReviewComment.prAuthor c <> username
  /\ JsMap.get Z.eqb (ReviewComment.prNumber c) (Client.prCache client)
     = Some (PRInfo.mk (ReviewComment.prTitle c) (ReviewComment.prAuthor c))
  /\ exists page raw,
       In raw (listReviewCommentsForRepo page)
       /\ RawReviewComment.user_login raw = Some username
       /\ reviewCommentOf raw c.

Lemma userReviewComment_kept (client client' : Client.t) (c : ReviewComment.t) :
  (forall m i, JsMap.get Z.eqb m (Client.prCache client) = Some i ->
               JsMap.get Z.eqb m (Client.prCache client') = Some i) ->
  userReviewComment client c -> userReviewComment client' c.
Proof.
  intros Hkeep [H1 [H2 [H3 H4]]]. repeat split; auto.
Qed.

Lemma reviewCommentStep_keeps (c : RawReviewComment.t)
    (acc : list ReviewComment.t * Client.t) :
  (exists page, In c (listReviewCommentsForRepo page)) ->
  (RawReviewComment.created_at c <? fromDate) = false ->
  Forall (userReviewComment (snd acc)) (fst acc) ->
  Forall (userReviewComment (snd (reviewCommentStep c acc)))
         (fst (reviewCommentStep c acc)).
Proof.
  intros [page Hpage] Hrecent Hinv. unfold reviewCommentStep.
  destruct (loginIs username (RawReviewComment.user_login c)) eqn:Hlogin;
    cbn [negb]; [|assumption].
  apply loginIs_true in Hlogin.
  pose proof (getPRInfo_step pulls_get (snd acc)
                (extractPRNumber (RawReviewComment.pull_request_url c)))
    as [Hget [_ [Hkeep _]]].
  assert (Hold : Forall
            (userReviewComment
               (snd (getPRInfo (snd acc)
                       (extractPRNumber (RawReviewComment.pull_request_url c)))))
            (fst acc)).
  { eapply Forall_impl; [|exact Hinv].
    intros c0. now apply userReviewComment_kept. }
  destruct (getPRInfo (snd acc)
              (extractPRNumber (RawReviewComment.pull_request_url c)))
    as [prInfo client'] eqn:E.
  cbn [fst snd] in *.
  destruct (String.eqb (PRInfo.author prInfo) username) eqn:Hauthor;
    cbn [fst snd]; [assumption|].
  apply Forall_app. split; [assumption|]. constructor; [|constructor].
  unfold userReviewComment. cbn [ReviewComment.createdAt ReviewComment.prAuthor
    ReviewComment.prNumber ReviewComment.prTitle].
  split; [now apply Z.ltb_ge|]. split; [now apply String.eqb_neq|].
  split; [destruct prInfo; exact Hget|].
  exists page, c. split; [assumption|]. split; [assumption|].
  repeat split.
Qed.

(** X17.  Whenever [fetchReviewCommentsForRepo] returns, every comment it
    returns is made from a review comment of the API that [username]
    wrote in the period, on a pull request whose author is not
    [username]; the title and the author of the pull request are those
    the client has in its cache for the number read from the address of
    the comment. *)
Theorem review_comments_of_user (fuel : nat) (client client' : Client.t)
    (comments : list ReviewComment.t) :
  fetchReviewCommentsForRepo pulls_get listReviewCommentsForRepo
    fuel fromDate username client = Some (comments, client') ->
  Forall (userReviewComment client') comments.
Proof.
  unfold fetchReviewCommentsForRepo. rewrite reviewCommentsFromPage_pagedLoop.
  intros Hloop.
  apply (pagedLoop_invariant _ reviewCommentStep listReviewCommentsForRepo
           (fun acc => Forall (userReviewComment (snd acc)) (fst acc))
           reviewCommentStep_keeps fuel 1%nat ([], client) (comments, client'));
    [constructor|exact Hloop].
Qed.

(** X18.  [fetchReviewCommentsForRepo] returns when a page is empty or holds a
    comment from before the period, the pages before it being neither:
    it returns once that page is reached, and what it returns is what
    one pass over the comments of the pages up to that one gives.  How
    the comments are cut into pages does not matter. *)
Theorem review_comments_pages (count fuel : nat) (client : Client.t) :
  (forall q, (1 <= q <= count)%nat ->
     listReviewCommentsForRepo q <> []
     /\ Forall (fun c => fromDate <= RawReviewComment.created_at c)
               (listReviewCommentsForRepo q)) ->
  listReviewCommentsForRepo (S count) = []
  \/ Exists (fun c => RawReviewComment.created_at c < fromDate)
            (listReviewCommentsForRepo (S count)) ->
  (count < fuel)%nat ->
  fetchReviewCommentsForRepo pulls_get listReviewCommentsForRepo
    fuel fromDate username client
  = Some (snd (reviewCommentsOfPage pulls_get fromDate username
                 (List.concat (map listReviewCommentsForRepo (seq 1 (S count))))
                 [] client)).
Proof.
  intros Hpages Hlast Hfuel.
  unfold fetchReviewCommentsForRepo.
  rewrite reviewCommentsFromPage_pagedLoop, reviewCommentsOfPage_forPage.
  apply (pagedLoop_closed _ reviewCommentStep listReviewCommentsForRepo count
           1%nat fuel ([], client)).
  - intros q Hq. destruct (Hpages q ltac:(lia)) as [Hne Hall].
    split; [assumption|].
    now apply (existsb_old RawReviewComment.created_at fromDate).
  - destruct Hlast as [Hnil|Hold]; [now left|right].
    now apply (existsb_old RawReviewComment.created_at fromDate).
  - assumption.
Qed.
End CommentsOfUserFacts.

Section IssueCommentsOfUserFacts.
Variable pulls_get : nat -> Z -> option PullResponse.t.
Variable listCommentsForRepo : nat -> list RawIssueComment.t.
Variable fromDate : Z.
Variable username : string.

Local Abbreviation getPRInfo := (getPRInfo pulls_get).

(** The body of the loop over a page of issue comments, for a comment
    that is in the period. *)
Definition issueCommentStep (c : RawIssueComment.t)
    (acc : list IssueComment.t * Client.t) : list IssueComment.t * Client.t :=
  if negb (loginIs username (RawIssueComment.user_login c)) then acc
  else if negb (isPRComment (RawIssueComment.html_url c)) then acc
  else
    let prNumber := extractIssueNumber (RawIssueComment.issue_url c) in
    let prInfo := fst (getPRInfo (snd acc) prNumber) in
    let client := snd (getPRInfo (snd acc) prNumber) in
    if String.eqb (PRInfo.author prInfo) username then (fst acc, client)
    else
      (fst acc ++
       [IssueComment.mk
          (RawIssueComment.id c)
          prNumber
          (PRInfo.title prInfo)
          (PRInfo.author prInfo)
          (orEmpty (RawIssueComment.body c))
          (RawIssueComment.created_at c)
          (RawIssueComment.html_url c)],
       client).

Lemma issueCommentsOfPage_forPage data comments client :
  issueCommentsOfPage pulls_get fromDate username data comments client
  = forPage (fun c => RawIssueComment.created_at c <? fromDate)
      issueCommentStep data (comments, client).
Proof.
  revert comments client. induction data as [|c data IH]; intros comments client;
    simpl; [reflexivity|].
  destruct (RawIssueComment.created_at c <? fromDate); [reflexivity|].
  unfold issueCommentStep.
  destruct (negb (loginIs username (RawIssueComment.user_login c))); [apply IH|].
  destruct (negb (isPRComment (RawIssueComment.html_url c))); [apply IH|].
  cbn [fst snd].
  destruct (getPRInfo client (extractIssueNumber (RawIssueComment.issue_url c)))
    as [prInfo client']. cbn [fst snd].
  destruct (String.eqb (PRInfo.author prInfo) username); apply IH.
Qed.

Lemma issueCommentsFromPage_pagedLoop fuel page comments client :
  issueCommentsFromPage pulls_get listCommentsForRepo
    fuel fromDate username page comments client
  = pagedLoop (fun c => RawIssueComment.created_at c <? fromDate)
      issueCommentStep listCommentsForRepo fuel page (comments, client).
Proof.
  revert page comments client.
  induction fuel as [|fuel IH]; intros page comments client; simpl; [reflexivity|].
  destruct (JsArray.lastOpt (listCommentsForRepo page)) as [oldest|];
    [|reflexivity].
  rewrite issueCommentsOfPage_forPage.
  destruct (forPage _ issueCommentStep (listCommentsForRepo page)
              (comments, client)) as [[|] [comments' client']]; [reflexivity|].
  destruct (RawIssueComment.created_at oldest <? fromDate); [reflexivity|apply IH].
Qed.

Definition userIssueComment (client : Client.t) (c : IssueComment.t) : Prop :=
  fromDate <= IssueComment.createdAt c
  /\ IssueComment.prAuthor c <> username
  /\ includes "/pull/" (IssueComment.htmlUrl c) = true
  /\ JsMap.get Z.eqb (IssueComment.prNumber c) (Client.prCache client)
     = Some (PRInfo.mk (IssueComment.prTitle c) (IssueComment.prAuthor c))
  /\ exists page raw,
       In raw (listCommentsForRepo page)
       /\ RawIssueComment.user_login raw = Some username
       /\ IssueComment.id c = RawIssueComment.id raw
       /\ IssueComment.prNumber c = extractIssueNumber (RawIssueComment.issue_url raw)
       /\ IssueComment.body c = orEmpty (RawIssueComment.body raw)
       /\ IssueComment.createdAt c = RawIssueComment.created_at raw
       /\ IssueComment.htmlUrl c = RawIssueComment.html_url raw.

Lemma issueCommentStep_keeps (c : RawIssueComment.t)
    (acc : list IssueComment.t * Client.t) :
  (exists page, In c (listCommentsForRepo page)) ->
  (RawIssueComment.created_at c <? fromDate) = false ->
  Forall (userIssueComment (snd acc)) (fst acc) ->
  Forall (userIssueComment (snd (issueCommentStep c acc)))
         (fst (issueCommentStep c acc)).
Proof.
  intros [page Hpage] Hrecent Hinv. unfold issueCommentStep.
  destruct (loginIs username (RawIssueComment.user_login c)) eqn:Hlogin;
    cbn [negb]; [|assumption].
  apply loginIs_true in Hlogin.
  destruct (isPRComment (RawIssueComment.html_url c)) eqn:Hpull;
    cbn [negb]; [|assumption].
  pose proof (getPRInfo_step pulls_get (snd acc)
                (extractIssueNumber (RawIssueComment.issue_url c)))
    as [Hget [_ [Hkeep _]]].
  assert (Hold : Forall
            (userIssueComment
               (snd (getPRInfo (snd acc)
                       (extractIssueNumber (RawIssueComment.issue_url c)))))
            (fst acc)).
  { eapply Forall_impl; [|exact Hinv].
    intros c0 [H1 [H2 [H3 [H4 H5]]]]. repeat split; auto. }
  destruct (getPRInfo (snd acc)
              (extractIssueNumber (RawIssueComment.issue_url c)))
    as [prInfo client'] eqn:E.
  cbn [fst snd] in *.
  destruct (String.eqb (PRInfo.author prInfo) username) eqn:Hauthor;
    cbn [fst snd]; [assumption|].
  apply Forall_app. split; [assumption|]. constructor; [|constructor].
  unfold userIssueComment. cbn [IssueComment.createdAt IssueComment.prAuthor
    IssueComment.prNumber IssueComment.prTitle IssueComment.htmlUrl
    IssueComment.id IssueComment.body].
  split; [now apply Z.ltb_ge|]. split; [now apply String.eqb_neq|].
  split; [exact Hpull|].
  split; [destruct prInfo; exact Hget|].
  exists page, c. repeat split; assumption.
Qed.

(** X19.  Whenever [fetchIssueCommentsForRepo] returns, every comment it
    returns is made from an issue comment of the API that [username]
    wrote in the period, whose page address holds [/pull/], on a pull
    request whose author is not [username]; the title and the author of
    the pull request are those the client has in its cache for the number
    read from the address of the issue. *)
Theorem issue_comments_of_user (fuel : nat) (client client' : Client.t)
    (comments : list IssueComment.t) :
  fetchIssueCommentsForRepo pulls_get listCommentsForRepo
    fuel fromDate username client = Some (comments, client') ->
  Forall (userIssueComment client') comments.
Proof.
  unfold fetchIssueCommentsForRepo. rewrite issueCommentsFromPage_pagedLoop.
  intros Hloop.
  apply (pagedLoop_invariant _ issueCommentStep listCommentsForRepo
           (fun acc => Forall (userIssueComment (snd acc)) (fst acc))
           issueCommentStep_keeps fuel 1%nat ([], client) (comments, client'));
    [constructor|exact Hloop].
Qed.
End IssueCommentsOfUserFacts.

(** A run of the comments client: bob's comments since time 100. *)
Module ClientScenario.
Definition pulls_get (n : nat) (prNumber : Z) : option PullResponse.t :=
  if prNumber =? 7 then Some (PullResponse.mk "Add a cache" (Some "alice"))
  else if prNumber =? 8 then Some (PullResponse.mk "Fix the build" (Some "bob"))
  else None.

Definition reviewComment (id : Z) (login : string) (pr : string) (created_at : Z)
    : RawReviewComment.t :=
  RawReviewComment.mk id (Some login)
    ("https://api.github.com/repos/pbstck/app/pulls/" ++ pr)
    "Looks good" created_at
    ("https://github.com/pbstck/app/pull/" ++ pr ++ "#discussion")
    "src/stats.ts" (Some 12) "0a1b2c" None.

Definition listReviewCommentsForRepo (page : nat) : list RawReviewComment.t :=
  match page with
  | 1%nat => [reviewComment 1 "bob" "7" 500; reviewComment 2 "alice" "7" 400;
              reviewComment 3 "bob" "8" 300]
  | 2%nat => [reviewComment 4 "bob" "9" 200; reviewComment 5 "bob" "7" 50]
  | 3%nat => [reviewComment 6 "bob" "7" 40]
  | _ => []
  end.

Definition issueComment (id : Z) (login : string) (kind pr : string) (created_at : Z)
    : RawIssueComment.t :=
  RawIssueComment.mk id (Some login)
    ("https://api.github.com/repos/pbstck/app/issues/" ++ pr)
    (Some "Thanks") created_at
    ("https://github.com/pbstck/app/" ++ kind ++ "/" ++ pr ++ "#issuecomment").

Definition listCommentsForRepo (page : nat) : list RawIssueComment.t :=
  match page with
  | 1%nat => [issueComment 11 "bob" "pull" "7" 450; issueComment 12 "bob" "issues" "3" 350]
  | 2%nat => [issueComment 13 "bob" "pull" "8" 250]
  | _ => []
  end.

Definition reviewRun : option (list ReviewComment.t * Client.t) :=
  fetchReviewCommentsForRepo pulls_get listReviewCommentsForRepo 5 100 "bob"
    Client.initial.

Definition issueRun : option (list IssueComment.t * Client.t) :=
  fetchIssueCommentsForRepo pulls_get listCommentsForRepo 5 100 "bob"
    Client.initial.

Definition resultOf {A : Type} (run : option (list A * Client.t)) : list A * Client.t :=
  match run with
  | Some result => result
  | None => ([], Client.initial)
  end.
End ClientScenario.

Lemma review_comments_of_user_witness :
  ClientScenario.reviewRun
  = Some (fst (ClientScenario.resultOf ClientScenario.reviewRun),
          snd (ClientScenario.resultOf ClientScenario.reviewRun))
  /\ List.length (fst (ClientScenario.resultOf ClientScenario.reviewRun)) = 2%nat
  /\ Forall (userReviewComment ClientScenario.listReviewCommentsForRepo 100 "bob"
               (snd (ClientScenario.resultOf ClientScenario.reviewRun)))
            (fst (ClientScenario.resultOf ClientScenario.reviewRun)).
Proof.
  assert (H : ClientScenario.reviewRun
              = Some (fst (ClientScenario.resultOf ClientScenario.reviewRun),
                      snd (ClientScenario.resultOf ClientScenario.reviewRun)))
    by (vm_compute; reflexivity).
  split; [exact H|]. split; [vm_compute; reflexivity|].
  exact (review_comments_of_user ClientScenario.pulls_get
           ClientScenario.listReviewCommentsForRepo 100 "bob" 5
           Client.initial _ _ H).
Defined.

Lemma review_comments_pages_witness :
  (forall q, (1 <= q <= 1)%nat ->
     ClientScenario.listReviewCommentsForRepo q <> []
     /\ Forall (fun c => 100 <= RawReviewComment.created_at c)
               (ClientScenario.listReviewCommentsForRepo q))
  /\ (ClientScenario.listReviewCommentsForRepo 2 = []
      \/ Exists (fun c => RawReviewComment.created_at c < 100)
                (ClientScenario.listReviewCommentsForRepo 2))
  /\ (1 < 5)%nat
  /\ ClientScenario.reviewRun
     = Some (snd (reviewCommentsOfPage ClientScenario.pulls_get 100 "bob"
                    (List.concat (map ClientScenario.listReviewCommentsForRepo
                                    (seq 1 2)))
                    [] Client.initial)).
Proof.
  assert (H1 : forall q, (1 <= q <= 1)%nat ->
             ClientScenario.listReviewCommentsForRepo q <> []
             /\ Forall (fun c => 100 <= RawReviewComment.created_at c)
                       (ClientScenario.listReviewCommentsForRepo q)).
  { intros q Hq. assert (q = 1%nat) as -> by lia.
    split; [discriminate|]. repeat constructor; discriminate. }
  assert (H2 : ClientScenario.listReviewCommentsForRepo 2 = []
               \/ Exists (fun c => RawReviewComment.created_at c < 100)
                         (ClientScenario.listReviewCommentsForRepo 2)).
  { right. apply Exists_cons_tl, Exists_cons_hd. reflexivity. }
  assert (H3 : (1 < 5)%nat) by lia.
  split; [exact H1|]. split; [exact H2|]. split; [exact H3|].
  exact (review_comments_pages ClientScenario.pulls_get
           ClientScenario.listReviewCommentsForRepo 100 "bob" 1 5
           Client.initial H1 H2 H3).
Defined.

Lemma issue_comments_of_user_witness :
  ClientScenario.issueRun
  = Some (fst (ClientScenario.resultOf ClientScenario.issueRun),
          snd (ClientScenario.resultOf ClientScenario.issueRun))
  /\ List.length (fst (ClientScenario.resultOf ClientScenario.issueRun)) = 1%nat
  /\ Forall (userIssueComment ClientScenario.listCommentsForRepo 100 "bob"
               (snd (ClientScenario.resultOf ClientScenario.issueRun)))
            (fst (ClientScenario.resultOf ClientScenario.issueRun)).
Proof.
  assert (H : ClientScenario.issueRun
              = Some (fst (ClientScenario.resultOf ClientScenario.issueRun),
                      snd (ClientScenario.resultOf ClientScenario.issueRun)))
    by (vm_compute; reflexivity).
  split; [exact H|]. split; [vm_compute; reflexivity|].
  exact (issue_comments_of_user ClientScenario.pulls_get
           ClientScenario.listCommentsForRepo 100 "bob" 5
           Client.initial _ _ H).
Defined.

(** ** The conversation of a pull request *)

(** The author shown for a comment, and whether the comment counts as one
    of the target user. *)
Definition authorAndFlag (targetUsername : string) (c : ConversationComment.t) : Prop :=
  ConversationComment.author c <> EmptyString
  /\ (ConversationComment.isTargetUser c = true ->
      targetUsername <> EmptyString ->
      ConversationComment.author c = targetUsername)
  /\ (ConversationComment.author c = targetUsername ->
      targetUsername <> "unknown" ->
      ConversationComment.isTargetUser c = true).

Lemma login_authorAndFlag (targetUsername : string) (login : option string) :
  orUnknown login <> EmptyString
  /\ (loginIs targetUsername login = true ->
      targetUsername <> EmptyString -> orUnknown login = targetUsername)
  /\ (orUnknown login = targetUsername ->
      targetUsername <> "unknown" -> loginIs targetUsername login = true).
Proof.
  split; [apply orUnknown_named|]. split.
  - intros H Hne. apply loginIs_true in H. subst login. unfold orUnknown.
    destruct (String.eqb targetUsername EmptyString) eqn:E; [|reflexivity].
    apply String.eqb_eq in E. contradiction.
  - unfold orUnknown, loginIs. destruct login as [name|]; [|congruence].
    destruct (String.eqb name EmptyString); [congruence|].
    intros -> _. apply String.eqb_refl.
Qed.

(** The sort keeps the elements of one instant in the order they had. *)
Lemma sort_stable (t : Z) (l : list ConversationComment.t) :
  filter (fun c => ConversationComment.createdAt c =? t)
         (JsArray.sort byCreatedAtOfComment l)
  = filter (fun c => ConversationComment.createdAt c =? t) l.
Proof.
  assert (Hins : forall x l0,
             filter (fun c => ConversationComment.createdAt c =? t)
                    (JsArray.insertBy byCreatedAtOfComment x l0)
             = filter (fun c => ConversationComment.createdAt c =? t) (x :: l0)).
  { intros x l0. induction l0 as [|y l0 IH]; [reflexivity|].
    cbn [JsArray.insertBy]. unfold byCreatedAtOfComment at 1.
    destruct (ConversationComment.createdAt x - ConversationComment.createdAt y <=? 0)
      eqn:E; [reflexivity|].
    apply Z.leb_gt in E. cbn [filter] in *. rewrite IH.
    destruct (ConversationComment.createdAt x =? t) eqn:Ex; [|reflexivity].
    apply Z.eqb_eq in Ex.
    assert (Hy : (ConversationComment.createdAt y =? t) = false)
      by (apply Z.eqb_neq; lia).
    now rewrite Hy. }
  induction l as [|x l IH]; [reflexivity|].
  cbn [JsArray.sort]. rewrite Hins. cbn [filter]. now rewrite IH.
Qed.

Section ConversationFacts.
Variable trim : string -> string.

Lemma ofReviews_authorAndFlag (targetUsername : string) (reviews : list RawReview.t) :
  Forall (authorAndFlag targetUsername) (ofReviews trim targetUsername reviews).
Proof.
  induction reviews as [|r reviews IH]; simpl; [constructor|].
  destruct (RawReview.body r) as [body|]; [|exact IH].
  destruct (RawReview.submitted_at r) as [submitted_at|]; [|exact IH].
  destruct (negb (String.eqb body EmptyString)
            && negb (String.eqb (trim body) EmptyString)); [|exact IH].
  constructor; [|exact IH].
  exact (login_authorAndFlag targetUsername (RawReview.user_login r)).
Qed.

(** What the three endpoints give for the conversation; a call that
    throws gives nothing. *)
Definition gathered
    (reviewResponse : option (list RawReviewComment.t))
    (issueResponse : option (list RawIssueComment.t))
    (reviewsResponse : option (list RawReview.t))
    (targetUsername : string) : list ConversationComment.t :=
  match reviewResponse with
  | Some data => map (ofReviewComment targetUsername) data
  | None => []
  end
  ++ match issueResponse with
     | Some data => map (ofIssueComment targetUsername) data
     | None => []
     end
  ++ match reviewsResponse with
     | Some data => ofReviews trim targetUsername data
     | None => []
     end.

Lemma fetchAllCommentsForPR_gathered reviewResponse issueResponse reviewsResponse
    targetUsername :
  fetchAllCommentsForPR trim reviewResponse issueResponse reviewsResponse targetUsername
  = JsArray.sort byCreatedAtOfComment
      (gathered reviewResponse issueResponse reviewsResponse targetUsername).
Proof.
  unfold fetchAllCommentsForPR, gathered. cbv zeta. f_equal.
  destruct reviewResponse, issueResponse, reviewsResponse;
    cbn [app]; rewrite ?app_nil_r, <- ?app_assoc; reflexivity.
Qed.

(** X20.  The conversation of a pull request holds the review comments, the
    issue comments and the reviews with a body that the endpoints give,
    and nothing of an endpoint whose call throws; it is in the order of
    the dates, comments of one instant staying in the order review
    comments, issue comments, reviews.  No comment has an empty author;
    a comment flagged as the target user's has the target user as author,
    and a comment whose author is the target user is flagged, unless the
    target user is called unknown. *)
Theorem conversation_in_order reviewResponse issueResponse reviewsResponse
    targetUsername :
  let result :=
    fetchAllCommentsForPR trim reviewResponse issueResponse reviewsResponse
      targetUsername in
  let given := gathered reviewResponse issueResponse reviewsResponse targetUsername in
  StronglySorted
    (fun a b => ConversationComment.createdAt a <= ConversationComment.createdAt b)
    result
  /\ Permutation result given
  /\ (forall t, filter (fun c => ConversationComment.createdAt c =? t) result
                = filter (fun c => ConversationComment.createdAt c =? t) given)
  /\ Forall (authorAndFlag targetUsername) result.
Proof.
  cbv zeta. rewrite fetchAllCommentsForPR_gathered.
  split; [|split; [|split]].
  - apply sort_sorted_for; unfold byCreatedAtOfComment; intros; lia.
  - apply sort_perm.
  - intros t. apply sort_stable.
  - apply Forall_forall. intros c Hc. apply (proj1 (sort_In _ _ _)) in Hc.
    unfold gathered in Hc. rewrite !in_app_iff in Hc.
    destruct Hc as [Hc|[Hc|Hc]].
    + destruct reviewResponse as [data|]; [|destruct Hc].
      apply in_map_iff in Hc. destruct Hc as [raw [<- _]].
      exact (login_authorAndFlag targetUsername (RawReviewComment.user_login raw)).
    + destruct issueResponse as [data|]; [|destruct Hc].
      apply in_map_iff in Hc. destruct Hc as [raw [<- _]].
      exact (login_authorAndFlag targetUsername (RawIssueComment.user_login raw)).
    + destruct reviewsResponse as [data|]; [|destruct Hc].
      pose proof (ofReviews_authorAndFlag targetUsername data) as Hall.
      rewrite Forall_forall in Hall. now apply Hall.
Qed.
End ConversationFacts.

(** * The GitHub client and the main function: properties *)

(** ** The pull requests of the period *)

(** The items of an array up to the first that fails [p]. *)
Fixpoint takeWhile {A : Type} (p : A -> bool) (l : list A) : list A :=
  match l with
  | [] => []
  | x :: rest => if p x then x :: takeWhile p rest else []
  end.

(** The pull request that [fetchPullRequests] makes of one of the API. *)
Definition prDataOf (pr : RawPull.t) : PRData.t :=
  PRData.mk
    (RawPull.number pr)
    (RawPull.title pr)
    (orUnknown (RawPull.user_login pr))
    (RawPull.created_at pr)
    (RawPull.created_at pr)
    (RawPull.closed_at pr)
    (RawPull.merged_at pr)
    match RawPull.merged_at pr with
    | Some _ => merged
    | None =>
        match RawPull.closed_at pr with
        | Some _ => closed
        | None => open
        end
    end
    (orFalse (RawPull.draft pr)).

Section GitHubClientFacts.
Variable pulls_list : nat -> list RawPull.t.
Variable fromDate toDate : Z.

(** The body of the loop over a page, for a pull request that is not
    from before the period. *)
Definition pullStep (pr : RawPull.t) (prs : list PRData.t) : list PRData.t :=
  if (fromDate <=? RawPull.created_at pr) && (RawPull.created_at pr <=? toDate)
  then prs ++ [prDataOf pr]
  else prs.

Lemma pullRequestsOfPage_forPage data prs :
  pullRequestsOfPage fromDate toDate data prs
  = forPage (fun pr => RawPull.created_at pr <? fromDate) pullStep data prs.
Proof.
  revert prs. induction data as [|pr data IH]; intros prs; simpl; [reflexivity|].
  destruct (RawPull.created_at pr <? fromDate); [reflexivity|].
  unfold pullStep.
  destruct ((fromDate <=? RawPull.created_at pr)
            && (RawPull.created_at pr <=? toDate)); apply IH.
Qed.

Lemma pullRequestsFromPage_pagedLoop fuel page prs :
  pullRequestsFromPage pulls_list fuel fromDate toDate page prs
  = pagedLoop (fun pr => RawPull.created_at pr <? fromDate)
      pullStep pulls_list fuel page prs.
Proof.
  revert page prs. induction fuel as [|fuel IH]; intros page prs; simpl;
    [reflexivity|].
  destruct (JsArray.lastOpt (pulls_list page)) as [oldestPR|]; [|reflexivity].
  rewrite pullRequestsOfPage_forPage.
  destruct (forPage _ pullStep (pulls_list page) prs) as [[|] prs'];
    [reflexivity|].
  destruct (RawPull.created_at oldestPR <? fromDate); [reflexivity|apply IH].
Qed.

Lemma forPage_pullStep (data : list RawPull.t) (prs : list PRData.t) :
  snd (forPage (fun pr => RawPull.created_at pr <? fromDate) pullStep data prs)
  = prs ++ map prDataOf
             (filter (fun pr => RawPull.created_at pr <=? toDate)
                (takeWhile (fun pr => fromDate <=? RawPull.created_at pr) data)).
Proof.
  revert prs. induction data as [|pr data IH]; intros prs; simpl;
    [now rewrite app_nil_r|].
  destruct (RawPull.created_at pr <? fromDate) eqn:Eold.
  - apply Z.ltb_lt in Eold.
    assert (H : (fromDate <=? RawPull.created_at pr) = false)
      by (apply Z.leb_gt; lia).
    rewrite H. simpl. now rewrite app_nil_r.
  - apply Z.ltb_ge in Eold.
    assert (H : (fromDate <=? RawPull.created_at pr) = true)
      by (apply Z.leb_le; lia).
    rewrite IH. unfold pullStep. rewrite H. cbn [andb filter].
    destruct (RawPull.created_at pr <=? toDate); [|reflexivity].
    cbn [map]. now rewrite <- app_assoc.
Qed.

(** A pull request of the result: in the period, ready for review when
    it was created, with an author, and in the state its dates tell. *)
Definition fetchedPullRequest (pr : PRData.t) : Prop :=
  fromDate <= PRData.createdAt pr <= toDate
  /\ PRData.readyForReviewAt pr = PRData.createdAt pr
  /\ PRData.author pr <> EmptyString
  /\ (PRData.state pr = merged <-> PRData.mergedAt pr <> None)
  /\ (PRData.state pr = closed
      <-> PRData.mergedAt pr = None /\ PRData.closedAt pr <> None)
  /\ (PRData.state pr = open
      <-> PRData.mergedAt pr = None /\ PRData.closedAt pr = None)
  /\ exists page raw, In raw (pulls_list page) /\ pr = prDataOf raw.

Lemma pullStep_keeps (pr : RawPull.t) (prs : list PRData.t) :
  (exists page, In pr (pulls_list page)) ->
  (RawPull.created_at pr <? fromDate) = false ->
  Forall fetchedPullRequest prs -> Forall fetchedPullRequest (pullStep pr prs).
Proof.
  intros [page Hpage] _ Hinv. unfold pullStep.
  destruct ((fromDate <=? RawPull.created_at pr)
            && (RawPull.created_at pr <=? toDate)) eqn:E; [|assumption].
  apply Bool.andb_true_iff in E. destruct E as [E1 E2].
  apply Z.leb_le in E1. apply Z.leb_le in E2.
  apply Forall_app. split; [assumption|]. constructor; [|constructor].
  unfold fetchedPullRequest, prDataOf.
  cbn [PRData.createdAt PRData.readyForReviewAt PRData.author PRData.state
       PRData.mergedAt PRData.closedAt].
  split; [lia|]. split; [reflexivity|]. split; [apply orUnknown_named|].
  split; [|split; [|split]].
  - destruct (RawPull.merged_at pr); [split; intros; [discriminate|reflexivity]|].
    destruct (RawPull.closed_at pr); split; intros; try discriminate; contradiction.
  - destruct (RawPull.merged_at pr).
    + split; [discriminate|intros [H _]; discriminate].
    + destruct (RawPull.closed_at pr).
      * split; [intros _; split; [reflexivity|discriminate]|reflexivity].
      * split; [discriminate|intros [_ H]; contradiction].
  - destruct (RawPull.merged_at pr).
    + split; [discriminate|intros [H _]; discriminate].
    + destruct (RawPull.closed_at pr).
      * split; [discriminate|intros [_ H]; discriminate].
      * split; auto.
  - exists page, pr. split; [assumption|reflexivity].
Qed.

(** X21.  Whenever [fetchPullRequests] returns, every pull request it returns
    is made from one of the API that was created in the period; it is
    ready for review at its creation, has an author, and its state is
    merged exactly when it has a merge date, closed exactly when it has a
    closing date and no merge date, open exactly when it has neither. *)
Theorem pull_requests_fetched (fuel : nat) (prs : list PRData.t) :
  fetchPullRequests pulls_list fuel fromDate toDate = Some prs ->
  Forall fetchedPullRequest prs.
Proof.
  unfold fetchPullRequests. rewrite pullRequestsFromPage_pagedLoop.
  apply (pagedLoop_invariant _ pullStep pulls_list
           (Forall fetchedPullRequest) pullStep_keeps fuel 1%nat [] prs).
  constructor.
Qed.

(** X22.  [fetchPullRequests] returns when a page is empty or holds a pull
    request from before the period, the pages before it being neither.
    It returns the pull requests of the pages up to that one, in the
    order of the API, as far as they come before the first one from
    before the period and are not from after the period. *)
Theorem pull_requests_pages (count fuel : nat) :
  (forall q, (1 <= q <= count)%nat ->
     pulls_list q <> []
     /\ Forall (fun pr => fromDate <= RawPull.created_at pr) (pulls_list q)) ->
  pulls_list (S count) = []
  \/ Exists (fun pr => RawPull.created_at pr < fromDate) (pulls_list (S count)) ->
  (count < fuel)%nat ->
  fetchPullRequests pulls_list fuel fromDate toDate
  = Some (map prDataOf
            (filter (fun pr => RawPull.created_at pr <=? toDate)
               (takeWhile (fun pr => fromDate <=? RawPull.created_at pr)
                  (List.concat (map pulls_list (seq 1 (S count))))))).
Proof.
  intros Hpages Hlast Hfuel.
  unfold fetchPullRequests. rewrite pullRequestsFromPage_pagedLoop.
  rewrite (pagedLoop_closed _ pullStep pulls_list count 1%nat fuel []).
  - now rewrite forPage_pullStep.
  - intros q Hq. destruct (Hpages q ltac:(lia)) as [Hne Hall].
    split; [assumption|].
    now apply (existsb_old RawPull.created_at fromDate).
  - destruct Hlast as [Hnil|Hold]; [now left|right].
    now apply (existsb_old RawPull.created_at fromDate).
  - assumption.
Qed.
End GitHubClientFacts.

(** ** From the pull requests to the statistics *)

Section MainFacts.
Variable localeCompare : string -> string -> Z.
Variable Date_now : nat -> Z.
Variable owner repo : string.
Variable fetchReviews : nat -> Z -> list ReviewData.t.
Variable fetchReviewRequests : nat -> Z -> list ReviewRequestData.t.
Variable fetchPRComments : nat -> Z -> list CommentData.t.
Variable fetchReadyForReviewDate : nat -> Z -> option Z.

Local Abbreviation fetchDetails :=
  (fetchDetails fetchReviews fetchReviewRequests fetchPRComments
     fetchReadyForReviewDate).
Local Abbreviation statsInput :=
  (statsInput fetchReviews fetchReviewRequests fetchPRComments
     fetchReadyForReviewDate).

(** The pull requests that [main] keeps. *)
Definition kept (allPrs : list PRData.t) : list PRData.t :=
  filter (fun pr => negb (PRData.isDraft pr))
    (filter (fun pr => negb (isBot (PRData.author pr))) allPrs).

(** A pull request as round [i] of the loop leaves it. *)
Definition afterRound (i : nat) (pr : PRData.t) : PRData.t :=
  match fetchReadyForReviewDate i (PRData.number pr) with
  | Some date => setReadyForReviewAt pr date
  | None => pr
  end.

Lemma afterRound_number (i : nat) (pr : PRData.t) :
  PRData.number (afterRound i pr) = PRData.number pr.
Proof.
  unfold afterRound. now destruct (fetchReadyForReviewDate i (PRData.number pr)).
Qed.

(** No later pull request of the array has the number of the one at
    [k]. *)
Definition lastOfNumber (prs : list PRData.t) (k : nat) (pr : PRData.t) : Prop :=
  forall k' pr', (k < k')%nat -> nth_error prs k' = Some pr' ->
                 PRData.number pr' <> PRData.number pr.

Lemma fetchDetails_spec (prs : list PRData.t) :
  forall (i : nat) (maps : Maps.t),
    let prs' := fst (fetchDetails i prs maps) in
    let maps' := snd (fetchDetails i prs maps) in
    (forall k, nth_error prs' k
               = option_map (afterRound (i + k)) (nth_error prs k))
    /\ (JsMap.keys (Maps.reviewsMap maps')
        = fold_left (fun s n => JsSet.add Z.eqb n s) (map PRData.number prs)
            (JsMap.keys (Maps.reviewsMap maps))
        /\ JsMap.keys (Maps.reviewRequestsMap maps')
           = fold_left (fun s n => JsSet.add Z.eqb n s) (map PRData.number prs)
               (JsMap.keys (Maps.reviewRequestsMap maps))
        /\ JsMap.keys (Maps.commentsMap maps')
           = fold_left (fun s n => JsSet.add Z.eqb n s) (map PRData.number prs)
               (JsMap.keys (Maps.commentsMap maps)))
    /\ (forall n, ~ In n (map PRData.number prs) ->
          JsMap.get Z.eqb n (Maps.reviewsMap maps')
          = JsMap.get Z.eqb n (Maps.reviewsMap maps)
          /\ JsMap.get Z.eqb n (Maps.reviewRequestsMap maps')
             = JsMap.get Z.eqb n (Maps.reviewRequestsMap maps)
          /\ JsMap.get Z.eqb n (Maps.commentsMap maps')
             = JsMap.get Z.eqb n (Maps.commentsMap maps))
    /\ (forall k pr, nth_error prs k = Some pr -> lastOfNumber prs k pr ->
          JsMap.get Z.eqb (PRData.number pr) (Maps.reviewsMap maps')
          = Some (fetchReviews (i + k) (PRData.number pr))
          /\ JsMap.get Z.eqb (PRData.number pr) (Maps.reviewRequestsMap maps')
             = Some (fetchReviewRequests (i + k) (PRData.number pr))
          /\ JsMap.get Z.eqb (PRData.number pr) (Maps.commentsMap maps')
             = Some (fetchPRComments (i + k) (PRData.number pr))).
Proof.
  induction prs as [|pr prs IH]; intros i maps; cbv zeta.
  - cbn. split; [intros k; now destruct k|]. split; [auto|]. split; [auto|].
    intros k pr Hk. now destruct k.
  - simpl.
    change (match fetchReadyForReviewDate i (PRData.number pr) with
            | Some date => setReadyForReviewAt pr date
            | None => pr
            end) with (afterRound i pr).
    rewrite !afterRound_number.
    set (maps1 := Maps.mk _ _ _).
    specialize (IH (S i) maps1). cbv zeta in IH.
    destruct (fetchDetails (S i) prs maps1) as [rest maps'] eqn:E.
    cbn [fst snd] in *.
    destruct IH as [Ha [[Hb1 [Hb2 Hb3]] [Hc Hd]]].
    subst maps1.
    cbn [Maps.reviewsMap Maps.reviewRequestsMap Maps.commentsMap] in *.
    rewrite keys_set_add in Hb1. rewrite keys_set_add in Hb2.
    rewrite keys_set_add in Hb3.
    split; [|split; [auto|split]].
    + intros [|k]; cbn [nth_error option_map].
      * now rewrite Nat.add_0_r.
      * rewrite Ha. now rewrite Nat.add_succ_r.
    + intros n Hn.
      assert (Hne : PRData.number pr <> n) by (intros <-; apply Hn; now left).
      assert (Hrest : ~ In n (map PRData.number prs))
        by (intros H; apply Hn; now right).
      destruct (Hc n Hrest) as [H1 [H2 H3]].
      rewrite H1, H2, H3.
      rewrite !(get_set_other Z.eqb Zeqb_eq) by assumption. auto.
    + intros [|k] pr0 Hk Hlast; cbn [nth_error] in Hk.
      * injection Hk as <-.
        assert (Hrest : ~ In (PRData.number pr) (map PRData.number prs)).
        { intros H. apply in_map_iff in H. destruct H as [pr' [Heq Hin]].
          apply In_nth_error in Hin. destruct Hin as [k' Hk'].
          exact (Hlast (S k') pr' ltac:(lia) Hk' Heq). }
        destruct (Hc _ Hrest) as [H1 [H2 H3]].
        rewrite H1, H2, H3, Nat.add_0_r.
        rewrite !(get_set_same Z.eqb Zeqb_eq). auto.
      * rewrite Nat.add_succ_r. apply Hd; [assumption|].
        intros k' pr' Hlt Hk'. apply (Hlast (S k') pr'); [lia|exact Hk'].
Qed.

(** The pull requests as the loop leaves them, from round [i] on. *)
Fixpoint afterRounds (i : nat) (prs : list PRData.t) : list PRData.t :=
  match prs with
  | [] => []
  | pr :: rest => afterRound i pr :: afterRounds (S i) rest
  end.

Lemma fetchDetails_afterRounds (prs : list PRData.t) (i : nat) (maps : Maps.t) :
  fst (fetchDetails i prs maps) = afterRounds i prs.
Proof.
  revert i maps. induction prs as [|pr prs IH]; intros i maps; simpl;
    [reflexivity|].
  match goal with
  | |- context [fetchDetails (S i) prs ?m] =>
      specialize (IH (S i) m); destruct (fetchDetails (S i) prs m) as [rest maps']
  end.
  cbn [fst] in *. now rewrite IH.
Qed.

Lemma afterRounds_number (prs : list PRData.t) (i : nat) :
  map PRData.number (afterRounds i prs) = map PRData.number prs.
Proof.
  revert i. induction prs as [|pr prs IH]; intros i; simpl; [reflexivity|].
  now rewrite afterRound_number, IH.
Qed.

Lemma afterRound_fields (i : nat) (pr : PRData.t) :
  PRData.author (afterRound i pr) = PRData.author pr
  /\ PRData.isDraft (afterRound i pr) = PRData.isDraft pr.
Proof.
  unfold afterRound. now destruct (fetchReadyForReviewDate i (PRData.number pr)).
Qed.

Lemma afterRounds_kept (allPrs : list PRData.t) (i : nat) :
  Forall (fun pr => isBot (PRData.author pr) = false /\ PRData.isDraft pr = false)
         (afterRounds i (kept allPrs)).
Proof.
  assert (H : Forall (fun pr => isBot (PRData.author pr) = false
                                /\ PRData.isDraft pr = false) (kept allPrs)).
  { apply Forall_forall. intros pr Hpr. unfold kept in Hpr.
    apply filter_In in Hpr. destruct Hpr as [Hpr Hdraft].
    apply filter_In in Hpr. destruct Hpr as [_ Hbot].
    split; [now destruct (isBot (PRData.author pr))
           |now destruct (PRData.isDraft pr)]. }
  revert i. induction H as [|pr prs [Hbot Hdraft] _ IH]; intros i; simpl;
    constructor; [|apply IH].
  destruct (afterRound_fields i pr) as [-> ->]. auto.
Qed.

Lemma ofArray_distinct (l : list Z) : NoDup (JsSet.ofArray Z.eqb l).
Proof.
  unfold JsSet.ofArray. assert (H : NoDup (@nil Z)) by constructor.
  revert H. generalize (@nil Z). induction l as [|x l IH]; intros s H; simpl;
    [assumption|].
  apply IH. now apply (set_add_NoDup Z.eqb Zeqb_eq).
Qed.

Lemma statsInput_Some (allPrs prs : list PRData.t) (maps : Maps.t) :
  statsInput allPrs = Some (prs, maps) ->
  fetchDetails 0 (kept allPrs) Maps.empty = (prs, maps).
Proof.
  unfold statsInput. cbv zeta. fold (kept allPrs).
  destruct (List.length (kept allPrs) =? 0)%nat; [discriminate|].
  now intros [= H].
Qed.

(** X23.  [main] returns without statistics exactly when every pull request
    fetched is a draft or is opened by a bot.  Otherwise it calls
    [calculateStats] with the pull requests that are neither, in the
    order fetched, each with the ready-for-review date of its round when
    there is one; with three maps that have the same keys, the distinct
    numbers of these pull requests in the order of their first
    occurrence; and, under the number of a pull request, with what the
    client returned in the last round for that number. *)
Theorem main_calls_calculateStats (allPrs : list PRData.t) :
  (statsInput allPrs = None <-> kept allPrs = [])
  /\ forall prs maps,
       statsInput allPrs = Some (prs, maps) ->
       prs = afterRounds 0 (kept allPrs)
       /\ Forall (fun pr => isBot (PRData.author pr) = false
                            /\ PRData.isDraft pr = false) prs
       /\ JsMap.keys (Maps.reviewsMap maps)
          = JsSet.ofArray Z.eqb (map PRData.number prs)
       /\ JsMap.keys (Maps.reviewRequestsMap maps)
          = JsSet.ofArray Z.eqb (map PRData.number prs)
       /\ JsMap.keys (Maps.commentsMap maps)
          = JsSet.ofArray Z.eqb (map PRData.number prs)
       /\ NoDup (JsSet.ofArray Z.eqb (map PRData.number prs))
       /\ forall k pr,
            nth_error (kept allPrs) k = Some pr ->
            lastOfNumber (kept allPrs) k pr ->
            JsMap.get Z.eqb (PRData.number pr) (Maps.reviewsMap maps)
            = Some (fetchReviews k (PRData.number pr))
            /\ JsMap.get Z.eqb (PRData.number pr) (Maps.reviewRequestsMap maps)
               = Some (fetchReviewRequests k (PRData.number pr))
            /\ JsMap.get Z.eqb (PRData.number pr) (Maps.commentsMap maps)
               = Some (fetchPRComments k (PRData.number pr)).
Proof.
  unfold statsInput. cbv zeta. fold (kept allPrs).
  destruct (List.length (kept allPrs) =? 0)%nat eqn:Elen.
  - apply Nat.eqb_eq, length_zero_iff_nil in Elen.
    split; [split; [intros _; exact Elen|reflexivity]|].
    intros prs maps H. discriminate.
  - apply Nat.eqb_neq in Elen.
    split; [split; [discriminate|intros H; rewrite H in Elen; now elim Elen]|].
    intros prs maps H. injection H as H.
    pose proof (fetchDetails_afterRounds (kept allPrs) 0 Maps.empty) as Hprs.
    pose proof (fetchDetails_spec (kept allPrs) 0 Maps.empty) as Hspec.
    cbv zeta in Hspec. rewrite H in Hprs, Hspec. cbn [fst snd] in Hprs, Hspec.
    destruct Hspec as [_ [[Hb1 [Hb2 Hb3]] [_ Hd]]].
    subst prs. rewrite afterRounds_number.
    split; [reflexivity|]. split; [apply afterRounds_kept|].
    split; [exact Hb1|]. split; [exact Hb2|]. split; [exact Hb3|].
    split; [apply ofArray_distinct|].
    intros k pr Hk Hlast. exact (Hd k pr Hk Hlast).
Qed.

Lemma nth_error_afterRounds (prs : list PRData.t) (i k : nat) :
  nth_error (afterRounds i prs) k
  = option_map (afterRound (i + k)) (nth_error prs k).
Proof.
  revert i k. induction prs as [|pr prs IH]; intros i [|k]; simpl;
    try reflexivity.
  - now rewrite Nat.add_0_r.
  - now rewrite IH, Nat.add_succ_r.
Qed.

Lemma Forall2_nth_error_r {A B : Type} (R : A -> B -> Prop)
    (l1 : list A) (l2 : list B) (k : nat) (b : B) :
  Forall2 R l1 l2 -> nth_error l2 k = Some b ->
  exists a, nth_error l1 k = Some a /\ R a b.
Proof.
  intros H. revert k. induction H as [|x y l1 l2 Hxy _ IH]; intros [|k] Hk;
    try discriminate.
  - injection Hk as <-. exists x. auto.
  - exact (IH k Hk).
Qed.

(** What a row has of the pull request that [main] kept at place [k]. *)
Definition rowOfKept (k : nat) (pr : PRData.t) (d : PersonPRDetail.t) : Prop :=
  PersonPRDetail.prNumber d = PRData.number pr
  /\ PersonPRDetail.author d = PRData.author pr
  /\ isBot (PersonPRDetail.author d) = false
  /\ PersonPRDetail.isDraft d = false
  /\ PersonPRDetail.createdAt d = PRData.createdAt pr
  /\ PersonPRDetail.readyForReviewAt d
     = match fetchReadyForReviewDate k (PRData.number pr) with
       | Some date => date
       | None => PRData.readyForReviewAt pr
       end.

Lemma buildDetail_rowOfKept reviews data tick (k : nat) (pr : PRData.t) :
  isBot (PRData.author pr) = false -> PRData.isDraft pr = false ->
  rowOfKept k pr
    (fst (buildDetail Date_now owner repo reviews data tick (afterRound k pr))).
Proof.
  intros Hbot Hdraft. unfold rowOfKept, buildDetail, afterRound.
  destruct (fetchReadyForReviewDate k (PRData.number pr)) as [date|];
    cbn [setReadyForReviewAt PRData.mergedAt PRData.closedAt PRData.number
         PRData.author PRData.isDraft PRData.createdAt PRData.readyForReviewAt];
    (destruct (PRData.mergedAt pr); [|destruct (PRData.closedAt pr)]);
    cbn [fst PersonPRDetail.prNumber PersonPRDetail.author
         PersonPRDetail.isDraft PersonPRDetail.createdAt
         PersonPRDetail.readyForReviewAt
         setReadyForReviewAt PRData.mergedAt PRData.closedAt PRData.number
         PRData.author PRData.isDraft PRData.createdAt PRData.readyForReviewAt];
    auto 10.
Qed.

Lemma personStats_rows (allPrs : list PRData.t) (stats : list PersonStats.t)
    (s : PersonStats.t) :
  personStats localeCompare Date_now owner repo fetchReviews fetchReviewRequests
    fetchPRComments fetchReadyForReviewDate allPrs = Some stats ->
  In s stats ->
  isBot (PersonStats.person s) = false
  /\ List.length (PersonStats.prDetails s) = List.length (kept allPrs)
  /\ forall k pr,
       nth_error (kept allPrs) k = Some pr ->
       exists d, nth_error (PersonStats.prDetails s) k = Some d /\ rowOfKept k pr d.
Proof.
  unfold personStats.
  destruct (statsInput allPrs) as [[prs maps]|] eqn:Einput; [|discriminate].
  intros [= <-] Hin.
  apply statsInput_Some in Einput.
  assert (Hprs : prs = afterRounds 0 (kept allPrs))
    by (rewrite <- (fetchDetails_afterRounds (kept allPrs) 0 Maps.empty), Einput;
        reflexivity).
  destruct (calculateStats_rows localeCompare Date_now owner repo prs
              (Maps.reviewsMap maps) (Maps.reviewRequestsMap maps)
              (Maps.commentsMap maps) s Hin) as [Hbot Hrows].
  split; [exact Hbot|]. subst prs. split.
  - rewrite (Forall2_length Hrows).
    rewrite <- (length_map PRData.number (afterRounds 0 (kept allPrs))).
    now rewrite afterRounds_number, length_map.
  - intros k pr Hk.
    assert (Hk' : nth_error (afterRounds 0 (kept allPrs)) k = Some (afterRound k pr))
      by (rewrite nth_error_afterRounds, Hk; reflexivity).
    destruct (Forall2_nth_error_r _ _ _ _ _ Hrows Hk') as [d [Hd [_ [t ->]]]].
    eexists. split; [exact Hd|].
    apply nth_error_In in Hk. unfold kept in Hk.
    apply filter_In in Hk. destruct Hk as [Hk Hdraft].
    apply filter_In in Hk. destruct Hk as [_ Hnotbot].
    apply buildDetail_rowOfKept.
    + now destruct (isBot (PRData.author pr)).
    + now destruct (PRData.isDraft pr).
Qed.

(** X24.  In the statistics of [main], no record is about a bot, and every
    record has one row for each pull request fetched that is neither a
    draft nor opened by a bot, in the order fetched, and no other row:
    the row at a place has the number, author and creation date of the
    pull request at that place, and as ready-for-review date the one the
    client returned in that round, or else the one the pull request came
    with. *)
Theorem main_rows (allPrs : list PRData.t) (stats : list PersonStats.t)
    (s : PersonStats.t) :
  personStats localeCompare Date_now owner repo fetchReviews fetchReviewRequests
    fetchPRComments fetchReadyForReviewDate allPrs = Some stats ->
  In s stats ->
  isBot (PersonStats.person s) = false
  /\ List.length (PersonStats.prDetails s) = List.length (kept allPrs)
  /\ forall k pr,
       nth_error (kept allPrs) k = Some pr ->
       exists d, nth_error (PersonStats.prDetails s) k = Some d /\ rowOfKept k pr d.
Proof. exact (personStats_rows allPrs stats s). Qed.

(** X25.  The reports of [main] never show the status of a draft: no row of
    its statistics has the status Open (Draft), drafts having been left
    out before the statistics are computed. *)
Theorem draft_status_never_shown (allPrs : list PRData.t)
    (stats : list PersonStats.t) (s : PersonStats.t) (d : PersonPRDetail.t) :
  personStats localeCompare Date_now owner repo fetchReviews fetchReviewRequests
    fetchPRComments fetchReadyForReviewDate allPrs = Some stats ->
  In s stats -> In d (PersonStats.prDetails s) ->
  PersonPRDetail.isDraft d = false /\ prStatus d <> "Open (Draft)".
Proof.
  intros Hstats Hs Hd.
  destruct (personStats_rows allPrs stats s Hstats Hs) as [_ [Hlen Hrows]].
  apply In_nth_error in Hd. destruct Hd as [k Hk].
  assert (Hlt : (k < List.length (kept allPrs))%nat).
  { rewrite <- Hlen. apply nth_error_Some. congruence. }
  destruct (nth_error (kept allPrs) k) as [pr|] eqn:Epr;
    [|apply nth_error_None in Epr; lia].
  destruct (Hrows k pr Epr) as [d' [Hd' [_ [_ [_ [Hdraft _]]]]]].
  assert (d' = d) by congruence. subst d'.
  split; [exact Hdraft|].
  unfold prStatus. rewrite Hdraft.
  destruct (PersonPRDetail.state d); discriminate.
Qed.
End MainFacts.

(** A run of the GitHub client and of [main]: the period from 100 to
    800. *)
Module MainScenario.
Definition pull (number : Z) (login : string) (created_at : Z)
    (closed_at merged_at : option Z) (draft : bool) : RawPull.t :=
  RawPull.mk number "A change" (Some login) created_at closed_at merged_at
    (Some draft).

Definition pulls_list (page : nat) : list RawPull.t :=
  match page with
  | 1%nat => [pull 12 "alice" 900 None None false;
              pull 11 "alice" 700 (Some 760) (Some 760) false;
              pull 10 "bob" 600 (Some 640) None false]
  | 2%nat => [pull 9 "renovate[bot]" 500 None None false;
              pull 8 "bob" 450 None None true;
              pull 7 "alice" 50 None None false]
  | _ => []
  end.

Definition allPrs : list PRData.t :=
  match fetchPullRequests pulls_list 5 100 800 with
  | Some prs => prs
  | None => []
  end.

Definition fetchReviews (i : nat) (prNumber : Z) : list ReviewData.t :=
  if prNumber =? 11 then [ReviewData.mk 11 "bob" APPROVED 750] else [].

Definition fetchReviewRequests (i : nat) (prNumber : Z) : list ReviewRequestData.t :=
  if prNumber =? 11 then [ReviewRequestData.mk 11 "bob" 710] else [].

Definition fetchPRComments (i : nat) (prNumber : Z) : list CommentData.t :=
  if prNumber =? 10 then [CommentData.mk 10 "alice" 620] else [].

Definition fetchReadyForReviewDate (i : nat) (prNumber : Z) : option Z :=
  if prNumber =? 10 then Some 610 else None.

Definition input : option (list PRData.t * Maps.t) :=
  statsInput fetchReviews fetchReviewRequests fetchPRComments
    fetchReadyForReviewDate allPrs.

Definition passed : list PRData.t * Maps.t :=
  match input with
  | Some arguments => arguments
  | None => ([], Maps.empty)
  end.

Definition stats : list PersonStats.t :=
  match personStats Scenario.codeUnitCompare Scenario.clock "pbstck" "app"
          fetchReviews fetchReviewRequests fetchPRComments
          fetchReadyForReviewDate allPrs with
  | Some stats => stats
  | None => []
  end.
End MainScenario.

Lemma pull_requests_fetched_witness :
  fetchPullRequests MainScenario.pulls_list 5 100 800 = Some MainScenario.allPrs
  /\ map PRData.number MainScenario.allPrs = [11; 10; 9; 8]
  /\ Forall (fetchedPullRequest MainScenario.pulls_list 100 800) MainScenario.allPrs.
Proof.
  assert (H : fetchPullRequests MainScenario.pulls_list 5 100 800
              = Some MainScenario.allPrs) by (vm_compute; reflexivity).
  split; [exact H|]. split; [vm_compute; reflexivity|].
  exact (pull_requests_fetched MainScenario.pulls_list 100 800 5 _ H).
Defined.

Lemma pull_requests_pages_witness :
  (forall q, (1 <= q <= 1)%nat ->
     MainScenario.pulls_list q <> []
     /\ Forall (fun pr => 100 <= RawPull.created_at pr) (MainScenario.pulls_list q))
  /\ (MainScenario.pulls_list 2 = []
      \/ Exists (fun pr => RawPull.created_at pr < 100) (MainScenario.pulls_list 2))
  /\ (1 < 5)%nat
  /\ fetchPullRequests MainScenario.pulls_list 5 100 800
     = Some (map prDataOf
               (filter (fun pr => RawPull.created_at pr <=? 800)
                  (takeWhile (fun pr => 100 <=? RawPull.created_at pr)
                     (List.concat (map MainScenario.pulls_list (seq 1 2)))))).
Proof.
  assert (H1 : forall q, (1 <= q <= 1)%nat ->
             MainScenario.pulls_list q <> []
             /\ Forall (fun pr => 100 <= RawPull.created_at pr)
                       (MainScenario.pulls_list q)).
  { intros q Hq. assert (q = 1%nat) as -> by lia.
    split; [discriminate|]. repeat constructor; discriminate. }
  assert (H2 : MainScenario.pulls_list 2 = []
               \/ Exists (fun pr => RawPull.created_at pr < 100)
                         (MainScenario.pulls_list 2)).
  { right. apply Exists_cons_tl, Exists_cons_tl, Exists_cons_hd. reflexivity. }
  assert (H3 : (1 < 5)%nat) by lia.
  split; [exact H1|]. split; [exact H2|]. split; [exact H3|].
  exact (pull_requests_pages MainScenario.pulls_list 100 800 1 5 H1 H2 H3).
Defined.

Lemma main_calls_calculateStats_witness :
  MainScenario.input
  = Some (fst MainScenario.passed, snd MainScenario.passed)
  /\ map PRData.number (kept MainScenario.allPrs) = [11; 10]
  /\ fst MainScenario.passed
     = afterRounds MainScenario.fetchReadyForReviewDate 0 (kept MainScenario.allPrs)
  /\ Forall (fun pr => isBot (PRData.author pr) = false
                       /\ PRData.isDraft pr = false)
            (fst MainScenario.passed)
  /\ JsMap.keys (Maps.reviewsMap (snd MainScenario.passed))
     = JsSet.ofArray Z.eqb (map PRData.number (fst MainScenario.passed)).
Proof.
  assert (H : MainScenario.input
              = Some (fst MainScenario.passed, snd MainScenario.passed))
    by (vm_compute; reflexivity).
  split; [exact H|]. split; [vm_compute; reflexivity|].
  destruct (proj2 (main_calls_calculateStats MainScenario.fetchReviews
                     MainScenario.fetchReviewRequests MainScenario.fetchPRComments
                     MainScenario.fetchReadyForReviewDate MainScenario.allPrs)
              _ _ H) as [H1 [H2 [H3 _]]].
  exact (conj H1 (conj H2 H3)).
Defined.

Lemma main_rows_witness :
  personStats Scenario.codeUnitCompare Scenario.clock "pbstck" "app"
    MainScenario.fetchReviews MainScenario.fetchReviewRequests
    MainScenario.fetchPRComments MainScenario.fetchReadyForReviewDate
    MainScenario.allPrs = Some MainScenario.stats
  /\ In (Examples.pick "bob" MainScenario.stats) MainScenario.stats
  /\ isBot (PersonStats.person (Examples.pick "bob" MainScenario.stats)) = false
  /\ List.length (PersonStats.prDetails (Examples.pick "bob" MainScenario.stats))
     = List.length (kept MainScenario.allPrs)
  /\ forall k pr,
       nth_error (kept MainScenario.allPrs) k = Some pr ->
       exists d,
         nth_error (PersonStats.prDetails (Examples.pick "bob" MainScenario.stats)) k
         = Some d
         /\ rowOfKept MainScenario.fetchReadyForReviewDate k pr d.
Proof.
  assert (H : personStats Scenario.codeUnitCompare Scenario.clock "pbstck" "app"
                MainScenario.fetchReviews MainScenario.fetchReviewRequests
                MainScenario.fetchPRComments MainScenario.fetchReadyForReviewDate
                MainScenario.allPrs = Some MainScenario.stats)
    by (vm_compute; reflexivity).
  assert (Hin : In (Examples.pick "bob" MainScenario.stats) MainScenario.stats)
    by (vm_compute; repeat (first [left; reflexivity | right])).
  split; [exact H|]. split; [exact Hin|].
  exact (main_rows Scenario.codeUnitCompare Scenario.clock "pbstck" "app"
           MainScenario.fetchReviews MainScenario.fetchReviewRequests
           MainScenario.fetchPRComments MainScenario.fetchReadyForReviewDate
           MainScenario.allPrs MainScenario.stats _ H Hin).
Defined.

Definition firstRow (s : PersonStats.t) : PersonPRDetail.t :=
  match PersonStats.prDetails s with
  | d :: _ => d
  | [] =>
      PersonPRDetail.mk 0 EmptyString EmptyString 0 0 0 open false NOT_REVIEWED
        None None 0 0 EmptyString
  end.

Lemma draft_status_never_shown_witness :
  personStats Scenario.codeUnitCompare Scenario.clock "pbstck" "app"
    MainScenario.fetchReviews MainScenario.fetchReviewRequests
    MainScenario.fetchPRComments MainScenario.fetchReadyForReviewDate
    MainScenario.allPrs = Some MainScenario.stats
  /\ In (Examples.pick "bob" MainScenario.stats) MainScenario.stats
  /\ In (firstRow (Examples.pick "bob" MainScenario.stats))
        (PersonStats.prDetails (Examples.pick "bob" MainScenario.stats))
  /\ PersonPRDetail.isDraft (firstRow (Examples.pick "bob" MainScenario.stats)) = false
  /\ prStatus (firstRow (Examples.pick "bob" MainScenario.stats)) <> "Open (Draft)".
Proof.
  assert (H : personStats Scenario.codeUnitCompare Scenario.clock "pbstck" "app"
                MainScenario.fetchReviews MainScenario.fetchReviewRequests
                MainScenario.fetchPRComments MainScenario.fetchReadyForReviewDate
                MainScenario.allPrs = Some MainScenario.stats)
    by (vm_compute; reflexivity).
  assert (Hin : In (Examples.pick "bob" MainScenario.stats) MainScenario.stats)
    by (vm_compute; repeat (first [left; reflexivity | right])).
  assert (Hrow : In (firstRow (Examples.pick "bob" MainScenario.stats))
                    (PersonStats.prDetails (Examples.pick "bob" MainScenario.stats)))
    by (vm_compute; left; reflexivity).
  split; [exact H|]. split; [exact Hin|]. split; [exact Hrow|].
  exact (draft_status_never_shown Scenario.codeUnitCompare Scenario.clock
           "pbstck" "app"
           MainScenario.fetchReviews MainScenario.fetchReviewRequests
           MainScenario.fetchPRComments MainScenario.fetchReadyForReviewDate
           MainScenario.allPrs MainScenario.stats _ _ H Hin Hrow).
Defined.

(** * The bot filter: properties *)

Lemma prefix_append (p s : string) :
  String.prefix p s = true <-> exists back, s = (p ++ back)%string.
Proof.
  revert s. induction p as [|a p IH]; intros s.
  - split; [intros _; now exists s|intros _; now destruct s].
  - destruct s as [|b s]; [split; [discriminate|intros [back H]; discriminate]|].
    cbn [String.prefix append]. destruct (ascii_dec a b) as [->|Hne].
    + rewrite IH. split; intros [back H]; exists back; congruence.
    + split; [discriminate|]. intros [back H]. congruence.
Qed.

Lemma includes_append (pattern s : string) :
  includes pattern s = true
  <-> exists front back, s = (front ++ pattern ++ back)%string.
Proof.
  induction s as [|c s IH]; cbn [includes].
  - destruct (String.prefix pattern EmptyString) eqn:E.
    + apply prefix_append in E. destruct E as [back E].
      split; [intros _; now exists EmptyString, back|reflexivity].
    + split; [discriminate|]. intros [front [back H]].
      destruct front; [|discriminate]. cbn [append] in H.
      assert (String.prefix pattern EmptyString = true)
        by (apply prefix_append; now exists back).
      congruence.
  - destruct (String.prefix pattern (String c s)) eqn:E.
    + apply prefix_append in E. destruct E as [back E].
      split; [intros _; now exists EmptyString, back|reflexivity].
    + rewrite IH. split.
      * intros [front [back H]]. exists (String c front), back.
        cbn [append]. now rewrite H.
      * intros [front [back H]]. destruct front as [|c' front].
        -- cbn [append] in H.
           assert (String.prefix pattern (String c s) = true)
             by (apply prefix_append; now exists back).
           congruence.
        -- cbn [append] in H. injection H as _ H. now exists front, back.
Qed.

Lemma toLowerCase_append (s t : string) :
  toLowerCase (s ++ t) = (toLowerCase s ++ toLowerCase t)%string.
Proof. induction s as [|c s IH]; simpl; [reflexivity|now rewrite IH]. Qed.

Lemma toLowerCase_split (s a b : string) :
  toLowerCase s = (a ++ b)%string ->
  exists s1 s2, s = (s1 ++ s2)%string /\ toLowerCase s1 = a /\ toLowerCase s2 = b.
Proof.
  revert s. induction a as [|c a IH]; intros s H.
  - exists EmptyString, s. auto.
  - destruct s as [|c' s]; [discriminate|].
    cbn [toLowerCase append] in H. injection H as Hc H.
    destruct (IH s H) as [s1 [s2 [-> [H1 H2]]]].
    exists (String c' s1), s2. cbn [toLowerCase append]. now rewrite Hc, H1.
Qed.

(** X13.  A user name is a bot's exactly when it holds renovate, copilot or
    dependabot somewhere, in any mix of upper and lower case. *)
Theorem bot_iff_named (username : string) :
  isBot username = true
  <-> exists front name back,
        username = (front ++ name ++ back)%string
        /\ In (toLowerCase name) botPatterns.
Proof.
  unfold isBot. cbv zeta. rewrite existsb_exists. split.
  - intros [pattern [Hin Hinc]].
    apply includes_append in Hinc. destruct Hinc as [f [b Hs]].
    apply toLowerCase_split in Hs. destruct Hs as [front [rest [-> [_ Hrest]]]].
    apply toLowerCase_split in Hrest. destruct Hrest as [name [back [-> [Hn _]]]].
    exists front, name, back. split; [reflexivity|now rewrite Hn].
  - intros [front [name [back [-> Hin]]]].
    exists (toLowerCase name). split; [assumption|].
    apply includes_append.
    exists (toLowerCase front), (toLowerCase back).
    now rewrite !toLowerCase_append.
Qed.
